(** * valkey-metrics: time-windowed aggregation engine

    A shallow embedding of the aggregation scripts of the repository
    ([github_prs_to_csv.py], [github_weekly_trends.py],
    [contributors_weekly.py], [major_decision_weekly.py]) and the
    properties their specification states about them.

    Layout: first the model of the Python runtime the scripts rely on
    (exceptions, [datetime], the HTTP session), then one module per
    script with its functions under their source names, then the
    lemmas. *)

From Stdlib Require Import ZArith Lia List String Ascii Bool DecimalString.
From stdpp Require Import base gmap sets list strings sorting.

Local Open Scope Z_scope.

(** ** Exceptions and results *)

Module Py.

(** A request of the [requests] library, as far as the scripts set it:
    URL, the headers they add and the query parameters. *)
Inductive pval : Type :=
| PStr (s : string)
| PInt (n : Z).

Record request : Type :=
  mkrequest { url : string;
              headers : list (string * string);
              params : list (string * pval) }.

(** The exceptions the scripts can meet.  [HTTPError] is what
    [Response.raise_for_status] raises; it keeps the status code, the
    request and the body text of the response. *)
Inductive exn : Type :=
| OverflowError
| ValueError
| JSONDecodeError
| SystemExit (msg : string)
| HTTPError (status : Z) (req : request) (body : string).

(** Outcome of a computation: a value, an uncaught exception, or
    [OutOfFuel] when a loop was still running after the number of
    iterations the model was given. *)
Inductive result (A : Type) : Type :=
| Ok (a : A)
| Raise (e : exn)
| OutOfFuel.

Arguments Ok {A} a.
Arguments Raise {A} e.
Arguments OutOfFuel {A}.

Definition rbind {A B} (r : result A) (k : A -> result B) : result B :=
  match r with
  | Ok a => k a
  | Raise e => Raise e
  | OutOfFuel => OutOfFuel
  end.

(** [str(n)] for an integer. *)
Definition str_int (n : Z) : string := NilZero.string_of_int (Z.to_int n).

(** Truth value of an optional string: [None] and the empty string are
    falsy. *)
Definition truthy (o : option string) : bool :=
  match o with
  | Some (String _ _) => true
  | _ => false
  end.

(** [s.endswith(suffix)] *)
Definition endswith (suffix s : string) : bool :=
  (String.length suffix <=? String.length s)%nat
  && String.eqb (substring (String.length s - String.length suffix)%nat
                           (String.length suffix) s) suffix.

(** [a or b] on optional strings. *)
Definition py_or (a b : option string) : option string :=
  if truthy a then a else b.

End Py.
Export Py.

Notation "x <-r c1 ;; c2" := (rbind c1 (fun x => c2))
  (at level 100, c1 at next level, right associativity).

(** ** The [datetime] module

    Dates are the triples (year, month, day) of the proleptic Gregorian
    calendar, as in CPython; arithmetic goes through the ordinal of a date
    (0001-01-01 has ordinal 1) and raises [OverflowError] outside
    0001-01-01 .. 9999-12-31.  All date-times of the scripts are aware
    UTC date-times with no microseconds, so [astimezone(timezone.utc)] and
    [replace(tzinfo=timezone.utc)] are the identity on them. *)

Module PyDatetime.

Record date : Type := mkdate { year : Z; month : Z; day : Z }.

#[global] Instance date_eq_dec : EqDecision date.
Proof. solve_decision. Defined.

#[global] Program Instance date_countable : Countable date :=
  inj_countable' (fun d => (year d, month d, day d))
                 (fun t => mkdate t.1.1 t.1.2 t.2) _.
Next Obligation. by intros []. Qed.

Definition MINYEAR : Z := 1.
Definition MAXYEAR : Z := 9999.
Definition MAXORDINAL : Z := 3652059.

Definition DAYS_IN_MONTH (m : Z) : Z :=
  match m with
  | 1 => 31 | 2 => 28 | 3 => 31 | 4 => 30 | 5 => 31 | 6 => 30
  | 7 => 31 | 8 => 31 | 9 => 30 | 10 => 31 | 11 => 30 | 12 => 31
  | _ => -1
  end.

Definition DAYS_BEFORE_MONTH (m : Z) : Z :=
  match m with
  | 1 => 0 | 2 => 31 | 3 => 59 | 4 => 90 | 5 => 120 | 6 => 151
  | 7 => 181 | 8 => 212 | 9 => 243 | 10 => 273 | 11 => 304 | 12 => 334
  | _ => -1
  end.

Definition is_leap (y : Z) : bool :=
  (y mod 4 =? 0) && (negb (y mod 100 =? 0) || (y mod 400 =? 0)).

Definition days_before_year (y : Z) : Z :=
  let y' := y - 1 in y' * 365 + y' / 4 - y' / 100 + y' / 400.

Definition days_in_month (y m : Z) : Z :=
  if (m =? 2) && is_leap y then 29 else DAYS_IN_MONTH m.

Definition days_before_month (y m : Z) : Z :=
  DAYS_BEFORE_MONTH m + (if (2 <? m) && is_leap y then 1 else 0).

Definition ymd2ord (y m d : Z) : Z :=
  days_before_year y + days_before_month y m + d.

Definition DI400Y : Z := 146097.
Definition DI100Y : Z := 36524.
Definition DI4Y : Z := 1461.

(** Month and day of the [n]-th day (from 0) of a year. *)
Definition month_day_of_yday (leapyear : bool) (n : Z) : Z * Z :=
  let month := Z.shiftr (n + 50) 5 in
  let preceding :=
    DAYS_BEFORE_MONTH month + (if (2 <? month) && leapyear then 1 else 0) in
  if n <? preceding then
    let month' := month - 1 in
    let preceding' :=
      preceding - (DAYS_IN_MONTH month'
                   + (if (month' =? 2) && leapyear then 1 else 0)) in
    (month', n - preceding' + 1)
  else (month, n - preceding + 1).

Definition ord2ymd (n : Z) : date :=
  let n := n - 1 in
  let n400 := n / DI400Y in
  let n := n mod DI400Y in
  let n100 := n / DI100Y in
  let n := n mod DI100Y in
  let n4 := n / DI4Y in
  let n := n mod DI4Y in
  let n1 := n / 365 in
  let n := n mod 365 in
  let y := n400 * 400 + 1 + n100 * 100 + n4 * 4 + n1 in
  if (n1 =? 4) || (n100 =? 4) then mkdate (y - 1) 12 31
  else
    let leapyear := (n1 =? 3) && (negb (n4 =? 24) || (n100 =? 3)) in
    let '(m, d) := month_day_of_yday leapyear n in
    mkdate y m d.

Definition valid_dateb (d : date) : bool :=
  (MINYEAR <=? year d) && (year d <=? MAXYEAR)
  && (1 <=? month d) && (month d <=? 12)
  && (1 <=? day d) && (day d <=? days_in_month (year d) (month d)).

(** The dates a [date] object can hold. *)
Definition valid_date (d : date) : Prop := valid_dateb d = true.

(** [date(y, m, d)] *)
Definition date_new (y m d : Z) : result date :=
  if valid_dateb (mkdate y m d) then Ok (mkdate y m d) else Raise ValueError.

Definition toordinal (d : date) : Z := ymd2ord (year d) (month d) (day d).

(** [d.weekday()], Monday is 0. *)
Definition weekday (d : date) : Z := (toordinal d + 6) mod 7.

(** Comparison of dates is the comparison of the triples. *)
Definition date_ltb (a b : date) : bool :=
  (year a <? year b)
  || ((year a =? year b)
      && ((month a <? month b)
          || ((month a =? month b) && (day a <? day b)))).

Definition date_leb (a b : date) : bool := negb (date_ltb b a).

(** [min(a, b)]: the first argument unless the second is smaller. *)
Definition date_min (a b : date) : date := if date_ltb b a then b else a.

Record timedelta : Type := mktimedelta { td_days : Z }.

(** [timedelta(days=n)] *)
Definition timedelta_days (n : Z) : result timedelta :=
  if (-999999999 <=? n) && (n <=? 999999999) then Ok (mktimedelta n)
  else Raise OverflowError.

(** [d + td] *)
Definition date_add (d : date) (td : timedelta) : result date :=
  let o := toordinal d + td_days td in
  if (0 <? o) && (o <=? MAXORDINAL) then Ok (ord2ymd o)
  else Raise OverflowError.

(** [d - td] *)
Definition date_sub (d : date) (td : timedelta) : result date :=
  date_add d (mktimedelta (- td_days td)).

(** Decimal digits, zero filled. *)
Definition digit_char (n : Z) : ascii :=
  match n with
  | 0 => "0" | 1 => "1" | 2 => "2" | 3 => "3" | 4 => "4"
  | 5 => "5" | 6 => "6" | 7 => "7" | 8 => "8" | _ => "9"
  end%char.

Definition zfill2 (n : Z) : string :=
  String (digit_char (n / 10 mod 10)) (String (digit_char (n mod 10)) EmptyString).

Definition zfill4 (n : Z) : string :=
  String (digit_char (n / 1000 mod 10))
    (String (digit_char (n / 100 mod 10)) (zfill2 n)).

(** [d.isoformat()], also [str(d)]: YYYY-MM-DD. *)
Definition isoformat (d : date) : string :=
  zfill4 (year d) +:+ "-" +:+ zfill2 (month d) +:+ "-" +:+ zfill2 (day d).

Record datetime : Type :=
  mkdatetime { dt_date : date; hour : Z; minute : Z; second : Z }.

Definition valid_datetimeb (t : datetime) : bool :=
  valid_dateb (dt_date t)
  && (0 <=? hour t) && (hour t <=? 23)
  && (0 <=? minute t) && (minute t <=? 59)
  && (0 <=? second t) && (second t <=? 59).

Definition valid_datetime (t : datetime) : Prop := valid_datetimeb t = true.

(** [datetime(y, m, d, H, M, S, tzinfo=timezone.utc)] *)
Definition datetime_new (y m d hh mi ss : Z) : result datetime :=
  let t := mkdatetime (mkdate y m d) hh mi ss in
  if valid_datetimeb t then Ok t else Raise ValueError.

(** [t - td] for a whole number of days. *)
Definition datetime_sub (t : datetime) (td : timedelta) : result datetime :=
  d <-r date_sub (dt_date t) td ;;
  Ok (mkdatetime d (hour t) (minute t) (second t)).

(** [%Y] of [strftime].  Python hands the directive to the [strftime]
    of the C library, which on Linux (glibc) writes the year in decimal
    without zero fill: a year below 1000 has fewer than four digits. *)
Definition strftime_Y (y : Z) : string :=
  if y <? 10 then String (digit_char (y mod 10)) EmptyString
  else if y <? 100 then zfill2 y
  else if y <? 1000 then String (digit_char (y / 100 mod 10)) (zfill2 y)
  else zfill4 y.

(** [%Y-%m-%d] of [strftime]; [%m] and [%d] are zero filled. *)
Definition strftime_ymd (d : date) : string :=
  strftime_Y (year d) +:+ "-" +:+ zfill2 (month d) +:+ "-" +:+ zfill2 (day d).

(** [t.strftime("%Y-%m-%dT%H:%M:%SZ")] *)
Definition strftime_iso_z (t : datetime) : string :=
  strftime_ymd (dt_date t) +:+ "T" +:+ zfill2 (hour t) +:+ ":"
  +:+ zfill2 (minute t) +:+ ":" +:+ zfill2 (second t) +:+ "Z".

(** [t.strftime("%Y-%m-%dT00:00:00Z")] *)
Definition strftime_midnight_z (t : datetime) : string :=
  strftime_ymd (dt_date t) +:+ "T00:00:00Z".

(** *** [strptime]

    CPython turns a format into a regular expression, each directive
    being an alternation tried from left to right, and matches it
    ignoring case; the whole string must be consumed.  Strings are ASCII
    here. *)

Definition cls : Type := ascii -> bool.

Definition in_range (lo hi : ascii) : cls :=
  fun c => (nat_of_ascii lo <=? nat_of_ascii c)%nat
           && (nat_of_ascii c <=? nat_of_ascii hi)%nat.

Definition is_char (a : ascii) : cls := fun c => Ascii.eqb a c.

Definition any_digit : cls := in_range "0" "9".

(** One alternative: a sequence of character classes.  Returns the
    matched text and the rest. *)
Fixpoint match_seq (cs : list cls) (s : string) : option (string * string) :=
  match cs with
  | [] => Some (EmptyString, s)
  | c :: cs' =>
      match s with
      | String a s' =>
          if c a then
            match match_seq cs' s' with
            | Some (m, rest) => Some (String a m, rest)
            | None => None
            end
          else None
      | EmptyString => None
      end
  end.

(** An alternation followed by the rest of the pattern [k]: the first
    alternative for which the rest of the pattern matches too. *)
Fixpoint first_alt {R : Type} (alts : list (list cls)) (s : string)
    (k : string -> string -> option R) : option R :=
  match alts with
  | [] => None
  | a :: alts' =>
      match match_seq a s with
      | Some (m, rest) =>
          match k m rest with
          | Some r => Some r
          | None => first_alt alts' s k
          end
      | None => first_alt alts' s k
      end
  end.

(** A literal character of the format, matched ignoring case. *)
Definition lit {R : Type} (lower upper : ascii) (s : string)
    (k : string -> option R) : option R :=
  match s with
  | String a s' =>
      if Ascii.eqb a lower || Ascii.eqb a upper then k s' else None
  | EmptyString => None
  end.

Definition digit_val (c : ascii) : Z := Z.of_nat (nat_of_ascii c) - 48.

(** [int(text)] for the text of a directive: decimal digits, with the
    leading blank that [%d] admits skipped. *)
Fixpoint int_of (acc : Z) (s : string) : Z :=
  match s with
  | EmptyString => acc
  | String c s' =>
      if any_digit c then int_of (10 * acc + digit_val c) s' else int_of acc s'
  end.

Definition re_Y : list (list cls) :=
  [[any_digit; any_digit; any_digit; any_digit]].
Definition re_m : list (list cls) :=
  [[is_char "1"; in_range "0" "2"]; [is_char "0"; in_range "1" "9"];
   [in_range "1" "9"]].
Definition re_d : list (list cls) :=
  [[is_char "3"; in_range "0" "1"]; [in_range "1" "2"; any_digit];
   [is_char "0"; in_range "1" "9"]; [in_range "1" "9"];
   [is_char " "; in_range "1" "9"]].
Definition re_H : list (list cls) :=
  [[is_char "2"; in_range "0" "3"]; [in_range "0" "1"; any_digit];
   [any_digit]].
Definition re_M : list (list cls) :=
  [[in_range "0" "5"; any_digit]; [any_digit]].
Definition re_S : list (list cls) :=
  [[is_char "6"; in_range "0" "1"]; [in_range "0" "5"; any_digit];
   [any_digit]].

Definition at_end {R : Type} (r : R) (s : string) : option R :=
  match s with
  | EmptyString => Some r
  | String _ _ => None
  end.

(** The fields matched by ["%Y-%m-%dT%H:%M:%SZ"]. *)
Definition match_iso_z (s : string) : option (Z * Z * Z * Z * Z * Z) :=
  first_alt re_Y s (fun y s =>
  lit "-" "-" s (fun s =>
  first_alt re_m s (fun m s =>
  lit "-" "-" s (fun s =>
  first_alt re_d s (fun d s =>
  lit "t" "T" s (fun s =>
  first_alt re_H s (fun hh s =>
  lit ":" ":" s (fun s =>
  first_alt re_M s (fun mi s =>
  lit ":" ":" s (fun s =>
  first_alt re_S s (fun ss s =>
  lit "z" "Z" s (fun s =>
  at_end (int_of 0 y, int_of 0 m, int_of 0 d,
          int_of 0 hh, int_of 0 mi, int_of 0 ss) s)))))))))))).

(** [datetime.strptime(s, "%Y-%m-%dT%H:%M:%SZ").replace(tzinfo=timezone.utc)] *)
Definition strptime_iso_z (s : string) : result datetime :=
  match match_iso_z s with
  | Some (y, m, d, hh, mi, ss) => datetime_new y m d hh mi ss
  | None => Raise ValueError
  end.

(** The fields matched by ["%Y-%m-%d"]. *)
Definition match_ymd (s : string) : option (Z * Z * Z) :=
  first_alt re_Y s (fun y s =>
  lit "-" "-" s (fun s =>
  first_alt re_m s (fun m s =>
  lit "-" "-" s (fun s =>
  first_alt re_d s (fun d s =>
  at_end (int_of 0 y, int_of 0 m, int_of 0 d) s))))).

(** [datetime.strptime(s, "%Y-%m-%d").date()] *)
Definition strptime_ymd (s : string) : result date :=
  match match_ymd s with
  | Some (y, m, d) => date_new y m d
  | None => Raise ValueError
  end.

End PyDatetime.
Export PyDatetime.

(** ** The remote API and the effects of a run *)

Module Http.

(** Records returned by the remote API, with the members the scripts
    read; [None] is a member that is missing or null. *)
Record issue : Type :=
  mkissue { created_at : option string;
            closed_at : option string;
            merged_at : option string;
            pull_request_merged_at : option string;
            number : option Z }.

Record commit : Type :=
  mkcommit { author_login : option string;
             commit_author_date : option string;
             commit_author_email : option string }.

Record release : Type :=
  mkrelease { published_at : option string;
              release_created_at : option string }.

(** A decoded JSON document: what [str] prints for it, and the part of
    it the caller reads. *)
Record json_doc (A : Type) : Type := mkdoc { doc_str : string; doc_view : A }.
Arguments mkdoc {A} doc_str doc_view.
Arguments doc_str {A} j.
Arguments doc_view {A} j.

(** A response: [r.status_code], [r.text], [r.json()] ([None] when the
    body is not JSON) and [r.links["next"]["url"]] when there is one. *)
Record response (A : Type) : Type :=
  mkresponse { status_code : Z;
               text : string;
               json : option (json_doc A);
               next_link : option string }.
Arguments mkresponse {A} status_code text json next_link.
Arguments status_code {A} r.
Arguments text {A} r.
Arguments json {A} r.
Arguments next_link {A} r.

(** A written CSV file: the header row and the data rows. *)
Record csv_file : Type :=
  mkcsv { header : list string; rows : list (string * Z) }.

(** What a run does to the outside: requests, pauses (milliseconds) and
    files written. *)
Inductive event : Type :=
| EvGet (req : request)
| EvSleep (ms : N)
| EvWrite (path : string) (f : csv_file).

(** The outside of a run: today's UTC date and, per endpoint, the
    response to a request given everything the run did before it.  The
    view of a search document is [data.get("items", [])], of a pull
    request [.get("merged_at")], of a commit listing the list itself and
    of a release listing the list when the document is one. *)
Record world : Type :=
  mkworld { today : date;
            search_api : list event -> request -> response (list issue);
            pull_api : list event -> request -> response (option string);
            commits_api : list event -> request -> response (list commit);
            releases_api :
              list event -> request -> response (option (list release)) }.

(** Computations: they read the world and extend the trace. *)
Definition M (A : Type) : Type :=
  world -> list event -> result A * list event.

Definition ret {A} (a : A) : M A := fun _ tr => (Ok a, tr).

Definition bind {A B} (m : M A) (k : A -> M B) : M B :=
  fun w tr =>
    match m w tr with
    | (Ok a, tr') => k a w tr'
    | (Raise e, tr') => (Raise e, tr')
    | (OutOfFuel, tr') => (OutOfFuel, tr')
    end.

Definition raise {A} (e : exn) : M A := fun _ tr => (Raise e, tr).

Definition out_of_fuel {A} : M A := fun _ tr => (OutOfFuel, tr).

Definition lift {A} (r : result A) : M A := fun _ tr => (r, tr).

Definition emit (ev : event) : M unit := fun _ tr => (Ok tt, tr ++ [ev]).

(** [session.get(url, headers=..., params=...)] on one endpoint. *)
Definition get {A} (api : world -> list event -> request -> response A)
    (req : request) : M (response A) :=
  fun w tr => (Ok (api w tr req), tr ++ [EvGet req]).

(** [time.sleep] *)
Definition sleep (ms : N) : M unit := emit (EvSleep ms).

(** [r.raise_for_status()] *)
Definition raise_for_status {A} (req : request) (r : response A) : M unit :=
  if (400 <=? status_code r) && (status_code r <? 600)
  then raise (HTTPError (status_code r) req (text r))
  else ret tt.

(** [r.json()] *)
Definition json_of {A} (r : response A) : M (json_doc A) :=
  match json r with
  | Some d => ret d
  | None => raise JSONDecodeError
  end.

(** The files a trace wrote, in order. *)
Definition writes (tr : list event) : list (string * csv_file) :=
  omap (fun ev => match ev with
                  | EvWrite p f => Some (p, f)
                  | _ => None
                  end) tr.

(** The requests of a trace, in order. *)
Definition requests (tr : list event) : list request :=
  omap (fun ev => match ev with
                  | EvGet r => Some r
                  | _ => None
                  end) tr.

End Http.
Export Http.

Notation "x <- c1 ;; c2" := (bind c1 (fun x => c2))
  (at level 100, c1 at next level, right associativity).

(** ** Generators and loops *)

Module Gen.

(** One resumption of a generator: a value and the suspended state, the
    end, or an exception. *)
Inductive gen_step (S A : Type) : Type :=
| Yield (a : A) (s : S)
| Return
| Throw (e : exn).
Arguments Yield {S A} a s.
Arguments Return {S A}.
Arguments Throw {S A} e.

(** How a generator stands after some resumptions. *)
Inductive gen_status (S : Type) : Type :=
| Finished
| Raised (e : exn)
| Suspended (s : S).
Arguments Finished {S}.
Arguments Raised {S} e.
Arguments Suspended {S} s.

(** The values of the first [fuel] resumptions. *)
Fixpoint run_gen {S A} (next : S -> gen_step S A) (fuel : nat) (s : S)
    : list A * gen_status S :=
  match fuel with
  | O => ([], Suspended s)
  | Datatypes.S fuel' =>
      match next s with
      | Yield a s' =>
          let '(l, st) := run_gen next fuel' s' in (a :: l, st)
      | Return => ([], Finished)
      | Throw e => ([], Raised e)
      end
  end.

(** [for a in gen: body], threading the variables the body updates. *)
Fixpoint for_gen {S A B} (next : S -> gen_step S A) (body : B -> A -> M B)
    (fuel : nat) (s : S) (acc : B) : M B :=
  match fuel with
  | O => out_of_fuel
  | Datatypes.S fuel' =>
      match next s with
      | Yield a s' =>
          acc' <- body acc a ;; for_gen next body fuel' s' acc'
      | Return => ret acc
      | Throw e => raise e
      end
  end.

(** [for a in l: body] *)
Fixpoint for_list {A B} (body : B -> A -> M B) (l : list A) (acc : B) : M B :=
  match l with
  | [] => ret acc
  | a :: l' => acc' <- body acc a ;; for_list body l' acc'
  end.

(** The same for a body without effects. *)
Fixpoint for_list_r {A B} (body : B -> A -> result B) (l : list A) (acc : B)
    : result B :=
  match l with
  | [] => Ok acc
  | a :: l' => acc' <-r body acc a ;; for_list_r body l' acc'
  end.

End Gen.
Export Gen.

(** ** Dictionaries and [sorted] *)

Module PyDict.

(** [d[k] += 1] on a [defaultdict(int)] *)
Definition incr `{Countable K} (k : K) (d : gmap K Z) : gmap K Z :=
  <[k := default 0 (d !! k) + 1]> d.

(** [d[k].add(x)] on a [defaultdict(set)] *)
Definition add_to `{Countable K} (k : K) (x : string)
    (d : gmap K (gset string)) : gmap K (gset string) :=
  <[k := default ∅ (d !! k) ∪ {[x]}]> d.

(** Order of [(key, count)] tuples with date keys. *)
Definition date_item_le (a b : date * Z) : Prop :=
  date_ltb a.1 b.1 = true \/ (a.1 = b.1 /\ a.2 <= b.2).

#[global] Instance date_item_le_dec a b : Decision (date_item_le a b).
Proof. unfold date_item_le. apply _. Defined.

(** Order of [(key, count)] tuples with string keys. *)
Definition str_item_le (a b : string * Z) : Prop :=
  String.ltb a.1 b.1 = true \/ (a.1 = b.1 /\ a.2 <= b.2).

#[global] Instance str_item_le_dec a b : Decision (str_item_le a b).
Proof. unfold str_item_le. apply _. Defined.

(** [sorted(d.items())] *)
Definition sorted_date_items (d : gmap date Z) : list (date * Z) :=
  merge_sort date_item_le (map_to_list d).

Definition sorted_str_items (d : gmap string Z) : list (string * Z) :=
  merge_sort str_item_le (map_to_list d).

End PyDict.
Export PyDict.

(** ** github_prs_to_csv.py *)

Module github_prs_to_csv.

Definition SEARCH_URL : string := "https://api.github.com/search/issues".

Definition PULL_URL_TPL (owner repo : string) (number : Z) : string :=
  "https://api.github.com/repos/" +:+ owner +:+ "/" +:+ repo
  +:+ "/pulls/" +:+ str_int number.

(** The parsed command line.  [--since-days] and [--since] exclude each
    other and one is required. *)
Inductive since_arg : Type :=
| SinceDays (n : Z)
| Since (s : string).

Record args : Type :=
  mkargs { owner : string;
           repo : string;
           since : since_arg;
           until_ : option string;
           metric : string;
           bucket : string;
           out : string;
           token : option string;
           max_pages : Z;
           pause : N;
           chunk_days : Z }.

Definition to_date (s : string) : result date := strptime_ymd s.

Definition calc_range (a : args) : M (date * date) :=
  fun w tr =>
    let today := today w in
    let r :=
      start <-r match since a with
                | SinceDays n => td <-r timedelta_days n ;; date_sub today td
                | Since s => to_date s
                end ;;
      end_ <-r (if truthy (until_ a) then to_date (default EmptyString (until_ a))
                else Ok today) ;;
      if date_ltb end_ start then
        Raise (SystemExit
                 ("--since/--since-days must be <= --until. Got start="
                  +:+ isoformat start +:+ " end=" +:+ isoformat end_))
      else Ok (start, end_) in
    (r, tr).

(** The generator [daterange_chunks]: not yet started, or suspended at
    its [yield] with [step] and [chunk_end]. *)
Inductive chunks_state : Type :=
| ChunksStart
| ChunksYielded (step : timedelta) (chunk_end : date).

Definition chunks_loop (end_date : date) (step : timedelta) (cur : date)
    : gen_step chunks_state (date * date) :=
  if date_leb cur end_date then
    match date_add cur step with
    | Ok x =>
        let chunk_end := date_min end_date x in
        Yield (cur, chunk_end) (ChunksYielded step chunk_end)
    | Raise e => Throw e
    | OutOfFuel => Throw OverflowError
    end
  else Return.

Definition daterange_chunks (start_date end_date : date) (chunk_days : Z)
    (s : chunks_state) : gen_step chunks_state (date * date) :=
  match s with
  | ChunksStart =>
      match timedelta_days (chunk_days - 1) with
      | Ok step => chunks_loop end_date step start_date
      | Raise e => Throw e
      | OutOfFuel => Throw OverflowError
      end
  | ChunksYielded step chunk_end =>
      match date_add chunk_end (mktimedelta 1) with
      | Ok cur => chunks_loop end_date step cur
      | Raise e => Throw e
      | OutOfFuel => Throw OverflowError
      end
  end.

Definition build_query (owner repo metric : string) (start end_ : date)
    : string :=
  let base := "repo:" +:+ owner +:+ "/" +:+ repo +:+ " is:pr" in
  if String.eqb metric "opened" then
    base +:+ " created:" +:+ isoformat start +:+ ".." +:+ isoformat end_
  else if String.eqb metric "closed" then
    base +:+ " is:closed closed:" +:+ isoformat start +:+ ".."
    +:+ isoformat end_
  else
    base +:+ " is:merged merged:" +:+ isoformat start +:+ ".."
    +:+ isoformat end_.

(** The date-time [b] whose rendering [bucket_key] returns. *)
Definition bucket_start (dt : datetime) (bucket : string) : result datetime :=
  let d := dt_date dt in
  if String.eqb bucket "daily" then
    datetime_new (year d) (month d) (day d) 0 0 0
  else if String.eqb bucket "weekly" then
    td <-r timedelta_days (weekday d) ;;
    monday <-r datetime_sub dt td ;;
    let m := dt_date monday in
    datetime_new (year m) (month m) (day m) 0 0 0
  else
    datetime_new (year d) (month d) 1 0 0 0.

Definition bucket_key (dt : datetime) (bucket : string) : result string :=
  b <-r bucket_start dt bucket ;;
  Ok (strftime_iso_z b).

Definition auth_headers (token : option string) : list (string * string) :=
  ("Accept", "application/vnd.github+json")
  :: (if truthy token
      then [("Authorization", "Bearer " +:+ default EmptyString token)]
      else []).

Definition search_request (query : string) (token : option string)
    (per_page page : Z) : request :=
  mkrequest SEARCH_URL (auth_headers token)
            [("q", PStr query); ("per_page", PInt per_page);
             ("page", PInt page)].

(** [err]: the JSON payload of the response when it has one, its text
    otherwise, as the message prints it. *)
Definition error_payload {A} (r : response A) : string :=
  match json r with
  | Some d => doc_str d
  | None => text r
  end.

Definition search_error (status : Z) (query : string) (page : Z)
    (err : string) : string :=
  "GitHub search error " +:+ str_int status +:+ " for query `" +:+ query
  +:+ "` page " +:+ str_int page +:+ ":" +:+ String "010" err.

(** The loop of [fetch_search] over the pages still to request. *)
Fixpoint fetch_search_pages (query : string) (token : option string)
    (per_page : Z) (pause : N) (pages : list Z) (all_items : list issue)
    : M (list issue) :=
  match pages with
  | [] => ret all_items
  | page :: pages' =>
      r <- get search_api (search_request query token per_page page) ;;
      if negb (status_code r =? 200) then
        raise (SystemExit
                 (search_error (status_code r) query page (error_payload r)))
      else
        data <- json_of r ;;
        let items := doc_view data in
        let all_items := all_items ++ items in
        if Z.of_nat (length items) <? per_page then ret all_items
        else
          _ <- sleep pause ;;
          fetch_search_pages query token per_page pause pages' all_items
  end.

Definition fetch_search (query : string) (token : option string)
    (per_page max_pages : Z) (pause : N) : M (list issue) :=
  fetch_search_pages query token per_page pause (seqZ 1 max_pages) [].

Definition pull_error (status number : Z) (err : string) : string :=
  "GitHub PR fetch error " +:+ str_int status +:+ " for PR #"
  +:+ str_int number +:+ ":" +:+ String "010" err.

Definition fetch_pull_merged_at (owner repo : string) (number : Z)
    (token : option string) : M (option string) :=
  r <- get pull_api
         (mkrequest (PULL_URL_TPL owner repo number) (auth_headers token)
                    []) ;;
  if negb (status_code r =? 200) then
    raise (SystemExit (pull_error (status_code r) number (error_payload r)))
  else
    data <- json_of r ;;
    ret (doc_view data).

(** The body of the loop over the items of a chunk. *)
Definition count_item (a : args) (counts : gmap string Z) (it : issue)
    : M (gmap string Z) :=
  ts <- (if String.eqb (metric a) "opened" then ret (created_at it)
         else if String.eqb (metric a) "closed" then ret (closed_at it)
         else
           match number it with
           | Some num => fetch_pull_merged_at (owner a) (repo a) num (token a)
           | None => ret None
           end) ;;
  if negb (truthy ts) then ret counts
  else
    dt <- lift (strptime_iso_z (default EmptyString ts)) ;;
    key <- lift (bucket_key dt (bucket a)) ;;
    ret (incr key counts).

(** The body of the loop over the chunks. *)
Definition count_chunk (a : args) (counts : gmap string Z)
    (chunk : date * date) : M (gmap string Z) :=
  let q := build_query (owner a) (repo a) (metric a) chunk.1 chunk.2 in
  items <- fetch_search q (token a) 100 (max_pages a) (pause a) ;;
  for_list (count_item a) items counts.

Definition main (a : args) (fuel : nat) : M unit :=
  range <- calc_range a ;;
  counts <- for_gen (daterange_chunks range.1 range.2 (chunk_days a))
                    (count_chunk a) fuel ChunksStart ∅ ;;
  let rows := sorted_str_items counts in
  emit (EvWrite (out a) (mkcsv ["time"; "count"] rows)).

End github_prs_to_csv.

(** ** github_weekly_trends.py *)

Module github_weekly_trends.

(** The headers [make_session] installs on the session. *)
Definition make_session (token : option string) : list (string * string) :=
  [("Accept", "application/vnd.github+json");
   ("User-Agent", "github-weekly-trends/1.1")]
  ++ (if truthy token
      then [("Authorization", "Bearer " +:+ default EmptyString token)]
      else []).

Definition get_json {A} (api : world -> list event -> request -> response A)
    (session : list (string * string)) (url : string)
    (params : list (string * pval)) : M (A * option string) :=
  let req := mkrequest url session params in
  r <- get api req ;;
  _ <- raise_for_status req r ;;
  data <- json_of r ;;
  ret (doc_view data, next_link r).

Definition today_utc_date : M date := fun w tr => (Ok (today w), tr).

Definition monday_bucket (dtime : datetime) : result date :=
  let d := dt_date dtime in
  td <-r timedelta_days (weekday d) ;;
  date_sub d td.

Definition month_bucket (dtime : datetime) : result date :=
  let d := dt_date dtime in
  date_new (year d) (month d) 1.

Definition parse_iso_z (ts : string) : result datetime := strptime_iso_z ts.

(** The rows [write_csv] writes for the sorted items, up to the first
    key that cannot be rendered. *)
Fixpoint render_rows (items : list (date * Z))
    : list (string * Z) * result unit :=
  match items with
  | [] => ([], Ok tt)
  | (k, v) :: items' =>
      match datetime_new (year k) (month k) (day k) 0 0 0 with
      | Ok dt =>
          let iso_label := strftime_midnight_z dt in
          let '(rest, r) := render_rows items' in
          ((iso_label, v) :: rest, r)
      | Raise e => ([], Raise e)
      | OutOfFuel => ([], OutOfFuel)
      end
  end.

(** [write_csv] for a counter keyed by dates, the only keys the script
    ever builds. *)
Definition write_csv (path : string) (counter : gmap date Z) : M unit :=
  let rows := sorted_date_items counter in
  let '(written, r) := render_rows rows in
  _ <- emit (EvWrite path (mkcsv ["time"; "count"] written)) ;;
  lift r.

Definition compute_window (since_days : Z) : M (date * date) :=
  end_ <- today_utc_date ;;
  td <- lift (timedelta_days since_days) ;;
  start <- lift (date_sub end_ td) ;;
  ret (start, end_).

(** The generator [daterange_chunks]: not yet started, or suspended at
    its [yield] with [e]. *)
Inductive chunks_state : Type :=
| ChunksStart
| ChunksYielded (e : date).

Definition chunks_loop (end_ : date) (chunk_days : Z) (s : date)
    : gen_step chunks_state (string * string) :=
  if date_leb s end_ then
    match (td <-r timedelta_days (chunk_days - 1) ;; date_add s td) with
    | Ok x =>
        let e := date_min x end_ in
        Yield (isoformat s, isoformat e) (ChunksYielded e)
    | Raise ex => Throw ex
    | OutOfFuel => Throw OverflowError
    end
  else Return.

Definition daterange_chunks (start end_ : date) (chunk_days : Z)
    (st : chunks_state) : gen_step chunks_state (string * string) :=
  match st with
  | ChunksStart => chunks_loop end_ chunk_days start
  | ChunksYielded e =>
      match date_add e (mktimedelta 1) with
      | Ok s => chunks_loop end_ chunk_days s
      | Raise ex => Throw ex
      | OutOfFuel => Throw OverflowError
      end
  end.

Definition build_query_pr (owner repo which start_date end_date : string)
    : result string :=
  let base := "repo:" +:+ owner +:+ "/" +:+ repo +:+ " is:pr" in
  if String.eqb which "opened" then
    Ok (base +:+ " created:" +:+ start_date +:+ ".." +:+ end_date)
  else if String.eqb which "closed" then
    Ok (base +:+ " is:closed closed:" +:+ start_date +:+ ".." +:+ end_date)
  else if String.eqb which "merged" then
    Ok (base +:+ " is:merged merged:" +:+ start_date +:+ ".." +:+ end_date)
  else Raise ValueError.

Definition build_query_issue (owner repo which start_date end_date : string)
    : result string :=
  let base := "repo:" +:+ owner +:+ "/" +:+ repo +:+ " is:issue" in
  if String.eqb which "opened" then
    Ok (base +:+ " created:" +:+ start_date +:+ ".." +:+ end_date)
  else if String.eqb which "closed" then
    Ok (base +:+ " is:closed closed:" +:+ start_date +:+ ".." +:+ end_date)
  else Raise ValueError.

Definition build_query_labeled_issue
    (owner repo label which start_date end_date : string) : result string :=
  let base := "repo:" +:+ owner +:+ "/" +:+ repo +:+ " is:issue label:"
              +:+ String "034" label +:+ String "034" EmptyString in
  if String.eqb which "opened" then
    Ok (base +:+ " created:" +:+ start_date +:+ ".." +:+ end_date)
  else if String.eqb which "closed" then
    Ok (base +:+ " is:closed closed:" +:+ start_date +:+ ".." +:+ end_date)
  else Raise ValueError.

Definition search_request (session : list (string * string)) (q : string)
    (page : Z) : request :=
  mkrequest "https://api.github.com/search/issues" session
            [("q", PStr q); ("per_page", PInt 100); ("page", PInt page)].

(** The loop of [search_items] over the pages still to request. *)
Fixpoint search_items_pages (session : list (string * string)) (q : string)
    (pause : N) (pages : list Z) (items : list issue) : M (list issue) :=
  match pages with
  | [] => ret items
  | page :: pages' =>
      let req := search_request session q page in
      r <- get search_api req ;;
      _ <- (if status_code r =? 422 then raise_for_status req r else ret tt) ;;
      _ <- raise_for_status req r ;;
      data <- json_of r ;;
      let batch := doc_view data in
      let items := items ++ batch in
      if Z.of_nat (length batch) <? 100 then ret items
      else
        _ <- sleep pause ;;
        search_items_pages session q pause pages' items
  end.

Definition search_items (session : list (string * string)) (q : string)
    (token : option string) (max_pages : Z) (pause : N) : M (list issue) :=
  search_items_pages session q pause (seqZ 1 max_pages) [].

(** The loop of [list_commits]. *)
Fixpoint list_commits_loop (session : list (string * string)) (fuel : nat)
    (url : string) (params : list (string * pval)) (commits : list commit)
    : M (list commit) :=
  match fuel with
  | O => out_of_fuel
  | S fuel' =>
      dl <- get_json commits_api session url params ;;
      match dl.1 with
      | [] => ret commits
      | _ :: _ =>
          let commits := commits ++ dl.1 in
          match dl.2 with
          | None => ret commits
          | Some next =>
              _ <- sleep 300 ;;
              list_commits_loop session fuel' next [] commits
          end
      end
  end.

Definition list_commits (session : list (string * string))
    (owner repo since_iso until_iso : string) (fuel : nat) : M (list commit) :=
  let url := "https://api.github.com/repos/" +:+ owner +:+ "/" +:+ repo
             +:+ "/commits" in
  list_commits_loop session fuel url
    [("per_page", PInt 100); ("since", PStr since_iso);
     ("until", PStr until_iso)] [].

(** The first loop of [list_releases]. *)
Fixpoint list_releases_loop (session : list (string * string)) (fuel : nat)
    (url : string) (params : list (string * pval)) (releases : list release)
    : M (list release) :=
  match fuel with
  | O => out_of_fuel
  | S fuel' =>
      let req := mkrequest url session params in
      r <- get releases_api req ;;
      _ <- raise_for_status req r ;;
      data <- json_of r ;;
      match doc_view data with
      | None => ret releases
      | Some l =>
          let releases := releases ++ l in
          match next_link r with
          | Some next =>
              _ <- sleep 300 ;;
              list_releases_loop session fuel' next [] releases
          | None => ret releases
          end
      end
  end.

(** The second loop of [list_releases]: the releases inside the
    window. *)
Definition release_in_window (since_d until_d : date) (out : list release)
    (rel : release) : result (list release) :=
  let ts := py_or (published_at rel) (release_created_at rel) in
  if negb (truthy ts) then Ok out
  else
    dt <-r parse_iso_z (default EmptyString ts) ;;
    let d := dt_date dt in
    if date_leb since_d d && date_leb d until_d then Ok (out ++ [rel])
    else Ok out.

Definition list_releases (session : list (string * string))
    (owner repo : string) (since_d until_d : date) (fuel : nat)
    : M (list release) :=
  let url := "https://api.github.com/repos/" +:+ owner +:+ "/" +:+ repo
             +:+ "/releases" in
  releases <- list_releases_loop session fuel url
                [("per_page", PInt 100); ("page", PInt 1)] [] ;;
  lift (for_list_r (release_in_window since_d until_d) releases []).


(** ASCII character tests and conversions of [str]. *)
Definition isalnum (c : ascii) : bool :=
  in_range "0" "9" c || in_range "A" "Z" c || in_range "a" "z" c.

Definition lower (c : ascii) : ascii :=
  if in_range "A" "Z" c then ascii_of_nat (nat_of_ascii c + 32) else c.

Definition isspace (c : ascii) : bool :=
  in_range "009" "013" c || in_range "028" "032" c.

Fixpoint map_chars (f : ascii -> ascii) (s : string) : string :=
  match s with
  | EmptyString => EmptyString
  | String c s' => String (f c) (map_chars f s')
  end.

Fixpoint lstrip (p : ascii -> bool) (s : string) : string :=
  match s with
  | EmptyString => EmptyString
  | String c s' => if p c then lstrip p s' else s
  end.

Fixpoint rstrip (p : ascii -> bool) (s : string) : string :=
  match s with
  | EmptyString => EmptyString
  | String c s' =>
      match rstrip p s' with
      | EmptyString => if p c then EmptyString else String c EmptyString
      | r => String c r
      end
  end.

(** [s.strip(chars)] *)
Definition strip (p : ascii -> bool) (s : string) : string :=
  rstrip p (lstrip p s).

(** [s.split(sep)] for a one-character separator. *)
Fixpoint split (sep : ascii) (s : string) : list string :=
  match s with
  | EmptyString => [EmptyString]
  | String c s' =>
      match split sep s' with
      | [] => [String c EmptyString]
      | w :: ws =>
          if Ascii.eqb c sep then EmptyString :: w :: ws
          else String c w :: ws
      end
  end.

Definition nonempty (s : string) : bool :=
  match s with
  | EmptyString => false
  | String _ _ => true
  end.

Definition slugify_label (label : string) : string :=
  strip (Ascii.eqb "-")
        (map_chars (fun ch => if isalnum ch then lower ch else "-"%char)
                   label).

(** [os.path.join(a, b)] for a relative [b]. *)
Definition path_join (a b : string) : string :=
  if nonempty a then
    if endswith "/" a then a +:+ b else a +:+ "/" +:+ b
  else b.

(** The parsed command line. *)
Record args : Type :=
  mkargs { owner : string;
           repo : string;
           since_days : Z;
           out_dir : string;
           chunk_days : Z;
           max_pages : Z;
           pause : N;
           enhancement_label : string;
           labels : string }.

(** The loop over the items of a chunk that the PR, issue and label
    sections of [main] each spell out: skip an item without the
    timestamp, else count it in its week. *)
Definition count_item (ts_of : issue -> option string) (weekly : gmap date Z)
    (it : issue) : result (gmap date Z) :=
  let ts := ts_of it in
  if negb (truthy ts) then Ok weekly
  else
    dt <-r parse_iso_z (default EmptyString ts) ;;
    key <-r monday_bucket dt ;;
    Ok (incr key weekly).

(** The loop over the chunks of one series, then its [write_csv]. *)
Definition weekly_series (session : list (string * string))
    (token : option string) (a : args) (start_d end_d : date)
    (build : string -> string -> result string)
    (ts_of : issue -> option string) (fname : string) (fuel : nat) : M unit :=
  weekly <- for_gen (daterange_chunks start_d end_d (chunk_days a))
              (fun weekly se =>
                 q <- lift (build se.1 se.2) ;;
                 items <- search_items session q token (max_pages a)
                            (pause a) ;;
                 lift (for_list_r (count_item ts_of) items weekly))
              fuel ChunksStart ∅ ;;
  write_csv (path_join (out_dir a) fname) weekly.

(** The timestamp a PR item is counted by. *)
Definition pr_timestamp (which : string) (it : issue) : option string :=
  if String.eqb which "opened" then created_at it
  else if String.eqb which "closed" then closed_at it
  else py_or (merged_at it) (py_or (pull_request_merged_at it) (closed_at it)).

Definition issue_timestamp (which : string) (it : issue) : option string :=
  if String.eqb which "opened" then created_at it else closed_at it.

(** Identity of the author of a commit. *)
Definition ident_of (c : commit) : string :=
  let login := author_login c in
  if truthy login then "login:" +:+ default EmptyString login
  else
    let email := commit_author_email c in
    if truthy email then "email:" +:+ default EmptyString email
    else "unknown".

(** The body of the loop over the commits: the commits per week and the
    sets of contributors per week. *)
Definition count_commit (start_d end_d : date)
    (acc : gmap date Z * gmap date (gset string)) (c : commit)
    : result (gmap date Z * gmap date (gset string)) :=
  let ts := commit_author_date c in
  if negb (truthy ts) then Ok acc
  else
    dt <-r parse_iso_z (default EmptyString ts) ;;
    if negb (date_leb start_d (dt_date dt) && date_leb (dt_date dt) end_d)
    then Ok acc
    else
      wk <-r monday_bucket dt ;;
      Ok (incr wk acc.1, add_to wk (ident_of c) acc.2).

(** The loop over the commits, then the conversion of the sets to their
    sizes: the commits per week and the contributors per week. *)
Definition weekly_commits (start_d end_d : date) (commits : list commit)
    : result (gmap date Z * gmap date Z) :=
  cw <-r for_list_r (count_commit start_d end_d) commits (∅, ∅) ;;
  Ok (cw.1, (fun v => Z.of_nat (size v)) <$> cw.2).

(** The body of the loop over the releases. *)
Definition count_release (releases_monthly : gmap date Z) (rel : release)
    : result (gmap date Z) :=
  let ts := py_or (published_at rel) (release_created_at rel) in
  if negb (truthy ts) then Ok releases_monthly
  else
    dt <-r parse_iso_z (default EmptyString ts) ;;
    key <-r month_bucket dt ;;
    Ok (incr key releases_monthly).

(** [for x in l: m x] for a list of literals. *)
Fixpoint for_each {A} (l : list A) (m : A -> M unit) : M unit :=
  match l with
  | [] => ret tt
  | x :: l' => _ <- m x ;; for_each l' m
  end.

Definition main (a : args) (token : option string) (fuel : nat) : M unit :=
  se <- compute_window (since_days a) ;;
  let start_d := se.1 in
  let end_d := se.2 in
  let since_iso := isoformat start_d +:+ "T00:00:00Z" in
  let until_iso := isoformat end_d +:+ "T23:59:59Z" in
  let session := make_session token in
  (* PRs: opened/closed/merged *)
  _ <- for_each ["opened"; "closed"; "merged"] (fun which =>
         weekly_series session token a start_d end_d
           (build_query_pr (owner a) (repo a) which) (pr_timestamp which)
           ("prs_" +:+ which +:+ "_weekly.csv") fuel) ;;
  (* Issues: opened/closed *)
  _ <- for_each ["opened"; "closed"] (fun which =>
         weekly_series session token a start_d end_d
           (build_query_issue (owner a) (repo a) which)
           (issue_timestamp which)
           ("issues_" +:+ which +:+ "_weekly.csv") fuel) ;;
  (* Label-specific issues *)
  let labels_arg := strip isspace (labels a) in
  let labels :=
    if nonempty labels_arg then
      filter (fun x => nonempty x = true)
             (map (strip isspace) (split "," labels_arg))
    else [enhancement_label a] in
  _ <- for_each labels (fun label =>
         for_each ["opened"; "closed"] (fun which =>
           weekly_series session token a start_d end_d
             (build_query_labeled_issue (owner a) (repo a) label which)
             (issue_timestamp which)
             ("label-" +:+ slugify_label label +:+ "_" +:+ which
              +:+ "_weekly.csv") fuel)) ;;
  (* Commits and contributors *)
  commits <- list_commits session (owner a) (repo a) since_iso until_iso
               fuel ;;
  cw <- lift (weekly_commits start_d end_d commits) ;;
  _ <- write_csv (path_join (out_dir a) "commits_weekly.csv") cw.1 ;;
  _ <- write_csv (path_join (out_dir a) "contributors_weekly.csv") cw.2 ;;
  (* Releases *)
  rels <- list_releases session (owner a) (repo a) start_d end_d fuel ;;
  releases_monthly <- lift (for_list_r count_release rels ∅) ;;
  write_csv (path_join (out_dir a) "releases_monthly.csv") releases_monthly.

End github_weekly_trends.

(** ** contributors_weekly.py *)

Module contributors_weekly.

Definition COMMITS_URL (owner repo : string) : string :=
  "https://api.github.com/repos/" +:+ owner +:+ "/" +:+ repo +:+ "/commits".

Definition gh_headers (token : option string) : list (string * string) :=
  ("Accept", "application/vnd.github+json")
  :: (if truthy token
      then [("Authorization", "Bearer " +:+ default EmptyString token)]
      else []).

Definition monday_bucket (dt : datetime) : result datetime :=
  td <-r timedelta_days (weekday (dt_date dt)) ;;
  monday <-r datetime_sub dt td ;;
  let m := dt_date monday in
  datetime_new (year m) (month m) (day m) 0 0 0.

Definition iso_z (dt : datetime) : string := strftime_iso_z dt.

Definition commits_error (status page : Z) (err : string) : string :=
  "GitHub commits error " +:+ str_int status +:+ " page " +:+ str_int page
  +:+ ":" +:+ String "010" err.

(** The loop of [fetch_commits] over the pages still to request.  A
    document of the commit listing is a list, so only its emptiness is
    tested. *)
Fixpoint fetch_commits_pages (url : string) (hdrs : list (string * string))
    (since_iso until_iso : string) (per_page : Z) (pause : N)
    (pages : list Z) (all_commits : list commit) : M (list commit) :=
  match pages with
  | [] => ret all_commits
  | page :: pages' =>
      r <- get commits_api
             (mkrequest url hdrs
                [("since", PStr since_iso); ("until", PStr until_iso);
                 ("per_page", PInt per_page); ("page", PInt page)]) ;;
      if negb (status_code r =? 200) then
        raise (SystemExit
                 (commits_error (status_code r) page
                    (match json r with
                     | Some d => doc_str d
                     | None => text r
                     end)))
      else
        data <- json_of r ;;
        match doc_view data with
        | [] => ret all_commits
        | items =>
            let all_commits := all_commits ++ items in
            if Z.of_nat (length items) <? per_page then ret all_commits
            else
              _ <- sleep pause ;;
              fetch_commits_pages url hdrs since_iso until_iso per_page
                pause pages' all_commits
        end
  end.

Definition fetch_commits (owner repo since_iso until_iso : string)
    (token : option string) : M (list commit) :=
  fetch_commits_pages (COMMITS_URL owner repo) (gh_headers token)
    since_iso until_iso 100 200 (seqZ 1 100) [].

(** The [try] block of the loop over the commits: the parsed timestamp
    of the commit, or [None] when reading or parsing it raised. *)
Definition commit_datetime (c : commit) : option datetime :=
  match commit_author_date c with
  | Some ts =>
      match strptime_iso_z ts with
      | Ok dt => Some dt
      | _ => None
      end
  | None => None
  end.

(** Identity of the author of a commit: [login or email]. *)
Definition ident_of (c : commit) : option string :=
  py_or (author_login c) (commit_author_email c).

(** The body of the loop over the commits: the set of identities of each
    Monday bucket. *)
Definition add_commit (exclude_bots : bool)
    (buckets : gmap string (gset string)) (c : commit)
    : result (gmap string (gset string)) :=
  match commit_datetime c with
  | None => Ok buckets
  | Some dt =>
      let login := author_login c in
      let ident := ident_of c in
      if negb (truthy ident) then Ok buckets
      else if exclude_bots
              && match login with
                 | Some l => endswith "[bot]" l
                 | None => false
                 end
      then Ok buckets
      else
        b <-r monday_bucket dt ;;
        let key := iso_z b in
        Ok (add_to key (default EmptyString ident) buckets)
  end.

(** [sorted((k, len(v)) for k, v in buckets.items())] *)
Definition sorted_rows (buckets : gmap string (gset string))
    : list (string * Z) :=
  merge_sort str_item_le
    (map (fun kv => (kv.1, Z.of_nat (size kv.2))) (map_to_list buckets)).

(** The rows for a list of commits: the loop over the commits, then the
    sorted rows. *)
Definition rows_of (exclude_bots : bool) (commits : list commit)
    : result (list (string * Z)) :=
  buckets <-r for_list_r (add_commit exclude_bots) commits ∅ ;;
  Ok (sorted_rows buckets).

Inductive since_arg : Type :=
| SinceDays (n : Z)
| Since (s : string).

Record args : Type :=
  mkargs { owner : string;
           repo : string;
           since : since_arg;
           until_ : option string;
           out : string;
           token : option string;
           exclude_bots : bool }.

Definition main (a : args) : M unit :=
  today <- (fun w tr => (Ok (today w), tr)) ;;
  start_date <- lift (match since a with
                      | SinceDays n =>
                          td <-r timedelta_days n ;; date_sub today td
                      | Since s => strptime_ymd s
                      end) ;;
  end_date <- lift (if truthy (until_ a)
                    then strptime_ymd (default EmptyString (until_ a))
                    else Ok today) ;;
  if date_ltb end_date start_date then
    raise (SystemExit
             ("--since/--since-days must be <= --until. Got start="
              +:+ isoformat start_date +:+ " end=" +:+ isoformat end_date))
  else
    since_dt <- lift (datetime_new (year start_date) (month start_date)
                        (day start_date) 0 0 0) ;;
    let since_iso := strftime_iso_z since_dt in
    end_dt <- lift (datetime_new (year end_date) (month end_date)
                      (day end_date) 0 0 0) ;;
    until_d <- lift (date_add (dt_date end_dt) (mktimedelta 1)) ;;
    let until_iso_dt :=
      mkdatetime until_d (hour end_dt) (minute end_dt) (second end_dt) in
    let until_iso := strftime_iso_z until_iso_dt in
    commits <- fetch_commits (owner a) (repo a) since_iso until_iso
                 (token a) ;;
    rows <- lift (rows_of (exclude_bots a) commits) ;;
    emit (EvWrite (out a) (mkcsv ["time"; "count"] rows)).

End contributors_weekly.

(** ** major_decision_weekly.py *)

Module major_decision_weekly.

Definition LABEL_TEXT : string := "major-decision-pending".

Definition parse_iso_z (ts : string) : result datetime := strptime_iso_z ts.

Definition monday_bucket (dt : datetime) : result date :=
  let d := dt_date dt in
  td <-r timedelta_days (weekday d) ;;
  date_sub d td.

Definition search_headers (token : string) : list (string * string) :=
  [("Accept", "application/vnd.github+json");
   ("User-Agent", "major-decision-weekly/1.0");
   ("Authorization", "Bearer " +:+ token)].

Definition search_request (q token : string) (page : Z) : request :=
  mkrequest "https://api.github.com/search/issues" (search_headers token)
            [("q", PStr q); ("per_page", PInt 100); ("page", PInt page)].

(** The [while True] loop of [search_label], at page [page]. *)
Fixpoint search_label_loop (q token : string) (fuel : nat) (page : Z)
    (items : list issue) : M (list issue) :=
  match fuel with
  | O => out_of_fuel
  | S fuel' =>
      let req := search_request q token page in
      r <- get search_api req ;;
      if status_code r =? 403 then
        _ <- sleep 5000 ;;
        search_label_loop q token fuel' page items
      else
        _ <- raise_for_status req r ;;
        data <- json_of r ;;
        let page_items := doc_view data in
        let items := items ++ page_items in
        if Z.of_nat (length page_items) <? 100 then ret items
        else
          _ <- sleep 500 ;;
          search_label_loop q token fuel' (page + 1) items
  end.

Definition search_label (owner repo which : string) (start end_ : date)
    (token : string) (fuel : nat) : M (list issue * string) :=
  let base := "repo:" +:+ owner +:+ "/" +:+ repo +:+ " is:issue label:"
              +:+ String "034" LABEL_TEXT +:+ String "034" EmptyString in
  let '(q, ts_field) :=
    if String.eqb which "opened" then
      (base +:+ " created:" +:+ isoformat start +:+ ".." +:+ isoformat end_,
       "created_at")
    else
      (base +:+ " is:closed closed:" +:+ isoformat start +:+ ".."
       +:+ isoformat end_,
       "closed_at") in
  items <- search_label_loop q token fuel 1 [] ;;
  ret (items, ts_field).

(** [it.get(field)] for the members of an item the script reads. *)
Definition issue_get (field : string) (it : issue) : option string :=
  if String.eqb field "created_at" then created_at it
  else if String.eqb field "closed_at" then closed_at it
  else if String.eqb field "merged_at" then merged_at it
  else None.

(** The rows [write_csv] writes for the sorted items, up to the first
    key that cannot be rendered. *)
Fixpoint render_rows (items : list (date * Z))
    : list (string * Z) * result unit :=
  match items with
  | [] => ([], Ok tt)
  | (k, v) :: items' =>
      match datetime_new (year k) (month k) (day k) 0 0 0 with
      | Ok dt =>
          let '(rest, r) := render_rows items' in
          ((strftime_midnight_z dt, v) :: rest, r)
      | Raise e => ([], Raise e)
      | OutOfFuel => ([], OutOfFuel)
      end
  end.

(** [write_csv], for a path in a directory that [os.makedirs] can
    create when it is missing. *)
Definition write_csv (path : string) (counter : gmap date Z) : M unit :=
  let rows := sorted_date_items counter in
  let '(written, r) := render_rows rows in
  _ <- emit (EvWrite path (mkcsv ["time"; "count"] written)) ;;
  lift r.

(** The parsed command line. *)
Record args : Type :=
  mkargs { owner : string;
           repo : string;
           since_days : Z;
           out_dir : string }.

(** The body of the two loops of [main] over the items. *)
Definition count_item (field : string) (weekly : gmap date Z) (it : issue)
    : result (gmap date Z) :=
  let ts := issue_get field it in
  if truthy ts then
    dt <-r parse_iso_z (default EmptyString ts) ;;
    wk <-r monday_bucket dt ;;
    Ok (<[wk := default 0 (weekly !! wk) + 1]> weekly)
  else Ok weekly.

(** [main]; [token] is the value of the environment variable
    GITHUB_TOKEN. *)
Definition main (a : args) (token : option string) (fuel : nat) : M unit :=
  if negb (truthy token) then
    raise (SystemExit "GITHUB_TOKEN environment variable is required.")
  else
    let token := default EmptyString token in
    end_ <- (fun w tr => (Ok (today w), tr)) ;;
    td <- lift (timedelta_days (since_days a)) ;;
    start <- lift (date_sub end_ td) ;;
    (* Opened *)
    opened <- search_label (owner a) (repo a) "opened" start end_ token fuel ;;
    opened_weekly <- lift (for_list_r (count_item opened.2) opened.1 ∅) ;;
    _ <- write_csv
           (github_weekly_trends.path_join (out_dir a)
              "label-major-decision-pending_opened_weekly.csv")
           opened_weekly ;;
    (* Closed *)
    closed <- search_label (owner a) (repo a) "closed" start end_ token fuel ;;
    closed_weekly <- lift (for_list_r (count_item closed.2) closed.1 ∅) ;;
    write_csv
      (github_weekly_trends.path_join (out_dir a)
         "label-major-decision-pending_closed_weekly.csv")
      closed_weekly.

End major_decision_weekly.

(** ** Checks used by the proofs *)

Module Checks.

(** [month_day_of_yday] gives a month, a day of that month and the right
    number of days before it. *)
Definition yday_ok (leap : bool) (n : Z) : bool :=
  let '(m, d) := month_day_of_yday leap n in
  (1 <=? m) && (m <=? 12) && (1 <=? d)
  && (d <=? (if (m =? 2) && leap then 29 else DAYS_IN_MONTH m))
  && (DAYS_BEFORE_MONTH m + (if (2 <? m) && leap then 1 else 0) + d =? n + 1).

(** The days of month [m1] lie before month [m2] when [m1 < m2], and the
    days of every month lie within the year. *)
Definition months_ok (leap : bool) (m1 m2 : Z) : bool :=
  let dim m := if (m =? 2) && leap then 29 else DAYS_IN_MONTH m in
  let dbm m := DAYS_BEFORE_MONTH m + (if (2 <? m) && leap then 1 else 0) in
  (0 <=? dbm m1) && (dbm m1 + dim m1 <=? 365 + (if leap then 1 else 0))
  && (if m1 <? m2 then dbm m1 + dim m1 <=? dbm m2 else true).

(** The calendar days, as ordinals, of an inclusive range of dates. *)
Definition days_of (c : date * date) : list Z :=
  seqZ (toordinal c.1) (toordinal c.2 - toordinal c.1 + 1).

(** [chunks] are consecutive ranges that start at ordinal [o], each
    ending [chunk_days - 1] days after its start or at [end_date],
    whichever is first, up to [end_date]. *)
Fixpoint chunks_from (end_date : date) (chunk_days : Z) (o : Z)
    (chunks : list (date * date)) : Prop :=
  match chunks with
  | [] => o = toordinal end_date + 1
  | (s, e) :: rest =>
      valid_date s /\ valid_date e /\ toordinal s = o
      /\ toordinal e = Z.min (toordinal end_date) (o + chunk_days - 1)
      /\ o <= toordinal end_date
      /\ chunks_from end_date chunk_days (toordinal e + 1) rest
  end.

(** The chunks of [github_weekly_trends.daterange_chunks] are those of
    [github_prs_to_csv.daterange_chunks] as ISO strings; its suspended
    state does not keep the step. *)
Definition iso_chunk (c : date * date) : string * string :=
  (isoformat c.1, isoformat c.2).

Definition trends_state (s : github_prs_to_csv.chunks_state)
    : github_weekly_trends.chunks_state :=
  match s with
  | github_prs_to_csv.ChunksStart => github_weekly_trends.ChunksStart
  | github_prs_to_csv.ChunksYielded _ e => github_weekly_trends.ChunksYielded e
  end.

Definition trends_status (st : gen_status github_prs_to_csv.chunks_state)
    : gen_status github_weekly_trends.chunks_state :=
  match st with
  | Finished => Finished
  | Raised e => Raised e
  | Suspended s => Suspended (trends_state s)
  end.

(** States of [github_prs_to_csv.daterange_chunks] from which the
    generator of [github_weekly_trends] runs in step with it. *)
Definition chunks_state_ok (start_date end_date : date) (chunk_days : Z)
    (s : github_prs_to_csv.chunks_state) : Prop :=
  match s with
  | github_prs_to_csv.ChunksStart => date_leb start_date end_date = true
  | github_prs_to_csv.ChunksYielded step _ =>
      timedelta_days (chunk_days - 1) = Ok step
  end.

(** States in which the loop variable is at or before the end date. *)
Definition chunks_stuck (start_date end_date : date) (chunk_days : Z)
    (s : github_prs_to_csv.chunks_state) : Prop :=
  match s with
  | github_prs_to_csv.ChunksStart =>
      toordinal start_date <= toordinal end_date
  | github_prs_to_csv.ChunksYielded step e =>
      step = mktimedelta (chunk_days - 1) /\ valid_date e
      /\ toordinal e < toordinal end_date
  end.

(** The time column the scripts write for the bucket that starts on
    [d]: the [strftime] of its midnight. *)
Definition bucket_label (d : date) : string :=
  strftime_midnight_z (mkdatetime d 0 0 0).

(** The fixed-width text YYYY-MM-DDT00:00:00Z of a date. *)
Definition iso_label (d : date) : string := isoformat d +:+ "T00:00:00Z".

(** Dates whose year has four digits. *)
Definition four_digits (d : date) : Prop := 1000 <= year d.

(** [rows] are rows for the buckets [dates], one each and in that
    order: the time of a row is the label the scripts write for its
    date, no time occurs twice, and the counts are not negative. *)
Definition rows_for (dates : list date) (rows : list (string * Z)) : Prop :=
  rows.*1 = map bucket_label dates
  /\ Forall valid_date dates
  /\ NoDup rows.*1
  /\ Forall (fun r => 0 <= r.2) rows.

(** [rows] are rows for the buckets [dates], one each and in that
    order, the dates strictly ascending, the time column the text
    YYYY-MM-DDT00:00:00Z of the date, of fixed width and strictly
    ascending as text, without duplicates, and the counts not
    negative. *)
Definition rows_ascending (dates : list date) (rows : list (string * Z))
    : Prop :=
  rows.*1 = map iso_label dates
  /\ Forall valid_date dates
  /\ StronglySorted (fun a b => date_ltb a b = true) dates
  /\ StronglySorted (fun a b => String.ltb a b = true) rows.*1
  /\ NoDup rows.*1
  /\ Forall (fun r => String.length r.1 = 20%nat /\ 0 <= r.2) rows.

(** The rows of a file sorted by date, as [write_csv] writes them: rows
    for strictly ascending dates, which are ascending rows of fixed
    width when every year has four digits. *)
Definition rows_by_date (dates : list date) (rows : list (string * Z))
    : Prop :=
  rows_for dates rows
  /\ StronglySorted (fun a b => date_ltb a b = true) dates
  /\ (Forall four_digits dates -> rows_ascending dates rows).

(** The rows of a file sorted by the text of the time column, as
    [contributors_weekly] and [github_prs_to_csv] write them. *)
Definition rows_by_text (dates : list date) (rows : list (string * Z))
    : Prop :=
  rows_for dates rows
  /\ StronglySorted (fun a b => String.ltb a b = true) rows.*1
  /\ (Forall four_digits dates -> rows_ascending dates rows).

(** The rows of contributors_weekly.csv of [github_weekly_trends] for a
    list of commits. *)
Definition contributor_rows (start_d end_d : date) (commits : list commit)
    : result (list (string * Z)) :=
  cw <-r github_weekly_trends.weekly_commits start_d end_d commits ;;
  Ok (github_weekly_trends.render_rows (sorted_date_items cw.2)).1.

(** The text before the first hyphen, and the text after it. *)
Fixpoint split_hyphen (s : string) : string * string :=
  match s with
  | EmptyString => (EmptyString, EmptyString)
  | String c s' =>
      if Ascii.eqb c "-" then (EmptyString, s')
      else let '(a, b) := split_hyphen s' in (String c a, b)
  end.

(** The date of a bucket label: the year is the number before the first
    hyphen, the month the number before the second, the day the two
    digits after it. *)
Definition label_date (s : string) : date :=
  let '(y, s1) := split_hyphen s in
  let '(m, s2) := split_hyphen s1 in
  mkdate (int_of 0 y) (int_of 0 m) (int_of 0 (substring 0 2 s2)).

(** Events other than the writing of a file. *)
Definition not_write (ev : event) : Prop :=
  match ev with
  | EvWrite _ _ => False
  | _ => True
  end.

(** Events that, when they write a file, write the header time,count
    and rows sorted by date. *)
Definition good_event (ev : event) : Prop :=
  match ev with
  | EvWrite _ f =>
      header f = ["time"; "count"]
      /\ exists dates, rows_by_date dates (rows f)
  | _ => True
  end.

(** Whatever [m] does, it adds to the trace only events that satisfy
    [Q], and a value it returns satisfies [post]. *)
Definition triple {A} (Q : event -> Prop) (m : M A) (post : A -> Prop)
    : Prop :=
  forall w tr r tr',
    m w tr = (r, tr') ->
    (exists evs, tr' = tr ++ evs /\ Forall Q evs)
    /\ (forall a, r = Ok a -> post a).


End Checks.
Import Checks.

(** ** Sample inputs *)

Module Examples.

(** A successful response with the given view of its document. *)
Definition page {A} (v : A) : response A :=
  mkresponse 200 "{...}" (Some (mkdoc "{...}" v)) None.

(** A response with a status and a body that is not JSON. *)
Definition failure {A} (status : Z) (body : string) : response A :=
  mkresponse status body None None.

(** A world that answers every search with the same page and has no
    commits and no releases. *)
Definition search_world (items : list issue) : world :=
  mkworld (mkdate 2024 1 21)
          (fun _ _ => page items)
          (fun _ _ => page None)
          (fun _ _ => page [])
          (fun _ _ => page (Some [])).

Definition trends_args : github_weekly_trends.args :=
  github_weekly_trends.mkargs "valkey-io" "valkey" 20 "." 30 10 500
    "enhancement" EmptyString.

Definition issue_at (ts : string) : issue :=
  mkissue (Some ts) None None None (Some 1).

(** Two commits of one week: one with the login alice, one with only
    the email alice@example.com. *)
Definition alice_login : commit :=
  mkcommit (Some "alice") (Some "2024-01-02T09:00:00Z") None.
Definition alice_email : commit :=
  mkcommit None (Some "2024-01-03T10:00:00Z") (Some "alice@example.com").

(** Two commits of one week: one with the login bob, one with no login
    and the author email bob. *)
Definition bob_login : commit :=
  mkcommit (Some "bob") (Some "2024-01-02T09:00:00Z") None.
Definition bob_email : commit :=
  mkcommit None (Some "2024-01-03T10:00:00Z") (Some "bob").

(** A commit with neither login nor email. *)
Definition anonymous : commit :=
  mkcommit None (Some "2024-01-03T10:00:00Z") None.

(** A world whose searches fail with status 500 when the query asks for
    closed items and return [items] otherwise. *)
Definition closed_fails_world (items : list issue) : world :=
  mkworld (mkdate 2024 1 21)
          (fun _ req =>
             match params req with
             | (_, PStr q) :: _ =>
                 match index 0 "is:closed" q with
                 | Some _ => failure 500 "boom"
                 | None => page items
                 end
             | _ => page items
             end)
          (fun _ _ => page None)
          (fun _ _ => page [])
          (fun _ _ => page (Some [])).

(** A world whose searches are all answered with a status and a body. *)
Definition failing_world (status : Z) (body : string) : world :=
  mkworld (mkdate 2024 1 21)
          (fun _ _ => failure status body)
          (fun _ _ => page None)
          (fun _ _ => page [])
          (fun _ _ => page (Some [])).

End Examples.
Import Examples.

(** ** Measures used by the further properties *)

Module Measures.

(** The sum of the counts of a table. *)
Definition total `{Countable K} (m : gmap K Z) : Z :=
  map_fold (fun _ v acc => v + acc) 0 m.

(** The sum of the count column of the rows of a file. *)
Definition sum_counts (rows : list (string * Z)) : Z :=
  foldr (fun r acc => r.2 + acc) 0 rows.

(** A timestamp that is present and not empty but does not parse. *)
Definition fatal_timestamp (ts : option string) : bool :=
  truthy ts
  && match strptime_iso_z (default EmptyString ts) with
     | Ok _ => false
     | _ => true
     end.

(** The date of a timestamp that is present, not empty and parses. *)
Definition timestamp_date (ts : option string) : option date :=
  if truthy ts then
    match strptime_iso_z (default EmptyString ts) with
    | Ok dt => Some (dt_date dt)
    | _ => None
    end
  else None.

(** The timestamp a release is placed by: [published_at], or
    [created_at] when that is missing or empty. *)
Definition release_timestamp (rel : release) : option string :=
  py_or (published_at rel) (release_created_at rel).

(** A date lies in a window. *)
Definition date_in (since_d until_d d : date) : bool :=
  date_leb since_d d && date_leb d until_d.

(** A release has a timestamp whose date lies in the window. *)
Definition in_window (since_d until_d : date) (rel : release) : bool :=
  match timestamp_date (release_timestamp rel) with
  | Some d => date_in since_d until_d d
  | None => false
  end.

(** A commit has a timestamp whose date lies in the window. *)
Definition commit_in_window (since_d until_d : date) (c : commit) : bool :=
  match timestamp_date (commit_author_date c) with
  | Some d => date_in since_d until_d d
  | None => false
  end.

(** The login of the author of a commit ends with [bot]. *)
Definition is_bot (c : commit) : bool :=
  match author_login c with
  | Some l => endswith "[bot]" l
  | None => false
  end.

(** The query of [search_label] of [major_decision_weekly]. *)
Definition label_query (owner repo which : string) (start end_ : date)
    : string :=
  let base := "repo:" +:+ owner +:+ "/" +:+ repo +:+ " is:issue label:"
              +:+ String "034" major_decision_weekly.LABEL_TEXT
              +:+ String "034" EmptyString in
  if String.eqb which "opened" then
    base +:+ " created:" +:+ isoformat start +:+ ".." +:+ isoformat end_
  else
    base +:+ " is:closed closed:" +:+ isoformat start +:+ ".."
    +:+ isoformat end_.

(** One turn of a loop over the pages [page] .. [max_pages] whose
    request for [page] brought the records [batch], for a page size of
    [per_page].  With fewer records than the page size the loop ends
    with the records so far, and this request was its last.  With the
    page size of records, or more, the loop pauses and, below the cap,
    requests the next page; at the cap it ends with the records so far,
    which is no error. *)
Definition paged_turn {A} (loop : list Z -> list A -> M (list A))
    (req : Z -> request) (pause : N) (per_page max_pages page : Z)
    (acc batch : list A) (w : world) (tr : list event) : Prop :=
  let run := loop (seqZ page (max_pages - page + 1)) acc w tr in
  (Z.of_nat (length batch) < per_page ->
   run = (Ok (acc ++ batch), tr ++ [EvGet (req page)]))
  /\ (per_page <= Z.of_nat (length batch) -> page < max_pages ->
      exists res rest,
        run = (res,
               tr ++ [EvGet (req page); EvSleep pause; EvGet (req (page + 1))]
                  ++ rest))
  /\ (per_page <= Z.of_nat (length batch) -> page = max_pages ->
      run = (Ok (acc ++ batch), tr ++ [EvGet (req page); EvSleep pause])).

(** The request of [fetch_commits] of [contributors_weekly] for a
    page. *)
Definition commits_request (owner repo since_iso until_iso : string)
    (token : option string) (page : Z) : request :=
  mkrequest (contributors_weekly.COMMITS_URL owner repo)
    (contributors_weekly.gh_headers token)
    [("since", PStr since_iso); ("until", PStr until_iso);
     ("per_page", PInt 100); ("page", PInt page)].

(** The records of a response: those of its document, none when it has
    no document. *)
Definition records {A} (r : response (list A)) : list A :=
  match json r with
  | Some d => doc_view d
  | None => []
  end.

(** The pages of a listing that the server links one to the next: the
    page at [u], then those at [rest].  Every page is answered without
    an HTTP error and with a document; every page but the last has
    records and the link to the next; the last has no records or no
    link. *)
Fixpoint linked (resp : string -> response (list commit)) (u : string)
    (rest : list string) : Prop :=
  ~ (400 <= status_code (resp u) < 600)
  /\ json (resp u) <> None
  /\ match rest with
     | [] => records (resp u) = [] \/ next_link (resp u) = None
     | u' :: rest' =>
         records (resp u) <> []
         /\ next_link (resp u) = Some u'
         /\ linked resp u' rest'
     end.

(** The labels [main] of [github_weekly_trends] exports: those of
    [--labels], or the one of [--enhancement-label]. *)
Definition trends_labels (a : github_weekly_trends.args) : list string :=
  let labels_arg :=
    github_weekly_trends.strip github_weekly_trends.isspace
      (github_weekly_trends.labels a) in
  if github_weekly_trends.nonempty labels_arg then
    filter (fun x => github_weekly_trends.nonempty x = true)
           (map (github_weekly_trends.strip github_weekly_trends.isspace)
                (github_weekly_trends.split "," labels_arg))
  else [github_weekly_trends.enhancement_label a].

(** The files of a run of [github_weekly_trends], in the order in which
    it writes them. *)
Definition trends_files (a : github_weekly_trends.args) : list string :=
  map (github_weekly_trends.path_join (github_weekly_trends.out_dir a))
    (["prs_opened_weekly.csv"; "prs_closed_weekly.csv";
      "prs_merged_weekly.csv"; "issues_opened_weekly.csv";
      "issues_closed_weekly.csv"]
     ++ concat
          (map (fun label =>
                  ["label-" +:+ github_weekly_trends.slugify_label label
                   +:+ "_opened_weekly.csv";
                   "label-" +:+ github_weekly_trends.slugify_label label
                   +:+ "_closed_weekly.csv"])
               (trends_labels a))
     ++ ["commits_weekly.csv"; "contributors_weekly.csv";
         "releases_monthly.csv"]).

(** Whatever [m] does, the files it writes are the first of [names], in
    this order, and all of them when it ends well. *)
Definition writes_files {A} (m : M A) (names : list string) : Prop :=
  forall w tr r tr',
    m w tr = (r, tr') ->
    exists n,
      (n <= length names)%nat
      /\ (writes tr').*1 = (writes tr).*1 ++ take n names
      /\ (forall a, r = Ok a -> n = length names).

End Measures.
Import Measures.

(** ** Tests on strings *)

Module Chars.

(** Every character of a string passes a test. *)
Fixpoint all_chars (p : ascii -> bool) (s : string) : bool :=
  match s with
  | EmptyString => true
  | String c s' => p c && all_chars p s'
  end.

Definition first_char (s : string) : option ascii :=
  match s with
  | EmptyString => None
  | String c _ => Some c
  end.

Fixpoint last_char (s : string) : option ascii :=
  match s with
  | EmptyString => None
  | String c EmptyString => Some c
  | String _ s' => last_char s'
  end.

(** The characters of ASCII, on which the model of [str.isalnum],
    [str.lower] and [str.isspace] is that of Python. *)
Definition is_ascii (c : ascii) : bool := (nat_of_ascii c <? 128)%nat.

(** The characters of a slug: lower-case letters, digits and the
    hyphen. *)
Definition slug_char (c : ascii) : bool :=
  in_range "a" "z" c || in_range "0" "9" c || Ascii.eqb c "-".

End Chars.
Import Chars.


(** * Properties *)

(** ** The calendar *)

Section Calendar.

Lemma forall_range (P : Z -> bool) (k : nat) :
  forallb P (map Z.of_nat (seq 0%nat k)) = true ->
  forall n, 0 <= n < Z.of_nat k -> P n = true.
Proof.
  intros H n Hn. rewrite forallb_forall in H. apply H.
  apply in_map_iff. exists (Z.to_nat n). split; [lia|].
  apply in_seq. lia.
Qed.

Lemma yday_ok_true (leap : bool) (n : Z) :
  0 <= n < 365 + (if leap then 1 else 0) -> yday_ok leap n = true.
Proof.
  intros Hn. destruct leap.
  - apply (forall_range (yday_ok true) 366); [vm_compute; reflexivity | lia].
  - apply (forall_range (yday_ok false) 365); [vm_compute; reflexivity | lia].
Qed.

Lemma months_ok_true (leap : bool) (m1 m2 : Z) :
  1 <= m1 <= 12 -> 1 <= m2 <= 12 -> months_ok leap m1 m2 = true.
Proof.
  intros H1 H2.
  assert (E1 : m1 = 1 + Z.of_nat (Z.to_nat (m1 - 1))) by lia.
  assert (E2 : m2 = 1 + Z.of_nat (Z.to_nat (m2 - 1))) by lia.
  assert (B1 : (Z.to_nat (m1 - 1) < 12)%nat) by lia.
  assert (B2 : (Z.to_nat (m2 - 1) < 12)%nat) by lia.
  rewrite E1, E2.
  generalize dependent (Z.to_nat (m1 - 1)).
  generalize dependent (Z.to_nat (m2 - 1)).
  intros b _ Hb a _ Ha.
  do 12 (destruct a as [|a]; [do 12 (destruct b as [|b];
    [destruct leap; vm_compute; reflexivity|]); lia|]); lia.
Qed.

Lemma valid_date_iff d :
  valid_date d <->
  1 <= year d <= 9999 /\ 1 <= month d <= 12 /\
  1 <= day d <= days_in_month (year d) (month d).
Proof.
  unfold valid_date, valid_dateb, MINYEAR, MAXYEAR.
  rewrite !andb_true_iff, !Z.leb_le. tauto.
Qed.

(** Years in terms of completed 400/100/4/1-year cycles. *)
Lemma year_of_cycles n400 n100 n4 n1 :
  0 <= n400 -> 0 <= n100 <= 3 -> 0 <= n4 <= 24 -> 0 <= n1 <= 3 ->
  let y := n400 * 400 + 1 + n100 * 100 + n4 * 4 + n1 in
  days_before_year y = 146097 * n400 + 36524 * n100 + 1461 * n4 + 365 * n1
  /\ is_leap y = (n1 =? 3) && (negb (n4 =? 24) || (n100 =? 3)).
Proof.
  intros H400 H100 H4 H1 y. subst y. split.
  - unfold days_before_year. Z.div_mod_to_equations. lia.
  - unfold is_leap.
    destruct (Z.eqb_spec n1 3), (Z.eqb_spec n4 24), (Z.eqb_spec n100 3);
      cbn [andb orb negb];
      repeat match goal with
             | |- context [?a mod ?b =? 0] => destruct (Z.eqb_spec (a mod b) 0)
             end; cbn [andb orb negb]; try reflexivity; exfalso;
      Z.div_mod_to_equations; lia.
Qed.

Lemma days_before_year_succ y :
  days_before_year (y + 1)
  = days_before_year y + 365 + (if is_leap y then 1 else 0).
Proof.
  unfold days_before_year, is_leap.
  repeat match goal with
         | |- context [?a mod ?b =? 0] => destruct (Z.eqb_spec (a mod b) 0)
         end; cbn [andb orb negb]; Z.div_mod_to_equations; lia.
Qed.

Lemma days_before_year_mono y1 y2 :
  y1 <= y2 -> days_before_year y1 <= days_before_year y2.
Proof.
  intros H. unfold days_before_year. Z.div_mod_to_equations. lia.
Qed.

(** [ord2ymd] inverts [toordinal] on the ordinals of the supported
    range, and lands on a date of the calendar. *)
Lemma ord2ymd_spec n :
  1 <= n <= MAXORDINAL ->
  valid_date (ord2ymd n) /\ toordinal (ord2ymd n) = n.
Proof.
  intros Hn. rewrite valid_date_iff.
  unfold ord2ymd, MAXORDINAL, DI400Y, DI100Y, DI4Y in *.
  set (n0 := n - 1).
  set (n400 := n0 / 146097). set (r1 := n0 mod 146097).
  set (n100 := r1 / 36524). set (r2 := r1 mod 36524).
  set (n4 := r2 / 1461). set (r3 := r2 mod 1461).
  set (n1 := r3 / 365). set (r4 := r3 mod 365).
  assert (E1 : n0 = 146097 * n400 + r1 /\ 0 <= r1 < 146097)
    by (split; [apply Z.div_mod; lia | apply Z.mod_pos_bound; lia]).
  assert (E2 : r1 = 36524 * n100 + r2 /\ 0 <= r2 < 36524)
    by (split; [apply Z.div_mod; lia | apply Z.mod_pos_bound; lia]).
  assert (E3 : r2 = 1461 * n4 + r3 /\ 0 <= r3 < 1461)
    by (split; [apply Z.div_mod; lia | apply Z.mod_pos_bound; lia]).
  assert (E4 : r3 = 365 * n1 + r4 /\ 0 <= r4 < 365)
    by (split; [apply Z.div_mod; lia | apply Z.mod_pos_bound; lia]).
  clearbody n400 r1 n100 r2 n4 r3 n1 r4. subst n0.
  assert (B : 0 <= n400 <= 24 /\ 0 <= n100 <= 4 /\ 0 <= n4 <= 24
              /\ 0 <= n1 <= 4) by lia.
  destruct ((n1 =? 4) || (n100 =? 4)) eqn:Hsp.
  - (* the last day of a leap year *)
    assert (Hy : exists a b c,
      0 <= a /\ 0 <= b <= 3 /\ 0 <= c <= 24 /\
      n400 * 400 + 1 + n100 * 100 + n4 * 4 + n1 - 1
        = a * 400 + 1 + b * 100 + c * 4 + 3
      /\ (c <> 24 \/ b = 3)
      /\ 146097 * a + 36524 * b + 1461 * c + 365 * 3 + 366 = n).
    { apply orb_true_iff in Hsp.
      destruct Hsp as [Hsp|Hsp]; apply Z.eqb_eq in Hsp.
      - destruct (Z.eq_dec n100 4).
        + exists n400, 3, 24. lia.
        + exists n400, n100, n4. lia.
      - exists n400, 3, 24. lia. }
    destruct Hy as (a & b & c & Ha & Hb & Hc & Hy & Hleap & Hord).
    rewrite Hy.
    destruct (year_of_cycles a b c 3 Ha Hb Hc ltac:(lia)) as [Hd Hl].
    cbv zeta in Hd, Hl.
    assert (Hl' : is_leap (a * 400 + 1 + b * 100 + c * 4 + 3) = true).
    { rewrite Hl. destruct (Z.eqb_spec c 24), (Z.eqb_spec b 3); cbn;
        try reflexivity; lia. }
    unfold toordinal, ymd2ord, days_before_month, days_in_month;
      cbn [year month day DAYS_BEFORE_MONTH DAYS_IN_MONTH].
    rewrite Hd, Hl'. change (12 =? 2) with false. change (2 <? 12) with true.
    cbn [andb DAYS_IN_MONTH]. lia.
  - apply orb_false_iff in Hsp. destruct Hsp as [Hs1 Hs2].
    apply Z.eqb_neq in Hs1, Hs2.
    destruct (year_of_cycles n400 n100 n4 n1) as [Hd Hl]; try lia.
    cbv zeta in Hd, Hl.
    set (leap := (n1 =? 3) && (negb (n4 =? 24) || (n100 =? 3))) in *.
    assert (Hr4 : 0 <= r4 < 365 + (if leap then 1 else 0))
      by (destruct leap; lia).
    pose proof (yday_ok_true leap r4 Hr4) as Hok. unfold yday_ok in Hok.
    destruct (month_day_of_yday leap r4) as [m d].
    rewrite !andb_true_iff in Hok.
    destruct Hok as [[[[Hm1 Hm2] Hd1] Hd2] Hsum].
    apply Z.leb_le in Hm1, Hm2, Hd1, Hd2. apply Z.eqb_eq in Hsum.
    unfold toordinal, ymd2ord, days_before_month, days_in_month;
      cbn [year month day].
    rewrite Hd, Hl. lia.
Qed.

(** The day of the year of a date of the calendar. *)
Lemma day_of_year_range d :
  valid_date d ->
  1 <= days_before_month (year d) (month d) + day d
    <= 365 + (if is_leap (year d) then 1 else 0).
Proof.
  rewrite valid_date_iff. intros (Hy & Hm & Hd).
  pose proof (months_ok_true (is_leap (year d)) (month d) (month d) Hm Hm) as H.
  unfold months_ok in H. rewrite !andb_true_iff, !Z.leb_le in H.
  unfold days_before_month, days_in_month in *. lia.
Qed.

Lemma toordinal_range d :
  valid_date d -> 1 <= toordinal d <= MAXORDINAL.
Proof.
  intros Hv. pose proof (day_of_year_range d Hv) as Hr.
  apply valid_date_iff in Hv. destruct Hv as (Hy & _).
  unfold toordinal, ymd2ord.
  pose proof (days_before_year_mono 1 (year d) ltac:(lia)) as H1.
  pose proof (days_before_year_mono (year d + 1) 10000 ltac:(lia)) as H2.
  rewrite days_before_year_succ in H2.
  change (days_before_year 1) with 0 in H1.
  change (days_before_year 10000) with 3652059 in H2.
  unfold MAXORDINAL. lia.
Qed.

(** The order of dates is the order of their ordinals. *)
Lemma toordinal_lt a b :
  valid_date a -> valid_date b ->
  date_ltb a b = true -> toordinal a < toordinal b.
Proof.
  intros Ha Hb Hlt.
  pose proof (day_of_year_range a Ha) as Ra.
  pose proof (day_of_year_range b Hb) as Rb.
  apply valid_date_iff in Ha, Hb.
  destruct Ha as (Hya & Hma & Hda), Hb as (Hyb & Hmb & Hdb).
  unfold date_ltb in Hlt. unfold toordinal, ymd2ord.
  apply orb_true_iff in Hlt. destruct Hlt as [Hy|Hlt].
  - apply Z.ltb_lt in Hy.
    pose proof (days_before_year_mono (year a + 1) (year b) ltac:(lia)) as H.
    rewrite days_before_year_succ in H. lia.
  - apply andb_true_iff in Hlt. destruct Hlt as [Hy Hlt].
    apply Z.eqb_eq in Hy. rewrite <- Hy in *.
    apply orb_true_iff in Hlt. destruct Hlt as [Hm|Hlt].
    + apply Z.ltb_lt in Hm.
      pose proof (months_ok_true (is_leap (year a)) (month a) (month b)
                    Hma Hmb) as H.
      unfold months_ok in H. rewrite !andb_true_iff in H.
      destruct H as [_ H]. apply Z.ltb_lt in Hm as Hm'. rewrite Hm' in H.
      apply Z.leb_le in H.
      unfold days_before_month, days_in_month in *. lia.
    + apply andb_true_iff in Hlt. destruct Hlt as [Hm Hd].
      apply Z.eqb_eq in Hm. apply Z.ltb_lt in Hd. rewrite Hm. lia.
Qed.

Lemma date_ltb_trichotomy a b :
  date_ltb a b = true \/ a = b \/ date_ltb b a = true.
Proof.
  destruct a as [ya ma da], b as [yb mb db]. unfold date_ltb. cbn.
  destruct (Z.lt_total ya yb) as [H|[H|H]].
  - left. apply orb_true_iff. left. lia.
  - subst yb. destruct (Z.lt_total ma mb) as [H|[H|H]].
    + left. rewrite Z.eqb_refl.
      apply orb_true_iff. right. cbn. apply orb_true_iff. left. lia.
    + subst mb. destruct (Z.lt_total da db) as [H|[H|H]].
      * left. rewrite !Z.eqb_refl. cbn.
        apply orb_true_iff. right. apply orb_true_iff. right. lia.
      * right. left. congruence.
      * right. right. rewrite !Z.eqb_refl. cbn.
        apply orb_true_iff. right. apply orb_true_iff. right. lia.
    + right. right. rewrite Z.eqb_refl.
      apply orb_true_iff. right. cbn. apply orb_true_iff. left. lia.
  - right. right. apply orb_true_iff. left. lia.
Qed.

Lemma date_ltb_iff a b :
  valid_date a -> valid_date b ->
  date_ltb a b = true <-> toordinal a < toordinal b.
Proof.
  intros Ha Hb. split; [apply toordinal_lt; assumption|].
  intros H. destruct (date_ltb_trichotomy a b) as [Hl|[He|Hg]]; [assumption| |].
  - subst. lia.
  - apply toordinal_lt in Hg; [lia | assumption | assumption].
Qed.

Lemma date_leb_iff a b :
  valid_date a -> valid_date b ->
  date_leb a b = true <-> toordinal a <= toordinal b.
Proof.
  intros Ha Hb. unfold date_leb. rewrite negb_true_iff.
  pose proof (date_ltb_iff b a Hb Ha) as H.
  destruct (date_ltb b a); split; intros; try reflexivity; try discriminate.
  - assert (toordinal b < toordinal a) by (apply H; reflexivity). lia.
  - destruct (Z.le_gt_cases (toordinal a) (toordinal b)); [assumption|].
    assert (false = true) by (apply H; lia). discriminate.
Qed.

Lemma toordinal_inj a b :
  valid_date a -> valid_date b -> toordinal a = toordinal b -> a = b.
Proof.
  intros Ha Hb H. destruct (date_ltb_trichotomy a b) as [Hl|[He|Hg]].
  - apply toordinal_lt in Hl; [lia | assumption | assumption].
  - assumption.
  - apply toordinal_lt in Hg; [lia | assumption | assumption].
Qed.

Lemma ord2ymd_toordinal d : valid_date d -> ord2ymd (toordinal d) = d.
Proof.
  intros Hv. pose proof (toordinal_range d Hv) as Hr.
  destruct (ord2ymd_spec (toordinal d) Hr) as [Hv' Ho].
  apply toordinal_inj; assumption.
Qed.

End Calendar.

(** ** Date arithmetic *)

Section DateArith.

Lemma date_add_ok d n :
  valid_date d -> 1 <= toordinal d + n <= MAXORDINAL ->
  exists d', date_add d (mktimedelta n) = Ok d'
             /\ valid_date d' /\ toordinal d' = toordinal d + n.
Proof.
  intros Hv Hr. unfold date_add. cbn [td_days].
  assert (E : (0 <? toordinal d + n) && (toordinal d + n <=? MAXORDINAL) = true)
    by (apply andb_true_iff; split; [apply Z.ltb_lt | apply Z.leb_le]; lia).
  rewrite E. exists (ord2ymd (toordinal d + n)).
  destruct (ord2ymd_spec _ Hr). auto.
Qed.

Lemma date_add_overflow d n :
  ~ (1 <= toordinal d + n <= MAXORDINAL) ->
  date_add d (mktimedelta n) = Raise OverflowError.
Proof.
  intros Hr. unfold date_add. cbn [td_days].
  destruct (Z.ltb_spec 0 (toordinal d + n)),
    (Z.leb_spec (toordinal d + n) MAXORDINAL); cbn; try reflexivity; lia.
Qed.

Lemma date_ltb_asym a b : date_ltb a b = true -> date_ltb b a = false.
Proof.
  unfold date_ltb. intros H.
  destruct (Z.ltb_spec (year a) (year b)), (Z.ltb_spec (year b) (year a)),
    (Z.eqb_spec (year a) (year b)), (Z.eqb_spec (year b) (year a)),
    (Z.ltb_spec (month a) (month b)), (Z.ltb_spec (month b) (month a)),
    (Z.eqb_spec (month a) (month b)), (Z.eqb_spec (month b) (month a)),
    (Z.ltb_spec (day a) (day b)), (Z.ltb_spec (day b) (day a));
    cbn in *; try reflexivity; try discriminate; lia.
Qed.

Lemma date_min_comm a b : date_min a b = date_min b a.
Proof.
  unfold date_min.
  destruct (date_ltb_trichotomy a b) as [H|[H|H]].
  - rewrite H, (date_ltb_asym _ _ H). reflexivity.
  - subst. reflexivity.
  - rewrite H, (date_ltb_asym _ _ H). reflexivity.
Qed.

Lemma date_min_spec a b :
  valid_date a -> valid_date b ->
  valid_date (date_min a b)
  /\ toordinal (date_min a b) = Z.min (toordinal a) (toordinal b).
Proof.
  intros Ha Hb. unfold date_min.
  pose proof (date_ltb_iff b a Hb Ha) as H.
  destruct (date_ltb b a).
  - split; [assumption|]. assert (toordinal b < toordinal a) by (apply H; reflexivity). lia.
  - split; [assumption|].
    destruct (Z.lt_ge_cases (toordinal b) (toordinal a)); [|lia].
    assert (false = true) by (apply H; assumption). discriminate.
Qed.

Lemma weekday_range d : 0 <= weekday d <= 6.
Proof. unfold weekday. pose proof (Z.mod_pos_bound (toordinal d + 6) 7). lia. Qed.

Lemma timedelta_days_ok n :
  -999999999 <= n <= 999999999 -> timedelta_days n = Ok (mktimedelta n).
Proof.
  intros H. unfold timedelta_days.
  destruct (Z.leb_spec (-999999999) n), (Z.leb_spec n 999999999); cbn; try reflexivity; lia.
Qed.

Lemma timedelta_days_overflow n :
  ~ (-999999999 <= n <= 999999999) -> timedelta_days n = Raise OverflowError.
Proof.
  intros H. unfold timedelta_days.
  destruct (Z.leb_spec (-999999999) n), (Z.leb_spec n 999999999); cbn; try reflexivity; lia.
Qed.

End DateArith.

(** ** The chunk planner *)

Lemma run_gen_S {S A} (next : S -> gen_step S A) (n : nat) (s : S) :
  run_gen next (Datatypes.S n) s
  = match next s with
    | Yield a s' => let '(l, st) := run_gen next n s' in (a :: l, st)
    | Return => ([], Finished)
    | Throw e => ([], Raised e)
    end.
Proof. reflexivity. Qed.

Section Chunks.

Import github_prs_to_csv.

Variables (start_date end_date : date) (chunk_days : Z).
Hypothesis Hstart : valid_date start_date.
Hypothesis Hend : valid_date end_date.

Let next := daterange_chunks start_date end_date chunk_days.

(** One turn of the loop at a date not after the end, when the dates
    stay in range. *)
Lemma chunks_loop_yield step cur :
  valid_date cur -> toordinal cur <= toordinal end_date ->
  step = mktimedelta (chunk_days - 1) ->
  1 <= toordinal cur + (chunk_days - 1) <= MAXORDINAL ->
  exists e, chunks_loop end_date step cur
            = Yield (cur, e) (ChunksYielded step e)
            /\ valid_date e
            /\ toordinal e
               = Z.min (toordinal end_date) (toordinal cur + chunk_days - 1).
Proof.
  intros Hc Hle -> Hr. unfold chunks_loop.
  assert (E : date_leb cur end_date = true) by (apply date_leb_iff; assumption).
  rewrite E.
  destruct (date_add_ok cur (chunk_days - 1) Hc Hr) as (x & Hx & Hvx & Hox).
  rewrite Hx.
  destruct (date_min_spec end_date x Hend Hvx) as [Hv Ho].
  eexists. split; [reflexivity|]. split; [assumption|]. rewrite Ho. lia.
Qed.

Lemma chunks_loop_return step cur :
  valid_date cur -> toordinal end_date < toordinal cur ->
  chunks_loop end_date step cur = Return.
Proof.
  intros Hc Hlt. unfold chunks_loop.
  destruct (date_leb cur end_date) eqn:E; [|reflexivity].
  apply date_leb_iff in E; [lia | assumption | assumption].
Qed.

Lemma chunks_loop_overflow step cur :
  valid_date cur -> toordinal cur <= toordinal end_date ->
  step = mktimedelta (chunk_days - 1) ->
  ~ (1 <= toordinal cur + (chunk_days - 1) <= MAXORDINAL) ->
  chunks_loop end_date step cur = Throw OverflowError.
Proof.
  intros Hc Hle -> Hr. unfold chunks_loop.
  assert (E : date_leb cur end_date = true) by (apply date_leb_iff; assumption).
  rewrite E, date_add_overflow by assumption. reflexivity.
Qed.

(** With [chunk_days >= 1] and the dates in range, the generator resumed
    at the loop head with [cur] finishes and has produced the chunks
    from [cur] on. *)
Lemma chunks_finish (n : nat) :
  1 <= chunk_days -> toordinal end_date + chunk_days <= MAXORDINAL ->
  forall st cur,
    valid_date cur ->
    toordinal cur <= toordinal end_date + 1 ->
    (Z.to_nat (toordinal end_date + 1 - toordinal cur) <= n)%nat ->
    next st = chunks_loop end_date (mktimedelta (chunk_days - 1)) cur ->
    exists chunks,
      run_gen next (S n) st = (chunks, Finished)
      /\ chunks_from end_date chunk_days (toordinal cur) chunks.
Proof.
  intros Hc Hmax. induction n as [|n IH]; intros st cur Hv Hle Hn Hst.
  - exists []. rewrite run_gen_S, Hst.
    rewrite chunks_loop_return by (assumption || lia).
    split; [reflexivity|]. cbn. lia.
  - destruct (Z.le_gt_cases (toordinal cur) (toordinal end_date)) as [Hin|Hout].
    + pose proof (toordinal_range cur Hv) as Hrc.
      destruct (chunks_loop_yield (mktimedelta (chunk_days - 1)) cur Hv Hin
                  eq_refl ltac:(lia)) as (e & Hy & Hve & Hoe).
      destruct (date_add_ok e 1 Hve) as (cur' & Hadd & Hv' & Ho');
        [pose proof (toordinal_range e Hve); lia|].
      destruct (IH (ChunksYielded (mktimedelta (chunk_days - 1)) e) cur')
        as (rest & Hrun & Hrest); try assumption; try lia.
      { subst next. cbn. rewrite Hadd. reflexivity. }
      exists ((cur, e) :: rest). split.
      * rewrite run_gen_S, Hst, Hy, Hrun. reflexivity.
      * cbn [chunks_from]. rewrite <- Ho'.
        repeat split; try assumption; lia.
    + exists []. rewrite run_gen_S, Hst.
      rewrite chunks_loop_return by (assumption || lia).
      split; [reflexivity|]. cbn. lia.
Qed.

(** In general the generator ends, normally or with [OverflowError]. *)
Lemma chunks_terminate (n : nat) :
  1 <= chunk_days ->
  forall st cur,
    valid_date cur ->
    toordinal cur <= toordinal end_date + 1 ->
    (Z.to_nat (toordinal end_date + 1 - toordinal cur) <= n)%nat ->
    next st = chunks_loop end_date (mktimedelta (chunk_days - 1)) cur ->
    exists chunks status,
      run_gen next (S n) st = (chunks, status)
      /\ (status = Finished \/ status = Raised OverflowError).
Proof.
  intros Hc. induction n as [|n IH]; intros st cur Hv Hle Hn Hst.
  - exists [], Finished. rewrite run_gen_S, Hst.
    rewrite chunks_loop_return by (assumption || lia). auto.
  - rewrite run_gen_S, Hst.
    destruct (Z.le_gt_cases (toordinal cur) (toordinal end_date)) as [Hin|Hout];
      [|exists [], Finished; rewrite chunks_loop_return by (assumption || lia);
        auto].
    pose proof (toordinal_range cur Hv) as Hrc.
    destruct (Z.le_gt_cases (toordinal cur + (chunk_days - 1)) MAXORDINAL)
      as [Hfit|Hover];
      [|exists [], (Raised OverflowError);
        rewrite chunks_loop_overflow by (assumption || reflexivity || lia);
        auto].
    destruct (chunks_loop_yield (mktimedelta (chunk_days - 1)) cur Hv Hin
                eq_refl ltac:(lia)) as (e & Hy & Hve & Hoe).
    rewrite Hy.
    pose proof (toordinal_range e Hve) as Hre.
    destruct (Z.le_gt_cases (toordinal e + 1) MAXORDINAL) as [Hfit'|Hover'].
    + destruct (date_add_ok e 1 Hve ltac:(lia)) as (cur' & Hadd & Hv' & Ho').
      destruct (IH (ChunksYielded (mktimedelta (chunk_days - 1)) e) cur')
        as (rest & status & Hrun & Hstatus); try assumption; try lia.
      { subst next. cbn. rewrite Hadd. reflexivity. }
      exists ((cur, e) :: rest), status. rewrite Hrun. auto.
    + exists [(cur, e)], (Raised OverflowError).
      rewrite run_gen_S. subst next. cbn [daterange_chunks].
      rewrite date_add_overflow by lia. auto.
Qed.

(** The generator of [github_weekly_trends] runs in step with this
    one. *)
Let state_ok := chunks_state_ok start_date end_date chunk_days.

Lemma chunks_sim (fuel : nat) : forall s,
  state_ok s ->
  run_gen (github_weekly_trends.daterange_chunks start_date end_date
             chunk_days) fuel (trends_state s)
  = (map iso_chunk (run_gen next fuel s).1,
     trends_status (run_gen next fuel s).2).
Proof.
  induction fuel as [|fuel IH]; intros s Hs; [reflexivity|].
  rewrite !run_gen_S. subst next.
  assert (Hloop : forall step cur,
    timedelta_days (chunk_days - 1) = Ok step ->
    (github_weekly_trends.chunks_loop end_date chunk_days cur = Return
     /\ chunks_loop end_date step cur = Return)
    \/ (exists e, github_weekly_trends.chunks_loop end_date chunk_days cur
                  = Throw e /\ chunks_loop end_date step cur = Throw e)
    \/ (exists e, github_weekly_trends.chunks_loop end_date chunk_days cur
                  = Yield (iso_chunk (cur, e))
                          (github_weekly_trends.ChunksYielded e)
                  /\ chunks_loop end_date step cur
                     = Yield (cur, e) (ChunksYielded step e))).
  { intros step cur Hstep.
    unfold github_weekly_trends.chunks_loop, chunks_loop. rewrite Hstep.
    cbn [rbind]. destruct (date_leb cur end_date); [|auto].
    destruct (date_add cur step) as [x|e|]; [|eauto|eauto].
    right. right. exists (date_min end_date x).
    rewrite (date_min_comm x end_date). auto. }
  assert (Hcont : forall step cur,
    timedelta_days (chunk_days - 1) = Ok step ->
    match github_weekly_trends.chunks_loop end_date chunk_days cur with
    | Yield a s' =>
        let '(l, st) :=
          run_gen (github_weekly_trends.daterange_chunks start_date end_date
                     chunk_days) fuel s' in (a :: l, st)
    | Return => ([], Finished)
    | Throw e => ([], Raised e)
    end
    = (map iso_chunk
         (match chunks_loop end_date step cur with
          | Yield a s' =>
              let '(l, st) :=
                run_gen (daterange_chunks start_date end_date chunk_days)
                        fuel s' in (a :: l, st)
          | Return => ([], Finished)
          | Throw e => ([], Raised e)
          end).1,
       trends_status
         (match chunks_loop end_date step cur with
          | Yield a s' =>
              let '(l, st) :=
                run_gen (daterange_chunks start_date end_date chunk_days)
                        fuel s' in (a :: l, st)
          | Return => ([], Finished)
          | Throw e => ([], Raised e)
          end).2)).
  { intros step cur Hstep.
    destruct (Hloop step cur Hstep) as [[-> ->]|[(e & -> & ->)|(e & -> & ->)]];
      try reflexivity.
    change (github_weekly_trends.ChunksYielded e)
      with (trends_state (ChunksYielded step e)).
    rewrite (IH (ChunksYielded step e)) by exact Hstep.
    destruct (run_gen (daterange_chunks start_date end_date chunk_days) fuel
                (ChunksYielded step e)) as [l st]. reflexivity. }
  destruct s as [|step e]; subst state_ok; cbn [trends_state chunks_state_ok] in *.
  - cbn [github_weekly_trends.daterange_chunks daterange_chunks].
    destruct (timedelta_days (chunk_days - 1)) as [step|e|] eqn:Htd.
    + apply Hcont. reflexivity.
    + unfold github_weekly_trends.chunks_loop. rewrite Hs, Htd. reflexivity.
    + unfold github_weekly_trends.chunks_loop. rewrite Hs, Htd. reflexivity.
  - cbn [github_weekly_trends.daterange_chunks daterange_chunks].
    destruct (date_add e (mktimedelta 1)) as [cur|ex|]; try reflexivity.
    apply Hcont. assumption.
Qed.

(** With [chunk_days <= 0] the loop variable stays at or before the end
    date and the generator never finishes. *)
Let stuck := chunks_stuck start_date end_date chunk_days.

Lemma chunks_never_finish (fuel : nat) :
  chunk_days <= 0 ->
  forall st chunks status,
    stuck st ->
    run_gen next fuel st = (chunks, status) ->
    status <> Finished
    /\ Forall (fun ch => date_leb ch.1 end_date = true) chunks.
Proof.
  intros Hc. induction fuel as [|fuel IH]; intros st chunks status Hst Hrun.
  - cbn in Hrun. injection Hrun as <- <-. split; [discriminate|constructor].
  - rewrite run_gen_S in Hrun.
    assert (Hloop : forall cur,
      valid_date cur -> toordinal cur <= toordinal end_date ->
      next st = chunks_loop end_date (mktimedelta (chunk_days - 1)) cur ->
      status <> Finished
      /\ Forall (fun ch => date_leb ch.1 end_date = true) chunks).
    { intros cur Hv Hle Hnext. rewrite Hnext in Hrun.
      pose proof (toordinal_range cur Hv) as Hrc.
      destruct (Z.le_gt_cases 1 (toordinal cur + (chunk_days - 1)))
        as [Hfit|Hover].
      - destruct (chunks_loop_yield (mktimedelta (chunk_days - 1)) cur Hv Hle
                    eq_refl ltac:(lia)) as (e & Hy & Hve & Hoe).
        rewrite Hy in Hrun.
        destruct (run_gen next fuel
                    (ChunksYielded (mktimedelta (chunk_days - 1)) e))
          as [l st'] eqn:Hrest.
        injection Hrun as <- <-.
        assert (Hinv : stuck
                          (ChunksYielded (mktimedelta (chunk_days - 1)) e))
          by (cbn; repeat split; try assumption; lia).
        destruct (IH _ _ _ Hinv Hrest) as [Hnf Hall].
        split; [assumption|]. constructor; [|assumption].
        cbn. apply date_leb_iff; assumption.
      - rewrite chunks_loop_overflow in Hrun
          by (assumption || reflexivity || lia).
        injection Hrun as <- <-. split; [discriminate|constructor]. }
    destruct st as [|step e]; subst stuck; cbn [chunks_stuck] in Hst.
    + subst next. cbn [daterange_chunks] in *.
      destruct (Z.le_gt_cases (-999999999) (chunk_days - 1)) as [Hfit|Hover].
      * apply (Hloop start_date); try assumption.
        rewrite timedelta_days_ok by lia. reflexivity.
      * rewrite timedelta_days_overflow in Hrun by lia.
        injection Hrun as <- <-. split; [discriminate|constructor].
    + destruct Hst as (-> & Hve & Hlt).
      pose proof (toordinal_range e Hve) as Hre.
      pose proof (toordinal_range end_date Hend) as Hrend.
      destruct (date_add_ok e 1 Hve ltac:(lia)) as (cur & Hadd & Hv & Ho).
      apply (Hloop cur); try assumption; try lia.
      subst next. cbn [daterange_chunks]. rewrite Hadd. reflexivity.
Qed.

(** With [chunk_days = 0] every resumption yields the same chunk. *)
Lemma chunks_zero_forever (fuel : nat) :
  chunk_days = 0 -> toordinal start_date <= toordinal end_date ->
  1 < toordinal start_date ->
  let prev := ord2ymd (toordinal start_date - 1) in
  forall st,
    st = ChunksStart \/ st = ChunksYielded (mktimedelta (-1)) prev ->
    exists st', run_gen next fuel st
                = (replicate fuel (start_date, prev), Suspended st').
Proof.
  intros Hc Hle Hgt prev. 
  pose proof (toordinal_range start_date Hstart) as Hrs.
  destruct (ord2ymd_spec (toordinal start_date - 1) ltac:(lia)) as [Hvp Hop].
  fold prev in Hvp, Hop.
  assert (Hloop : chunks_loop end_date (mktimedelta (-1)) start_date
                  = Yield (start_date, prev)
                          (ChunksYielded (mktimedelta (-1)) prev)).
  { destruct (chunks_loop_yield (mktimedelta (-1)) start_date Hstart Hle
                ltac:(subst; reflexivity) ltac:(lia)) as (e & Hy & Hve & Hoe).
    assert (e = prev) by (apply toordinal_inj; try assumption; lia).
    subst e. assumption. }
  induction fuel as [|fuel IH]; intros st Hst; [eexists; reflexivity|].
  rewrite run_gen_S.
  assert (Hnext : next st = Yield (start_date, prev)
                              (ChunksYielded (mktimedelta (-1)) prev)).
  { subst next. destruct Hst as [->| ->]; cbn [daterange_chunks].
    - subst chunk_days. cbn. assumption.
    - destruct (date_add_ok prev 1 Hvp ltac:(lia)) as (cur & Hadd & Hv & Ho).
      rewrite Hadd.
      assert (cur = start_date) by (apply toordinal_inj; try assumption; lia).
      subst cur. assumption. }
  rewrite Hnext. destruct (IH _ (or_intror eq_refl)) as [st' ->].
  exists st'. reflexivity.
Qed.

(** With [chunk_days < 0] the loop variable moves back until the date
    arithmetic overflows. *)
Lemma chunks_negative_overflow (n : nat) :
  chunk_days < 0 ->
  forall st cur,
    valid_date cur -> toordinal cur <= toordinal end_date ->
    toordinal cur <= Z.of_nat n ->
    next st = chunks_loop end_date (mktimedelta (chunk_days - 1)) cur ->
    exists fuel chunks,
      run_gen next fuel st = (chunks, Raised OverflowError).
Proof.
  intros Hc. induction n as [|n IH]; intros st cur Hv Hle Hn Hnext;
    pose proof (toordinal_range cur Hv) as Hrc; [lia|].
  destruct (Z.le_gt_cases 1 (toordinal cur + (chunk_days - 1)))
    as [Hfit|Hover].
  - destruct (chunks_loop_yield (mktimedelta (chunk_days - 1)) cur Hv Hle
                eq_refl ltac:(lia)) as (e & Hy & Hve & Hoe).
    destruct (date_add_ok e 1 Hve ltac:(lia)) as (cur' & Hadd & Hv' & Ho').
    destruct (IH (ChunksYielded (mktimedelta (chunk_days - 1)) e) cur')
      as (fuel & rest & Hrun); try assumption; try lia.
    { subst next. cbn [daterange_chunks]. rewrite Hadd. reflexivity. }
    exists (S fuel), ((cur, e) :: rest).
    rewrite run_gen_S, Hnext, Hy, Hrun. reflexivity.
  - exists 1%nat, []. rewrite run_gen_S, Hnext.
    rewrite chunks_loop_overflow by (assumption || reflexivity || lia).
    reflexivity.
Qed.

End Chunks.

(** What [chunks_from] says about the single chunks. *)
Section ChunksFrom.

Variables (end_date : date) (chunk_days : Z).
Hypothesis Hc : 1 <= chunk_days.

Lemma chunks_from_days chunks : forall o,
  o <= toordinal end_date + 1 ->
  chunks_from end_date chunk_days o chunks ->
  concat (map days_of chunks) = seqZ o (toordinal end_date + 1 - o).
Proof.
  induction chunks as [|[s e] rest IH]; intros o Ho H; cbn in H.
  - subst o. cbn. rewrite seqZ_nil by lia. reflexivity.
  - destruct H as (Hs & He & Hso & Heo & Hle & Hrest).
    cbn [map concat]. rewrite (IH (toordinal e + 1)) by (assumption || lia).
    unfold days_of. cbn [fst snd]. rewrite Hso.
    replace (toordinal end_date + 1 - o)
      with ((toordinal e - o + 1) + (toordinal end_date + 1 - (toordinal e + 1)))
      by lia.
    rewrite (seqZ_app o (toordinal e - o + 1)
               (toordinal end_date + 1 - (toordinal e + 1))) by lia.
    f_equal. f_equal. lia.
Qed.

Lemma chunks_from_lookup chunks : forall o i s e,
  chunks_from end_date chunk_days o chunks ->
  chunks !! i = Some (s, e) ->
  valid_date s /\ valid_date e /\ toordinal s <= toordinal e
  /\ toordinal e = Z.min (toordinal end_date) (toordinal s + chunk_days - 1)
  /\ toordinal e - toordinal s + 1 <= chunk_days.
Proof.
  induction chunks as [|[s0 e0] rest IH]; intros o i s e H Hi; [discriminate|].
  cbn in H. destruct H as (Hs & He & Hso & Heo & Hle & Hrest).
  destruct i as [|i]; cbn in Hi.
  - injection Hi as -> ->. repeat split; try assumption; lia.
  - eapply IH; eassumption.
Qed.

Lemma chunks_from_adjacent chunks : forall o i s e s' e',
  chunks_from end_date chunk_days o chunks ->
  chunks !! i = Some (s, e) -> chunks !! S i = Some (s', e') ->
  toordinal s' = toordinal e + 1.
Proof.
  induction chunks as [|[s0 e0] rest IH]; intros o i s e s' e' H Hi Hi';
    [discriminate|].
  cbn in H. destruct H as (Hs & He & Hso & Heo & Hle & Hrest).
  destruct i as [|i]; cbn in Hi, Hi'.
  - injection Hi as -> ->. destruct rest as [|[s1 e1] rest]; [discriminate|].
    cbn in Hi'. injection Hi' as -> ->. cbn in Hrest. tauto.
  - eapply IH; eassumption.
Qed.

Lemma chunks_from_head chunks o :
  chunks_from end_date chunk_days o chunks -> o <= toordinal end_date ->
  exists s, fst <$> head chunks = Some s /\ valid_date s /\ toordinal s = o.
Proof.
  destruct chunks as [|[s e] rest]; cbn; intros H Ho; [lia|].
  exists s. tauto.
Qed.

Lemma chunks_from_last chunks : forall o,
  chunks_from end_date chunk_days o chunks -> o <= toordinal end_date ->
  exists e, snd <$> last chunks = Some e /\ valid_date e
            /\ toordinal e = toordinal end_date.
Proof.
  induction chunks as [|[s e] rest IH]; intros o H Ho; cbn in H; [lia|].
  destruct H as (Hs & He & Hso & Heo & Hle & Hrest).
  destruct rest as [|c rest].
  - cbn in Hrest. exists e. cbn. split; [reflexivity|]. split; [assumption|lia].
  - rewrite last_cons_cons. apply (IH (toordinal e + 1)); [assumption|].
    destruct c as [s1 e1]. cbn in Hrest. lia.
Qed.

End ChunksFrom.

(** ** C1 and C10: the chunk planner *)

(** C1, as stated, fails where date arithmetic leaves the supported
    range: for the window 2024-01-01 .. 2024-01-21 and
    [chunk_days = 3000000] both planners raise [OverflowError] at their
    first resumption and yield no chunk at all. *)
Lemma C1_counterexample_overflow :
  let start_date := mkdate 2024 1 1 in
  let end_date := mkdate 2024 1 21 in
  let chunk_days := 3000000 in
  valid_date start_date /\ valid_date end_date
  /\ date_leb start_date end_date = true /\ 1 <= chunk_days
  /\ forall fuel,
       run_gen (github_prs_to_csv.daterange_chunks start_date end_date
                  chunk_days) (S fuel) github_prs_to_csv.ChunksStart
       = ([], Raised OverflowError)
       /\ run_gen (github_weekly_trends.daterange_chunks start_date end_date
                     chunk_days) (S fuel) github_weekly_trends.ChunksStart
          = ([], Raised OverflowError).
Proof.
  cbv zeta. repeat split; try reflexivity; try lia.
Qed.

(** C1 (amended): for every window with [start <= end] and every
    [chunk_days >= 1] such that [end + chunk_days] days is still a date
    (at most 9999-12-31), the chunk planner of both scripts finishes and
    its chunks, in the order yielded, partition the window: the first
    starts at [start], each ends at [min(end, start of the chunk +
    chunk_days - 1)], the next starts the day after, the last ends at
    [end], each spans at most [chunk_days] days, and the days of the
    chunks in sequence are exactly the days of the window. *)
Theorem C1_chunks_partition_window (start_date end_date : date)
    (chunk_days : Z) :
  valid_date start_date -> valid_date end_date ->
  date_leb start_date end_date = true ->
  1 <= chunk_days ->
  toordinal end_date + chunk_days <= MAXORDINAL ->
  exists fuel chunks,
    run_gen (github_prs_to_csv.daterange_chunks start_date end_date
               chunk_days) fuel github_prs_to_csv.ChunksStart
    = (chunks, Finished)
    /\ run_gen (github_weekly_trends.daterange_chunks start_date end_date
                  chunk_days) fuel github_weekly_trends.ChunksStart
       = (map iso_chunk chunks, Finished)
    /\ fst <$> head chunks = Some start_date
    /\ snd <$> last chunks = Some end_date
    /\ (forall i s e,
          chunks !! i = Some (s, e) ->
          valid_date s /\ valid_date e /\ toordinal s <= toordinal e
          /\ toordinal e
             = Z.min (toordinal end_date) (toordinal s + chunk_days - 1)
          /\ toordinal e - toordinal s + 1 <= chunk_days)
    /\ (forall i s e s' e',
          chunks !! i = Some (s, e) -> chunks !! S i = Some (s', e') ->
          toordinal s' = toordinal e + 1)
    /\ concat (map days_of chunks) = days_of (start_date, end_date).
Proof.
  intros Hs He Hle Hc Hmax.
  apply date_leb_iff in Hle as Hle'; try assumption.
  pose proof (toordinal_range start_date Hs) as Hrs.
  set (n := Z.to_nat (toordinal end_date + 1 - toordinal start_date)).
  destruct (chunks_finish start_date end_date chunk_days He n Hc Hmax
              github_prs_to_csv.ChunksStart start_date)
    as (chunks & Hrun & Hfrom); try assumption; try lia.
  { cbn. rewrite timedelta_days_ok by (unfold MAXORDINAL in *; lia).
    reflexivity. }
  exists (S n), chunks. split; [exact Hrun|]. split.
  { pose proof (chunks_sim start_date end_date chunk_days (S n)
                  github_prs_to_csv.ChunksStart Hle) as Hsim.
    cbn [trends_state] in Hsim. rewrite Hsim, Hrun. reflexivity. }
  split.
  { destruct (chunks_from_head _ _ _ _ Hfrom Hle') as (s & Hhd & Hvs & Hos).
    rewrite Hhd. f_equal. apply toordinal_inj; assumption. }
  split.
  { destruct (chunks_from_last end_date chunk_days chunks _ Hfrom Hle')
      as (e & Hl & Hve & Hoe).
    rewrite Hl. f_equal. apply toordinal_inj; assumption. }
  split; [intros i s e; apply (chunks_from_lookup _ _ Hc _ _ _ _ _ Hfrom)|].
  split; [intros i s e s' e'; apply (chunks_from_adjacent _ _ _ _ _ _ _ _ _ Hfrom)|].
  rewrite (chunks_from_days end_date chunk_days Hc chunks
             (toordinal start_date)) by (assumption || lia).
  unfold days_of. cbn [fst snd]. f_equal. lia.
Qed.

(** The window 2024-01-01 .. 2024-01-21 with chunks of 30 days. *)
Lemma C1_chunks_partition_window_witness :
  let start_date := mkdate 2024 1 1 in
  let end_date := mkdate 2024 1 21 in
  let chunk_days := 30 in
  exists fuel chunks,
    run_gen (github_prs_to_csv.daterange_chunks start_date end_date
               chunk_days) fuel github_prs_to_csv.ChunksStart
    = (chunks, Finished)
    /\ run_gen (github_weekly_trends.daterange_chunks start_date end_date
                  chunk_days) fuel github_weekly_trends.ChunksStart
       = (map iso_chunk chunks, Finished)
    /\ fst <$> head chunks = Some start_date
    /\ snd <$> last chunks = Some end_date
    /\ (forall i s e,
          chunks !! i = Some (s, e) ->
          valid_date s /\ valid_date e /\ toordinal s <= toordinal e
          /\ toordinal e
             = Z.min (toordinal end_date) (toordinal s + chunk_days - 1)
          /\ toordinal e - toordinal s + 1 <= chunk_days)
    /\ (forall i s e s' e',
          chunks !! i = Some (s, e) -> chunks !! S i = Some (s', e') ->
          toordinal s' = toordinal e + 1)
    /\ concat (map days_of chunks) = days_of (start_date, end_date).
Proof.
  apply (C1_chunks_partition_window (mkdate 2024 1 1) (mkdate 2024 1 21) 30);
    try reflexivity; vm_compute; discriminate.
Defined.

(** C10, as stated, fails for negative chunk sizes, again because dates
    are bounded: for the window 2024-01-01 .. 2024-01-01 and
    [chunk_days = -1000000] both planners raise [OverflowError] at their
    first resumption; they do not yield chunks forever. *)
Lemma C10_counterexample_negative :
  let start_date := mkdate 2024 1 1 in
  let end_date := mkdate 2024 1 1 in
  let chunk_days := -1000000 in
  valid_date start_date /\ valid_date end_date
  /\ date_leb start_date end_date = true /\ chunk_days <= 0
  /\ forall fuel,
       run_gen (github_prs_to_csv.daterange_chunks start_date end_date
                  chunk_days) (S fuel) github_prs_to_csv.ChunksStart
       = ([], Raised OverflowError)
       /\ run_gen (github_weekly_trends.daterange_chunks start_date end_date
                     chunk_days) (S fuel) github_weekly_trends.ChunksStart
          = ([], Raised OverflowError).
Proof.
  cbv zeta. repeat split; try reflexivity; try lia.
Qed.

(** C10 (amended): for every window with [start <= end], the planner of
    [github_weekly_trends] runs in step with that of [github_prs_to_csv]
    (same chunks, as ISO strings, same end), and
    - with [chunk_days >= 1] the generator ends after finitely many
      chunks (normally, or with [OverflowError] when a date leaves the
      supported range);
    - with [chunk_days <= 0] it never finishes normally and the start of
      every chunk is at or before the end date;
    - with [chunk_days = 0] and a start after 0001-01-01 it yields the
      same chunk at every resumption, forever;
    - with [chunk_days < 0] it ends with [OverflowError]. *)
Theorem C10_chunks_termination (start_date end_date : date) (chunk_days : Z) :
  valid_date start_date -> valid_date end_date ->
  date_leb start_date end_date = true ->
  let next :=
    github_prs_to_csv.daterange_chunks start_date end_date chunk_days in
  let next' :=
    github_weekly_trends.daterange_chunks start_date end_date chunk_days in
  (forall fuel,
     run_gen next' fuel github_weekly_trends.ChunksStart
     = (map iso_chunk (run_gen next fuel github_prs_to_csv.ChunksStart).1,
        trends_status (run_gen next fuel github_prs_to_csv.ChunksStart).2))
  /\ (1 <= chunk_days ->
      exists fuel chunks status,
        run_gen next fuel github_prs_to_csv.ChunksStart = (chunks, status)
        /\ (status = Finished \/ status = Raised OverflowError))
  /\ (chunk_days <= 0 ->
      forall fuel chunks status,
        run_gen next fuel github_prs_to_csv.ChunksStart = (chunks, status) ->
        status <> Finished
        /\ Forall (fun ch => date_leb ch.1 end_date = true) chunks)
  /\ (chunk_days = 0 -> 1 < toordinal start_date ->
      forall fuel, exists st,
        run_gen next fuel github_prs_to_csv.ChunksStart
        = (replicate fuel
             (start_date, ord2ymd (toordinal start_date - 1)),
           Suspended st))
  /\ (chunk_days < 0 ->
      exists fuel chunks,
        run_gen next fuel github_prs_to_csv.ChunksStart
        = (chunks, Raised OverflowError)).
Proof.
  intros Hs He Hle next next'.
  apply date_leb_iff in Hle as Hle'; try assumption.
  pose proof (toordinal_range start_date Hs) as Hrs.
  split; [|split; [|split; [|split]]].
  - intros fuel.
    apply (chunks_sim start_date end_date chunk_days fuel
             github_prs_to_csv.ChunksStart Hle).
  - intros Hc.
    destruct (Z.le_gt_cases (chunk_days - 1) 999999999) as [Hfit|Hover].
    + set (n := Z.to_nat (toordinal end_date + 1 - toordinal start_date)).
      destruct (chunks_terminate start_date end_date chunk_days He n Hc
                  github_prs_to_csv.ChunksStart start_date)
        as (chunks & status & Hrun & Hst); try assumption; try lia.
      { cbn. rewrite timedelta_days_ok by lia. reflexivity. }
      exists (S n), chunks, status. auto.
    + exists 1%nat, [], (Raised OverflowError). subst next.
      rewrite run_gen_S. cbn [github_prs_to_csv.daterange_chunks].
      rewrite timedelta_days_overflow by lia. auto.
  - intros Hc fuel chunks status Hrun.
    eapply (chunks_never_finish start_date end_date chunk_days);
      [exact Hs | exact He | exact Hc | | exact Hrun]. exact Hle'.
  - intros Hc Hgt fuel.
    apply (chunks_zero_forever start_date end_date chunk_days Hs He fuel Hc
             Hle' Hgt). left. reflexivity.
  - intros Hc.
    destruct (Z.le_gt_cases (-999999999) (chunk_days - 1)) as [Hfit|Hover].
    + apply (chunks_negative_overflow start_date end_date chunk_days He
               (Z.to_nat (toordinal start_date)) Hc
               github_prs_to_csv.ChunksStart start_date);
        try assumption; try lia.
      cbn. rewrite timedelta_days_ok by lia. reflexivity.
    + exists 1%nat, []. subst next.
      rewrite run_gen_S. cbn [github_prs_to_csv.daterange_chunks].
      rewrite timedelta_days_overflow by lia. reflexivity.
Qed.

(** Weekly chunks of February 2024. *)
Lemma C10_chunks_termination_witness :
  exists fuel chunks status,
    run_gen (github_prs_to_csv.daterange_chunks (mkdate 2024 2 1)
               (mkdate 2024 2 29) 7) fuel github_prs_to_csv.ChunksStart
    = (chunks, status)
    /\ (status = Finished \/ status = Raised OverflowError).
Proof.
  destruct (C10_chunks_termination (mkdate 2024 2 1) (mkdate 2024 2 29) 7)
    as (_ & H & _); try reflexivity.
  apply H. discriminate.
Defined.

(** ** Rendering and parsing timestamps *)

Section Timestamps.

(** Case analysis on an integer of a small range. *)
Lemma small_range_ind (P : Z -> Prop) (lo : Z) (k : nat) :
  (forall i, (i < k)%nat -> P (lo + Z.of_nat i)) ->
  forall n, lo <= n < lo + Z.of_nat k -> P n.
Proof.
  intros H n Hn. replace n with (lo + Z.of_nat (Z.to_nat (n - lo))) by lia.
  apply H. lia.
Qed.

Lemma datetime_new_ok y m d hh mi ss :
  valid_datetime (mkdatetime (mkdate y m d) hh mi ss) ->
  datetime_new y m d hh mi ss = Ok (mkdatetime (mkdate y m d) hh mi ss).
Proof. intros H. unfold datetime_new. rewrite H. reflexivity. Qed.

Lemma valid_datetime_iff t :
  valid_datetime t <->
  valid_date (dt_date t) /\ 0 <= hour t <= 23 /\ 0 <= minute t <= 59
  /\ 0 <= second t <= 59.
Proof.
  unfold valid_datetime, valid_datetimeb, valid_date.
  rewrite !andb_true_iff, !Z.leb_le. tauto.
Qed.

Lemma app_String c s t : String c s +:+ t = String c (s +:+ t).
Proof. reflexivity. Qed.

Lemma app_empty t : EmptyString +:+ t = t.
Proof. reflexivity. Qed.

Lemma string_app_assoc (a b c : string) : (a +:+ b) +:+ c = a +:+ (b +:+ c).
Proof.
  induction a as [|x a IH]; [reflexivity|].
  rewrite !app_String, IH. reflexivity.
Qed.

Lemma lit_app {R} lo up c rest (k : string -> option R) :
  Ascii.eqb c lo || Ascii.eqb c up = true ->
  lit lo up (String c EmptyString +:+ rest) k = k rest.
Proof. intros H. rewrite app_String, app_empty. cbn [lit]. rewrite H. reflexivity. Qed.

Lemma int_of_zfill2 n : 0 <= n <= 99 -> int_of 0 (zfill2 n) = n.
Proof.
  intros H. apply (small_range_ind (fun n => int_of 0 (zfill2 n) = n) 0 100);
    [|lia].
  intros i Hi. do 100 (destruct i as [|i]; [reflexivity|]). lia.
Qed.

Lemma digit_char_digit n :
  0 <= n <= 9 ->
  any_digit (digit_char n) = true /\ digit_val (digit_char n) = n.
Proof.
  intros H.
  apply (small_range_ind
           (fun n => any_digit (digit_char n) = true
                     /\ digit_val (digit_char n) = n) 0 10); [|lia].
  intros i Hi. do 10 (destruct i as [|i]; [split; reflexivity|]). lia.
Qed.

Lemma year_field y rest :
  0 <= y <= 9999 ->
  match_seq [any_digit; any_digit; any_digit; any_digit] (zfill4 y +:+ rest)
  = Some (zfill4 y, rest)
  /\ int_of 0 (zfill4 y) = y.
Proof.
  intros H. unfold zfill4, zfill2.
  destruct (digit_char_digit (y / 1000 mod 10)) as [A1 V1];
    [Z.div_mod_to_equations; lia|].
  destruct (digit_char_digit (y / 100 mod 10)) as [A2 V2];
    [Z.div_mod_to_equations; lia|].
  destruct (digit_char_digit (y / 10 mod 10)) as [A3 V3];
    [Z.div_mod_to_equations; lia|].
  destruct (digit_char_digit (y mod 10)) as [A4 V4];
    [Z.div_mod_to_equations; lia|].
  rewrite !app_String, app_empty. cbn [match_seq int_of].
  rewrite A1, A2, A3, A4.
  split; [reflexivity|]. rewrite V1, V2, V3, V4.
  Z.div_mod_to_equations. lia.
Qed.

(** Each directive reads back the zero-filled field. *)
Lemma first_alt_Y {R} y rest (k : string -> string -> option R) :
  0 <= y <= 9999 ->
  first_alt re_Y (zfill4 y +:+ rest) k = k (zfill4 y) rest.
Proof.
  intros H. unfold re_Y. cbn [first_alt].
  destruct (year_field y rest H) as [-> _].
  destruct (k (zfill4 y) rest); reflexivity.
Qed.

Lemma first_alt_m {R} m rest (k : string -> string -> option R) r :
  1 <= m <= 12 -> k (zfill2 m) rest = Some r ->
  first_alt re_m (zfill2 m +:+ rest) k = Some r.
Proof.
  intros H. revert rest k r.
  apply (small_range_ind
           (fun m => forall rest k r, k (zfill2 m) rest = Some r ->
                     first_alt re_m (zfill2 m +:+ rest) k = Some r) 1 12);
    [|lia].
  intros i Hi rest k r Hk.
  do 12 (destruct i as [|i];
         [vm_compute in Hk |- *; rewrite Hk; reflexivity|]). lia.
Qed.

Lemma first_alt_d {R} d rest (k : string -> string -> option R) r :
  1 <= d <= 31 -> k (zfill2 d) rest = Some r ->
  first_alt re_d (zfill2 d +:+ rest) k = Some r.
Proof.
  intros H. revert rest k r.
  apply (small_range_ind
           (fun d => forall rest k r, k (zfill2 d) rest = Some r ->
                     first_alt re_d (zfill2 d +:+ rest) k = Some r) 1 31);
    [|lia].
  intros i Hi rest k r Hk.
  do 31 (destruct i as [|i];
         [vm_compute in Hk |- *; rewrite Hk; reflexivity|]). lia.
Qed.

Lemma first_alt_H {R} h rest (k : string -> string -> option R) r :
  0 <= h <= 23 -> k (zfill2 h) rest = Some r ->
  first_alt re_H (zfill2 h +:+ rest) k = Some r.
Proof.
  intros H. revert rest k r.
  apply (small_range_ind
           (fun h => forall rest k r, k (zfill2 h) rest = Some r ->
                     first_alt re_H (zfill2 h +:+ rest) k = Some r) 0 24);
    [|lia].
  intros i Hi rest k r Hk.
  do 24 (destruct i as [|i];
         [vm_compute in Hk |- *; rewrite Hk; reflexivity|]). lia.
Qed.

Lemma first_alt_M {R} n rest (k : string -> string -> option R) r :
  0 <= n <= 59 -> k (zfill2 n) rest = Some r ->
  first_alt re_M (zfill2 n +:+ rest) k = Some r.
Proof.
  intros H. revert rest k r.
  apply (small_range_ind
           (fun n => forall rest k r, k (zfill2 n) rest = Some r ->
                     first_alt re_M (zfill2 n +:+ rest) k = Some r) 0 60);
    [|lia].
  intros i Hi rest k r Hk.
  do 60 (destruct i as [|i];
         [vm_compute in Hk |- *; rewrite Hk; reflexivity|]). lia.
Qed.

Lemma first_alt_S {R} n rest (k : string -> string -> option R) r :
  0 <= n <= 59 -> k (zfill2 n) rest = Some r ->
  first_alt re_S (zfill2 n +:+ rest) k = Some r.
Proof.
  intros H. revert rest k r.
  apply (small_range_ind
           (fun n => forall rest k r, k (zfill2 n) rest = Some r ->
                     first_alt re_S (zfill2 n +:+ rest) k = Some r) 0 60);
    [|lia].
  intros i Hi rest k r Hk.
  do 60 (destruct i as [|i];
         [vm_compute in Hk |- *; rewrite Hk; reflexivity|]). lia.
Qed.

Lemma days_in_month_le y m : days_in_month y m <= 31.
Proof.
  unfold days_in_month. destruct ((m =? 2) && is_leap y); [lia|].
  unfold DAYS_IN_MONTH.
  repeat match goal with
         | |- context [match ?x with _ => _ end] => destruct x
         end; lia.
Qed.

(** From the year 1000 on [%Y] writes four digits. *)
Lemma strftime_Y_wide y : 1000 <= y -> strftime_Y y = zfill4 y.
Proof.
  intros H. unfold strftime_Y.
  destruct (Z.ltb_spec y 10); [lia|]. destruct (Z.ltb_spec y 100); [lia|].
  destruct (Z.ltb_spec y 1000); [lia|]. reflexivity.
Qed.

Lemma strftime_ymd_wide d : 1000 <= year d -> strftime_ymd d = isoformat d.
Proof.
  intros H. unfold strftime_ymd, isoformat. rewrite strftime_Y_wide by exact H.
  reflexivity.
Qed.

(** Before the year 1000 it writes fewer, and the [\d\d\d\d] of [%Y]
    does not match the text. *)
Lemma year_field_short y rest :
  0 <= y < 1000 ->
  match_seq [any_digit; any_digit; any_digit; any_digit]
    (strftime_Y y +:+ String "-" rest) = None.
Proof.
  intros H. unfold strftime_Y, zfill2.
  destruct (digit_char_digit (y / 100 mod 10)) as [A2 _];
    [Z.div_mod_to_equations; lia|].
  destruct (digit_char_digit (y / 10 mod 10)) as [A3 _];
    [Z.div_mod_to_equations; lia|].
  destruct (digit_char_digit (y mod 10)) as [A4 _];
    [Z.div_mod_to_equations; lia|].
  destruct (Z.ltb_spec y 10); [|destruct (Z.ltb_spec y 100);
    [|destruct (Z.ltb_spec y 1000); [|lia]]];
    rewrite ?app_String, app_empty; cbn [match_seq];
    rewrite ?A2, ?A3, ?A4; reflexivity.
Qed.

Lemma strptime_strftime_short t :
  0 <= year (dt_date t) < 1000 ->
  strptime_iso_z (strftime_iso_z t) = Raise ValueError.
Proof.
  intros H. unfold strptime_iso_z, match_iso_z, strftime_iso_z, strftime_ymd.
  rewrite !string_app_assoc. change ("-" +:+ ?s) with (String "-" s).
  unfold re_Y. cbn [first_alt].
  rewrite (year_field_short _ _ H). reflexivity.
Qed.

(** Parsing reads back what [strftime] wrote for a year of four
    digits. *)
Lemma strptime_strftime t :
  valid_datetime t -> 1000 <= year (dt_date t) ->
  strptime_iso_z (strftime_iso_z t) = Ok t.
Proof.
  intros Hv Hwide. apply valid_datetime_iff in Hv as Hv'.
  destruct Hv' as (Hd & Hh & Hm & Hs).
  apply valid_date_iff in Hd as (Hy & Hmo & Hda).
  pose proof (days_in_month_le (year (dt_date t)) (month (dt_date t))) as Hdim.
  destruct t as [[y m d] hh mi ss]. cbn [dt_date year month day hour minute second] in *.
  unfold strptime_iso_z.
  assert (E : match_iso_z (strftime_iso_z (mkdatetime (mkdate y m d) hh mi ss))
              = Some (y, m, d, hh, mi, ss)).
  { unfold match_iso_z, strftime_iso_z, strftime_ymd.
    cbn [dt_date year month day hour minute second].
    rewrite strftime_Y_wide by exact Hwide.
    rewrite !string_app_assoc.
    rewrite first_alt_Y by lia. rewrite lit_app by reflexivity.
    apply first_alt_m; [lia|]. rewrite lit_app by reflexivity.
    apply first_alt_d; [lia|]. rewrite lit_app by reflexivity.
    apply first_alt_H; [lia|]. rewrite lit_app by reflexivity.
    apply first_alt_M; [lia|]. rewrite lit_app by reflexivity.
    apply first_alt_S; [lia|]. cbn [lit at_end].
    change (Ascii.eqb "Z" "z" || Ascii.eqb "Z" "Z") with true. cbv iota.
    destruct (year_field y EmptyString ltac:(lia)) as [_ ->].
    rewrite !int_of_zfill2 by lia. reflexivity. }
  rewrite E. apply datetime_new_ok. assumption.
Qed.

End Timestamps.

(** ** C9: bucketing *)

Section Buckets.

Lemma date_eta d : mkdate (year d) (month d) (day d) = d.
Proof. destruct d; reflexivity. Qed.

(** The Monday on or before a date is a date, since 0001-01-01 is a
    Monday. *)
Lemma monday_of d :
  valid_date d ->
  exists m,
    (td <-r timedelta_days (weekday d) ;; date_sub d td) = Ok m
    /\ valid_date m /\ toordinal m = toordinal d - weekday d
    /\ weekday m = 0.
Proof.
  intros Hv. pose proof (weekday_range d) as Hw.
  pose proof (toordinal_range d Hv) as Hr.
  rewrite timedelta_days_ok by lia. cbn [rbind]. unfold date_sub.
  cbn [td_days].
  assert (Hm : 1 <= toordinal d + - weekday d <= MAXORDINAL).
  { unfold weekday in *. Z.div_mod_to_equations. lia. }
  destruct (date_add_ok d (- weekday d) Hv Hm) as (m & Hadd & Hvm & Hom).
  exists m. rewrite Hadd. repeat split; try assumption; try lia.
  unfold weekday in *. rewrite Hom. Z.div_mod_to_equations. lia.
Qed.

Lemma monday_fixed m :
  valid_date m -> weekday m = 0 ->
  (td <-r timedelta_days (weekday m) ;; date_sub m td) = Ok m.
Proof.
  intros Hv Hw. rewrite Hw. cbn. unfold date_sub, date_add. cbn [td_days].
  pose proof (toordinal_range m Hv) as Hr.
  replace (toordinal m + - 0) with (toordinal m) by lia.
  rewrite ord2ymd_toordinal by assumption.
  destruct (Z.ltb_spec 0 (toordinal m)), (Z.leb_spec (toordinal m) MAXORDINAL);
    cbn; try reflexivity; lia.
Qed.

Lemma midnight_valid d :
  valid_date d -> valid_datetime (mkdatetime d 0 0 0).
Proof.
  intros H. apply valid_datetime_iff. cbn. repeat split; try assumption; lia.
Qed.

Lemma datetime_new_midnight d :
  valid_date d ->
  datetime_new (year d) (month d) (day d) 0 0 0 = Ok (mkdatetime d 0 0 0).
Proof.
  intros H. unfold datetime_new. rewrite date_eta.
  pose proof (midnight_valid d H) as Hv. unfold valid_datetime in Hv.
  rewrite Hv. reflexivity.
Qed.

Lemma first_of_month_valid d :
  valid_date d -> valid_date (mkdate (year d) (month d) 1).
Proof.
  rewrite !valid_date_iff. cbn. intros (Hy & Hm & Hd). repeat split; lia.
Qed.

(** [bucket_start] gives the midnight that starts the bucket, and maps
    that midnight to itself. *)
Lemma bucket_start_fixed t bucket :
  valid_datetime t ->
  exists b,
    github_prs_to_csv.bucket_start t bucket = Ok b
    /\ valid_datetime b
    /\ hour b = 0 /\ minute b = 0 /\ second b = 0
    /\ github_prs_to_csv.bucket_start b bucket = Ok b.
Proof.
  intros Hv. apply valid_datetime_iff in Hv as (Hd & _).
  unfold github_prs_to_csv.bucket_start.
  destruct (String.eqb bucket "daily");
    [|destruct (String.eqb bucket "weekly")].
  - exists (mkdatetime (dt_date t) 0 0 0). cbn [dt_date].
    rewrite datetime_new_midnight by assumption.
    repeat split; try reflexivity.
    apply midnight_valid; assumption.
  - destruct (monday_of (dt_date t) Hd) as (m & Hm & Hvm & Hom & Hwm).
    exists (mkdatetime m 0 0 0).
    unfold datetime_sub.
    destruct (timedelta_days (weekday (dt_date t))) as [td| |] eqn:Htd;
      cbn [rbind] in Hm |- *; try discriminate.
    rewrite Hm. cbn [rbind dt_date].
    rewrite datetime_new_midnight by assumption. split; [reflexivity|].
    split; [apply midnight_valid; assumption|].
    repeat split.
    pose proof (monday_fixed m Hvm Hwm) as Hfix.
    destruct (timedelta_days (weekday m)) as [td'| |] eqn:Htd';
      cbn [rbind] in Hfix |- *; try discriminate.
    rewrite Hfix. cbn [rbind dt_date].
    rewrite datetime_new_midnight by assumption. reflexivity.
  - exists (mkdatetime (mkdate (year (dt_date t)) (month (dt_date t)) 1) 0 0 0).
    cbn [dt_date year month day].
    rewrite datetime_new_ok
      by (apply midnight_valid, first_of_month_valid; assumption).
    repeat split; try reflexivity.
    apply midnight_valid, first_of_month_valid; assumption.
Qed.

End Buckets.

(** C9: for every timestamp and every granularity, bucketing is
    idempotent.  [bucket_key] of [github_prs_to_csv] (daily, weekly, and
    monthly for any other name) returns the rendering by [strftime] of
    the midnight [b] that starts the bucket, and [b], the timestamp of
    the bucket, has the same key.  From the year 1000 on the key, read
    as a timestamp, is [b]; a key of an earlier year is written without
    leading zeros and is not a timestamp of the wire format.
    [monday_bucket] and [month_bucket] of [github_weekly_trends] return
    a Monday and a first of the month, which they map to themselves. *)
Theorem C9_bucket_idempotent (t : datetime) (bucket : string) :
  valid_datetime t ->
  (exists b key,
     github_prs_to_csv.bucket_start t bucket = Ok b
     /\ hour b = 0 /\ minute b = 0 /\ second b = 0
     /\ github_prs_to_csv.bucket_key t bucket = Ok key
     /\ key = strftime_iso_z b
     /\ github_prs_to_csv.bucket_key b bucket = Ok key
     /\ (1000 <= year (dt_date b) -> strptime_iso_z key = Ok b)
     /\ (year (dt_date b) < 1000 -> strptime_iso_z key = Raise ValueError))
  /\ (exists d,
        github_weekly_trends.monday_bucket t = Ok d /\ weekday d = 0
        /\ github_weekly_trends.monday_bucket (mkdatetime d 0 0 0) = Ok d)
  /\ (exists d,
        github_weekly_trends.month_bucket t = Ok d /\ day d = 1
        /\ github_weekly_trends.month_bucket (mkdatetime d 0 0 0) = Ok d).
Proof.
  intros Hv. split; [|split].
  - destruct (bucket_start_fixed t bucket Hv)
      as (b & Hb & Hvb & Hh & Hm & Hs & Hfix).
    exists b, (strftime_iso_z b). unfold github_prs_to_csv.bucket_key.
    rewrite Hb, Hfix. cbn [rbind].
    do 7 (split; [first [assumption | reflexivity]|]). split.
    + intros Hwide. apply strptime_strftime; assumption.
    + intros Hshort. apply strptime_strftime_short.
      apply valid_datetime_iff in Hvb as (Hd & _).
      apply valid_date_iff in Hd as (Hy & _). unfold MINYEAR in Hy. lia.
  - apply valid_datetime_iff in Hv as (Hd & _).
    destruct (monday_of (dt_date t) Hd) as (m & Hm & Hvm & Hom & Hwm).
    exists m. unfold github_weekly_trends.monday_bucket. cbn [dt_date].
    split; [exact Hm|]. split; [exact Hwm|]. apply monday_fixed; assumption.
  - apply valid_datetime_iff in Hv as (Hd & _).
    exists (mkdate (year (dt_date t)) (month (dt_date t)) 1).
    unfold github_weekly_trends.month_bucket, date_new.
    cbn [dt_date year month day].
    pose proof (first_of_month_valid (dt_date t) Hd) as Hf.
    unfold valid_date in Hf. rewrite Hf. auto.
Qed.

(** A Thursday afternoon, bucketed by week. *)
Lemma C9_bucket_idempotent_witness :
  exists b key,
    github_prs_to_csv.bucket_start
      (mkdatetime (mkdate 2024 1 11) 15 30 0) "weekly" = Ok b
    /\ key = "2024-01-08T00:00:00Z"
    /\ github_prs_to_csv.bucket_key b "weekly" = Ok key.
Proof.
  destruct (C9_bucket_idempotent (mkdatetime (mkdate 2024 1 11) 15 30 0)
              "weekly" eq_refl)
    as ((b & key & Hb & _ & _ & _ & Hk & _ & Hk' & _) & _).
  exists b, key. split; [exact Hb|]. split; [|exact Hk'].
  vm_compute in Hk. congruence.
Defined.

(** ** C5, C6, C7: records, timestamps and identities *)

Section Records.

Lemma strptime_cases s :
  (exists t, strptime_iso_z s = Ok t /\ valid_datetime t)
  \/ strptime_iso_z s = Raise ValueError.
Proof.
  unfold strptime_iso_z.
  destruct (match_iso_z s) as [[[[[[y m] d] hh] mi] ss]|]; [|right; reflexivity].
  unfold datetime_new.
  destruct (valid_datetimeb (mkdatetime (mkdate y m d) hh mi ss)) eqn:E;
    [left; eauto | right; reflexivity].
Qed.




(** [monday_bucket] never fails on a parsed timestamp. *)
Lemma trends_monday_bucket_ok t :
  valid_datetime t ->
  exists d, github_weekly_trends.monday_bucket t = Ok d
            /\ valid_date d /\ weekday d = 0.
Proof.
  intros Hv. apply valid_datetime_iff in Hv as (Hd & _).
  destruct (monday_of (dt_date t) Hd) as (m & Hm & Hvm & _ & Hwm).
  exists m. auto.
Qed.

Lemma contributors_monday_bucket_ok t :
  valid_datetime t ->
  exists d, contributors_weekly.monday_bucket t = Ok (mkdatetime d 0 0 0)
            /\ valid_date d /\ weekday d = 0.
Proof.
  intros Hv. apply valid_datetime_iff in Hv as (Hd & _).
  destruct (monday_of (dt_date t) Hd) as (m & Hm & Hvm & _ & Hwm).
  exists m. unfold contributors_weekly.monday_bucket, datetime_sub.
  destruct (timedelta_days (weekday (dt_date t))) as [td| |];
    cbn [rbind] in Hm |- *; try discriminate.
  rewrite Hm. cbn [rbind dt_date].
  rewrite datetime_new_midnight by assumption. auto.
Qed.



End Records.




(** C6, as stated, fails in [contributors_weekly], where identities
    carry no provenance tag: a commit with the login bob and a commit of
    the same week with no login and the author email bob have the same
    key, and count as one contributor. *)
Lemma C6_counterexample_untagged :
  contributors_weekly.ident_of bob_login
  = contributors_weekly.ident_of bob_email
  /\ contributors_weekly.rows_of false [bob_login; bob_email]
     = Ok [("2024-01-01T00:00:00Z", 1)].
Proof.
  split; [reflexivity|]. vm_compute. reflexivity.
Qed.

(** C6 (amended): in [github_weekly_trends] identities carry a
    provenance tag, so the identity of a commit with a login never
    equals that of a commit resolved by its email; in
    [contributors_weekly] the identity is the login or the email itself,
    without a tag.  In both scripts two commits of one week, one with
    the login alice and one with only the email alice@example.com, count
    as two contributors of that week. *)
Theorem C6_identity_provenance :
  (forall c1 c2,
     truthy (author_login c1) = true ->
     truthy (author_login c2) = false ->
     truthy (commit_author_email c2) = true ->
     github_weekly_trends.ident_of c1 <> github_weekly_trends.ident_of c2
     /\ contributors_weekly.ident_of c1 = author_login c1
     /\ contributors_weekly.ident_of c2 = commit_author_email c2)
  /\ contributor_rows (mkdate 2024 1 1) (mkdate 2024 1 21)
       [alice_login; alice_email]
     = Ok [("2024-01-01T00:00:00Z", 2)]
  /\ contributors_weekly.rows_of false [alice_login; alice_email]
     = Ok [("2024-01-01T00:00:00Z", 2)].
Proof.
  split; [|split].
  - intros c1 c2 H1 H2 H3.
    unfold github_weekly_trends.ident_of, contributors_weekly.ident_of, py_or.
    rewrite H1, H2, H3. repeat split.
    rewrite !app_String. discriminate.
  - vm_compute. reflexivity.
  - vm_compute. reflexivity.
Qed.

(** The two commits of alice. *)
Lemma C6_identity_provenance_witness :
  github_weekly_trends.ident_of alice_login
  <> github_weekly_trends.ident_of alice_email.
Proof.
  apply (proj1 C6_identity_provenance alice_login alice_email);
    reflexivity.
Defined.

(** C7, as stated, fails in [github_weekly_trends]: a commit with
    neither login nor email is entered into the set of its week under
    the identity "unknown", so the week of a single such commit counts
    one contributor. *)
Lemma C7_counterexample_unknown :
  truthy (author_login anonymous) = false
  /\ truthy (commit_author_email anonymous) = false
  /\ contributor_rows (mkdate 2024 1 1) (mkdate 2024 1 21) []
     = Ok []
  /\ contributor_rows (mkdate 2024 1 1) (mkdate 2024 1 21) [anonymous]
     = Ok [("2024-01-01T00:00:00Z", 1)].
Proof.
  split; [reflexivity|]. split; [reflexivity|].
  split; vm_compute; reflexivity.
Qed.

(** C7 (amended): identity resolution prefers a present, non-empty
    login, falls back to a present, non-empty author email, and is
    otherwise absent.  In [contributors_weekly] a commit without
    identity is skipped and changes no set.  In [github_weekly_trends]
    such a commit, when its timestamp lies in the window, is counted in
    the commits of its week and is entered into the set of that week
    under the one identity "unknown". *)
Theorem C7_identity_resolution (c : commit) :
  (truthy (author_login c) = true ->
   contributors_weekly.ident_of c = author_login c
   /\ github_weekly_trends.ident_of c
      = "login:" +:+ default EmptyString (author_login c))
  /\ (truthy (author_login c) = false ->
      truthy (commit_author_email c) = true ->
      contributors_weekly.ident_of c = commit_author_email c
      /\ github_weekly_trends.ident_of c
         = "email:" +:+ default EmptyString (commit_author_email c))
  /\ (truthy (author_login c) = false ->
      truthy (commit_author_email c) = false ->
      truthy (contributors_weekly.ident_of c) = false
      /\ (forall exclude_bots buckets,
            contributors_weekly.add_commit exclude_bots buckets c
            = Ok buckets)
      /\ github_weekly_trends.ident_of c = "unknown"
      /\ (forall start_d end_d ts t wk acc,
            commit_author_date c = Some ts -> ts <> EmptyString ->
            strptime_iso_z ts = Ok t ->
            date_leb start_d (dt_date t) = true ->
            date_leb (dt_date t) end_d = true ->
            github_weekly_trends.monday_bucket t = Ok wk ->
            github_weekly_trends.count_commit start_d end_d acc c
            = Ok (incr wk acc.1, add_to wk "unknown" acc.2))).
Proof.
  unfold github_weekly_trends.ident_of, contributors_weekly.ident_of, py_or.
  split; [|split].
  - intros ->. split; reflexivity.
  - intros -> ->. split; reflexivity.
  - intros Hl He. rewrite Hl, He. split; [reflexivity|]. split; [|split].
    + intros eb buckets. unfold contributors_weekly.add_commit.
      destruct (contributors_weekly.commit_datetime c); [|reflexivity].
      unfold contributors_weekly.ident_of, py_or. rewrite Hl, He. reflexivity.
    + reflexivity.
    + intros start_d end_d ts t wk acc Hts Hne Ht Hs Hend Hwk.
      unfold github_weekly_trends.count_commit,
        github_weekly_trends.parse_iso_z,
        github_weekly_trends.ident_of.
      rewrite Hts. destruct ts as [|ch ts']; [congruence|].
      cbn [truthy negb default from_option id]. rewrite Ht. cbn [rbind].
      rewrite Hs, Hend. cbn [andb negb]. rewrite Hwk. cbn [rbind].
      rewrite Hl, He. reflexivity.
Qed.

(** The commit of alice that has only an email. *)
Lemma C7_identity_resolution_witness :
  contributors_weekly.ident_of alice_email = Some "alice@example.com"
  /\ github_weekly_trends.ident_of alice_email = "email:alice@example.com".
Proof.
  destruct (C7_identity_resolution alice_email) as (_ & H & _).
  apply H; reflexivity.
Defined.

(** ** The order of the time column *)

Section Labels.

Lemma ascii_compare_refl c : Ascii.compare c c = Eq.
Proof. unfold Ascii.compare. apply N.compare_refl. Qed.

Lemma string_compare_refl s : String.compare s s = Eq.
Proof.
  induction s as [|c s IH]; [reflexivity|].
  cbn. rewrite ascii_compare_refl. exact IH.
Qed.

Lemma string_ltb_irrefl s : String.ltb s s = false.
Proof. unfold String.ltb. rewrite string_compare_refl. reflexivity. Qed.

Lemma string_ltb_asym a b : String.ltb a b = true -> String.ltb b a = false.
Proof.
  unfold String.ltb. rewrite (String.compare_antisym a b).
  destruct (String.compare b a); cbn; congruence.
Qed.

Lemma string_trichotomy a b :
  String.ltb a b = true \/ a = b \/ String.ltb b a = true.
Proof.
  unfold String.ltb. rewrite (String.compare_antisym b a).
  destruct (String.compare a b) eqn:E; cbn; auto.
  right. left. apply String.compare_eq_iff. exact E.
Qed.

Lemma string_ltb_trans a b c :
  String.ltb a b = true -> String.ltb b c = true -> String.ltb a c = true.
Proof.
  unfold String.ltb.
  assert (H : String.compare a b = Lt -> String.compare b c = Lt ->
              String.compare a c = Lt).
  { revert b c. induction a as [|x a IH]; intros [|y b] [|z c]; cbn;
      try discriminate; try reflexivity.
    destruct (Ascii.compare x y) eqn:E1; try discriminate;
      destruct (Ascii.compare y z) eqn:E2; try discriminate.
    - apply Ascii.compare_eq_iff in E1, E2. subst.
      rewrite ascii_compare_refl. apply IH.
    - apply Ascii.compare_eq_iff in E1. subst. rewrite E2. reflexivity.
    - apply Ascii.compare_eq_iff in E2. subst. rewrite E1. reflexivity.
    - unfold Ascii.compare in *. rewrite N.compare_lt_iff in *.
      replace (_ ?= _)%N with Lt; [reflexivity|].
      symmetry. apply N.compare_lt_iff. lia. }
  destruct (String.compare a b); try discriminate.
  destruct (String.compare b c); try discriminate.
  rewrite H by reflexivity. reflexivity.
Qed.

Lemma compare_app_same p s t :
  String.compare (p +:+ s) (p +:+ t) = String.compare s t.
Proof.
  induction p as [|c p IH]; [reflexivity|].
  rewrite !app_String. cbn. rewrite ascii_compare_refl. exact IH.
Qed.

Lemma digit_char_lt a b :
  0 <= a -> a < b -> b <= 9 ->
  Ascii.compare (digit_char a) (digit_char b) = Lt.
Proof.
  intros Ha Hab Hb.
  replace a with (Z.of_nat (Z.to_nat a)) in * by lia.
  replace b with (Z.of_nat (Z.to_nat b)) in * by lia.
  generalize dependent (Z.to_nat b). generalize dependent (Z.to_nat a).
  intros i _ j Hij Hj.
  do 10 (destruct i as [|i];
         [do 10 (destruct j as [|j]; [reflexivity || lia|]); lia|]); lia.
Qed.

Lemma zfill2_lt a b s t :
  0 <= a -> a < b -> b <= 99 ->
  String.compare (zfill2 a +:+ s) (zfill2 b +:+ t) = Lt.
Proof.
  intros Ha Hab Hb. unfold zfill2. rewrite !app_String, !app_empty.
  assert (H : a / 10 mod 10 < b / 10 mod 10
              \/ (a / 10 mod 10 = b / 10 mod 10 /\ a mod 10 < b mod 10))
    by (Z.div_mod_to_equations; lia).
  destruct H as [H|[H1 H2]]; cbn [String.compare].
  - rewrite digit_char_lt by (Z.div_mod_to_equations; lia). reflexivity.
  - rewrite H1, ascii_compare_refl.
    rewrite digit_char_lt by (Z.div_mod_to_equations; lia). reflexivity.
Qed.

Lemma zfill4_lt a b s t :
  0 <= a -> a < b -> b <= 9999 ->
  String.compare (zfill4 a +:+ s) (zfill4 b +:+ t) = Lt.
Proof.
  intros Ha Hab Hb. unfold zfill4. rewrite !app_String.
  assert (H : a / 1000 mod 10 < b / 1000 mod 10
              \/ (a / 1000 mod 10 = b / 1000 mod 10
                  /\ (a / 100 mod 10 < b / 100 mod 10
                      \/ (a / 100 mod 10 = b / 100 mod 10
                          /\ a mod 100 < b mod 100))))
    by (Z.div_mod_to_equations; lia).
  destruct H as [H|[H1 [H|[H2 H3]]]]; cbn [String.compare].
  - rewrite digit_char_lt by (Z.div_mod_to_equations; lia). reflexivity.
  - rewrite H1, ascii_compare_refl.
    rewrite digit_char_lt by (Z.div_mod_to_equations; lia). reflexivity.
  - rewrite H1, H2, !ascii_compare_refl.
    assert (E : forall n, zfill2 n = zfill2 (n mod 100)).
    { intros n. unfold zfill2. f_equal; [|f_equal]; f_equal;
        Z.div_mod_to_equations; lia. }
    rewrite (E a), (E b). apply zfill2_lt; Z.div_mod_to_equations; lia.
Qed.

(** The fixed-width labels of two dates compare as the dates do. *)
Lemma iso_label_lt d1 d2 :
  valid_date d1 -> valid_date d2 ->
  date_ltb d1 d2 = true ->
  String.ltb (iso_label d1) (iso_label d2) = true.
Proof.
  intros H1 H2 Hlt.
  pose proof (days_in_month_le (year d1) (month d1)).
  pose proof (days_in_month_le (year d2) (month d2)).
  apply valid_date_iff in H1 as (Hy1 & Hm1 & Hd1).
  apply valid_date_iff in H2 as (Hy2 & Hm2 & Hd2).
  unfold String.ltb, iso_label, isoformat. rewrite !string_app_assoc.
  unfold date_ltb in Hlt.
  apply orb_true_iff in Hlt. destruct Hlt as [Hy|Hlt].
  - apply Z.ltb_lt in Hy. rewrite zfill4_lt by lia. reflexivity.
  - apply andb_true_iff in Hlt. destruct Hlt as [Hy Hlt].
    apply Z.eqb_eq in Hy. rewrite Hy, compare_app_same, compare_app_same.
    apply orb_true_iff in Hlt. destruct Hlt as [Hm|Hlt].
    + apply Z.ltb_lt in Hm. rewrite zfill2_lt by lia. reflexivity.
    + apply andb_true_iff in Hlt. destruct Hlt as [Hm Hd].
      apply Z.eqb_eq in Hm. apply Z.ltb_lt in Hd.
      rewrite Hm, compare_app_same, compare_app_same.
      rewrite zfill2_lt by lia. reflexivity.
Qed.

Lemma iso_label_ltb d1 d2 :
  valid_date d1 -> valid_date d2 ->
  String.ltb (iso_label d1) (iso_label d2) = date_ltb d1 d2.
Proof.
  intros H1 H2. destruct (date_ltb_trichotomy d1 d2) as [H|[H|H]].
  - rewrite H. apply iso_label_lt; assumption.
  - subst. rewrite string_ltb_irrefl.
    destruct (date_ltb d2 d2) eqn:E; [|reflexivity].
    apply date_ltb_asym in E as E'. congruence.
  - rewrite (date_ltb_asym _ _ H).
    apply string_ltb_asym, iso_label_lt; assumption.
Qed.

Lemma iso_label_length d : String.length (iso_label d) = 20%nat.
Proof. reflexivity. Qed.

(** The key of a Monday bucket of [contributors_weekly] is the label of
    the Monday. *)
Lemma strftime_midnight d :
  strftime_iso_z (mkdatetime d 0 0 0) = bucket_label d.
Proof. reflexivity. Qed.

(** The label the scripts write is the fixed-width text when the year
    has four digits, and shorter when it has fewer. *)
Lemma bucket_label_wide d : four_digits d -> bucket_label d = iso_label d.
Proof.
  intros H. unfold bucket_label, strftime_midnight_z, iso_label.
  cbn [dt_date]. rewrite strftime_ymd_wide by exact H. reflexivity.
Qed.

Lemma bucket_label_short d :
  year d < 1000 -> (String.length (bucket_label d) < 20)%nat.
Proof.
  intros H. unfold bucket_label, strftime_midnight_z, strftime_ymd, strftime_Y.
  cbn [dt_date]. unfold zfill2.
  destruct (Z.ltb_spec (year d) 10); [|destruct (Z.ltb_spec (year d) 100);
    [|destruct (Z.ltb_spec (year d) 1000); [|lia]]];
    rewrite ?string_app_assoc, ?app_String, ?app_empty;
    cbn [String.length]; lia.
Qed.

Lemma bucket_label_length d :
  String.length (bucket_label d) = 20%nat <-> four_digits d.
Proof.
  split.
  - intros E. unfold four_digits.
    destruct (Z.lt_ge_cases (year d) 1000) as [H|H]; [|exact H].
    apply bucket_label_short in H. lia.
  - intros H. rewrite bucket_label_wide by exact H. reflexivity.
Qed.

(** The digits of a year are no hyphens, so a label can be read back. *)
Lemma split_hyphen_digit n s :
  0 <= n < 10 ->
  split_hyphen (String (digit_char n) s)
  = let '(a, b) := split_hyphen s in (String (digit_char n) a, b).
Proof.
  intros H. cbn [split_hyphen].
  replace (Ascii.eqb (digit_char n) "-") with false; [reflexivity|].
  replace n with (Z.of_nat (Z.to_nat n)) by lia.
  assert (Hn : (Z.to_nat n < 10)%nat) by lia.
  generalize dependent (Z.to_nat n). intros i Hi.
  do 10 (destruct i as [|i]; [reflexivity|]). lia.
Qed.

Lemma split_hyphen_Y y rest :
  0 <= y <= 9999 ->
  split_hyphen (strftime_Y y +:+ String "-" rest) = (strftime_Y y, rest)
  /\ int_of 0 (strftime_Y y) = y.
Proof.
  intros H. unfold strftime_Y, zfill4, zfill2.
  destruct (digit_char_digit (y / 1000 mod 10)) as [A1 V1];
    [Z.div_mod_to_equations; lia|].
  destruct (digit_char_digit (y / 100 mod 10)) as [A2 V2];
    [Z.div_mod_to_equations; lia|].
  destruct (digit_char_digit (y / 10 mod 10)) as [A3 V3];
    [Z.div_mod_to_equations; lia|].
  destruct (digit_char_digit (y mod 10)) as [A4 V4];
    [Z.div_mod_to_equations; lia|].
  destruct (Z.ltb_spec y 10); [|destruct (Z.ltb_spec y 100);
    [|destruct (Z.ltb_spec y 1000)]];
    rewrite ?app_String, app_empty;
    rewrite ?split_hyphen_digit by (Z.div_mod_to_equations; lia);
    cbn [split_hyphen Ascii.eqb Bool.eqb]; cbn [int_of];
    rewrite ?A1, ?A2, ?A3, ?A4, ?V1, ?V2, ?V3, ?V4;
    (split; [reflexivity|Z.div_mod_to_equations; lia]).
Qed.

Lemma split_hyphen_zfill2 n rest :
  0 <= n <= 99 ->
  split_hyphen (zfill2 n +:+ String "-" rest) = (zfill2 n, rest).
Proof.
  intros H. unfold zfill2. rewrite !app_String, app_empty.
  rewrite !split_hyphen_digit by (Z.div_mod_to_equations; lia).
  reflexivity.
Qed.

Lemma label_date_label d : valid_date d -> label_date (bucket_label d) = d.
Proof.
  intros Hv. pose proof (days_in_month_le (year d) (month d)) as Hdim.
  apply valid_date_iff in Hv as (Hy & Hm & Hd).
  unfold MINYEAR, MAXYEAR in Hy.
  destruct d as [y m dd]. cbn [year month day] in *.
  assert (E : bucket_label (mkdate y m dd)
              = strftime_Y y
                +:+ String "-" (zfill2 m
                                +:+ String "-" (zfill2 dd +:+ "T00:00:00Z"))).
  { unfold bucket_label, strftime_midnight_z, strftime_ymd.
    cbn [dt_date year month day]. rewrite !string_app_assoc. reflexivity. }
  rewrite E. unfold label_date.
  destruct (split_hyphen_Y y
              (zfill2 m +:+ String "-" (zfill2 dd +:+ "T00:00:00Z")))
    as [E1 E2]; [lia|].
  rewrite E1, split_hyphen_zfill2 by lia. rewrite E2.
  change (substring 0 2 (zfill2 dd +:+ "T00:00:00Z")) with (zfill2 dd).
  rewrite !int_of_zfill2 by lia. reflexivity.
Qed.

Lemma bucket_label_inj d1 d2 :
  valid_date d1 -> valid_date d2 ->
  bucket_label d1 = bucket_label d2 -> d1 = d2.
Proof.
  intros H1 H2 E. apply (f_equal label_date) in E.
  rewrite !label_date_label in E by assumption. exact E.
Qed.

(** The labels of two dates with years of four digits compare as the
    dates do. *)
Lemma bucket_label_ltb d1 d2 :
  valid_date d1 -> valid_date d2 -> four_digits d1 -> four_digits d2 ->
  String.ltb (bucket_label d1) (bucket_label d2) = date_ltb d1 d2.
Proof.
  intros H1 H2 W1 W2. rewrite !bucket_label_wide by assumption.
  apply iso_label_ltb; assumption.
Qed.

Lemma bucket_label_lt d1 d2 :
  valid_date d1 -> valid_date d2 -> four_digits d1 -> four_digits d2 ->
  date_ltb d1 d2 = true ->
  String.ltb (bucket_label d1) (bucket_label d2) = true.
Proof.
  intros H1 H2 W1 W2 Hlt. rewrite bucket_label_ltb by assumption. exact Hlt.
Qed.

End Labels.

(** ** Sorted items *)

Section Sorting.

Lemma date_ltb_spec a b :
  date_ltb a b = true <->
  year a < year b
  \/ (year a = year b
      /\ (month a < month b \/ (month a = month b /\ day a < day b))).
Proof.
  unfold date_ltb.
  rewrite !orb_true_iff, !andb_true_iff, !orb_true_iff, !andb_true_iff,
    !Z.ltb_lt, !Z.eqb_eq. tauto.
Qed.

Lemma date_ltb_trans a b c :
  date_ltb a b = true -> date_ltb b c = true -> date_ltb a c = true.
Proof. rewrite !date_ltb_spec. lia. Qed.

Lemma date_ltb_irrefl a : date_ltb a a = false.
Proof.
  destruct (date_ltb a a) eqn:E; [|reflexivity].
  apply date_ltb_spec in E. lia.
Qed.

#[global] Instance date_item_le_total : Total date_item_le.
Proof.
  intros a b. unfold date_item_le.
  destruct (date_ltb_trichotomy a.1 b.1) as [H|[H|H]]; auto.
  destruct (Z.le_ge_cases a.2 b.2); [left|right]; right; split;
    try congruence; lia.
Qed.

#[global] Instance date_item_le_trans : Transitive date_item_le.
Proof.
  intros a b c [H1|[H1 H1']] [H2|[H2 H2']]; unfold date_item_le.
  - left. eapply date_ltb_trans; eassumption.
  - left. rewrite <- H2. assumption.
  - left. rewrite H1. assumption.
  - right. split; [congruence|lia].
Qed.

#[global] Instance str_item_le_total : Total str_item_le.
Proof.
  intros a b. unfold str_item_le.
  destruct (string_trichotomy a.1 b.1) as [H|[H|H]]; auto.
  destruct (Z.le_ge_cases a.2 b.2); [left|right]; right; split;
    try congruence; lia.
Qed.

(** Adjacent elements of a list without duplicates are different. *)
Lemma Sorted_strict {A B} (f : A -> B) (R R' : relation A) (l : list A) :
  (forall a b, R a b -> f a <> f b -> R' a b) ->
  Sorted R l -> NoDup (f <$> l) -> Sorted R' l.
Proof.
  intros HR Hs. induction Hs as [|a l Hs IH Hd]; intros Hn; [constructor|].
  rewrite fmap_cons in Hn. apply NoDup_cons in Hn as [Hin Hn].
  constructor; [apply IH; assumption|].
  destruct Hd as [|b l Hab]; constructor.
  apply HR; [assumption|]. intros E. apply Hin. rewrite E.
  rewrite fmap_cons. apply list_elem_of_here.
Qed.

Lemma StronglySorted_and {A} (P : A -> Prop) (R : relation A) (l : list A) :
  StronglySorted R l -> Forall P l ->
  StronglySorted (fun a b => P a /\ P b /\ R a b) l.
Proof.
  intros Hs. induction Hs as [|a l Hs IH Hd]; intros Hp; [constructor|].
  apply Forall_cons in Hp as [Ha Hp]. constructor; [apply IH; assumption|].
  rewrite Forall_forall in *. intros x Hx. auto.
Qed.

Lemma StronglySorted_NoDup {A} (R : relation A) (l : list A) :
  (forall a, ~ R a a) -> StronglySorted R l -> NoDup l.
Proof.
  intros Hirr Hs. induction Hs as [|a l Hs IH Hd]; [constructor|].
  constructor; [|assumption]. intros Hin.
  rewrite Forall_forall in Hd. exact (Hirr a (Hd a Hin)).
Qed.

(** [sorted(counter.items())]: the items of the counter, their keys
    strictly ascending. *)
Lemma sorted_date_items_spec (counter : gmap date Z) :
  sorted_date_items counter ≡ₚ map_to_list counter
  /\ StronglySorted (fun a b => date_ltb a b = true)
                    (sorted_date_items counter).*1.
Proof.
  unfold sorted_date_items.
  pose proof (merge_sort_Permutation date_item_le (map_to_list counter)) as Hp.
  split; [exact Hp|].
  assert (Ht : Transitive (fun a b : date => date_ltb a b = true))
    by (intros a b c; apply date_ltb_trans).
  apply (Sorted_StronglySorted _).
  apply (Sorted_fmap fst (fun a b => date_ltb a.1 b.1 = true)); [auto|].
  apply (Sorted_strict fst date_item_le).
  - intros a b [H|[H _]] Hne; [assumption|contradiction].
  - apply Sorted_merge_sort. apply _.
  - rewrite Hp. apply NoDup_fst_map_to_list.
Qed.

Lemma render_rows_valid (items : list (date * Z)) :
  Forall (fun kv => valid_date kv.1) items ->
  github_weekly_trends.render_rows items
  = (map (fun kv => (bucket_label kv.1, kv.2)) items, Ok tt).
Proof.
  induction 1 as [|[k v] items Hk Hitems IH]; [reflexivity|].
  cbn [github_weekly_trends.render_rows fst snd map] in *.
  rewrite datetime_new_midnight by assumption. rewrite IH. reflexivity.
Qed.

Lemma StronglySorted_map_iff {A B} (f : A -> B) (P : A -> Prop)
    (R : relation A) (R' : relation B) (l : list A) :
  (forall a b, P a -> P b -> (R' (f a) (f b) <-> R a b)) ->
  Forall P l ->
  StronglySorted R' (map f l) <-> StronglySorted R l.
Proof.
  intros HR Hp. induction Hp as [|a l Ha Hl IH]; cbn [map].
  - split; constructor.
  - split; intros Hs; apply StronglySorted_inv in Hs as [Hs Hd];
      (constructor; [apply IH; exact Hs|]).
    + pose proof (proj1 (Forall_forall _ _) Hd) as Hd'.
      pose proof (proj1 (Forall_forall _ _) Hl) as Hl'.
      apply Forall_forall. intros b Hb. apply HR; auto.
      apply Hd'. apply (list_elem_of_fmap_2 f). exact Hb.
    + pose proof (proj1 (Forall_forall _ _) Hd) as Hd'.
      pose proof (proj1 (Forall_forall _ _) Hl) as Hl'.
      apply Forall_forall. intros y Hy.
      apply list_elem_of_fmap in Hy as (b & -> & Hb). apply HR; auto.
Qed.

Lemma fst_label_rows (items : list (date * Z)) :
  (map (fun kv => (bucket_label kv.1, kv.2)) items).*1
  = map bucket_label items.*1.
Proof.
  induction items as [|[k v] items IH]; [reflexivity|]. cbn. f_equal. exact IH.
Qed.

Lemma NoDup_labels (dates : list date) :
  Forall valid_date dates -> NoDup dates -> NoDup (map bucket_label dates).
Proof.
  intros Hv Hn. induction Hn as [|d dates Hd Hn IH]; [constructor|].
  apply Forall_cons in Hv as [Hvd Hv]. cbn [map]. constructor; [|auto].
  intros Hin. apply list_elem_of_fmap in Hin as (d' & E & Hd').
  rewrite Forall_forall in Hv.
  apply bucket_label_inj in E; [|assumption|apply Hv; assumption].
  subst d'. contradiction.
Qed.

Lemma labels_wide (dates : list date) :
  Forall four_digits dates -> map bucket_label dates = map iso_label dates.
Proof.
  induction 1 as [|d dates Hd _ IH]; [reflexivity|]. cbn [map].
  rewrite bucket_label_wide by exact Hd. f_equal. exact IH.
Qed.

(** Rows for dates with years of four digits are ascending rows of
    fixed width as soon as they are sorted, by date or by text. *)
Lemma rows_for_ascending (dates : list date) (rows : list (string * Z)) :
  rows_for dates rows -> Forall four_digits dates ->
  StronglySorted (fun a b => date_ltb a b = true) dates
  \/ StronglySorted (fun a b => String.ltb a b = true) rows.*1 ->
  rows_ascending dates rows.
Proof.
  intros (E & Hv & Hn & Hc) Hw Hs. unfold rows_ascending.
  assert (El : rows.*1 = map iso_label dates)
    by (rewrite E; apply labels_wide; exact Hw).
  assert (Hiff : StronglySorted (fun a b => String.ltb a b = true)
                                (map iso_label dates)
                 <-> StronglySorted (fun a b => date_ltb a b = true) dates).
  { apply (StronglySorted_map_iff iso_label valid_date); [|exact Hv].
    intros a b Ha Hb. rewrite iso_label_ltb by assumption. tauto. }
  rewrite El in Hs |- *.
  split; [reflexivity|]. split; [exact Hv|].
  split; [tauto|]. split; [tauto|]. split; [rewrite <- El; exact Hn|].
  assert (Hlen : Forall (fun s => String.length s = 20%nat) rows.*1).
  { rewrite El. apply Forall_fmap, Forall_true. intros d. reflexivity. }
  clear -Hlen Hc. induction Hc as [|r rows Hr Hc IH]; [constructor|].
  rewrite fmap_cons in Hlen. apply Forall_cons in Hlen as [Hl Hlen].
  constructor; auto.
Qed.

(** Rows made from items with strictly ascending valid dates. *)
Lemma rows_by_date_of_items (items : list (date * Z)) :
  Forall (fun kv => valid_date kv.1 /\ 0 <= kv.2) items ->
  StronglySorted (fun a b => date_ltb a b = true) items.*1 ->
  rows_by_date items.*1 (map (fun kv => (bucket_label kv.1, kv.2)) items).
Proof.
  intros Hv Hs.
  assert (Hvd : Forall valid_date items.*1).
  { clear -Hv. induction Hv as [|[k v] items [Hk _] _ IH]; constructor; auto. }
  assert (Hf : rows_for items.*1
                 (map (fun kv => (bucket_label kv.1, kv.2)) items)).
  { split; [apply fst_label_rows|]. split; [exact Hvd|]. split.
    - rewrite fst_label_rows. apply NoDup_labels; [exact Hvd|].
      eapply StronglySorted_NoDup; [|exact Hs].
      intros a Ha. rewrite date_ltb_irrefl in Ha. discriminate.
    - apply Forall_fmap. eapply Forall_impl; [exact Hv|].
      intros [k v] [_ H]. exact H. }
  split; [exact Hf|]. split; [exact Hs|].
  intros Hw. apply rows_for_ascending; auto.
Qed.

(** Rows with labels of dates, sorted by the text of the labels. *)
Lemma rows_by_text_of_rows (rows : list (string * Z)) :
  Forall (fun r => (exists d, valid_date d /\ r.1 = bucket_label d)
                   /\ 0 <= r.2) rows ->
  Sorted (fun a b => String.ltb a.1 b.1 = true) rows ->
  NoDup rows.*1 ->
  rows_by_text (map label_date rows.*1) rows.
Proof.
  intros Hall Hs Hn.
  assert (E : rows.*1 = map bucket_label (map label_date rows.*1)).
  { clear -Hall.
    induction Hall as [|[k v] l [(d & Hd & E) _] _ IH]; [reflexivity|].
    cbn [fmap list_fmap map fst] in *. rewrite <- IH. subst k.
    rewrite label_date_label by assumption. reflexivity. }
  assert (Hv : Forall valid_date (map label_date rows.*1)).
  { clear -Hall.
    induction Hall as [|[k v] l [(d & Hd & E) _] _ IH]; [constructor|].
    cbn [fmap list_fmap map fst] in *. constructor; [|exact IH]. subst k.
    rewrite label_date_label by assumption. exact Hd. }
  assert (Hf : rows_for (map label_date rows.*1) rows).
  { split; [exact E|]. split; [exact Hv|]. split; [exact Hn|].
    eapply Forall_impl; [exact Hall|]. intros r [_ H]. exact H. }
  assert (Ht : Transitive (fun a b : string => String.ltb a b = true))
    by (intros a b c; apply string_ltb_trans).
  assert (Hss : StronglySorted (fun a b => String.ltb a b = true) rows.*1).
  { apply (Sorted_StronglySorted _).
    apply (Sorted_fmap fst (fun a b => String.ltb a.1 b.1 = true)); auto. }
  split; [exact Hf|]. split; [exact Hss|].
  intros Hw. apply rows_for_ascending; auto.
Qed.

End Sorting.

(** ** The tables the loops build *)

Section Tables.

Lemma incr_Forall `{Countable K} (Q : K -> Prop) (key : K) (m : gmap K Z) :
  Q key ->
  map_Forall (fun k v => Q k /\ 1 <= v) m ->
  map_Forall (fun k v => Q k /\ 1 <= v) (incr key m).
Proof.
  intros Hq Hm. unfold incr. apply map_Forall_insert_2; [|assumption].
  split; [assumption|].
  destruct (m !! key) as [v|] eqn:E; cbn; [|lia].
  apply (map_Forall_lookup_1 _ _ _ _ Hm) in E. lia.
Qed.


Lemma month_bucket_ok t :
  valid_datetime t ->
  exists d, github_weekly_trends.month_bucket t = Ok d
            /\ valid_date d /\ day d = 1.
Proof.
  intros Hv. apply valid_datetime_iff in Hv as (Hd & _).
  exists (mkdate (year (dt_date t)) (month (dt_date t)) 1).
  unfold github_weekly_trends.month_bucket, date_new.
  pose proof (first_of_month_valid (dt_date t) Hd) as Hf.
  unfold valid_date in Hf. rewrite Hf. auto.
Qed.

(** An item is skipped, counted in the bucket of a Monday, or raises. *)
Lemma count_item_cases ts_of weekly it :
  github_weekly_trends.count_item ts_of weekly it = Ok weekly
  \/ (exists d, valid_date d /\ weekday d = 0
                /\ github_weekly_trends.count_item ts_of weekly it
                   = Ok (incr d weekly))
  \/ github_weekly_trends.count_item ts_of weekly it = Raise ValueError.
Proof.
  unfold github_weekly_trends.count_item, github_weekly_trends.parse_iso_z.
  destruct (truthy (ts_of it)); [|left; reflexivity]. cbn [negb].
  destruct (strptime_cases (default EmptyString (ts_of it)))
    as [(t & -> & Hv)| ->]; [|right; right; reflexivity].
  destruct (trends_monday_bucket_ok t Hv) as (d & Hd & Hvd & Hwd).
  cbn [rbind]. rewrite Hd. right. left. exists d. auto.
Qed.

Lemma count_items_Forall ts_of items : forall weekly weekly',
  for_list_r (github_weekly_trends.count_item ts_of) items weekly
  = Ok weekly' ->
  map_Forall (fun k v => (valid_date k /\ weekday k = 0) /\ 1 <= v) weekly ->
  map_Forall (fun k v => (valid_date k /\ weekday k = 0) /\ 1 <= v) weekly'.
Proof.
  induction items as [|it items IH]; intros weekly weekly' Hrun Hinv.
  - cbn in Hrun. injection Hrun as <-. assumption.
  - cbn [for_list_r] in Hrun.
    destruct (count_item_cases ts_of weekly it)
      as [E|[(d & Hvd & Hwd & E)|E]]; rewrite E in Hrun; cbn [rbind] in Hrun.
    + eapply IH; eassumption.
    + eapply IH; [eassumption|].
      apply (incr_Forall (fun k => valid_date k /\ weekday k = 0)); auto.
    + discriminate.
Qed.





End Tables.

(** ** The rows of the output files *)

Section Rows.

Lemma Sorted_and {A} (P : A -> Prop) (R : relation A) (l : list A) :
  Sorted R l -> Forall P l -> Sorted (fun a b => P a /\ P b /\ R a b) l.
Proof.
  intros Hs. induction Hs as [|a l Hs IH Hd]; intros Hp; [constructor|].
  apply Forall_cons in Hp as [Ha Hp]. constructor; [apply IH; assumption|].
  destruct Hd as [|b l Hab]; constructor.
  apply Forall_cons in Hp as [Hb _]. auto.
Qed.

(** The rows [write_csv] of [github_weekly_trends] writes. *)
Lemma write_csv_rows path (counter : gmap date Z) w tr :
  map_Forall (fun k v => valid_date k /\ 0 <= v) counter ->
  let rows := map (fun kv => (bucket_label kv.1, kv.2))
                  (sorted_date_items counter) in
  github_weekly_trends.write_csv path counter w tr
  = (Ok tt, tr ++ [EvWrite path (mkcsv ["time"; "count"] rows)])
  /\ rows_by_date (sorted_date_items counter).*1 rows.
Proof.
  intros Hinv rows.
  destruct (sorted_date_items_spec counter) as [Hp Hs].
  assert (Hall : Forall (fun kv => valid_date kv.1 /\ 0 <= kv.2)
                        (sorted_date_items counter)).
  { rewrite Hp. apply map_Forall_to_list in Hinv.
    eapply Forall_impl; [exact Hinv|]. intros [k v] H. exact H. }
  split.
  - unfold github_weekly_trends.write_csv.
    rewrite render_rows_valid
      by (eapply Forall_impl; [exact Hall|]; intros kv [H _]; exact H).
    reflexivity.
  - apply rows_by_date_of_items; assumption.
Qed.



End Rows.

(** ** Reasoning about runs *)

Section Triples.

Context {A : Type} (Q : event -> Prop).

Lemma triple_ret (a : A) (post : A -> Prop) : post a -> triple Q (ret a) post.
Proof.
  intros H w tr r tr' E. injection E as <- <-. split.
  - exists []. rewrite app_nil_r. auto.
  - intros a' Ha. injection Ha as <-. exact H.
Qed.

Lemma triple_raise e (post : A -> Prop) : triple Q (raise e) post.
Proof.
  intros w tr r tr' E. injection E as <- <-. split.
  - exists []. rewrite app_nil_r. auto.
  - intros a' Ha. discriminate.
Qed.

Lemma triple_out_of_fuel (post : A -> Prop) : triple Q out_of_fuel post.
Proof.
  intros w tr r tr' E. injection E as <- <-. split.
  - exists []. rewrite app_nil_r. auto.
  - intros a' Ha. discriminate.
Qed.

Lemma triple_lift (r : result A) (post : A -> Prop) :
  (forall a, r = Ok a -> post a) -> triple Q (lift r) post.
Proof.
  intros H w tr r' tr' E. injection E as <- <-. split.
  - exists []. rewrite app_nil_r. auto.
  - exact H.
Qed.

Lemma triple_weaken (Q' : event -> Prop) (m : M A) (post post' : A -> Prop) :
  (forall ev, Q ev -> Q' ev) -> (forall a, post a -> post' a) ->
  triple Q m post -> triple Q' m post'.
Proof.
  intros HQ Hp H w tr r tr' E. destruct (H w tr r tr' E) as [(evs & -> & Hev) Hr].
  split.
  - exists evs. split; [reflexivity|]. eapply Forall_impl; eauto.
  - auto.
Qed.

Lemma triple_bind {B} (m : M A) (k : A -> M B) (P : A -> Prop)
    (post : B -> Prop) :
  triple Q m P -> (forall a, P a -> triple Q (k a) post) ->
  triple Q (bind m k) post.
Proof.
  intros Hm Hk w tr r tr' E. unfold bind in E.
  destruct (m w tr) as [[a|e|] tr1] eqn:Em;
    destruct (Hm w tr _ tr1 Em) as [(evs & -> & Hev) Hr].
  - destruct (Hk a (Hr a eq_refl) w _ r tr' E) as [(evs' & -> & Hev') Hr'].
    split; [|exact Hr'].
    exists (evs ++ evs'). rewrite app_assoc. split; [reflexivity|].
    apply Forall_app; auto.
  - injection E as <- <-. split; [eauto|]. intros a Ha. discriminate.
  - injection E as <- <-. split; [eauto|]. intros a Ha. discriminate.
Qed.

End Triples.

Section TripleLoops.

Context (Q : event -> Prop).

Lemma triple_emit ev : Q ev -> triple Q (emit ev) (fun _ => True).
Proof.
  intros H w tr r tr' E. injection E as <- <-. split; [|auto].
  exists [ev]. auto.
Qed.

Lemma triple_get {A} (api : world -> list event -> request -> response A) req :
  (forall r, Q (EvGet r)) -> triple Q (get api req) (fun _ => True).
Proof.
  intros H w tr r tr' E. injection E as <- <-. split; [|auto].
  exists [EvGet req]. auto.
Qed.

Lemma triple_for_list {A B} (body : B -> A -> M B) (I : B -> Prop) l :
  (forall acc a, I acc -> triple Q (body acc a) I) ->
  forall acc, I acc -> triple Q (for_list body l acc) I.
Proof.
  intros Hb. induction l as [|a l IH]; intros acc Hacc.
  - apply triple_ret. exact Hacc.
  - cbn [for_list]. eapply triple_bind; [apply Hb; exact Hacc|].
    intros acc' Hacc'. apply IH. exact Hacc'.
Qed.

Lemma triple_for_gen {S A B} (next : S -> gen_step S A) (body : B -> A -> M B)
    (I : B -> Prop) fuel :
  (forall acc a, I acc -> triple Q (body acc a) I) ->
  forall s acc, I acc -> triple Q (for_gen next body fuel s acc) I.
Proof.
  intros Hb. induction fuel as [|fuel IH]; intros s acc Hacc.
  - apply triple_out_of_fuel.
  - cbn [for_gen]. destruct (next s) as [a s'| |e].
    + eapply triple_bind; [apply Hb; exact Hacc|].
      intros acc' Hacc'. apply IH. exact Hacc'.
    + apply triple_ret. exact Hacc.
    + apply triple_raise.
Qed.


End TripleLoops.

Lemma writes_app tr evs :
  Forall not_write evs -> writes (tr ++ evs) = writes tr.
Proof.
  intros H. unfold writes. rewrite omap_app.
  assert (E : omap (fun ev => match ev with
                              | EvWrite p f => Some (p, f)
                              | _ => None
                              end) evs = []).
  { induction H as [|ev evs Hev _ IH]; [reflexivity|].
    destruct ev; cbn in *; try contradiction; exact IH. }
  rewrite E. apply app_nil_r.
Qed.

Lemma not_write_good ev : not_write ev -> good_event ev.
Proof. destruct ev; cbn; auto. contradiction. Qed.

(** Steps of computations that return nothing to keep track of. *)
Ltac triple_true :=
  repeat first
    [ apply triple_ret; exact I
    | apply triple_raise
    | apply triple_out_of_fuel
    | apply triple_lift; intros; exact I
    | apply triple_get; intros; exact I
    | apply triple_emit; exact I
    | eapply (triple_bind _ _ _ (fun _ => True)); [|intros ? _]
    | match goal with
      | |- triple _ (if ?c then _ else _) _ => destruct c
      | |- triple _ (match ?x with _ => _ end) _ => destruct x
      end ].

Section Fetchers.

Lemma triple_sleep ms : triple not_write (sleep ms) (fun _ => True).
Proof. unfold sleep. triple_true. Qed.

Lemma triple_json_of {A} (r : response A) :
  triple not_write (json_of r) (fun _ => True).
Proof. unfold json_of. triple_true. Qed.

Lemma triple_raise_for_status {A} req (r : response A) :
  triple not_write (raise_for_status req r) (fun _ => True).
Proof. unfold raise_for_status. triple_true. Qed.

Lemma triple_fetch_search_pages query token per_page pause pages :
  forall all_items,
    triple not_write
      (github_prs_to_csv.fetch_search_pages query token per_page pause pages
         all_items) (fun _ => True).
Proof.
  induction pages as [|page pages IH]; intros all_items;
    cbn [github_prs_to_csv.fetch_search_pages]; [triple_true|].
  eapply (triple_bind _ _ _ (fun _ => True)); [triple_true|]. intros r _.
  destruct (negb (status_code r =? 200)); [triple_true|].
  eapply (triple_bind _ _ _ (fun _ => True)); [apply triple_json_of|].
  intros data _. destruct (_ <? per_page); [triple_true|].
  eapply (triple_bind _ _ _ (fun _ => True)); [apply triple_sleep|].
  intros _ _. apply IH.
Qed.

Lemma triple_fetch_pull_merged_at owner repo number token :
  triple not_write
    (github_prs_to_csv.fetch_pull_merged_at owner repo number token)
    (fun _ => True).
Proof.
  unfold github_prs_to_csv.fetch_pull_merged_at.
  eapply (triple_bind _ _ _ (fun _ => True)); [triple_true|]. intros r _.
  destruct (negb (status_code r =? 200)); [triple_true|].
  eapply (triple_bind _ _ _ (fun _ => True)); [apply triple_json_of|].
  intros data _. triple_true.
Qed.



Lemma triple_calc_range a :
  triple not_write (github_prs_to_csv.calc_range a) (fun _ => True).
Proof.
  intros w tr r tr' E. unfold github_prs_to_csv.calc_range in E.
  injection E as <- <-. split; [|auto]. exists []. rewrite app_nil_r. auto.
Qed.

Lemma triple_search_items_pages session q pause pages :
  forall items,
    triple not_write
      (github_weekly_trends.search_items_pages session q pause pages items)
      (fun _ => True).
Proof.
  induction pages as [|page pages IH]; intros items;
    cbn [github_weekly_trends.search_items_pages]; [triple_true|].
  eapply (triple_bind _ _ _ (fun _ => True)); [triple_true|]. intros r _.
  eapply (triple_bind _ _ _ (fun _ => True)).
  { destruct (status_code r =? 422); [apply triple_raise_for_status|triple_true]. }
  intros _ _.
  eapply (triple_bind _ _ _ (fun _ => True)); [apply triple_raise_for_status|].
  intros _ _.
  eapply (triple_bind _ _ _ (fun _ => True)); [apply triple_json_of|].
  intros data _. destruct (_ <? 100); [triple_true|].
  eapply (triple_bind _ _ _ (fun _ => True)); [apply triple_sleep|].
  intros _ _. apply IH.
Qed.

Lemma triple_get_json {A} (api : world -> list event -> request -> response A)
    session url params :
  triple not_write (github_weekly_trends.get_json api session url params)
         (fun _ => True).
Proof.
  unfold github_weekly_trends.get_json.
  eapply (triple_bind _ _ _ (fun _ => True)); [triple_true|]. intros r _.
  eapply (triple_bind _ _ _ (fun _ => True)); [apply triple_raise_for_status|].
  intros _ _.
  eapply (triple_bind _ _ _ (fun _ => True)); [apply triple_json_of|].
  intros data _. triple_true.
Qed.

Lemma triple_list_commits_loop session fuel :
  forall url params commits,
    triple not_write
      (github_weekly_trends.list_commits_loop session fuel url params commits)
      (fun _ => True).
Proof.
  induction fuel as [|fuel IH]; intros url params commits;
    cbn [github_weekly_trends.list_commits_loop]; [triple_true|].
  eapply (triple_bind _ _ _ (fun _ => True)); [apply triple_get_json|].
  intros dl _. destruct dl.1; [triple_true|].
  destruct dl.2; [|triple_true].
  eapply (triple_bind _ _ _ (fun _ => True)); [apply triple_sleep|].
  intros _ _. apply IH.
Qed.

Lemma triple_list_releases session owner repo since_d until_d fuel :
  triple not_write
    (github_weekly_trends.list_releases session owner repo since_d until_d
       fuel) (fun _ => True).
Proof.
  unfold github_weekly_trends.list_releases.
  eapply (triple_bind _ _ _ (fun _ => True)); [|intros; triple_true].
  generalize (@nil release).
  generalize [("per_page", PInt 100); ("page", PInt 1)].
  generalize ("https://api.github.com/repos/" +:+ owner +:+ "/" +:+ repo
              +:+ "/releases").
  induction fuel as [|fuel IH]; intros url params releases;
    cbn [github_weekly_trends.list_releases_loop]; [triple_true|].
  eapply (triple_bind _ _ _ (fun _ => True)); [triple_true|]. intros r _.
  eapply (triple_bind _ _ _ (fun _ => True)); [apply triple_raise_for_status|].
  intros _ _.
  eapply (triple_bind _ _ _ (fun _ => True)); [apply triple_json_of|].
  intros data _. destruct (doc_view data); [|triple_true].
  destruct (next_link r); [|triple_true].
  eapply (triple_bind _ _ _ (fun _ => True)); [apply triple_sleep|].
  intros _ _. apply IH.
Qed.

Lemma triple_fetch_commits_pages url hdrs since_iso until_iso per_page pause
    pages :
  forall all_commits,
    triple not_write
      (contributors_weekly.fetch_commits_pages url hdrs since_iso until_iso
         per_page pause pages all_commits) (fun _ => True).
Proof.
  induction pages as [|page pages IH]; intros all_commits;
    cbn [contributors_weekly.fetch_commits_pages]; [triple_true|].
  eapply (triple_bind _ _ _ (fun _ => True)); [triple_true|]. intros r _.
  destruct (negb (status_code r =? 200)); [triple_true|].
  eapply (triple_bind _ _ _ (fun _ => True)); [apply triple_json_of|].
  intros data _. destruct (doc_view data) as [|c l]; [triple_true|].
  destruct (_ <? per_page); [triple_true|].
  eapply (triple_bind _ _ _ (fun _ => True)); [apply triple_sleep|].
  intros _ _. apply IH.
Qed.

End Fetchers.

(** ** The runs of the scripts *)

(** One step of a run that computes a value without effects. *)
Ltac lift_step E :=
  unfold bind at 1 in E; unfold lift at 1 in E; cbv beta iota in E;
  match type of E with
  | match ?x with Ok _ => _ | Raise _ => _ | OutOfFuel => _ end = _ =>
      destruct x eqn:?
  end.

Section Mains.

Lemma triple_today {Q} :
  triple Q github_weekly_trends.today_utc_date (fun _ => True).
Proof.
  intros w tr r tr' E. injection E as <- <-. split; [|auto].
  exists []. rewrite app_nil_r. auto.
Qed.

Lemma triple_write_csv path (counter : gmap date Z) :
  map_Forall (fun k v => valid_date k /\ 0 <= v) counter ->
  triple good_event (github_weekly_trends.write_csv path counter)
         (fun _ => True).
Proof.
  intros Hinv w tr r tr' E.
  destruct (write_csv_rows path counter w tr Hinv) as [Hw Hr].
  rewrite Hw in E. injection E as <- <-. split; [|auto].
  eexists. split; [reflexivity|]. constructor; [|constructor].
  cbn. split; [reflexivity|]. eexists. exact Hr.
Qed.

Lemma weekly_table_ok (Q : date -> Prop) (m : gmap date Z) :
  map_Forall (fun k v => (valid_date k /\ Q k) /\ 1 <= v) m ->
  map_Forall (fun k v => valid_date k /\ 0 <= v) m.
Proof.
  intros H. eapply map_Forall_impl; [exact H|].
  intros k v [[Hv _] Hc]. split; [assumption|lia].
Qed.








End Mains.

(** ** C2, C3, C4: pagination, rate limits and failures *)

Section Pagination.

Import github_prs_to_csv.

Variables (query : string) (token : option string) (per_page : Z) (pause : N).

Let req := search_request query token per_page.
Let loop := fetch_search_pages query token per_page pause.

(** One turn of [fetch_search]: the response to the request for
    [page]. *)
Lemma fetch_search_failure w tr page pages all_items :
  let r := search_api w tr (req page) in
  status_code r <> 200 ->
  loop (page :: pages) all_items w tr
  = (Raise (SystemExit (search_error (status_code r) query page
                          (error_payload r))),
     tr ++ [EvGet (req page)]).
Proof.
  intros r Hs. subst loop. cbn [fetch_search_pages]. unfold bind, get.
  fold req. fold r. apply Z.eqb_neq in Hs. rewrite Hs. reflexivity.
Qed.

Lemma fetch_search_short w tr page pages all_items d :
  let r := search_api w tr (req page) in
  status_code r = 200 -> json r = Some d ->
  Z.of_nat (length (doc_view d)) < per_page ->
  loop (page :: pages) all_items w tr
  = (Ok (all_items ++ doc_view d), tr ++ [EvGet (req page)]).
Proof.
  intros r Hs Hj Hlen. subst loop. cbn [fetch_search_pages].
  unfold bind, get, json_of. fold req. fold r. rewrite Hs, Hj.
  cbn [Z.eqb Pos.eqb negb]. unfold ret at 1.
  apply Z.ltb_lt in Hlen. rewrite Hlen. reflexivity.
Qed.

Lemma fetch_search_full w tr page pages all_items d :
  let r := search_api w tr (req page) in
  status_code r = 200 -> json r = Some d ->
  per_page <= Z.of_nat (length (doc_view d)) ->
  loop (page :: pages) all_items w tr
  = loop pages (all_items ++ doc_view d) w
         (tr ++ [EvGet (req page); EvSleep pause]).
Proof.
  intros r Hs Hj Hlen. subst loop. cbn [fetch_search_pages].
  unfold bind, get, json_of. fold req. fold r. rewrite Hs, Hj.
  cbn [Z.eqb Pos.eqb negb]. unfold ret at 1.
  apply Z.ltb_ge in Hlen. rewrite Hlen. unfold sleep, emit.
  rewrite <- app_assoc. reflexivity.
Qed.

(** Every turn begins with the request for its page. *)
Lemma fetch_search_first w tr page pages all_items :
  exists res rest,
    loop (page :: pages) all_items w tr
    = (res, tr ++ EvGet (req page) :: rest).
Proof.
  destruct (loop (page :: pages) all_items w tr) as [res tr'] eqn:E.
  subst loop. cbn [fetch_search_pages] in E. unfold bind at 1, get in E.
  fold req in E.
  match type of E with
  | ?k w (tr ++ [EvGet (req page)]) = _ =>
      assert (Hk : triple not_write k (fun _ => True))
  end.
  { destruct (negb _); [triple_true|].
    eapply (triple_bind _ _ _ (fun _ => True)); [apply triple_json_of|].
    intros data _. destruct (_ <? per_page); [triple_true|].
    eapply (triple_bind _ _ _ (fun _ => True)); [apply triple_sleep|].
    intros _ _. apply triple_fetch_search_pages. }
  destruct (Hk w _ _ _ E) as [(evs & -> & _) _].
  exists res, evs. rewrite <- app_assoc. reflexivity.
Qed.

End Pagination.

Section SearchLabel.

Import major_decision_weekly.

Variables (q token : string).

Let req := search_request q token.

Lemma triple_search_label_loop fuel : forall page items,
  triple not_write (search_label_loop q token fuel page items)
         (fun _ => True).
Proof.
  induction fuel as [|fuel IH]; intros page items;
    cbn [search_label_loop]; [triple_true|].
  eapply (triple_bind _ _ _ (fun _ => True)); [triple_true|]. intros r _.
  destruct (status_code r =? 403).
  - eapply (triple_bind _ _ _ (fun _ => True)); [apply triple_sleep|].
    intros _ _. apply IH.
  - eapply (triple_bind _ _ _ (fun _ => True));
      [apply triple_raise_for_status|].
    intros _ _.
    eapply (triple_bind _ _ _ (fun _ => True)); [apply triple_json_of|].
    intros data _. destruct (_ <? 100); [triple_true|].
    eapply (triple_bind _ _ _ (fun _ => True)); [apply triple_sleep|].
    intros _ _. apply IH.
Qed.

(** A rate-limit response: pause 5 seconds and go round again with the
    same page and the same items. *)
Lemma search_label_rate_limited w tr fuel page items :
  status_code (search_api w tr (req page)) = 403 ->
  search_label_loop q token (S fuel) page items w tr
  = search_label_loop q token fuel page items w
      (tr ++ [EvGet (req page); EvSleep 5000]).
Proof.
  intros Hs. cbn [search_label_loop]. unfold bind, get. fold req.
  rewrite Hs. cbn [Z.eqb Pos.eqb]. unfold sleep, emit.
  rewrite <- app_assoc. reflexivity.
Qed.

Lemma search_label_short w tr fuel page items d :
  let r := search_api w tr (req page) in
  status_code r = 200 -> json r = Some d ->
  Z.of_nat (length (doc_view d)) < 100 ->
  search_label_loop q token (S fuel) page items w tr
  = (Ok (items ++ doc_view d), tr ++ [EvGet (req page)]).
Proof.
  intros r Hs Hj Hlen. cbn [search_label_loop].
  unfold bind, get, raise_for_status, json_of. fold req. fold r.
  rewrite Hs, Hj. cbn [Z.eqb Pos.eqb Z.leb Z.ltb Z.compare Pos.compare
                         Pos.compare_cont andb]. unfold ret at 1 2.
  apply Z.ltb_lt in Hlen. rewrite Hlen. reflexivity.
Qed.

Lemma search_label_full w tr fuel page items d :
  let r := search_api w tr (req page) in
  status_code r = 200 -> json r = Some d ->
  100 <= Z.of_nat (length (doc_view d)) ->
  search_label_loop q token (S fuel) page items w tr
  = search_label_loop q token fuel (page + 1) (items ++ doc_view d) w
      (tr ++ [EvGet (req page); EvSleep 500]).
Proof.
  intros r Hs Hj Hlen. cbn [search_label_loop].
  unfold bind, get, raise_for_status, json_of. fold req. fold r.
  rewrite Hs, Hj. cbn [Z.eqb Pos.eqb Z.leb Z.ltb Z.compare Pos.compare
                         Pos.compare_cont andb]. unfold ret at 1 2.
  apply Z.ltb_ge in Hlen. rewrite Hlen. unfold sleep, emit.
  rewrite <- app_assoc. reflexivity.
Qed.

Lemma search_label_first w tr fuel page items :
  exists res rest,
    search_label_loop q token (S fuel) page items w tr
    = (res, tr ++ EvGet (req page) :: rest).
Proof.
  destruct (search_label_loop q token (S fuel) page items w tr)
    as [res tr'] eqn:E.
  pose proof (triple_search_label_loop fuel) as IH.
  cbn [search_label_loop] in E. unfold bind at 1, get in E. fold req in E.
  match type of E with
  | ?k w (tr ++ [EvGet (req page)]) = _ =>
      assert (Hk : triple not_write k (fun _ => True))
  end.
  { destruct (_ =? 403).
    - eapply (triple_bind _ _ _ (fun _ => True)); [apply triple_sleep|].
      intros _ _. apply IH.
    - eapply (triple_bind _ _ _ (fun _ => True));
        [apply triple_raise_for_status|].
      intros _ _.
      eapply (triple_bind _ _ _ (fun _ => True)); [apply triple_json_of|].
      intros data _. destruct (_ <? 100); [triple_true|].
      eapply (triple_bind _ _ _ (fun _ => True)); [apply triple_sleep|].
      intros _ _. apply IH. }
  destruct (Hk w _ _ _ E) as [(evs & -> & _) _].
  exists res, evs. rewrite <- app_assoc. reflexivity.
Qed.

(** Against a server that always answers 403 the loop never ends: after
    any number of turns it has asked for the same page and paused that
    many times. *)
Lemma search_label_retries_forever w page items :
  (forall tr r, status_code (search_api w tr r) = 403) ->
  forall fuel tr,
    search_label_loop q token fuel page items w tr
    = (OutOfFuel,
       tr ++ concat (replicate fuel [EvGet (req page); EvSleep 5000])).
Proof.
  intros Hs. induction fuel as [|fuel IH]; intros tr.
  - cbn. rewrite app_nil_r. reflexivity.
  - rewrite search_label_rate_limited by apply Hs. rewrite IH.
    cbn [replicate concat]. rewrite <- !app_assoc. reflexivity.
Qed.

End SearchLabel.

Section SearchItems.

Import github_weekly_trends.

(** [search_items] lets every 4xx or 5xx response end the run. *)
Lemma search_items_failure session q pause w tr page pages items :
  let req := search_request session q page in
  let r := search_api w tr req in
  400 <= status_code r < 600 ->
  search_items_pages session q pause (page :: pages) items w tr
  = (Raise (HTTPError (status_code r) req (text r)), tr ++ [EvGet req]).
Proof.
  intros req r Hs. cbn [search_items_pages]. unfold bind, get.
  fold req. fold r.
  assert (E : raise_for_status req r
              = raise (HTTPError (status_code r) req (text r))).
  { unfold raise_for_status.
    destruct (Z.leb_spec 400 (status_code r)),
      (Z.ltb_spec (status_code r) 600); cbn; try reflexivity; lia. }
  rewrite E. destruct (status_code r =? 422); reflexivity.
Qed.

(** [list_commits] stops when the server gives no link to a next
    page. *)
Lemma list_commits_last_page session fuel url params commits w tr d c l :
  let req := mkrequest url session params in
  let r := commits_api w tr req in
  ~ (400 <= status_code r < 600) -> json r = Some d ->
  doc_view d = c :: l -> next_link r = None ->
  list_commits_loop session (S fuel) url params commits w tr
  = (Ok (commits ++ c :: l), tr ++ [EvGet req]).
Proof.
  intros req r Hs Hj Hd Hn. cbn [list_commits_loop].
  unfold bind at 1. unfold get_json, bind, get. fold req. fold r.
  assert (E : raise_for_status req r = ret tt).
  { unfold raise_for_status.
    destruct (Z.leb_spec 400 (status_code r)),
      (Z.ltb_spec (status_code r) 600); cbn; try reflexivity; lia. }
  rewrite E. unfold ret at 1. unfold json_of. rewrite Hj.
  unfold ret at 1 2. cbn [fst snd]. rewrite Hd, Hn. reflexivity.
Qed.

End SearchItems.

Section PagedLoops.

Lemma ok_status {A} req (r : response A) :
  ~ (400 <= status_code r < 600) -> raise_for_status req r = ret tt.
Proof.
  intros Hs. unfold raise_for_status.
  destruct (Z.leb_spec 400 (status_code r)),
    (Z.ltb_spec (status_code r) 600); cbn; try reflexivity; lia.
Qed.

(** A computation that begins with a request, and goes on without
    writing, has the request as its first event. *)
Lemma get_first {A B} (api : world -> list event -> request -> response A)
    (req : request) (k : response A -> M B) w tr :
  (forall r, triple not_write (k r) (fun _ => True)) ->
  exists res rest,
    (r <- get api req ;; k r) w tr = (res, tr ++ EvGet req :: rest).
Proof.
  intros Hk. unfold bind at 1, get.
  destruct (k (api w tr req) w (tr ++ [EvGet req])) as [res tr'] eqn:E.
  destruct (Hk _ w _ _ _ E) as [(evs & -> & _) _].
  exists res, evs. rewrite <- app_assoc. reflexivity.
Qed.

(** *** [search_items] of [github_weekly_trends] *)

Lemma search_items_short session q pause w tr page pages items d :
  let req := github_weekly_trends.search_request session q page in
  let r := search_api w tr req in
  ~ (400 <= status_code r < 600) -> json r = Some d ->
  Z.of_nat (length (doc_view d)) < 100 ->
  github_weekly_trends.search_items_pages session q pause (page :: pages)
    items w tr
  = (Ok (items ++ doc_view d), tr ++ [EvGet req]).
Proof.
  intros req r Hs Hj Hlen. cbn [github_weekly_trends.search_items_pages].
  unfold bind at 1, get. fold req. fold r.
  rewrite (ok_status req r Hs).
  assert (E : (if status_code r =? 422 then ret tt else ret tt)
              = (@ret unit tt)) by (destruct (_ =? 422); reflexivity).
  rewrite E. unfold bind, ret, json_of. rewrite Hj. unfold ret.
  apply Z.ltb_lt in Hlen. rewrite Hlen. reflexivity.
Qed.

Lemma search_items_full session q pause w tr page pages items d :
  let req := github_weekly_trends.search_request session q page in
  let r := search_api w tr req in
  ~ (400 <= status_code r < 600) -> json r = Some d ->
  100 <= Z.of_nat (length (doc_view d)) ->
  github_weekly_trends.search_items_pages session q pause (page :: pages)
    items w tr
  = github_weekly_trends.search_items_pages session q pause pages
      (items ++ doc_view d) w (tr ++ [EvGet req; EvSleep pause]).
Proof.
  intros req r Hs Hj Hlen. cbn [github_weekly_trends.search_items_pages].
  unfold bind at 1, get. fold req. fold r.
  rewrite (ok_status req r Hs).
  assert (E : (if status_code r =? 422 then ret tt else ret tt)
              = (@ret unit tt)) by (destruct (_ =? 422); reflexivity).
  rewrite E. unfold bind, ret, json_of. rewrite Hj. unfold ret.
  apply Z.ltb_ge in Hlen. rewrite Hlen. unfold sleep, emit.
  rewrite <- app_assoc. reflexivity.
Qed.

Lemma search_items_first session q pause w tr page pages items :
  exists res rest,
    github_weekly_trends.search_items_pages session q pause (page :: pages)
      items w tr
    = (res,
       tr ++ EvGet (github_weekly_trends.search_request session q page)
          :: rest).
Proof.
  cbn [github_weekly_trends.search_items_pages]. apply get_first. intros r.
  eapply (triple_bind _ _ _ (fun _ => True)).
  { destruct (status_code r =? 422); [apply triple_raise_for_status|triple_true]. }
  intros _ _.
  eapply (triple_bind _ _ _ (fun _ => True)); [apply triple_raise_for_status|].
  intros _ _.
  eapply (triple_bind _ _ _ (fun _ => True)); [apply triple_json_of|].
  intros data _. destruct (_ <? 100); [triple_true|].
  eapply (triple_bind _ _ _ (fun _ => True)); [apply triple_sleep|].
  intros _ _. apply triple_search_items_pages.
Qed.

(** *** [fetch_commits] of [contributors_weekly] *)

Lemma fetch_commits_short url hdrs since_iso until_iso per_page pause w tr
    page pages all_commits d :
  let req := mkrequest url hdrs
               [("since", PStr since_iso); ("until", PStr until_iso);
                ("per_page", PInt per_page); ("page", PInt page)] in
  let r := commits_api w tr req in
  status_code r = 200 -> json r = Some d ->
  doc_view d = [] \/ Z.of_nat (length (doc_view d)) < per_page ->
  contributors_weekly.fetch_commits_pages url hdrs since_iso until_iso
    per_page pause (page :: pages) all_commits w tr
  = (Ok (all_commits ++ doc_view d), tr ++ [EvGet req]).
Proof.
  intros req r Hs Hj Hlen. cbn [contributors_weekly.fetch_commits_pages].
  unfold bind at 1, get. fold req. fold r. rewrite Hs.
  cbn [Z.eqb Pos.eqb negb]. unfold bind, json_of. rewrite Hj. unfold ret.
  destruct (doc_view d) as [|c l] eqn:Ed; [rewrite app_nil_r; reflexivity|].
  destruct Hlen as [Hlen|Hlen]; [discriminate|].
  apply Z.ltb_lt in Hlen. rewrite Hlen. reflexivity.
Qed.

Lemma fetch_commits_full url hdrs since_iso until_iso per_page pause w tr
    page pages all_commits d :
  let req := mkrequest url hdrs
               [("since", PStr since_iso); ("until", PStr until_iso);
                ("per_page", PInt per_page); ("page", PInt page)] in
  let r := commits_api w tr req in
  status_code r = 200 -> json r = Some d ->
  doc_view d <> [] -> per_page <= Z.of_nat (length (doc_view d)) ->
  contributors_weekly.fetch_commits_pages url hdrs since_iso until_iso
    per_page pause (page :: pages) all_commits w tr
  = contributors_weekly.fetch_commits_pages url hdrs since_iso until_iso
      per_page pause pages (all_commits ++ doc_view d) w
      (tr ++ [EvGet req; EvSleep pause]).
Proof.
  intros req r Hs Hj Hne Hlen. cbn [contributors_weekly.fetch_commits_pages].
  unfold bind at 1, get. fold req. fold r. rewrite Hs.
  cbn [Z.eqb Pos.eqb negb]. unfold bind at 1, json_of. rewrite Hj.
  unfold ret at 1.
  destruct (doc_view d) as [|c l] eqn:Ed; [contradiction|].
  apply Z.ltb_ge in Hlen. rewrite Hlen. unfold bind, sleep, emit.
  rewrite <- app_assoc. reflexivity.
Qed.

Lemma fetch_commits_first url hdrs since_iso until_iso per_page pause w tr
    page pages all_commits :
  exists res rest,
    contributors_weekly.fetch_commits_pages url hdrs since_iso until_iso
      per_page pause (page :: pages) all_commits w tr
    = (res,
       tr ++ EvGet (mkrequest url hdrs
                      [("since", PStr since_iso); ("until", PStr until_iso);
                       ("per_page", PInt per_page); ("page", PInt page)])
          :: rest).
Proof.
  cbn [contributors_weekly.fetch_commits_pages]. apply get_first. intros r.
  destruct (negb (status_code r =? 200)); [triple_true|].
  eapply (triple_bind _ _ _ (fun _ => True)); [apply triple_json_of|].
  intros data _. destruct (doc_view data) as [|c l]; [triple_true|].
  destruct (_ <? per_page); [triple_true|].
  eapply (triple_bind _ _ _ (fun _ => True)); [apply triple_sleep|].
  intros _ _. apply triple_fetch_commits_pages.
Qed.

(** *** [list_commits] and [list_releases] of [github_weekly_trends] *)

Lemma list_commits_turn session fuel url params commits w tr d :
  let req := mkrequest url session params in
  let r := commits_api w tr req in
  ~ (400 <= status_code r < 600) -> json r = Some d ->
  github_weekly_trends.list_commits_loop session (S fuel) url params commits
    w tr
  = match doc_view d with
    | [] => (Ok commits, tr ++ [EvGet req])
    | items =>
        match next_link r with
        | None => (Ok (commits ++ items), tr ++ [EvGet req])
        | Some next =>
            github_weekly_trends.list_commits_loop session fuel next []
              (commits ++ items) w (tr ++ [EvGet req; EvSleep 300])
        end
    end.
Proof.
  intros req r Hs Hj. cbn [github_weekly_trends.list_commits_loop].
  unfold bind at 1. unfold github_weekly_trends.get_json, bind, get.
  fold req. fold r. rewrite (ok_status req r Hs).
  unfold ret at 1. unfold json_of. rewrite Hj. unfold ret at 1 2.
  cbn [fst snd]. destruct (doc_view d) as [|c l]; [reflexivity|].
  destruct (next_link r); [|reflexivity].
  unfold sleep, emit. rewrite <- app_assoc. reflexivity.
Qed.

Lemma list_commits_first session fuel url params commits w tr :
  exists res rest,
    github_weekly_trends.list_commits_loop session (S fuel) url params
      commits w tr
    = (res, tr ++ EvGet (mkrequest url session params) :: rest).
Proof.
  cbn [github_weekly_trends.list_commits_loop].
  unfold github_weekly_trends.get_json.
  destruct (get_first commits_api (mkrequest url session params)
              (fun r =>
                 dl <- (_ <- raise_for_status (mkrequest url session params) r ;;
                        data <- json_of r ;;
                        ret (doc_view data, next_link r)) ;;
                 match dl.1 with
                 | [] => ret commits
                 | _ :: _ =>
                     match dl.2 with
                     | None => ret (commits ++ dl.1)
                     | Some next =>
                         _ <- sleep 300 ;;
                         github_weekly_trends.list_commits_loop session fuel
                           next [] (commits ++ dl.1)
                     end
                 end) w tr) as (res & rest & E).
  { intros r. eapply (triple_bind _ _ _ (fun _ => True)).
    - eapply (triple_bind _ _ _ (fun _ => True));
        [apply triple_raise_for_status|].
      intros _ _.
      eapply (triple_bind _ _ _ (fun _ => True)); [apply triple_json_of|].
      intros data _. triple_true.
    - intros dl _. destruct dl.1; [triple_true|].
      destruct dl.2; [|triple_true].
      eapply (triple_bind _ _ _ (fun _ => True)); [apply triple_sleep|].
      intros _ _. apply triple_list_commits_loop. }
  exists res, rest. exact E.
Qed.

Lemma triple_list_releases_loop session fuel :
  forall url params releases,
    triple not_write
      (github_weekly_trends.list_releases_loop session fuel url params
         releases) (fun _ => True).
Proof.
  induction fuel as [|fuel IH]; intros url params releases;
    cbn [github_weekly_trends.list_releases_loop]; [triple_true|].
  eapply (triple_bind _ _ _ (fun _ => True)); [triple_true|]. intros r _.
  eapply (triple_bind _ _ _ (fun _ => True)); [apply triple_raise_for_status|].
  intros _ _.
  eapply (triple_bind _ _ _ (fun _ => True)); [apply triple_json_of|].
  intros data _. destruct (doc_view data); [|triple_true].
  destruct (next_link r); [|triple_true].
  eapply (triple_bind _ _ _ (fun _ => True)); [apply triple_sleep|].
  intros _ _. apply IH.
Qed.

Lemma list_releases_turn session fuel url params releases w tr d :
  let req := mkrequest url session params in
  let r := releases_api w tr req in
  ~ (400 <= status_code r < 600) -> json r = Some d ->
  github_weekly_trends.list_releases_loop session (S fuel) url params
    releases w tr
  = match doc_view d with
    | None => (Ok releases, tr ++ [EvGet req])
    | Some l =>
        match next_link r with
        | None => (Ok (releases ++ l), tr ++ [EvGet req])
        | Some next =>
            github_weekly_trends.list_releases_loop session fuel next []
              (releases ++ l) w (tr ++ [EvGet req; EvSleep 300])
        end
    end.
Proof.
  intros req r Hs Hj. cbn [github_weekly_trends.list_releases_loop].
  unfold bind at 1, get. fold req. fold r. rewrite (ok_status req r Hs).
  unfold bind at 1, ret at 1. unfold bind at 1, json_of. rewrite Hj.
  unfold ret at 1. destruct (doc_view d) as [l|]; [|reflexivity].
  destruct (next_link r); [|reflexivity].
  unfold bind, sleep, emit. rewrite <- app_assoc. reflexivity.
Qed.

Lemma list_releases_first session fuel url params releases w tr :
  exists res rest,
    github_weekly_trends.list_releases_loop session (S fuel) url params
      releases w tr
    = (res, tr ++ EvGet (mkrequest url session params) :: rest).
Proof.
  cbn [github_weekly_trends.list_releases_loop]. apply get_first. intros r.
  eapply (triple_bind _ _ _ (fun _ => True)); [apply triple_raise_for_status|].
  intros _ _.
  eapply (triple_bind _ _ _ (fun _ => True)); [apply triple_json_of|].
  intros data _. destruct (doc_view data); [|triple_true].
  destruct (next_link r); [|triple_true].
  eapply (triple_bind _ _ _ (fun _ => True)); [apply triple_sleep|].
  intros _ _. apply triple_list_releases_loop.
Qed.

End PagedLoops.

(** C2, as stated, fails in [list_commits] of [github_weekly_trends],
    which follows the links of the server and never looks at the number
    of records: a first page with a single record, fewer than the page
    size of 100, and a link to a next page is followed by the request
    for that page. *)
Lemma C2_counterexample_short_page_followed :
  let url := "https://api.github.com/repos/valkey-io/valkey/commits" in
  let next := "https://api.github.com/repositories/1/commits?page=2" in
  let w := mkworld (mkdate 2024 1 21) (fun _ _ => page [])
             (fun _ _ => page None)
             (fun _ rq =>
                if String.eqb (Py.url rq) url
                then mkresponse 200 "[...]" (Some (mkdoc "[...]" [alice_login]))
                       (Some next)
                else page [bob_login])
             (fun _ _ => page (Some [])) in
  github_weekly_trends.list_commits [] "valkey-io" "valkey"
    "2024-01-01T00:00:00Z" "2024-01-21T23:59:59Z" 5 w []
  = (Ok [alice_login; bob_login],
     [EvGet (mkrequest url []
               [("per_page", PInt 100);
                ("since", PStr "2024-01-01T00:00:00Z");
                ("until", PStr "2024-01-21T23:59:59Z")]);
      EvSleep 300;
      EvGet (mkrequest next [] [])]).
Proof.
  cbv zeta. vm_compute. reflexivity.
Qed.

(** C2 (amended), script by script.  [fetch_search] of
    [github_prs_to_csv], [search_items] of [github_weekly_trends] and
    [fetch_commits] of [contributors_weekly] request the pages
    1 .. [max_pages] by number ([fetch_commits] always up to 100, with a
    page size of 100): a page with fewer records than the page size ends
    the pagination with the records so far and without a further
    request, a page with the page size of records is followed, after the
    pause, by the request for the next page, and a full page at page
    [max_pages] ends the pagination with the records so far, which is
    not an error.  [search_label] of [major_decision_weekly] does the
    same from page 1 on, with a page size of 100 and no cap.
    [list_commits] and [list_releases] of [github_weekly_trends] follow
    the links of the server and have no cap: the pagination ends when a
    response has no link to a next page, or when the page of commits is
    empty, or when the document of releases is no list; a page with a
    link, however few records it has, is followed after the pause by the
    request for the linked page. *)
Theorem C2_pagination :
  (forall query token per_page max_pages pause,
     github_prs_to_csv.fetch_search query token per_page max_pages pause
     = github_prs_to_csv.fetch_search_pages query token per_page pause
         (seqZ 1 max_pages) [])
  /\ (forall query token per_page max_pages pause w tr page all_items d,
        let req := github_prs_to_csv.search_request query token per_page in
        let r := search_api w tr (req page) in
        status_code r = 200 -> json r = Some d -> page <= max_pages ->
        paged_turn
          (github_prs_to_csv.fetch_search_pages query token per_page pause)
          req pause per_page max_pages page all_items (doc_view d) w tr)
  /\ (forall session q token max_pages pause,
        github_weekly_trends.search_items session q token max_pages pause
        = github_weekly_trends.search_items_pages session q pause
            (seqZ 1 max_pages) [])
  /\ (forall session q max_pages pause w tr page items d,
        let req := github_weekly_trends.search_request session q in
        let r := search_api w tr (req page) in
        ~ (400 <= status_code r < 600) -> json r = Some d ->
        page <= max_pages ->
        paged_turn (github_weekly_trends.search_items_pages session q pause)
          req pause 100 max_pages page items (doc_view d) w tr)
  /\ (forall owner repo since_iso until_iso token,
        contributors_weekly.fetch_commits owner repo since_iso until_iso
          token
        = contributors_weekly.fetch_commits_pages
            (contributors_weekly.COMMITS_URL owner repo)
            (contributors_weekly.gh_headers token) since_iso until_iso
            100 200 (seqZ 1 100) [])
  /\ (forall url hdrs since_iso until_iso per_page max_pages pause w tr page
             all_commits d,
        let req := fun p =>
          mkrequest url hdrs
            [("since", PStr since_iso); ("until", PStr until_iso);
             ("per_page", PInt per_page); ("page", PInt p)] in
        let r := commits_api w tr (req page) in
        status_code r = 200 -> json r = Some d -> 0 < per_page ->
        page <= max_pages ->
        paged_turn
          (contributors_weekly.fetch_commits_pages url hdrs since_iso
             until_iso per_page pause)
          req pause per_page max_pages page all_commits (doc_view d) w tr)
  /\ (forall owner repo which start end_ token fuel,
        major_decision_weekly.search_label owner repo which start end_ token
          fuel
        = (items <- major_decision_weekly.search_label_loop
                      (label_query owner repo which start end_) token fuel
                      1 [] ;;
           ret (items,
                if String.eqb which "opened" then "created_at"
                else "closed_at")))
  /\ (forall q token fuel w tr page items d,
        let req := major_decision_weekly.search_request q token in
        let r := search_api w tr (req page) in
        status_code r = 200 -> json r = Some d ->
        (Z.of_nat (length (doc_view d)) < 100 ->
         major_decision_weekly.search_label_loop q token (S fuel) page items
           w tr
         = (Ok (items ++ doc_view d), tr ++ [EvGet (req page)]))
        /\ (100 <= Z.of_nat (length (doc_view d)) ->
            exists res rest,
              major_decision_weekly.search_label_loop q token (S (S fuel))
                page items w tr
              = (res,
                 tr ++ [EvGet (req page); EvSleep 500;
                        EvGet (req (page + 1))] ++ rest)))
  /\ (forall session owner repo since_iso until_iso fuel,
        github_weekly_trends.list_commits session owner repo since_iso
          until_iso fuel
        = github_weekly_trends.list_commits_loop session fuel
            ("https://api.github.com/repos/" +:+ owner +:+ "/" +:+ repo
             +:+ "/commits")
            [("per_page", PInt 100); ("since", PStr since_iso);
             ("until", PStr until_iso)] [])
  /\ (forall session fuel url params commits w tr d,
        let req := mkrequest url session params in
        let r := commits_api w tr req in
        ~ (400 <= status_code r < 600) -> json r = Some d ->
        (doc_view d = [] ->
         github_weekly_trends.list_commits_loop session (S fuel) url params
           commits w tr
         = (Ok commits, tr ++ [EvGet req]))
        /\ (doc_view d <> [] -> next_link r = None ->
            github_weekly_trends.list_commits_loop session (S fuel) url
              params commits w tr
            = (Ok (commits ++ doc_view d), tr ++ [EvGet req]))
        /\ (doc_view d <> [] ->
            forall next, next_link r = Some next ->
            exists res rest,
              github_weekly_trends.list_commits_loop session (S (S fuel))
                url params commits w tr
              = (res,
                 tr ++ [EvGet req; EvSleep 300;
                        EvGet (mkrequest next session [])] ++ rest)))
  /\ (forall session owner repo since_d until_d fuel,
        github_weekly_trends.list_releases session owner repo since_d
          until_d fuel
        = (releases <- github_weekly_trends.list_releases_loop session fuel
                         ("https://api.github.com/repos/" +:+ owner +:+ "/"
                          +:+ repo +:+ "/releases")
                         [("per_page", PInt 100); ("page", PInt 1)] [] ;;
           lift (for_list_r
                   (github_weekly_trends.release_in_window since_d until_d)
                   releases [])))
  /\ (forall session fuel url params releases w tr d,
        let req := mkrequest url session params in
        let r := releases_api w tr req in
        ~ (400 <= status_code r < 600) -> json r = Some d ->
        (doc_view d = None ->
         github_weekly_trends.list_releases_loop session (S fuel) url params
           releases w tr
         = (Ok releases, tr ++ [EvGet req]))
        /\ (forall l,
              doc_view d = Some l -> next_link r = None ->
              github_weekly_trends.list_releases_loop session (S fuel) url
                params releases w tr
              = (Ok (releases ++ l), tr ++ [EvGet req]))
        /\ (forall l next,
              doc_view d = Some l -> next_link r = Some next ->
              exists res rest,
                github_weekly_trends.list_releases_loop session (S (S fuel))
                  url params releases w tr
                = (res,
                   tr ++ [EvGet req; EvSleep 300;
                          EvGet (mkrequest next session [])] ++ rest))).
Proof.
  split; [reflexivity|]. split.
  { intros query token per_page max_pages pause w tr page all_items d req r
        Hs Hj Hp.
      unfold paged_turn. rewrite (seqZ_cons page) by lia.
      split; [|split].
      + intros Hlen. apply fetch_search_short; assumption.
      + intros Hlen Hlt.
        rewrite (fetch_search_full _ _ _ _ _ _ _ _ _ d) by assumption.
        rewrite (seqZ_cons (Z.succ page)) by lia.
        destruct (fetch_search_first query token per_page pause w
                    (tr ++ [EvGet (req page); EvSleep pause]) (Z.succ page)
                    (seqZ (Z.succ (Z.succ page))
                       (Z.pred (Z.pred (max_pages - page + 1))))
                    (all_items ++ doc_view d)) as (res & rest & E).
        exists res, rest. subst r req. cbv zeta in E |- *. rewrite E.
        rewrite <- app_assoc.
        replace (page + 1) with (Z.succ page) by lia. reflexivity.
      + intros Hlen Hlast.
        rewrite (fetch_search_full _ _ _ _ _ _ _ _ _ d) by assumption.
        rewrite seqZ_nil by lia. reflexivity. }
  split; [reflexivity|]. split.
  { intros session q max_pages pause w tr page items d req r Hs Hj Hp.
      unfold paged_turn. rewrite (seqZ_cons page) by lia.
      split; [|split].
      + intros Hlen. apply search_items_short; assumption.
      + intros Hlen Hlt.
        rewrite (search_items_full _ _ _ _ _ _ _ _ d) by assumption.
        rewrite (seqZ_cons (Z.succ page)) by lia.
        destruct (search_items_first session q pause w
                    (tr ++ [EvGet (req page); EvSleep pause]) (Z.succ page)
                    (seqZ (Z.succ (Z.succ page))
                       (Z.pred (Z.pred (max_pages - page + 1))))
                    (items ++ doc_view d)) as (res & rest & E).
        exists res, rest. subst r req. cbv zeta in E |- *. rewrite E.
        rewrite <- app_assoc.
        replace (page + 1) with (Z.succ page) by lia. reflexivity.
      + intros Hlen Hlast.
        rewrite (search_items_full _ _ _ _ _ _ _ _ d) by assumption.
        rewrite seqZ_nil by lia. reflexivity. }
  split; [reflexivity|]. split.
  { intros url hdrs since_iso until_iso per_page max_pages pause w tr page
        all_commits d req r Hs Hj Hpp Hp.
      unfold paged_turn. rewrite (seqZ_cons page) by lia.
      assert (Hne : per_page <= Z.of_nat (length (doc_view d)) ->
                    doc_view d <> []).
      { intros Hlen E. rewrite E in Hlen. cbn in Hlen. lia. }
      split; [|split].
      + intros Hlen. apply fetch_commits_short; auto.
      + intros Hlen Hlt.
        rewrite (fetch_commits_full _ _ _ _ _ _ _ _ _ _ _ d) by auto.
        rewrite (seqZ_cons (Z.succ page)) by lia.
        destruct (fetch_commits_first url hdrs since_iso until_iso per_page
                    pause w (tr ++ [EvGet (req page); EvSleep pause])
                    (Z.succ page)
                    (seqZ (Z.succ (Z.succ page))
                       (Z.pred (Z.pred (max_pages - page + 1))))
                    (all_commits ++ doc_view d)) as (res & rest & E).
        exists res, rest. subst r req. cbv zeta beta in E |- *. rewrite E.
        rewrite <- app_assoc.
        replace (page + 1) with (Z.succ page) by lia. reflexivity.
      + intros Hlen Hlast.
        rewrite (fetch_commits_full _ _ _ _ _ _ _ _ _ _ _ d) by auto.
        rewrite seqZ_nil by lia. reflexivity. }
  split.
  { intros owner repo which start end_ token fuel.
      unfold major_decision_weekly.search_label, label_query.
      destruct (String.eqb which "opened"); reflexivity. }
  split.
  { intros q token fuel w tr page items d req r Hs Hj. split.
      + intros Hlen. apply search_label_short; assumption.
      + intros Hlen.
        rewrite (search_label_full _ _ _ _ _ _ _ d) by assumption.
        destruct (search_label_first q token w
                    (tr ++ [EvGet (req page); EvSleep 500]) fuel (page + 1)
                    (items ++ doc_view d)) as (res & rest & E).
        exists res, rest. subst r req. cbv zeta in E |- *. rewrite E.
        rewrite <- app_assoc. reflexivity. }
  split; [reflexivity|]. split.
  { intros session fuel url params commits w tr d req r Hs Hj.
      split; [|split].
      + intros Hd. rewrite (list_commits_turn _ _ _ _ _ _ _ d) by assumption.
        rewrite Hd. reflexivity.
      + intros Hd Hn. rewrite (list_commits_turn _ _ _ _ _ _ _ d) by assumption.
        fold req. fold r. rewrite Hn.
        destruct (doc_view d); [contradiction|reflexivity].
      + intros Hd next Hn.
        rewrite (list_commits_turn _ _ _ _ _ _ _ d) by assumption.
        fold req. fold r. rewrite Hn.
        destruct (doc_view d) as [|c l]; [contradiction|].
        destruct (list_commits_first session fuel next [] (commits ++ c :: l) w
                    (tr ++ [EvGet req; EvSleep 300])) as (res & rest & E).
        exists res, rest. subst r req. cbv zeta in E |- *.
      rewrite E, <- app_assoc. reflexivity. }
  split; [reflexivity|].
  intros session fuel url params releases w tr d req r Hs Hj.
    split; [|split].
    + intros Hd. rewrite (list_releases_turn _ _ _ _ _ _ _ d) by assumption.
      rewrite Hd. reflexivity.
    + intros l Hd Hn.
      rewrite (list_releases_turn _ _ _ _ _ _ _ d) by assumption.
      fold req. fold r. rewrite Hd, Hn. reflexivity.
    + intros l next Hd Hn.
      rewrite (list_releases_turn _ _ _ _ _ _ _ d) by assumption.
      fold req. fold r. rewrite Hd, Hn.
      destruct (list_releases_first session fuel next [] (releases ++ l) w
                  (tr ++ [EvGet req; EvSleep 300])) as (res & rest & E).
      exists res, rest. subst r req. cbv zeta in E |- *.
      rewrite E, <- app_assoc. reflexivity.
Qed.

(** A search answered with a single item. *)
Lemma C2_pagination_witness :
  github_prs_to_csv.fetch_search_pages "is:pr" None 100 200
    (seqZ 1 (10 - 1 + 1)) []
    (search_world [issue_at "2024-01-02T09:00:00Z"]) []
  = (Ok [issue_at "2024-01-02T09:00:00Z"],
     [EvGet (github_prs_to_csv.search_request "is:pr" None 100 1)]).
Proof.
  destruct C2_pagination as (_ & H & _).
  destruct (H "is:pr" None 100 10 200%N
              (search_world [issue_at "2024-01-02T09:00:00Z"]) [] 1 []
              (mkdoc "{...}" [issue_at "2024-01-02T09:00:00Z"])
              eq_refl eq_refl ltac:(discriminate)) as (Hshort & _).
  apply Hshort. reflexivity.
Defined.

(** C3, as stated, fails in [github_prs_to_csv] and
    [github_weekly_trends]: a search answered with status 403 ends
    [fetch_search] with [SystemExit] and [search_items] with
    [HTTPError], after that one request, with no pause and no retry. *)
Lemma C3_counterexample_rate_limit_aborts :
  let w := failing_world 403 "API rate limit exceeded" in
  github_prs_to_csv.fetch_search "is:pr" None 100 10 200 w []
  = (Raise (SystemExit
              (github_prs_to_csv.search_error 403 "is:pr" 1
                 "API rate limit exceeded")),
     [EvGet (github_prs_to_csv.search_request "is:pr" None 100 1)])
  /\ github_weekly_trends.search_items [] "is:pr" None 10 500 w []
     = (Raise (HTTPError 403
                 (github_weekly_trends.search_request [] "is:pr" 1)
                 "API rate limit exceeded"),
        [EvGet (github_weekly_trends.search_request [] "is:pr" 1)]).
Proof.
  cbv zeta. split; vm_compute; reflexivity.
Qed.

(** C3 (amended): in [search_label] of [major_decision_weekly] a page
    request answered with status 403 makes the fetcher pause 5 seconds
    and request the same page again, however often that happens; it is
    never an error there.  In [fetch_search] of [github_prs_to_csv] every
    response with a status other than 200, and in [search_items] of
    [github_weekly_trends] every 4xx or 5xx response, ends the run with an
    error; the rate-limit statuses 403 and 429 are among them. *)
Theorem C3_rate_limit :
  (forall q token w tr fuel page items,
     let req := major_decision_weekly.search_request q token in
     status_code (search_api w tr (req page)) = 403 ->
     major_decision_weekly.search_label_loop q token (S fuel) page items w tr
     = major_decision_weekly.search_label_loop q token fuel page items w
         (tr ++ [EvGet (req page); EvSleep 5000])
     /\ exists res rest,
          major_decision_weekly.search_label_loop q token (S (S fuel)) page
            items w tr
          = (res,
             tr ++ [EvGet (req page); EvSleep 5000; EvGet (req page)]
                ++ rest))
  /\ (forall q token w page items,
        (forall tr r, status_code (search_api w tr r) = 403) ->
        forall fuel tr,
          major_decision_weekly.search_label_loop q token fuel page items
            w tr
          = (OutOfFuel,
             tr ++ concat
                     (replicate fuel
                        [EvGet (major_decision_weekly.search_request q token
                                  page);
                         EvSleep 5000])))
  /\ (forall query token per_page pause w tr page pages all_items,
        let req := github_prs_to_csv.search_request query token per_page in
        let r := search_api w tr (req page) in
        status_code r <> 200 ->
        github_prs_to_csv.fetch_search_pages query token per_page pause
          (page :: pages) all_items w tr
        = (Raise (SystemExit
                    (github_prs_to_csv.search_error (status_code r) query
                       page (github_prs_to_csv.error_payload r))),
           tr ++ [EvGet (req page)]))
  /\ (forall session q pause w tr page pages items,
        let req := github_weekly_trends.search_request session q page in
        let r := search_api w tr req in
        400 <= status_code r < 600 ->
        github_weekly_trends.search_items_pages session q pause
          (page :: pages) items w tr
        = (Raise (HTTPError (status_code r) req (text r)),
           tr ++ [EvGet req])).
Proof.
  split; [|split; [|split]].
  - intros q token w tr fuel page items req Hs. split.
    + apply search_label_rate_limited. exact Hs.
    + rewrite search_label_rate_limited by exact Hs.
      destruct (search_label_first q token w
                  (tr ++ [EvGet (req page); EvSleep 5000]) fuel page items)
        as (res & rest & E).
      exists res, rest. subst req. cbv zeta in E |- *. rewrite E.
      rewrite <- app_assoc. reflexivity.
  - intros q token w page items Hs fuel tr.
    apply search_label_retries_forever. exact Hs.
  - intros query token per_page pause w tr page pages all_items req r Hs.
    apply fetch_search_failure. exact Hs.
  - intros session q pause w tr page pages items req r Hs.
    apply search_items_failure. exact Hs.
Qed.

(** A server that always answers 403, for three turns. *)
Lemma C3_rate_limit_witness :
  major_decision_weekly.search_label_loop "is:issue" "t" 3 1 []
    (failing_world 403 "API rate limit exceeded") []
  = (OutOfFuel,
     [] ++ concat
             (replicate 3
                [EvGet (major_decision_weekly.search_request "is:issue" "t" 1);
                 EvSleep 5000])).
Proof.
  destruct C3_rate_limit as (_ & H & _).
  apply (H "is:issue" "t" (failing_world 403 "API rate limit exceeded")).
  intros tr r. reflexivity.
Defined.




(** ** C8: the output rows *)





(** * Further properties of the scripts *)

(** ** Timestamps and dates *)

Section MoreTimestamps.

Lemma strptime_ymd_isoformat d :
  valid_date d -> strptime_ymd (isoformat d) = Ok d.
Proof.
  intros Hv. apply valid_date_iff in Hv as Hv'.
  destruct Hv' as (Hy & Hmo & Hda).
  pose proof (days_in_month_le (year d) (month d)) as Hdim.
  destruct d as [y m dd]. cbn [year month day] in *.
  unfold strptime_ymd.
  assert (E : match_ymd (isoformat (mkdate y m dd)) = Some (y, m, dd)).
  { unfold match_ymd, isoformat. cbn [year month day].
    rewrite ?string_app_assoc.
    rewrite first_alt_Y by (unfold MINYEAR, MAXYEAR in *; lia).
    rewrite lit_app by reflexivity.
    apply first_alt_m; [lia|]. rewrite lit_app by reflexivity.
    apply (first_alt_d dd EmptyString); [lia|]. cbn [at_end].
    destruct (year_field y EmptyString) as [_ ->];
      [unfold MINYEAR, MAXYEAR in *; lia|].
    rewrite !int_of_zfill2 by lia. reflexivity. }
  rewrite E. unfold date_new. unfold valid_date in Hv. rewrite Hv.
  reflexivity.
Qed.

Lemma strptime_ymd_cases s :
  (exists d, strptime_ymd s = Ok d /\ valid_date d)
  \/ strptime_ymd s = Raise ValueError.
Proof.
  unfold strptime_ymd.
  destruct (match_ymd s) as [[[y m] d]|]; [|right; reflexivity].
  unfold date_new. destruct (valid_dateb (mkdate y m d)) eqn:E;
    [left; eauto | right; reflexivity].
Qed.

Lemma strftime_iso_z_length t :
  1000 <= year (dt_date t) -> String.length (strftime_iso_z t) = 20%nat.
Proof.
  intros H. unfold strftime_iso_z. rewrite strftime_ymd_wide by exact H.
  reflexivity.
Qed.

Lemma strftime_iso_z_short_length t :
  year (dt_date t) < 1000 -> (String.length (strftime_iso_z t) < 20)%nat.
Proof.
  intros H. unfold strftime_iso_z, strftime_ymd, strftime_Y, zfill2.
  destruct (Z.ltb_spec (year (dt_date t)) 10);
    [|destruct (Z.ltb_spec (year (dt_date t)) 100);
      [|destruct (Z.ltb_spec (year (dt_date t)) 1000); [|lia]]];
    rewrite ?string_app_assoc, ?app_String, ?app_empty;
    cbn [String.length]; lia.
Qed.

End MoreTimestamps.

Section Ranges.

Lemma date_sub_cases d n :
  valid_date d ->
  (exists d', date_sub d (mktimedelta n) = Ok d' /\ valid_date d'
              /\ toordinal d' = toordinal d - n)
  \/ (date_sub d (mktimedelta n) = Raise OverflowError
      /\ ~ (1 <= toordinal d - n <= MAXORDINAL)).
Proof.
  intros Hv. unfold date_sub. cbn [td_days].
  destruct (decide (1 <= toordinal d + - n <= MAXORDINAL)) as [Hr|Hr].
  - left. destruct (date_add_ok d (- n) Hv Hr) as (d' & E & Hv' & Ho).
    exists d'. split; [exact E|]. split; [exact Hv'|]. lia.
  - right. split; [apply date_add_overflow; assumption | lia].
Qed.

Lemma isoformat_truthy d : truthy (Some (isoformat d)) = true.
Proof. reflexivity. Qed.

End Ranges.

(** X1: a date-time of the year 1000 or later, rendered by [iso_z] of
    [contributors_weekly], is 20 characters long, and [parse_iso_z] of
    [github_weekly_trends] and of [major_decision_weekly] read it back
    unchanged.  A date-time of an earlier year is rendered without
    leading zeros in the year, in fewer than 20 characters, and
    [parse_iso_z] raises [ValueError] on the rendering.  On any text,
    [parse_iso_z] returns a date-time that exists or raises
    [ValueError], nothing else. *)
Theorem X1_timestamp_round_trip :
  (forall t,
     valid_datetime t ->
     (1000 <= year (dt_date t) ->
      String.length (contributors_weekly.iso_z t) = 20%nat
      /\ github_weekly_trends.parse_iso_z (contributors_weekly.iso_z t)
         = Ok t
      /\ major_decision_weekly.parse_iso_z (contributors_weekly.iso_z t)
         = Ok t)
     /\ (year (dt_date t) < 1000 ->
         (String.length (contributors_weekly.iso_z t) < 20)%nat
         /\ github_weekly_trends.parse_iso_z (contributors_weekly.iso_z t)
            = Raise ValueError
         /\ major_decision_weekly.parse_iso_z (contributors_weekly.iso_z t)
            = Raise ValueError))
  /\ (forall s,
        (exists t,
           github_weekly_trends.parse_iso_z s = Ok t /\ valid_datetime t)
        \/ github_weekly_trends.parse_iso_z s = Raise ValueError).
Proof.
  split.
  - intros t Hv. split.
    + intros Hwide. split; [apply strftime_iso_z_length; exact Hwide|].
      split; apply strptime_strftime; assumption.
    + intros Hshort.
      split; [apply strftime_iso_z_short_length; exact Hshort|].
      apply valid_datetime_iff in Hv as (Hd & _).
      apply valid_date_iff in Hd as (Hy & _). unfold MINYEAR in Hy.
      split; apply strptime_strftime_short; lia.
  - intros s. unfold github_weekly_trends.parse_iso_z.
    destruct (strptime_cases s) as [(t & Ht & Hv)|Hr]; [left|right; exact Hr].
    exists t. split; [exact Ht|exact Hv].
Qed.

(** The timestamp 2025-09-12T12:35:18Z. *)
Lemma X1_timestamp_round_trip_witness :
  let t := mkdatetime (mkdate 2025 9 12) 12 35 18 in
  String.length (contributors_weekly.iso_z t) = 20%nat
  /\ github_weekly_trends.parse_iso_z (contributors_weekly.iso_z t) = Ok t
  /\ major_decision_weekly.parse_iso_z (contributors_weekly.iso_z t) = Ok t.
Proof.
  apply (proj1 (proj1 X1_timestamp_round_trip
                  (mkdatetime (mkdate 2025 9 12) 12 35 18) eq_refl)).
  cbn. lia.
Defined.

(** X2: [to_date] of [github_prs_to_csv] reads back the text [str] gives
    for a date, the text that [build_query] puts into a query.  On any
    text, [to_date] returns a date that exists or raises [ValueError]. *)
Theorem X2_to_date_round_trip :
  (forall d,
     valid_date d -> github_prs_to_csv.to_date (isoformat d) = Ok d)
  /\ (forall s,
        (exists d, github_prs_to_csv.to_date s = Ok d /\ valid_date d)
        \/ github_prs_to_csv.to_date s = Raise ValueError).
Proof.
  split.
  - intros d Hv. apply strptime_ymd_isoformat. exact Hv.
  - intros s. apply strptime_ymd_cases.
Qed.

(** The last day of February of a leap year. *)
Lemma X2_to_date_round_trip_witness :
  github_prs_to_csv.to_date (isoformat (mkdate 2024 2 29))
  = Ok (mkdate 2024 2 29).
Proof.
  apply (proj1 X2_to_date_round_trip (mkdate 2024 2 29)). reflexivity.
Defined.

(** X3: [calc_range] of [github_prs_to_csv] does nothing but read the
    clock.  A window it returns has a start that is not after its end.
    With [--since] and [--until] it returns the two dates, or ends the
    run with [SystemExit] naming both when the start is after the end.
    With [--since-days n] and no [--until] it returns the window of the
    [n] days before today and today; a negative [n] is an error, and so
    is an [n] that reaches before 0001-01-01 ([OverflowError]). *)
Theorem X3_calc_range (a : github_prs_to_csv.args) (w : world)
    (tr : list event) :
  valid_date (today w) ->
  (github_prs_to_csv.calc_range a w tr).2 = tr
  /\ (forall s e,
        (github_prs_to_csv.calc_range a w tr).1 = Ok (s, e) ->
        valid_date s /\ valid_date e /\ toordinal s <= toordinal e)
  /\ (forall s e,
        valid_date s -> valid_date e ->
        github_prs_to_csv.since a = github_prs_to_csv.Since (isoformat s) ->
        github_prs_to_csv.until_ a = Some (isoformat e) ->
        (github_prs_to_csv.calc_range a w tr).1
        = if date_ltb e s then
            Raise (SystemExit
                     ("--since/--since-days must be <= --until. Got start="
                      +:+ isoformat s +:+ " end=" +:+ isoformat e))
          else Ok (s, e))
  /\ (forall n,
        github_prs_to_csv.since a = github_prs_to_csv.SinceDays n ->
        truthy (github_prs_to_csv.until_ a) = false ->
        (0 <= n < toordinal (today w) ->
         exists s,
           (github_prs_to_csv.calc_range a w tr).1 = Ok (s, today w)
           /\ valid_date s /\ toordinal s = toordinal (today w) - n)
        /\ (n < 0 ->
            exists e, (github_prs_to_csv.calc_range a w tr).1 = Raise e)
        /\ (toordinal (today w) <= n ->
            (github_prs_to_csv.calc_range a w tr).1 = Raise OverflowError)).
Proof.
  intros Hw. pose proof (toordinal_range _ Hw) as Hrw.
  unfold github_prs_to_csv.calc_range. cbn [fst snd].
  split; [reflexivity|]. split; [|split].
  - intros s e H.
    set (start_r := match github_prs_to_csv.since a with
                    | github_prs_to_csv.SinceDays n =>
                        td <-r timedelta_days n ;; date_sub (today w) td
                    | github_prs_to_csv.Since s0 =>
                        github_prs_to_csv.to_date s0
                    end) in *.
    set (end_r := if truthy (github_prs_to_csv.until_ a)
                  then github_prs_to_csv.to_date
                         (default EmptyString (github_prs_to_csv.until_ a))
                  else Ok (today w)) in *.
    assert (Hs : forall x, start_r = Ok x -> valid_date x).
    { subst start_r. intros x Hx.
      destruct (github_prs_to_csv.since a) as [n|s0].
      - unfold timedelta_days in Hx.
        destruct ((-999999999 <=? n) && (n <=? 999999999));
          cbn [rbind] in Hx; [|discriminate].
        destruct (date_sub_cases (today w) n Hw)
          as [(d' & E & Hv' & _)|[E _]]; rewrite E in Hx; [|discriminate].
        injection Hx as <-. exact Hv'.
      - destruct (strptime_ymd_cases s0) as [(d & E & Hv)|E];
          unfold github_prs_to_csv.to_date in Hx; rewrite E in Hx;
          [|discriminate].
        injection Hx as <-. exact Hv. }
    assert (He : forall x, end_r = Ok x -> valid_date x).
    { subst end_r. intros x Hx.
      destruct (truthy (github_prs_to_csv.until_ a)).
      - destruct (strptime_ymd_cases
                    (default EmptyString (github_prs_to_csv.until_ a)))
          as [(d & E & Hv)|E];
          unfold github_prs_to_csv.to_date in Hx; rewrite E in Hx;
          [|discriminate].
        injection Hx as <-. exact Hv.
      - injection Hx as <-. exact Hw. }
    destruct start_r as [s'| |]; cbn [rbind] in H; try discriminate.
    destruct end_r as [e'| |]; cbn [rbind] in H; try discriminate.
    destruct (date_ltb e' s') eqn:Hlt; [discriminate|].
    injection H as <- <-.
    pose proof (Hs s' eq_refl) as Hvs. pose proof (He e' eq_refl) as Hve.
    repeat split; try assumption.
    apply date_leb_iff; try assumption.
    unfold date_leb. rewrite Hlt. reflexivity.
  - intros s e Hvs Hve -> ->. rewrite isoformat_truthy.
    cbn [default from_option id]. unfold github_prs_to_csv.to_date.
    rewrite !strptime_ymd_isoformat by assumption. cbn [rbind]. reflexivity.
  - intros n -> ->. split; [|split].
    + intros Hn. rewrite timedelta_days_ok by (unfold MAXORDINAL in *; lia).
      cbn [rbind].
      destruct (date_sub_cases (today w) n Hw)
        as [(s & E & Hv & Ho)|[_ Hbad]]; [|lia].
      rewrite E. cbn [rbind]. exists s.
      destruct (date_ltb (today w) s) eqn:Hlt.
      * apply date_ltb_iff in Hlt; try assumption. lia.
      * auto.
    + intros Hn. unfold timedelta_days.
      destruct ((-999999999 <=? n) && (n <=? 999999999)); cbn [rbind];
        [|eauto].
      destruct (date_sub_cases (today w) n Hw)
        as [(s & E & Hv & Ho)|[E _]]; rewrite E; cbn [rbind]; [|eauto].
      assert (Hlt : date_ltb (today w) s = true)
        by (apply date_ltb_iff; try assumption; lia).
      rewrite Hlt. eauto.
    + intros Hn. unfold timedelta_days.
      destruct ((-999999999 <=? n) && (n <=? 999999999)); cbn [rbind];
        [|reflexivity].
      destruct (date_sub_cases (today w) n Hw)
        as [(s & E & Hv & Ho)|[E _]]; rewrite E; cbn [rbind]; [|reflexivity].
      pose proof (toordinal_range s Hv). lia.
Qed.

(** The 90 days before 2024-01-21. *)
Lemma X3_calc_range_witness :
  let a := github_prs_to_csv.mkargs "valkey-io" "valkey"
             (github_prs_to_csv.SinceDays 90) None "opened" "weekly"
             "out.csv" None 10 200 30 in
  exists s,
    (github_prs_to_csv.calc_range a (search_world []) []).1
    = Ok (s, mkdate 2024 1 21)
    /\ valid_date s /\ toordinal s = toordinal (mkdate 2024 1 21) - 90.
Proof.
  cbv zeta.
  destruct (X3_calc_range
              (github_prs_to_csv.mkargs "valkey-io" "valkey"
                 (github_prs_to_csv.SinceDays 90) None "opened" "weekly"
                 "out.csv" None 10 200 30)
              (search_world []) [] eq_refl) as (_ & _ & _ & H).
  destruct (H 90 eq_refl eq_refl) as (H1 & _).
  apply H1. vm_compute. split; [discriminate|reflexivity].
Defined.

(** ** Buckets *)

Section MoreBuckets.

(** The weekly bucket of the four scripts. *)
Lemma weekly_buckets_agree t :
  valid_datetime t ->
  exists m,
    github_weekly_trends.monday_bucket t = Ok m
    /\ major_decision_weekly.monday_bucket t = Ok m
    /\ contributors_weekly.monday_bucket t = Ok (mkdatetime m 0 0 0)
    /\ github_prs_to_csv.bucket_start t "weekly" = Ok (mkdatetime m 0 0 0)
    /\ valid_date m /\ weekday m = 0
    /\ toordinal m = toordinal (dt_date t) - weekday (dt_date t).
Proof.
  intros Hv. apply valid_datetime_iff in Hv as (Hd & _).
  destruct (monday_of (dt_date t) Hd) as (m & Hm & Hvm & Hom & Hwm).
  exists m. split; [exact Hm|]. split; [exact Hm|].
  assert (E : contributors_weekly.monday_bucket t = Ok (mkdatetime m 0 0 0)).
  { unfold contributors_weekly.monday_bucket, datetime_sub.
    destruct (timedelta_days (weekday (dt_date t))) as [td| |];
      cbn [rbind] in Hm |- *; try discriminate.
    rewrite Hm. cbn [rbind dt_date].
    apply datetime_new_midnight. assumption. }
  split; [exact E|]. split; [exact E|]. auto.
Qed.

Lemma first_of_month_le d :
  valid_date d ->
  toordinal (mkdate (year d) (month d) 1) <= toordinal d.
Proof.
  intros Hv. pose proof (first_of_month_valid d Hv) as Hf.
  apply date_leb_iff; try assumption.
  unfold date_leb. apply negb_true_iff.
  destruct (date_ltb d (mkdate (year d) (month d) 1)) eqn:E; [|reflexivity].
  apply date_ltb_spec in E. cbn [year month day] in E.
  apply valid_date_iff in Hv. lia.
Qed.

Lemma first_of_month_mono d1 d2 :
  valid_date d1 -> valid_date d2 -> toordinal d1 <= toordinal d2 ->
  toordinal (mkdate (year d1) (month d1) 1)
  <= toordinal (mkdate (year d2) (month d2) 1).
Proof.
  intros H1 H2 Hle.
  pose proof (first_of_month_valid d1 H1) as Hf1.
  pose proof (first_of_month_valid d2 H2) as Hf2.
  destruct (Z.le_gt_cases (toordinal (mkdate (year d1) (month d1) 1))
              (toordinal (mkdate (year d2) (month d2) 1))) as [H|H];
    [exact H|].
  exfalso. apply date_ltb_iff in H; try assumption.
  apply date_ltb_spec in H. cbn [year month day] in H.
  assert (Hlt : date_ltb d2 d1 = true) by (apply date_ltb_spec; lia).
  apply date_ltb_iff in Hlt; try assumption. lia.
Qed.

(** The date whose label [bucket_key] returns. *)
Lemma bucket_key_spec t bucket :
  valid_datetime t ->
  exists b,
    github_prs_to_csv.bucket_key t bucket = Ok (bucket_label b)
    /\ valid_date b
    /\ (if String.eqb bucket "daily" then b = dt_date t
        else if String.eqb bucket "weekly" then
          weekday b = 0
          /\ toordinal b = toordinal (dt_date t) - weekday (dt_date t)
        else b = mkdate (year (dt_date t)) (month (dt_date t)) 1).
Proof.
  intros Hv. apply valid_datetime_iff in Hv as Hv'. destruct Hv' as (Hd & _).
  unfold github_prs_to_csv.bucket_key.
  destruct (String.eqb bucket "daily") eqn:Ed;
    [|destruct (String.eqb bucket "weekly") eqn:Ew].
  - exists (dt_date t). unfold github_prs_to_csv.bucket_start. rewrite Ed.
    rewrite datetime_new_midnight by assumption. cbn [rbind].
    rewrite strftime_midnight. auto.
  - apply String.eqb_eq in Ew. subst bucket.
    destruct (weekly_buckets_agree t Hv)
      as (m & _ & _ & _ & E & Hvm & Hwm & Hom).
    exists m. rewrite E. cbn [rbind]. rewrite strftime_midnight. auto.
  - exists (mkdate (year (dt_date t)) (month (dt_date t)) 1).
    unfold github_prs_to_csv.bucket_start. rewrite Ed, Ew.
    pose proof (first_of_month_valid _ Hd) as Hf.
    rewrite datetime_new_ok by (apply midnight_valid; assumption).
    cbn [rbind]. rewrite strftime_midnight. auto.
Qed.

End MoreBuckets.

(** X4: the four scripts put a timestamp into the same week.  For every
    date-time that exists, [monday_bucket] of [github_weekly_trends] and
    of [major_decision_weekly] return the same date, [monday_bucket] of
    [contributors_weekly] the midnight of that date, and [bucket_key] of
    [github_prs_to_csv] with weekly buckets the [strftime] rendering of
    that midnight, which is also the key [contributors_weekly] writes
    and the time [write_csv] writes for the date; none of them fails.
    The date is a Monday, on the day of the timestamp or at most six
    days before it.  When its year has four digits, the key is the text
    YYYY-MM-DDT00:00:00Z of the date. *)
Theorem X4_weekly_buckets_agree (t : datetime) :
  valid_datetime t ->
  exists m,
    github_weekly_trends.monday_bucket t = Ok m
    /\ major_decision_weekly.monday_bucket t = Ok m
    /\ contributors_weekly.monday_bucket t = Ok (mkdatetime m 0 0 0)
    /\ github_prs_to_csv.bucket_key t "weekly" = Ok (bucket_label m)
    /\ contributors_weekly.iso_z (mkdatetime m 0 0 0) = bucket_label m
    /\ valid_date m /\ weekday m = 0
    /\ toordinal (dt_date t) - 6 <= toordinal m <= toordinal (dt_date t)
    /\ (four_digits m -> bucket_label m = iso_label m).
Proof.
  intros Hv.
  destruct (weekly_buckets_agree t Hv)
    as (m & H1 & H2 & H3 & H4 & Hvm & Hwm & Hom).
  pose proof (weekday_range (dt_date t)) as Hr.
  exists m. split; [exact H1|]. split; [exact H2|]. split; [exact H3|].
  split.
  { unfold github_prs_to_csv.bucket_key. rewrite H4. cbn [rbind].
    rewrite strftime_midnight. reflexivity. }
  split; [apply strftime_midnight|].
  split; [exact Hvm|]. split; [exact Hwm|]. split; [lia|].
  apply bucket_label_wide.
Qed.

(** Friday 2025-09-12 belongs to the week of Monday 2025-09-08. *)
Lemma X4_weekly_buckets_agree_witness :
  let t := mkdatetime (mkdate 2025 9 12) 12 35 18 in
  exists m,
    github_weekly_trends.monday_bucket t = Ok m
    /\ major_decision_weekly.monday_bucket t = Ok m
    /\ contributors_weekly.monday_bucket t = Ok (mkdatetime m 0 0 0)
    /\ github_prs_to_csv.bucket_key t "weekly" = Ok (bucket_label m)
    /\ contributors_weekly.iso_z (mkdatetime m 0 0 0) = bucket_label m
    /\ valid_date m /\ weekday m = 0
    /\ toordinal (dt_date t) - 6 <= toordinal m <= toordinal (dt_date t)
    /\ (four_digits m -> bucket_label m = iso_label m).
Proof.
  apply (X4_weekly_buckets_agree (mkdatetime (mkdate 2025 9 12) 12 35 18)).
  reflexivity.
Defined.

(** X5: a weekly bucket holds the timestamps of the seven days from its
    Monday on, and no others: for a Monday [m], [monday_bucket] returns
    [m] exactly for the date-times whose date is [m] or one of the six
    days after it. *)
Theorem X5_week_contents (m : date) (t : datetime) :
  valid_date m -> weekday m = 0 -> valid_datetime t ->
  github_weekly_trends.monday_bucket t = Ok m
  <-> toordinal m <= toordinal (dt_date t) <= toordinal m + 6.
Proof.
  intros Hvm Hwm Hv.
  destruct (weekly_buckets_agree t Hv)
    as (m' & H1 & _ & _ & _ & Hvm' & Hwm' & Hom').
  pose proof (weekday_range (dt_date t)) as Hr.
  rewrite H1. split.
  - intros E. injection E as <-. lia.
  - intros Hin. f_equal. apply toordinal_inj; try assumption.
    unfold weekday in *. Z.div_mod_to_equations. lia.
Qed.

(** Sunday 2025-09-14 is the last day of the week of 2025-09-08. *)
Lemma X5_week_contents_witness :
  github_weekly_trends.monday_bucket
    (mkdatetime (mkdate 2025 9 14) 23 59 59) = Ok (mkdate 2025 9 8)
  <-> toordinal (mkdate 2025 9 8) <= toordinal (mkdate 2025 9 14)
      <= toordinal (mkdate 2025 9 8) + 6.
Proof.
  apply (X5_week_contents (mkdate 2025 9 8)
           (mkdatetime (mkdate 2025 9 14) 23 59 59)); reflexivity.
Defined.

(** X6: [bucket_key] of [github_prs_to_csv] never fails on a date-time
    that exists.  Its key is the [strftime] rendering of the midnight of
    a date on or before the date of the timestamp: that date itself for
    daily buckets, the Monday on or before it for weekly buckets, and
    the first of its month for every other bucket name.  The key is the
    text YYYY-MM-DDT00:00:00Z of the date when the year of the date has
    four digits, and shorter than these 20 characters when it has
    fewer. *)
Theorem X6_bucket_key (t : datetime) (bucket : string) :
  valid_datetime t ->
  exists b,
    github_prs_to_csv.bucket_key t bucket = Ok (bucket_label b)
    /\ valid_date b
    /\ toordinal b <= toordinal (dt_date t)
    /\ (bucket = "daily" -> b = dt_date t)
    /\ (bucket = "weekly" ->
        weekday b = 0 /\ toordinal (dt_date t) - 6 <= toordinal b)
    /\ (bucket <> "daily" -> bucket <> "weekly" ->
        b = mkdate (year (dt_date t)) (month (dt_date t)) 1)
    /\ (four_digits b -> bucket_label b = iso_label b)
    /\ (year b < 1000 -> (String.length (bucket_label b) < 20)%nat).
Proof.
  intros Hv. apply valid_datetime_iff in Hv as Hv'. destruct Hv' as (Hd & _).
  destruct (bucket_key_spec t bucket Hv) as (b & Hk & Hvb & Hb).
  pose proof (weekday_range (dt_date t)) as Hr.
  exists b. split; [exact Hk|]. split; [exact Hvb|].
  assert (Hfmt : (four_digits b -> bucket_label b = iso_label b)
                 /\ (year b < 1000
                     -> (String.length (bucket_label b) < 20)%nat))
    by (split; [apply bucket_label_wide|apply bucket_label_short]).
  destruct (String.eqb_spec bucket "daily") as [Ed|Ed];
    [|destruct (String.eqb_spec bucket "weekly") as [Ew|Ew]].
  - subst b. split; [lia|]. split; [auto|]. split; [|split; [contradiction|]].
    + intros ->. discriminate.
    + exact Hfmt.
  - destruct Hb as [Hw Ho]. split; [lia|]. split; [contradiction|].
    split; [|split; [contradiction|exact Hfmt]].
    intros _. split; [exact Hw|lia].
  - subst b. split; [apply first_of_month_le; assumption|].
    split; [contradiction|]. split; [contradiction|]. split; [auto|].
    exact Hfmt.
Qed.

(** A timestamp of 2024-02-29 in monthly buckets. *)
Lemma X6_bucket_key_witness :
  let t := mkdatetime (mkdate 2024 2 29) 7 0 0 in
  exists b,
    github_prs_to_csv.bucket_key t "monthly" = Ok (bucket_label b)
    /\ valid_date b
    /\ toordinal b <= toordinal (dt_date t)
    /\ ("monthly" = "daily" -> b = dt_date t)
    /\ ("monthly" = "weekly" ->
        weekday b = 0 /\ toordinal (dt_date t) - 6 <= toordinal b)
    /\ ("monthly" <> "daily" -> "monthly" <> "weekly" ->
        b = mkdate (year (dt_date t)) (month (dt_date t)) 1)
    /\ (four_digits b -> bucket_label b = iso_label b)
    /\ (year b < 1000 -> (String.length (bucket_label b) < 20)%nat).
Proof.
  apply (X6_bucket_key (mkdatetime (mkdate 2024 2 29) 7 0 0) "monthly").
  reflexivity.
Defined.

(** X7: [bucket_key] keeps the order of time.  Of two date-times, the
    bucket of the one with the earlier (or the same) date starts on or
    before the bucket of the other.  When the key of the earlier one has
    the fixed width of 20 characters, that is from the year 1000 on, its
    key is equal to the key of the other or comes before it in the order
    of strings, the order in which [main] sorts the rows. *)
Theorem X7_bucket_key_monotone (t1 t2 : datetime) (bucket k1 k2 : string) :
  valid_datetime t1 -> valid_datetime t2 ->
  toordinal (dt_date t1) <= toordinal (dt_date t2) ->
  github_prs_to_csv.bucket_key t1 bucket = Ok k1 ->
  github_prs_to_csv.bucket_key t2 bucket = Ok k2 ->
  toordinal (label_date k1) <= toordinal (label_date k2)
  /\ (String.length k1 = 20%nat -> k1 = k2 \/ String.ltb k1 k2 = true).
Proof.
  intros Hv1 Hv2 Hle E1 E2.
  apply valid_datetime_iff in Hv1 as Hv1'. destruct Hv1' as (Hd1 & _).
  apply valid_datetime_iff in Hv2 as Hv2'. destruct Hv2' as (Hd2 & _).
  destruct (bucket_key_spec t1 bucket Hv1) as (b1 & Hk1 & Hvb1 & Hb1).
  destruct (bucket_key_spec t2 bucket Hv2) as (b2 & Hk2 & Hvb2 & Hb2).
  rewrite Hk1 in E1. injection E1 as <-.
  rewrite Hk2 in E2. injection E2 as <-.
  assert (Hb : toordinal b1 <= toordinal b2).
  { destruct (String.eqb bucket "daily");
      [|destruct (String.eqb bucket "weekly")].
    - subst b1 b2. exact Hle.
    - destruct Hb1 as [_ Ho1], Hb2 as [_ Ho2].
      unfold weekday in *. Z.div_mod_to_equations. lia.
    - subst b1 b2. apply first_of_month_mono; assumption. }
  rewrite !label_date_label by assumption. split; [exact Hb|].
  intros Hlen. apply bucket_label_length in Hlen.
  destruct (Z.eq_dec (toordinal b1) (toordinal b2)) as [He|Hne].
  - left. f_equal. apply toordinal_inj; assumption.
  - right.
    assert (Hlt : date_ltb b1 b2 = true)
      by (apply date_ltb_iff; try assumption; lia).
    apply bucket_label_lt; try assumption.
    unfold four_digits in *. apply date_ltb_spec in Hlt. lia.
Qed.

(** A Tuesday and the Wednesday of the week after, in weekly buckets. *)
Lemma X7_bucket_key_monotone_witness :
  toordinal (label_date (bucket_label (mkdate 2024 1 1)))
  <= toordinal (label_date (bucket_label (mkdate 2024 1 8)))
  /\ (String.length (bucket_label (mkdate 2024 1 1)) = 20%nat ->
      bucket_label (mkdate 2024 1 1) = bucket_label (mkdate 2024 1 8)
      \/ String.ltb (bucket_label (mkdate 2024 1 1))
                    (bucket_label (mkdate 2024 1 8)) = true).
Proof.
  apply (X7_bucket_key_monotone
           (mkdatetime (mkdate 2024 1 2) 9 0 0)
           (mkdatetime (mkdate 2024 1 10) 8 30 0) "weekly");
    try reflexivity.
  vm_compute. discriminate.
Defined.

(** ** Requests of the paginated fetchers *)

Section Requests.

Lemma requests_app tr evs : requests (tr ++ evs) = requests tr ++ requests evs.
Proof. unfold requests. apply omap_app. Qed.

Lemma take_seqZ (k : nat) a n :
  Z.of_nat k <= n -> take k (seqZ a n) = seqZ a (Z.of_nat k).
Proof.
  intros H. replace n with (Z.of_nat k + (n - Z.of_nat k)) by lia.
  rewrite seqZ_app by lia.
  replace k with (length (seqZ a (Z.of_nat k))) at 1
    by (rewrite length_seqZ; lia).
  apply take_app_length.
Qed.

(** A prefix of the pages 1 .. [max_pages]. *)
Lemma take_pages (n : nat) max_pages :
  (n <= length (seqZ 1 max_pages))%nat ->
  exists k, 0 <= k <= Z.max 0 max_pages /\ take n (seqZ 1 max_pages) = seqZ 1 k.
Proof.
  rewrite length_seqZ. intros H. exists (Z.of_nat n).
  split; [lia|].
  destruct (Z.le_gt_cases max_pages 0) as [Hle|Hgt].
  - replace n with 0%nat by lia. rewrite seqZ_nil by lia. reflexivity.
  - apply take_seqZ. lia.
Qed.

Lemma raise_for_status_cases {A} req (r : response A) w tr :
  raise_for_status req r w tr = (Ok tt, tr)
  \/ exists e, raise_for_status req r w tr = (Raise e, tr).
Proof.
  unfold raise_for_status. destruct ((400 <=? _) && _); [right|left];
    [eexists|]; reflexivity.
Qed.

Lemma fetch_search_requests query token per_page pause pages :
  forall all_items w tr r tr',
    github_prs_to_csv.fetch_search_pages query token per_page pause pages
      all_items w tr = (r, tr') ->
    exists n,
      (n <= length pages)%nat
      /\ requests tr'
         = requests tr
           ++ map (github_prs_to_csv.search_request query token per_page)
                  (take n pages).
Proof.
  induction pages as [|page pages IH]; intros all_items w tr r tr' E.
  - injection E as <- <-. exists 0%nat. rewrite app_nil_r. auto.
  - cbn [github_prs_to_csv.fetch_search_pages] in E.
    unfold bind at 1, get in E.
    assert (H1 : forall res : result (list issue),
               (res, tr ++ [EvGet (github_prs_to_csv.search_request query
                                     token per_page page)]) = (r, tr') ->
               exists n,
                 (n <= length (page :: pages))%nat
                 /\ requests tr'
                    = requests tr
                      ++ map (github_prs_to_csv.search_request query token
                                per_page) (take n (page :: pages))).
    { intros res H. injection H as <- <-. exists 1%nat.
      rewrite requests_app. cbn [length take map]. split; [lia|reflexivity]. }
    destruct (negb _); [exact (H1 _ E)|].
    unfold bind at 1, json_of in E.
    destruct (json _) as [d|]; [|exact (H1 _ E)].
    unfold ret at 1 in E.
    destruct (_ <? per_page); [exact (H1 _ E)|].
    unfold bind at 1, sleep, emit in E.
    apply IH in E as (n & Hn & E). exists (S n).
    rewrite E, !requests_app. cbn [length take map requests omap].
    rewrite app_nil_r, <- app_assoc. split; [lia|reflexivity].
Qed.

Lemma search_items_requests session q pause pages :
  forall items w tr r tr',
    github_weekly_trends.search_items_pages session q pause pages items w tr
    = (r, tr') ->
    exists n,
      (n <= length pages)%nat
      /\ requests tr'
         = requests tr
           ++ map (github_weekly_trends.search_request session q)
                  (take n pages).
Proof.
  induction pages as [|page pages IH]; intros items w tr r tr' E.
  - injection E as <- <-. exists 0%nat. rewrite app_nil_r. auto.
  - cbn [github_weekly_trends.search_items_pages] in E.
    unfold bind at 1, get in E.
    assert (H1 : forall res : result (list issue),
               (res, tr ++ [EvGet (github_weekly_trends.search_request
                                     session q page)]) = (r, tr') ->
               exists n,
                 (n <= length (page :: pages))%nat
                 /\ requests tr'
                    = requests tr
                      ++ map (github_weekly_trends.search_request session q)
                             (take n (page :: pages))).
    { intros res H. injection H as <- <-. exists 1%nat.
      rewrite requests_app. cbn [length take map]. split; [lia|reflexivity]. }
    unfold bind at 1 in E.
    destruct (status_code _ =? 422).
    all: try (unfold ret at 1 in E).
    all: try match type of E with
             | context [@raise_for_status ?A ?rq ?rs ?w0 ?t] =>
                 destruct (raise_for_status_cases rq rs w0 t) as [H|[e H]];
                 rewrite H in E; [|exact (H1 _ E)]
             end.
    all: unfold bind at 1 in E.
    all: match type of E with
         | context [@raise_for_status ?A ?rq ?rs ?w0 ?t] =>
             destruct (raise_for_status_cases rq rs w0 t) as [H'|[e H']];
             rewrite H' in E; [|exact (H1 _ E)]
         end.
    all: unfold bind at 1, json_of in E.
    all: destruct (json _) as [d|]; [|exact (H1 _ E)].
    all: unfold ret at 1 in E.
    all: destruct (_ <? 100); [exact (H1 _ E)|].
    all: unfold bind at 1, sleep, emit in E.
    all: apply IH in E as (n & Hn & E); exists (S n).
    all: rewrite E, !requests_app; cbn [length take map requests omap].
    all: rewrite app_nil_r, <- app_assoc; split; [lia|reflexivity].
Qed.

Lemma fetch_commits_requests url hdrs since_iso until_iso per_page pause
    pages :
  forall all_commits w tr r tr',
    contributors_weekly.fetch_commits_pages url hdrs since_iso until_iso
      per_page pause pages all_commits w tr = (r, tr') ->
    exists n,
      (n <= length pages)%nat
      /\ requests tr'
         = requests tr
           ++ map (fun page =>
                     mkrequest url hdrs
                       [("since", PStr since_iso); ("until", PStr until_iso);
                        ("per_page", PInt per_page); ("page", PInt page)])
                  (take n pages).
Proof.
  induction pages as [|page pages IH]; intros all_commits w tr r tr' E.
  - injection E as <- <-. exists 0%nat. rewrite app_nil_r. auto.
  - cbn [contributors_weekly.fetch_commits_pages] in E.
    unfold bind at 1, get in E.
    match type of E with
    | context [EvGet ?rq] =>
        assert (H1 : forall res : result (list commit),
                   (res, tr ++ [EvGet rq]) = (r, tr') ->
                   exists n,
                     (n <= length (page :: pages))%nat
                     /\ requests tr'
                        = requests tr
                          ++ map (fun page =>
                                    mkrequest url hdrs
                                      [("since", PStr since_iso);
                                       ("until", PStr until_iso);
                                       ("per_page", PInt per_page);
                                       ("page", PInt page)])
                                 (take n (page :: pages)))
    end.
    { intros res H. injection H as <- <-. exists 1%nat.
      rewrite requests_app. cbn [length take map]. split; [lia|reflexivity]. }
    destruct (negb _); [exact (H1 _ E)|].
    unfold bind at 1, json_of in E.
    destruct (json _) as [d|]; [|exact (H1 _ E)].
    unfold ret at 1 in E.
    destruct (doc_view d) as [|c l]; [exact (H1 _ E)|].
    destruct (_ <? per_page); [exact (H1 _ E)|].
    unfold bind at 1, sleep, emit in E.
    apply IH in E as (n & Hn & E). exists (S n).
    rewrite E, !requests_app. cbn [length take map requests omap].
    rewrite app_nil_r, <- app_assoc. split; [lia|reflexivity].
Qed.

End Requests.

(** X8: the paginated fetchers request their pages in order and stop at
    their cap.  Whatever the server answers and however a call of
    [fetch_search] ([github_prs_to_csv]), [search_items]
    ([github_weekly_trends]) or [fetch_commits] ([contributors_weekly])
    ends, the requests it made are those for the pages 1, 2, ..., [k] in
    this order, each page once, with [k] at most [max_pages] (at most 100
    in [fetch_commits]); with [max_pages <= 0] no request is made and
    the result is the empty list. *)
Theorem X8_pages_in_order_up_to_cap :
  (forall query token per_page max_pages pause w tr r tr',
     github_prs_to_csv.fetch_search query token per_page max_pages pause w tr
     = (r, tr') ->
     exists k,
       0 <= k <= Z.max 0 max_pages
       /\ requests tr'
          = requests tr
            ++ map (github_prs_to_csv.search_request query token per_page)
                   (seqZ 1 k))
  /\ (forall session q token max_pages pause w tr r tr',
        github_weekly_trends.search_items session q token max_pages pause w tr
        = (r, tr') ->
        exists k,
          0 <= k <= Z.max 0 max_pages
          /\ requests tr'
             = requests tr
               ++ map (github_weekly_trends.search_request session q)
                      (seqZ 1 k))
  /\ (forall owner repo since_iso until_iso token w tr r tr',
        contributors_weekly.fetch_commits owner repo since_iso until_iso token
          w tr = (r, tr') ->
        exists k,
          0 <= k <= 100
          /\ requests tr'
             = requests tr
               ++ map (fun page =>
                         mkrequest (contributors_weekly.COMMITS_URL owner repo)
                           (contributors_weekly.gh_headers token)
                           [("since", PStr since_iso);
                            ("until", PStr until_iso);
                            ("per_page", PInt 100); ("page", PInt page)])
                      (seqZ 1 k))
  /\ (forall query token per_page max_pages pause w tr,
        max_pages <= 0 ->
        github_prs_to_csv.fetch_search query token per_page max_pages pause
          w tr = (Ok [], tr))
  /\ (forall session q token max_pages pause w tr,
        max_pages <= 0 ->
        github_weekly_trends.search_items session q token max_pages pause w tr
        = (Ok [], tr)).
Proof.
  split; [|split; [|split; [|split]]].
  - intros query token per_page max_pages pause w tr r tr' E.
    apply fetch_search_requests in E as (n & Hn & E).
    destruct (take_pages n max_pages Hn) as (k & Hk & Ek).
    exists k. rewrite E, Ek. auto.
  - intros session q token max_pages pause w tr r tr' E.
    apply search_items_requests in E as (n & Hn & E).
    destruct (take_pages n max_pages Hn) as (k & Hk & Ek).
    exists k. rewrite E, Ek. auto.
  - intros owner repo since_iso until_iso token w tr r tr' E.
    apply fetch_commits_requests in E as (n & Hn & E).
    destruct (take_pages n 100 Hn) as (k & Hk & Ek).
    exists k. rewrite E, Ek. split; [lia|reflexivity].
  - intros query token per_page max_pages pause w tr H.
    unfold github_prs_to_csv.fetch_search. rewrite seqZ_nil by lia.
    reflexivity.
  - intros session q token max_pages pause w tr H.
    unfold github_weekly_trends.search_items. rewrite seqZ_nil by lia.
    reflexivity.
Qed.

(** A search with a cap of zero pages. *)
Lemma X8_pages_in_order_up_to_cap_witness :
  github_prs_to_csv.fetch_search "is:pr" None 100 0 200
    (search_world [issue_at "2024-01-02T09:00:00Z"]) []
  = (Ok [], []).
Proof.
  destruct X8_pages_in_order_up_to_cap as (_ & _ & _ & H & _).
  apply H. lia.
Defined.

(** ** What the paginated fetchers return *)

Section Collect.

Import github_prs_to_csv.

Variables (query : string) (token : option string) (per_page : Z) (pause : N).
Variables (w : world) (served : Z -> list issue) (max_pages k : Z).

Hypothesis Hserver :
  forall tr p,
    status_code (search_api w tr (search_request query token per_page p)) = 200
    /\ exists d,
         json (search_api w tr (search_request query token per_page p))
         = Some d
                 /\ doc_view d = served p.
Hypothesis Hfull :
  forall p, 1 <= p < k -> per_page <= Z.of_nat (length (served p)).
Hypothesis Hlast :
  k = max_pages \/ Z.of_nat (length (served k)) < per_page.

Lemma fetch_search_collects (j : nat) :
  forall p all_items tr,
    1 <= p -> p + Z.of_nat j = k -> k <= max_pages ->
    exists tr',
      fetch_search_pages query token per_page pause
        (seqZ p (max_pages - p + 1)) all_items w tr
      = (Ok (all_items ++ concat (map served (seqZ p (Z.of_nat j + 1)))),
         tr')
      /\ requests tr'
         = requests tr
           ++ map (search_request query token per_page)
                  (seqZ p (Z.of_nat j + 1)).
Proof.
  induction j as [|j IH]; intros p all_items tr Hp Hk Hmax.
  - assert (Hpk : p = k) by lia.
    rewrite (seqZ_cons p (max_pages - p + 1)) by lia.
    destruct (Hserver tr p) as (Hs & d & Hj & Hd).
    change (Z.of_nat 0 + 1) with 1. rewrite (seqZ_cons p 1) by lia.
    rewrite (seqZ_nil _ (Z.pred 1)) by lia. cbn [map concat].
    rewrite app_nil_r, <- Hd.
    destruct (Z.lt_ge_cases (Z.of_nat (length (doc_view d))) per_page)
      as [Hshort|Hlong].
    + eexists. split; [apply fetch_search_short; assumption|].
      rewrite requests_app. reflexivity.
    + destruct Hlast as [Hl|Hl]; [|rewrite <- Hpk, <- Hd in Hl; lia].
      rewrite (fetch_search_full _ _ _ _ _ _ _ _ _ d) by (assumption || lia).
      rewrite seqZ_nil by lia. eexists. split; [reflexivity|].
      rewrite requests_app. reflexivity.
  - rewrite (seqZ_cons p (max_pages - p + 1)) by lia.
    destruct (Hserver tr p) as (Hs & d & Hj & Hd).
    rewrite (fetch_search_full _ _ _ _ _ _ _ _ _ d);
      [|assumption|assumption|rewrite Hd; apply Hfull; lia].
    destruct (IH (Z.succ p) (all_items ++ doc_view d)
                (tr ++ [EvGet (search_request query token per_page p);
                        EvSleep pause]))
      as (tr' & E & Hreq); try lia.
    exists tr'.
    replace (Z.pred (max_pages - p + 1)) with (max_pages - Z.succ p + 1)
      by lia.
    rewrite (seqZ_cons p (Z.of_nat (S j) + 1)) by lia.
    replace (Z.pred (Z.of_nat (S j) + 1)) with (Z.of_nat j + 1) by lia.
    split.
    + rewrite E. cbn [map concat]. rewrite Hd, <- app_assoc. reflexivity.
    + rewrite Hreq, requests_app. cbn [map requests omap].
      rewrite <- app_assoc. reflexivity.
Qed.

End Collect.

(** X9: [fetch_search] of [github_prs_to_csv] loses and repeats nothing.
    Against a server that answers the request for page [p] with status
    200 and the records [served p], when the pages before page [k] are
    full and page [k] is short or is page [max_pages], the result is the
    records of the pages 1 .. [k] in this order.  So at the cap the
    records of the pages after [max_pages] are left out without an
    error. *)
Theorem X9_fetch_search_collects (query : string) (token : option string)
    (per_page max_pages : Z) (pause : N) (w : world)
    (served : Z -> list issue) (k : Z) (tr : list event) :
  (forall tr p,
     let r := search_api w tr
                (github_prs_to_csv.search_request query token per_page p) in
     status_code r = 200
     /\ exists d, json r = Some d /\ doc_view d = served p) ->
  1 <= k <= max_pages ->
  (forall p, 1 <= p < k -> per_page <= Z.of_nat (length (served p))) ->
  k = max_pages \/ Z.of_nat (length (served k)) < per_page ->
  exists tr',
    github_prs_to_csv.fetch_search query token per_page max_pages pause w tr
    = (Ok (concat (map served (seqZ 1 k))), tr')
    /\ requests tr'
       = requests tr
         ++ map (github_prs_to_csv.search_request query token per_page)
                (seqZ 1 k).
Proof.
  intros Hserver Hk Hfull Hlast.
  destruct (fetch_search_collects query token per_page pause w served
              max_pages k Hserver Hfull Hlast (Z.to_nat (k - 1)) 1 [] tr)
    as (tr' & E & Hreq); try lia.
  unfold github_prs_to_csv.fetch_search.
  replace (max_pages - 1 + 1) with max_pages in E by lia.
  replace (Z.of_nat (Z.to_nat (k - 1)) + 1) with k in E, Hreq by lia.
  exists tr'. split; [exact E|exact Hreq].
Qed.

(** Two full pages of two records and a third page with one, with a cap
    of two pages: the third page is not asked for. *)
Lemma X9_fetch_search_collects_witness :
  let it := issue_at "2024-01-02T09:00:00Z" in
  let served := fun p : Z => if p <? 3 then [it; it] else [it] in
  let w := mkworld (mkdate 2024 1 21)
             (fun _ req =>
                match params req with
                | [_; _; (_, PInt p)] => page (served p)
                | _ => page []
                end)
             (fun _ _ => page None) (fun _ _ => page [])
             (fun _ _ => page (Some [])) in
  exists tr',
    github_prs_to_csv.fetch_search "is:pr" None 2 2 200 w []
    = (Ok (concat (map served (seqZ 1 2))), tr')
    /\ requests tr'
       = requests []
         ++ map (github_prs_to_csv.search_request "is:pr" None 2) (seqZ 1 2).
Proof.
  cbv zeta.
  apply (X9_fetch_search_collects "is:pr" None 2 2 200%N).
  - intros tr p. cbn. split; [reflexivity|]. eexists. split; reflexivity.
  - lia.
  - intros p Hp. assert (Hp' : p = 1) by lia. subst p. cbn. lia.
  - left. reflexivity.
Defined.

Section CollectLabel.

Import major_decision_weekly.

Variables (token : string) (w : world) (served : Z -> list issue).

Hypothesis Hserver :
  forall tr q p,
    status_code (search_api w tr (search_request q token p)) = 200
    /\ exists d, json (search_api w tr (search_request q token p)) = Some d
                 /\ doc_view d = served p.

Lemma search_label_collects (k : Z) (j : nat) :
  (forall p, 1 <= p < k -> 100 <= Z.of_nat (length (served p))) ->
  Z.of_nat (length (served k)) < 100 ->
  forall q fuel p items tr,
    1 <= p -> p + Z.of_nat j = k -> (j < fuel)%nat ->
    exists tr',
      search_label_loop q token fuel p items w tr
      = (Ok (items ++ concat (map served (seqZ p (Z.of_nat j + 1)))), tr')
      /\ requests tr'
         = requests tr
           ++ map (search_request q token) (seqZ p (Z.of_nat j + 1)).
Proof.
  intros Hfull Hlast q.
  induction j as [|j IH]; intros fuel p items tr Hp Hk Hfuel;
    (destruct fuel as [|fuel]; [lia|]);
    destruct (Hserver tr q p) as (Hs & d & Hj & Hd).
  - assert (Hpk : p = k) by lia.
    change (Z.of_nat 0 + 1) with 1. rewrite (seqZ_cons p 1) by lia.
    rewrite (seqZ_nil _ (Z.pred 1)) by lia. cbn [map concat].
    rewrite app_nil_r, <- Hd.
    eexists. split.
    + apply search_label_short; try assumption.
      rewrite Hd, Hpk. exact Hlast.
    + rewrite requests_app. reflexivity.
  - rewrite (search_label_full _ _ _ _ _ _ _ d);
      [|assumption|assumption|rewrite Hd; apply Hfull; lia].
    destruct (IH fuel (p + 1) (items ++ doc_view d)
                (tr ++ [EvGet (search_request q token p); EvSleep 500]))
      as (tr' & E & Hreq); try lia.
    exists tr'.
    rewrite (seqZ_cons p (Z.of_nat (S j) + 1)) by lia.
    replace (Z.pred (Z.of_nat (S j) + 1)) with (Z.of_nat j + 1) by lia.
    replace (Z.succ p) with (p + 1) by lia.
    split.
    + rewrite E. cbn [map concat]. rewrite Hd, <- app_assoc. reflexivity.
    + rewrite Hreq, requests_app. cbn [map requests omap].
      rewrite <- app_assoc. reflexivity.
Qed.

Lemma search_label_runs_on :
  (forall p, 1 <= p -> 100 <= Z.of_nat (length (served p))) ->
  forall q fuel p items tr,
    1 <= p ->
    exists tr',
      search_label_loop q token fuel p items w tr = (OutOfFuel, tr')
      /\ requests tr'
         = requests tr
           ++ map (search_request q token) (seqZ p (Z.of_nat fuel)).
Proof.
  intros Hfull q.
  induction fuel as [|fuel IH]; intros p items tr Hp.
  - exists tr. split; [reflexivity|]. rewrite seqZ_nil by lia.
    rewrite app_nil_r. reflexivity.
  - destruct (Hserver tr q p) as (Hs & d & Hj & Hd).
    rewrite (search_label_full _ _ _ _ _ _ _ d);
      [|assumption|assumption|rewrite Hd; apply Hfull; lia].
    destruct (IH (p + 1) (items ++ doc_view d)
                (tr ++ [EvGet (search_request q token p); EvSleep 500]))
      as (tr' & E & Hreq); try lia.
    exists tr'. split; [exact E|].
    rewrite (seqZ_cons p (Z.of_nat (S fuel))) by lia.
    replace (Z.pred (Z.of_nat (S fuel))) with (Z.of_nat fuel) by lia.
    replace (Z.succ p) with (p + 1) by lia.
    rewrite Hreq, requests_app. cbn [map requests omap].
    rewrite <- app_assoc. reflexivity.
Qed.

End CollectLabel.

(** X10: [search_label] of [major_decision_weekly] against a server that
    answers the request for page [p] with status 200 and the records
    [served p].  When the pages before page [k] have 100 records or more
    and page [k] has fewer, it returns the records of the pages 1 .. [k]
    in this order, with the name of the timestamp to count by:
    created_at for opened, closed_at for anything else.  It has no cap
    on the number of pages: when every page has 100 records or more it
    never returns, and after [n] turns of its loop it has requested the
    pages 1 .. [n]. *)
Theorem X10_search_label_collects (owner repo which : string)
    (start end_ : date) (token : string) (w : world)
    (served : Z -> list issue) (tr : list event) :
  (forall tr q p,
     let r := search_api w tr
                (major_decision_weekly.search_request q token p) in
     status_code r = 200
     /\ exists d, json r = Some d /\ doc_view d = served p) ->
  (forall k fuel,
     1 <= k ->
     (forall p, 1 <= p < k -> 100 <= Z.of_nat (length (served p))) ->
     Z.of_nat (length (served k)) < 100 ->
     (Z.to_nat k <= fuel)%nat ->
     exists tr',
       major_decision_weekly.search_label owner repo which start end_ token
         fuel w tr
       = (Ok (concat (map served (seqZ 1 k)),
              if String.eqb which "opened" then "created_at"
              else "closed_at"),
          tr')
       /\ length (requests tr') = (length (requests tr) + Z.to_nat k)%nat)
  /\ ((forall p, 1 <= p -> 100 <= Z.of_nat (length (served p))) ->
      forall fuel,
        exists tr',
          major_decision_weekly.search_label owner repo which start end_
            token fuel w tr
          = (OutOfFuel, tr')
          /\ length (requests tr') = (length (requests tr) + fuel)%nat).
Proof.
  intros Hserver. split.
  - intros k fuel Hk Hfull Hlast Hfuel.
    unfold major_decision_weekly.search_label.
    destruct (String.eqb which "opened").
    all: match goal with
         | |- context [major_decision_weekly.search_label_loop ?q _ _ _ _] =>
             destruct (search_label_collects token w served Hserver k
                         (Z.to_nat (k - 1)) Hfull Hlast q fuel 1 [] tr)
               as (tr' & E & Hreq); try lia
         end.
    all: replace (Z.of_nat (Z.to_nat (k - 1)) + 1) with k in E, Hreq by lia.
    all: exists tr'; unfold bind; rewrite E; split; [reflexivity|].
    all: rewrite Hreq, length_app, length_map, length_seqZ; reflexivity.
  - intros Hfull fuel.
    unfold major_decision_weekly.search_label.
    destruct (String.eqb which "opened").
    all: match goal with
         | |- context [major_decision_weekly.search_label_loop ?q _ _ _ _] =>
             destruct (search_label_runs_on token w served Hserver Hfull q
                         fuel 1 [] tr) as (tr' & E & Hreq); try lia
         end.
    all: exists tr'; unfold bind; rewrite E; split; [reflexivity|].
    all: rewrite Hreq, length_app, length_map, length_seqZ; lia.
Qed.

(** A server with a single record. *)
Lemma X10_search_label_collects_witness :
  let it := issue_at "2024-01-02T09:00:00Z" in
  exists tr',
    major_decision_weekly.search_label "valkey-io" "valkey" "opened"
      (mkdate 2024 1 1) (mkdate 2024 1 21) "t" 1 (search_world [it]) []
    = (Ok (concat (map (fun _ => [it]) (seqZ 1 1)),
           if String.eqb "opened" "opened" then "created_at"
           else "closed_at"),
       tr')
    /\ length (requests tr') = (length (requests []) + Z.to_nat 1)%nat.
Proof.
  cbv zeta.
  destruct (X10_search_label_collects "valkey-io" "valkey" "opened"
              (mkdate 2024 1 1) (mkdate 2024 1 21) "t"
              (search_world [issue_at "2024-01-02T09:00:00Z"])
              (fun _ => [issue_at "2024-01-02T09:00:00Z"]) []) as [H _].
  - intros tr q p. cbn. split; [reflexivity|]. eexists. split; reflexivity.
  - apply (H 1 1%nat); [lia | intros p Hp; lia | cbn; lia | lia].
Defined.

(** ** Counting *)

Section Counting.

Lemma total_empty `{Countable K} : total (∅ : gmap K Z) = 0.
Proof. unfold total. apply map_fold_empty. Qed.

Lemma total_insert `{Countable K} (k : K) (v : Z) (m : gmap K Z) :
  m !! k = None -> total (<[k := v]> m) = v + total m.
Proof.
  intros Hk. unfold total.
  apply (map_fold_insert_L (fun _ v acc => v + acc)); [|exact Hk].
  intros. lia.
Qed.

Lemma total_incr `{Countable K} (k : K) (m : gmap K Z) :
  total (incr k m) = total m + 1.
Proof.
  unfold incr. destruct (m !! k) as [v|] eqn:E; cbn [default from_option id].
  - rewrite <- (insert_delete_eq m).
    rewrite total_insert by apply lookup_delete_eq.
    rewrite <- (insert_delete_id m k v E) at 2.
    rewrite total_insert by apply lookup_delete_eq. lia.
  - rewrite total_insert by exact E. lia.
Qed.

Lemma incr_comm `{Countable K} (k1 k2 : K) (m : gmap K Z) :
  incr k1 (incr k2 m) = incr k2 (incr k1 m).
Proof.
  destruct (decide (k1 = k2)) as [->|Hne]; [reflexivity|].
  unfold incr. rewrite !lookup_insert_ne by congruence.
  apply insert_insert_ne. congruence.
Qed.

Lemma add_to_comm `{Countable K} (k1 k2 : K) (x1 x2 : string)
    (m : gmap K (gset string)) :
  add_to k1 x1 (add_to k2 x2 m) = add_to k2 x2 (add_to k1 x1 m).
Proof.
  unfold add_to. destruct (decide (k1 = k2)) as [->|Hne].
  - rewrite !lookup_insert_eq, !insert_insert_eq. cbn [default from_option id].
    f_equal. rewrite <- !(assoc_L (∪)). f_equal. apply (comm_L (∪)).
  - rewrite !lookup_insert_ne by congruence.
    apply insert_insert_ne. congruence.
Qed.

Lemma rbind_assoc {A B C} (m : result A) (g : A -> result B)
    (h : B -> result C) :
  (b <-r (a <-r m ;; g a) ;; h b) = (a <-r m ;; b <-r g a ;; h b).
Proof. destruct m; reflexivity. Qed.

(** A loop whose turns can be exchanged gives the same result on every
    arrangement of its list. *)
Lemma for_list_r_perm {A B} (f : B -> A -> result B) (l l' : list A) :
  (forall acc x y,
     (a <-r f acc x ;; f a y) = (a <-r f acc y ;; f a x)) ->
  l ≡ₚ l' -> forall acc, for_list_r f l acc = for_list_r f l' acc.
Proof.
  intros Hswap Hp. induction Hp as [|x l l' Hp IH|x y l|l1 l2 l3 _ IH1 _ IH2];
    intros acc.
  - reflexivity.
  - cbn [for_list_r]. destruct (f acc x); cbn [rbind]; auto.
  - cbn [for_list_r].
    rewrite <- (rbind_assoc (f acc y) (fun a => f a x) (for_list_r f l)).
    rewrite <- (rbind_assoc (f acc x) (fun a => f a y) (for_list_r f l)).
    rewrite (Hswap acc y x). reflexivity.
  - rewrite IH1. apply IH2.
Qed.

End Counting.

Section SeriesCounting.

Import github_weekly_trends.

(** What [count_item] does with an item depends on the item only. *)
Lemma count_item_kind ts_of it :
  (truthy (ts_of it) = false
   /\ forall weekly, count_item ts_of weekly it = Ok weekly)
  \/ (exists d,
        valid_date d /\ weekday d = 0 /\ truthy (ts_of it) = true
        /\ fatal_timestamp (ts_of it) = false
        /\ forall weekly, count_item ts_of weekly it = Ok (incr d weekly))
  \/ (fatal_timestamp (ts_of it) = true
      /\ forall weekly, count_item ts_of weekly it = Raise ValueError).
Proof.
  unfold count_item, parse_iso_z, fatal_timestamp.
  destruct (truthy (ts_of it)); [|left; auto]. cbn [negb andb].
  destruct (strptime_cases (default EmptyString (ts_of it)))
    as [(t & -> & Hv)| ->]; [|right; right; auto].
  destruct (trends_monday_bucket_ok t Hv) as (d & Hd & Hvd & Hwd).
  cbn [rbind]. rewrite Hd. right. left. exists d. auto.
Qed.

Lemma count_item_swap ts_of acc x y :
  (a <-r count_item ts_of acc x ;; count_item ts_of a y)
  = (a <-r count_item ts_of acc y ;; count_item ts_of a x).
Proof.
  destruct (count_item_kind ts_of x)
    as [[_ Hx]|[(dx & _ & _ & _ & _ & Hx)|[_ Hx]]],
     (count_item_kind ts_of y)
    as [[_ Hy]|[(dy & _ & _ & _ & _ & Hy)|[_ Hy]]];
    rewrite ?Hx, ?Hy; cbn [rbind]; rewrite ?Hx, ?Hy; try reflexivity.
  rewrite incr_comm. reflexivity.
Qed.

Lemma count_items_total ts_of items : forall weekly weekly',
  for_list_r (count_item ts_of) items weekly = Ok weekly' ->
  total weekly'
  = total weekly
    + Z.of_nat (length (filter (fun it => truthy (ts_of it) = true) items)).
Proof.
  induction items as [|it items IH]; intros weekly weekly' Hrun.
  - cbn in Hrun. injection Hrun as <-. cbn. lia.
  - cbn [for_list_r] in Hrun.
    destruct (count_item_kind ts_of it)
      as [[Ht E]|[(d & _ & _ & Ht & _ & E)|[_ E]]];
      rewrite E in Hrun; cbn [rbind] in Hrun; try discriminate.
    + rewrite filter_cons_False by (rewrite Ht; discriminate).
      apply IH. exact Hrun.
    + rewrite filter_cons_True by exact Ht.
      rewrite (IH _ _ Hrun), total_incr. cbn [length]. lia.
Qed.

Lemma count_items_result ts_of items : forall weekly,
  (Forall (fun it => fatal_timestamp (ts_of it) = false) items ->
   exists weekly', for_list_r (count_item ts_of) items weekly = Ok weekly')
  /\ (Exists (fun it => fatal_timestamp (ts_of it) = true) items ->
      for_list_r (count_item ts_of) items weekly = Raise ValueError).
Proof.
  induction items as [|it items IH]; intros weekly.
  - split; [eexists; reflexivity|]. intros H. inversion H.
  - cbn [for_list_r].
    destruct (count_item_kind ts_of it)
      as [[Ht E]|[(d & _ & _ & Ht & Hf & E)|[Hf E]]]; rewrite E;
      cbn [rbind].
    + assert (Hf : fatal_timestamp (ts_of it) = false)
        by (unfold fatal_timestamp; rewrite Ht; reflexivity).
      split.
      * intros H. apply Forall_cons in H as [_ H]. apply IH. exact H.
      * intros H. apply Exists_cons in H as [H|H]; [congruence|].
        apply IH. exact H.
    + split.
      * intros H. apply Forall_cons in H as [_ H]. apply IH. exact H.
      * intros H. apply Exists_cons in H as [H|H]; [congruence|].
        apply IH. exact H.
    + split; [|reflexivity].
      intros H. apply Forall_cons in H as [H _]. congruence.
Qed.

End SeriesCounting.

(** X11: the loop over the items of a series in [main] of
    [github_weekly_trends] counts every item that has the timestamp,
    once: when the loop ends well, the counts of the table add up to the
    number of items whose timestamp is present and not empty.  It ends
    well exactly when no item has a timestamp that is present, not empty
    and does not parse; otherwise it raises [ValueError]. *)
Theorem X11_series_counts_each_item_once (ts_of : issue -> option string)
    (items : list issue) :
  (forall weekly,
     for_list_r (github_weekly_trends.count_item ts_of) items ∅ = Ok weekly ->
     total weekly
     = Z.of_nat
         (length (filter (fun it => truthy (ts_of it) = true) items)))
  /\ (Forall (fun it => fatal_timestamp (ts_of it) = false) items ->
      exists weekly,
        for_list_r (github_weekly_trends.count_item ts_of) items ∅
        = Ok weekly)
  /\ (Exists (fun it => fatal_timestamp (ts_of it) = true) items ->
      for_list_r (github_weekly_trends.count_item ts_of) items ∅
      = Raise ValueError).
Proof.
  split; [|split].
  - intros weekly Hrun.
    rewrite (count_items_total ts_of items ∅ weekly Hrun), total_empty.
    lia.
  - apply (proj1 (count_items_result ts_of items ∅)).
  - apply (proj2 (count_items_result ts_of items ∅)).
Qed.

(** Three items, one of them without a closing time. *)
Lemma X11_series_counts_each_item_once_witness :
  let items :=
    [mkissue (Some "2024-01-01T10:00:00Z") (Some "2024-01-03T10:00:00Z")
       None None (Some 1);
     mkissue (Some "2024-01-02T09:00:00Z") None None None (Some 2);
     mkissue (Some "2024-01-08T10:00:00Z") (Some "2024-01-09T10:00:00Z")
       None None (Some 3)] in
  total (incr (mkdate 2024 1 8) (incr (mkdate 2024 1 1) ∅))
  = Z.of_nat (length (filter (fun it => truthy (closed_at it) = true) items)).
Proof.
  cbv zeta.
  apply (proj1 (X11_series_counts_each_item_once closed_at _)).
  reflexivity.
Defined.

Section CommitCounting.

(** What [count_commit] does with a commit depends on the commit
    only. *)
Lemma count_commit_kind start_d end_d c :
  (commit_in_window start_d end_d c = false
   /\ fatal_timestamp (commit_author_date c) = false
   /\ forall acc,
        github_weekly_trends.count_commit start_d end_d acc c = Ok acc)
  \/ (exists t d,
        valid_datetime t /\ valid_date d /\ weekday d = 0
        /\ toordinal d = toordinal (dt_date t) - weekday (dt_date t)
        /\ date_in start_d end_d (dt_date t) = true
        /\ commit_in_window start_d end_d c = true
        /\ forall acc,
             github_weekly_trends.count_commit start_d end_d acc c
             = Ok (incr d acc.1,
                   add_to d (github_weekly_trends.ident_of c) acc.2))
  \/ (fatal_timestamp (commit_author_date c) = true
      /\ forall acc,
           github_weekly_trends.count_commit start_d end_d acc c
           = Raise ValueError).
Proof.
  unfold github_weekly_trends.count_commit, github_weekly_trends.parse_iso_z,
    commit_in_window, timestamp_date, fatal_timestamp.
  destruct (truthy (commit_author_date c)); [|left; auto]. cbn [negb andb].
  destruct (strptime_cases (default EmptyString (commit_author_date c)))
    as [(t & -> & Hv)| ->]; [|right; right; auto].
  cbn [rbind]. fold (date_in start_d end_d (dt_date t)).
  destruct (date_in start_d end_d (dt_date t)) eqn:Hin; [|left; auto].
  cbn [negb].
  destruct (weekly_buckets_agree t Hv)
    as (d & Hd & _ & _ & _ & Hvd & Hwd & Hod).
  rewrite Hd. cbn [rbind]. right. left. exists t, d. auto 10.
Qed.

Lemma count_commit_swap start_d end_d acc x y :
  (a <-r github_weekly_trends.count_commit start_d end_d acc x ;;
   github_weekly_trends.count_commit start_d end_d a y)
  = (a <-r github_weekly_trends.count_commit start_d end_d acc y ;;
     github_weekly_trends.count_commit start_d end_d a x).
Proof.
  destruct (count_commit_kind start_d end_d x)
    as [(_ & _ & Hx)|[(tx & dx & _ & _ & _ & _ & _ & _ & Hx)|[_ Hx]]],
     (count_commit_kind start_d end_d y)
    as [(_ & _ & Hy)|[(ty & dy & _ & _ & _ & _ & _ & _ & Hy)|[_ Hy]]];
    rewrite ?Hx, ?Hy; cbn [rbind]; rewrite ?Hx, ?Hy; try reflexivity.
  cbn [fst snd]. rewrite incr_comm, add_to_comm. reflexivity.
Qed.

(** What [add_commit] does with a commit depends on the commit only. *)
Lemma add_commit_kind exclude_bots c :
  (forall buckets,
     contributors_weekly.add_commit exclude_bots buckets c = Ok buckets)
  \/ exists key ident,
       forall buckets,
         contributors_weekly.add_commit exclude_bots buckets c
         = Ok (add_to key ident buckets).
Proof.
  unfold contributors_weekly.add_commit, contributors_weekly.commit_datetime.
  destruct (commit_author_date c) as [ts|]; [|left; auto].
  destruct (strptime_cases ts) as [(t & Ht & Hv)|Hr]; rewrite ?Ht, ?Hr;
    [|left; auto].
  destruct (truthy (contributors_weekly.ident_of c)); [|left; auto].
  cbn [negb].
  destruct (exclude_bots && _); [left; auto|].
  destruct (contributors_monday_bucket_ok t Hv) as (d & Hd & _ & _).
  rewrite Hd. cbn [rbind]. right. eauto.
Qed.

Lemma add_commit_swap exclude_bots acc x y :
  (a <-r contributors_weekly.add_commit exclude_bots acc x ;;
   contributors_weekly.add_commit exclude_bots a y)
  = (a <-r contributors_weekly.add_commit exclude_bots acc y ;;
     contributors_weekly.add_commit exclude_bots a x).
Proof.
  destruct (add_commit_kind exclude_bots x) as [Hx|(kx & ix & Hx)],
     (add_commit_kind exclude_bots y) as [Hy|(ky & iy & Hy)];
    rewrite ?Hx, ?Hy; cbn [rbind]; rewrite ?Hx, ?Hy; try reflexivity.
  rewrite add_to_comm. reflexivity.
Qed.

End CommitCounting.

(** X12: the tables do not depend on the order in which the server
    returns the records.  On two arrangements of the same records, the
    loop over the items of a series and the loop over the commits of
    [github_weekly_trends] give the same result (the same tables, or
    [ValueError]), and [contributors_weekly] the same rows. *)
Theorem X12_order_of_records_is_irrelevant :
  (forall ts_of items items',
     items ≡ₚ items' ->
     for_list_r (github_weekly_trends.count_item ts_of) items ∅
     = for_list_r (github_weekly_trends.count_item ts_of) items' ∅)
  /\ (forall start_d end_d commits commits',
        commits ≡ₚ commits' ->
        github_weekly_trends.weekly_commits start_d end_d commits
        = github_weekly_trends.weekly_commits start_d end_d commits')
  /\ (forall exclude_bots commits commits',
        commits ≡ₚ commits' ->
        contributors_weekly.rows_of exclude_bots commits
        = contributors_weekly.rows_of exclude_bots commits').
Proof.
  split; [|split].
  - intros ts_of items items' Hp.
    apply for_list_r_perm; [|exact Hp].
    intros acc x y. apply count_item_swap.
  - intros start_d end_d commits commits' Hp.
    unfold github_weekly_trends.weekly_commits.
    rewrite (for_list_r_perm _ commits commits'); [reflexivity| |exact Hp].
    intros acc x y. apply count_commit_swap.
  - intros exclude_bots commits commits' Hp.
    unfold contributors_weekly.rows_of.
    rewrite (for_list_r_perm _ commits commits'); [reflexivity| |exact Hp].
    intros acc x y. apply add_commit_swap.
Qed.

(** The commits of Alice in either order. *)
Lemma X12_order_of_records_is_irrelevant_witness :
  contributors_weekly.rows_of false [alice_login; alice_email]
  = contributors_weekly.rows_of false [alice_email; alice_login].
Proof.
  apply (proj2 (proj2 X12_order_of_records_is_irrelevant)).
  apply perm_swap.
Defined.

Section CommitsAndContributors.

Variables (start_d end_d : date).
Hypothesis Hstart : valid_date start_d.
Hypothesis Hend : valid_date end_d.

Lemma size_add (s : gset string) (x : string) :
  (1 <= size (s ∪ {[x]}) <= size s + 1)%nat.
Proof.
  split.
  - rewrite <- (size_singleton (C:=gset string) x).
    apply subseteq_size, union_subseteq_r.
  - rewrite size_union_alt.
    assert (size ({[x]} ∖ s) <= size ({[x]} : gset string))%nat
      by (apply subseteq_size, subseteq_difference_l; reflexivity).
    rewrite size_singleton in *. lia.
Qed.

Lemma date_in_ordinals d :
  valid_date d -> date_in start_d end_d d = true ->
  toordinal start_d <= toordinal d <= toordinal end_d.
Proof.
  intros Hd H. unfold date_in in H. apply andb_true_iff in H as [H1 H2].
  apply date_leb_iff in H1, H2; try assumption. lia.
Qed.

(** The commits of a week and the set of its contributors grow
    together. *)
Lemma count_commits_related commits : forall acc acc',
  for_list_r (github_weekly_trends.count_commit start_d end_d) commits acc
  = Ok acc' ->
  (forall wk,
     match acc.1 !! wk, acc.2 !! wk with
     | Some n, Some s =>
         1 <= Z.of_nat (size s) <= n /\ weekday wk = 0
         /\ toordinal start_d - 6 <= toordinal wk <= toordinal end_d
     | None, None => True
     | _, _ => False
     end) ->
  (forall wk,
     match acc'.1 !! wk, acc'.2 !! wk with
     | Some n, Some s =>
         1 <= Z.of_nat (size s) <= n /\ weekday wk = 0
         /\ toordinal start_d - 6 <= toordinal wk <= toordinal end_d
     | None, None => True
     | _, _ => False
     end)
  /\ total acc'.1
     = total acc.1
       + Z.of_nat (length (filter (fun c => commit_in_window start_d end_d c
                                            = true) commits)).
Proof.
  induction commits as [|c commits IH]; intros acc acc' Hrun Hinv.
  - cbn in Hrun. injection Hrun as <-. split; [exact Hinv|]. cbn. lia.
  - cbn [for_list_r] in Hrun.
    destruct (count_commit_kind start_d end_d c)
      as [(Hw & _ & E)|[(t & d & Hv & Hvd & Hwd & Hod & Hin & Hw & E)|[_ E]]];
      rewrite E in Hrun; cbn [rbind] in Hrun; try discriminate.
    + rewrite filter_cons_False by (rewrite Hw; discriminate).
      apply IH; assumption.
    + rewrite filter_cons_True by exact Hw.
      destruct (IH _ _ Hrun) as [Hinv' Htot].
      * intros wk. cbn [fst snd]. unfold incr, add_to.
        specialize (Hinv wk).
        destruct (decide (wk = d)) as [->|Hne].
        -- rewrite !lookup_insert_eq.
           apply valid_datetime_iff in Hv as (Hvt & _).
           pose proof (date_in_ordinals _ Hvt Hin) as Hord.
           pose proof (weekday_range (dt_date t)) as Hr.
           destruct (acc.1 !! d) as [n|], (acc.2 !! d) as [s|];
             cbn [default from_option id]; try contradiction.
           ++ pose proof (size_add s (github_weekly_trends.ident_of c)).
              repeat split; try assumption; lia.
           ++ pose proof (size_add ∅ (github_weekly_trends.ident_of c)) as Hs.
              rewrite size_empty in Hs.
              repeat split; try assumption; lia.
        -- rewrite !lookup_insert_ne by congruence. exact Hinv.
      * split; [exact Hinv'|]. rewrite Htot. cbn [fst snd length].
        rewrite total_incr. lia.
Qed.

End CommitsAndContributors.

(** X13: the two tables [main] of [github_weekly_trends] builds from the
    commits.  The counts of commits_weekly.csv add up to the number of
    commits whose author date is present, parses and lies in the window.
    Both tables have the same weeks; in every week the number of
    contributors is at least 1 and at most the number of commits.  Every
    week is a Monday not after the end of the window and at most six
    days before its start. *)
Theorem X13_commits_and_contributors (start_d end_d : date)
    (commits : list commit) (cw : gmap date Z * gmap date Z) :
  valid_date start_d -> valid_date end_d ->
  github_weekly_trends.weekly_commits start_d end_d commits = Ok cw ->
  total cw.1
  = Z.of_nat (length (filter (fun c => commit_in_window start_d end_d c
                                       = true) commits))
  /\ (forall wk, cw.1 !! wk = None <-> cw.2 !! wk = None)
  /\ (forall wk n,
        cw.1 !! wk = Some n ->
        (exists k, cw.2 !! wk = Some k /\ 1 <= k <= n)
        /\ weekday wk = 0
        /\ toordinal start_d - 6 <= toordinal wk <= toordinal end_d).
Proof.
  intros Hs He Hrun. unfold github_weekly_trends.weekly_commits in Hrun.
  destruct (for_list_r _ commits (∅, ∅)) as [acc| |] eqn:E;
    cbn [rbind] in Hrun; try discriminate.
  injection Hrun as <-. cbn [fst snd].
  destruct (count_commits_related start_d end_d Hs He commits (∅, ∅) acc E)
    as [Hinv Htot].
  { intros wk. cbn [fst snd]. rewrite !lookup_empty. exact I. }
  cbn [fst snd] in Htot. rewrite total_empty in Htot.
  split; [lia|]. split.
  - intros wk. specialize (Hinv wk). rewrite lookup_fmap.
    destruct (acc.1 !! wk), (acc.2 !! wk); cbn; try contradiction;
      split; intros; congruence.
  - intros wk n Hn. specialize (Hinv wk). rewrite lookup_fmap.
    rewrite Hn in Hinv. destruct (acc.2 !! wk) as [s|]; [|contradiction].
    cbn. destruct Hinv as (H1 & H2 & H3).
    split; [eexists; split; [reflexivity|exact H1]|]. auto.
Qed.

(** Two commits of Alice in the week of 2024-01-01. *)
Lemma X13_commits_and_contributors_witness :
  exists cw,
    github_weekly_trends.weekly_commits (mkdate 2024 1 1) (mkdate 2024 1 21)
      [alice_login; alice_login] = Ok cw
    /\ total cw.1 = 2
    /\ (forall wk n,
          cw.1 !! wk = Some n ->
          (exists k, cw.2 !! wk = Some k /\ 1 <= k <= n)
          /\ weekday wk = 0
          /\ toordinal (mkdate 2024 1 1) - 6 <= toordinal wk
             <= toordinal (mkdate 2024 1 21)).
Proof.
  eexists. split; [reflexivity|].
  match goal with
  | |- context [total (fst ?cw)] =>
      destruct (X13_commits_and_contributors (mkdate 2024 1 1)
                  (mkdate 2024 1 21) [alice_login; alice_login] cw
                  eq_refl eq_refl eq_refl) as (H1 & _ & H3)
  end.
  split; [exact H1|exact H3].
Defined.

Section Bots.

Lemma add_commit_bot buckets c :
  contributors_weekly.add_commit true buckets c
  = if is_bot c then Ok buckets
    else contributors_weekly.add_commit false buckets c.
Proof.
  unfold contributors_weekly.add_commit, is_bot.
  destruct (contributors_weekly.commit_datetime c) as [dt|];
    [|destruct (match author_login c with Some _ => _ | None => _ end);
      reflexivity].
  destruct (negb (truthy (contributors_weekly.ident_of c)));
    [destruct (match author_login c with Some _ => _ | None => _ end);
     reflexivity|].
  cbn [andb].
  destruct (match author_login c with Some _ => _ | None => _ end);
    reflexivity.
Qed.

Lemma add_commits_bots commits : forall buckets,
  for_list_r (contributors_weekly.add_commit true) commits buckets
  = for_list_r (contributors_weekly.add_commit false)
      (filter (fun c => is_bot c = false) commits) buckets.
Proof.
  induction commits as [|c commits IH]; intros buckets; [reflexivity|].
  cbn [for_list_r]. rewrite add_commit_bot.
  destruct (is_bot c) eqn:Hb.
  - rewrite filter_cons_False by (rewrite Hb; discriminate).
    cbn [rbind]. apply IH.
  - rewrite filter_cons_True by exact Hb. cbn [for_list_r].
    destruct (contributors_weekly.add_commit false buckets c);
      cbn [rbind]; auto.
Qed.

End Bots.

(** X14: with [--exclude-bots], [contributors_weekly] writes the rows it
    would write without the option for the commits whose author has no
    login that ends with [bot]: such commits change no row, and no other
    commit is left out. *)
Theorem X14_exclude_bots (commits : list commit) :
  contributors_weekly.rows_of true commits
  = contributors_weekly.rows_of false
      (filter (fun c => is_bot c = false) commits).
Proof.
  unfold contributors_weekly.rows_of. rewrite add_commits_bots. reflexivity.
Qed.

Section Releases.

Import github_weekly_trends.

Lemma release_in_window_kind since_d until_d rel :
  (fatal_timestamp (release_timestamp rel) = false
   /\ forall out,
        release_in_window since_d until_d out rel
        = Ok (if in_window since_d until_d rel then out ++ [rel] else out))
  \/ (fatal_timestamp (release_timestamp rel) = true
      /\ forall out,
           release_in_window since_d until_d out rel = Raise ValueError).
Proof.
  unfold release_in_window, in_window, timestamp_date, fatal_timestamp,
    release_timestamp, parse_iso_z, date_in.
  destruct (truthy (py_or (published_at rel) (release_created_at rel)));
    [|left; auto]. cbn [negb andb].
  destruct (strptime_cases
              (default EmptyString
                 (py_or (published_at rel) (release_created_at rel))))
    as [(t & -> & Hv)| ->]; [|right; auto].
  cbn [rbind]. left. split; [reflexivity|]. intros out.
  destruct (date_leb since_d (dt_date t) && date_leb (dt_date t) until_d);
    reflexivity.
Qed.

Lemma releases_filter since_d until_d rels : forall out,
  (Forall (fun rel => fatal_timestamp (release_timestamp rel) = false) rels ->
   for_list_r (release_in_window since_d until_d) rels out
   = Ok (out ++ filter (fun rel => in_window since_d until_d rel = true)
                       rels))
  /\ (Exists (fun rel => fatal_timestamp (release_timestamp rel) = true)
             rels ->
      for_list_r (release_in_window since_d until_d) rels out
      = Raise ValueError).
Proof.
  induction rels as [|rel rels IH]; intros out.
  - split; [intros _; cbn; rewrite app_nil_r; reflexivity|].
    intros H. inversion H.
  - cbn [for_list_r].
    destruct (release_in_window_kind since_d until_d rel) as [[Hf E]|[Hf E]];
      rewrite E; cbn [rbind].
    + split.
      * intros H. apply Forall_cons in H as [_ H].
        rewrite (proj1 (IH _) H).
        destruct (in_window since_d until_d rel) eqn:Hw.
        -- rewrite filter_cons_True by exact Hw.
           rewrite <- app_assoc. reflexivity.
        -- rewrite filter_cons_False by (rewrite Hw; discriminate).
           reflexivity.
      * intros H. apply Exists_cons in H as [H|H]; [congruence|].
        apply IH. exact H.
    + split; [|reflexivity].
      intros H. apply Forall_cons in H as [H _]. congruence.
Qed.

Lemma count_release_in_window since_d until_d rel :
  in_window since_d until_d rel = true ->
  exists d, forall m, count_release m rel = Ok (incr d m).
Proof.
  unfold in_window, timestamp_date, release_timestamp, count_release,
    parse_iso_z.
  destruct (truthy (py_or (published_at rel) (release_created_at rel)));
    [|discriminate]. cbn [negb].
  destruct (strptime_cases
              (default EmptyString
                 (py_or (published_at rel) (release_created_at rel))))
    as [(t & -> & Hv)| ->]; [|discriminate].
  intros _. destruct (month_bucket_ok t Hv) as (d & Hd & _).
  exists d. intros m. cbn [rbind]. rewrite Hd. reflexivity.
Qed.

Lemma count_releases_total since_d until_d rels : forall m,
  Forall (fun rel => in_window since_d until_d rel = true) rels ->
  exists m',
    for_list_r count_release rels m = Ok m'
    /\ total m' = total m + Z.of_nat (length rels).
Proof.
  induction rels as [|rel rels IH]; intros m H.
  - exists m. split; [reflexivity|]. cbn. lia.
  - apply Forall_cons in H as [Hrel H].
    destruct (count_release_in_window _ _ _ Hrel) as (d & E).
    cbn [for_list_r]. rewrite E. cbn [rbind].
    destruct (IH (incr d m) H) as (m' & Hrun & Htot).
    exists m'. split; [exact Hrun|].
    rewrite Htot, total_incr. cbn [length]. lia.
Qed.

End Releases.

(** X15: the releases [list_releases] of [github_weekly_trends] keeps.
    When no release of the listing has a timestamp ([published_at], or
    [created_at] when that is missing or empty) that is present and does
    not parse, the second loop of [list_releases] returns, in the order
    of the listing, exactly the releases whose timestamp is present and
    has its date in the window, both ends included; otherwise it raises
    [ValueError].  The loop of [main] over the releases returned never
    fails and counts each of them once. *)
Theorem X15_releases_in_window (since_d until_d : date)
    (rels : list release) :
  (Forall (fun rel => fatal_timestamp (release_timestamp rel) = false) rels ->
   for_list_r (github_weekly_trends.release_in_window since_d until_d)
     rels []
   = Ok (filter (fun rel => in_window since_d until_d rel = true) rels))
  /\ (Exists (fun rel => fatal_timestamp (release_timestamp rel) = true)
             rels ->
      for_list_r (github_weekly_trends.release_in_window since_d until_d)
        rels []
      = Raise ValueError)
  /\ (forall out,
        for_list_r (github_weekly_trends.release_in_window since_d until_d)
          rels [] = Ok out ->
        exists releases_monthly,
          for_list_r github_weekly_trends.count_release out ∅
          = Ok releases_monthly
          /\ total releases_monthly = Z.of_nat (length out)).
Proof.
  destruct (releases_filter since_d until_d rels []) as [H1 H2].
  split; [exact H1|]. split; [exact H2|].
  intros out Hrun.
  destruct (decide (Forall (fun rel => fatal_timestamp (release_timestamp rel)
                                       = false) rels)) as [Hall|Hex].
  - rewrite (H1 Hall) in Hrun. injection Hrun as <-.
    destruct (count_releases_total since_d until_d
                (filter (fun rel => in_window since_d until_d rel = true)
                        rels) ∅) as (m & Hm & Htot).
    { apply Forall_forall. intros rel Hin.
      apply list_elem_of_filter in Hin. tauto. }
    exists m. split; [exact Hm|]. rewrite Htot, total_empty. lia.
  - apply not_Forall_Exists in Hex; [|intros rel; apply _].
    rewrite H2 in Hrun; [discriminate|].
    eapply Exists_impl; [exact Hex|]. intros rel H. cbn in H.
    destruct (fatal_timestamp (release_timestamp rel)); congruence.
Qed.

(** Three releases: one published in the window, one created in the
    window and not published, one published before it. *)
Lemma X15_releases_in_window_witness :
  let r1 := mkrelease (Some "2024-01-05T10:00:00Z") None in
  let r2 := mkrelease None (Some "2024-01-20T10:00:00Z") in
  let r3 := mkrelease (Some "2023-12-31T23:59:59Z")
                      (Some "2024-01-02T10:00:00Z") in
  for_list_r (github_weekly_trends.release_in_window (mkdate 2024 1 1)
                (mkdate 2024 1 21)) [r1; r2; r3] []
  = Ok [r1; r2].
Proof.
  cbv zeta.
  apply (proj1 (X15_releases_in_window (mkdate 2024 1 1) (mkdate 2024 1 21)
                  [mkrelease (Some "2024-01-05T10:00:00Z") None;
                   mkrelease None (Some "2024-01-20T10:00:00Z");
                   mkrelease (Some "2023-12-31T23:59:59Z")
                             (Some "2024-01-02T10:00:00Z")])).
  repeat constructor.
Defined.

(** ** The number of chunks *)

Section ChunkCount.

Variables (end_date : date) (chunk_days : Z).
Hypothesis Hc : 1 <= chunk_days.

Lemma chunks_from_length chunks : forall o,
  o <= toordinal end_date + 1 ->
  chunks_from end_date chunk_days o chunks ->
  Z.of_nat (length chunks)
  = (toordinal end_date + 1 - o + chunk_days - 1) / chunk_days.
Proof.
  induction chunks as [|[s e] rest IH]; intros o Ho H; cbn in H.
  - subst o. cbn [length].
    replace (toordinal end_date + 1 - (toordinal end_date + 1)
             + chunk_days - 1) with (chunk_days - 1) by lia.
    rewrite Z.div_small by lia. reflexivity.
  - destruct H as (Hs & He & Hso & Heo & Hle & Hrest).
    cbn [length]. rewrite Nat2Z.inj_succ.
    rewrite (IH (toordinal e + 1)) by (assumption || lia).
    destruct (Z.le_gt_cases (toordinal end_date) (o + chunk_days - 1))
      as [Hlast|Hmore].
    + replace (toordinal e) with (toordinal end_date) by lia.
      replace (toordinal end_date + 1 - (toordinal end_date + 1)
               + chunk_days - 1) with (chunk_days - 1) by lia.
      rewrite Z.div_small by lia. change (Z.succ 0) with 1.
      apply (Z.div_unique _ _ 1 (toordinal end_date - o)); lia.
    + replace (toordinal e) with (o + chunk_days - 1) by lia.
      replace (toordinal end_date + 1 - o + chunk_days - 1)
        with ((toordinal end_date + 1 - (o + chunk_days - 1 + 1)
               + chunk_days - 1) + 1 * chunk_days) by lia.
      rewrite Z.div_add by lia. lia.
Qed.

End ChunkCount.

(** The chunks of a window. *)
Lemma number_of_chunks (start_date end_date : date) (chunk_days : Z) :
  valid_date start_date -> valid_date end_date ->
  date_leb start_date end_date = true ->
  1 <= chunk_days ->
  toordinal end_date + chunk_days <= MAXORDINAL ->
  let n := toordinal end_date - toordinal start_date + 1 in
  exists fuel chunks chunks',
    run_gen (github_prs_to_csv.daterange_chunks start_date end_date
               chunk_days) fuel github_prs_to_csv.ChunksStart
    = (chunks, Finished)
    /\ run_gen (github_weekly_trends.daterange_chunks start_date end_date
                  chunk_days) fuel github_weekly_trends.ChunksStart
       = (chunks', Finished)
    /\ Z.of_nat (length chunks) = (n + chunk_days - 1) / chunk_days
    /\ Z.of_nat (length chunks') = (n + chunk_days - 1) / chunk_days.
Proof.
  intros Hs He Hle Hc Hmax n.
  apply date_leb_iff in Hle as Hle'; try assumption.
  pose proof (toordinal_range start_date Hs) as Hrs.
  set (k := Z.to_nat (toordinal end_date + 1 - toordinal start_date)).
  destruct (chunks_finish start_date end_date chunk_days He k Hc Hmax
              github_prs_to_csv.ChunksStart start_date)
    as (chunks & Hrun & Hfrom); try assumption; try lia.
  { cbn. rewrite timedelta_days_ok by (unfold MAXORDINAL in *; lia).
    reflexivity. }
  pose proof (chunks_from_length end_date chunk_days Hc chunks
                (toordinal start_date) ltac:(lia) Hfrom) as Hlen.
  exists (S k), chunks, (map iso_chunk chunks).
  split; [exact Hrun|]. split.
  { pose proof (chunks_sim start_date end_date chunk_days (S k)
                  github_prs_to_csv.ChunksStart Hle) as Hsim.
    cbn [trends_state] in Hsim. rewrite Hsim, Hrun. reflexivity. }
  rewrite length_map. subst n.
  replace (toordinal end_date - toordinal start_date + 1 + chunk_days - 1)
    with (toordinal end_date + 1 - toordinal start_date + chunk_days - 1)
    by lia.
  auto.
Qed.

(** X16: the number of chunks, which is the number of searches a series
    starts with.  For a window of [n] days ([start <= end]) and
    [chunk_days >= 1], with [end + chunk_days] days still a date, the
    chunk planner of both scripts yields [n / chunk_days] chunks, rounded
    up. *)
Theorem X16_number_of_chunks (start_date end_date : date) (chunk_days : Z) :
  valid_date start_date -> valid_date end_date ->
  date_leb start_date end_date = true ->
  1 <= chunk_days ->
  toordinal end_date + chunk_days <= MAXORDINAL ->
  let n := toordinal end_date - toordinal start_date + 1 in
  exists fuel chunks chunks',
    run_gen (github_prs_to_csv.daterange_chunks start_date end_date
               chunk_days) fuel github_prs_to_csv.ChunksStart
    = (chunks, Finished)
    /\ run_gen (github_weekly_trends.daterange_chunks start_date end_date
                  chunk_days) fuel github_weekly_trends.ChunksStart
       = (chunks', Finished)
    /\ Z.of_nat (length chunks) = (n + chunk_days - 1) / chunk_days
    /\ Z.of_nat (length chunks') = (n + chunk_days - 1) / chunk_days.
Proof.
  intros Hs He Hle Hc Hmax. apply number_of_chunks; assumption.
Qed.

(** A window of 91 days in chunks of 30 days: 4 chunks. *)
Lemma X16_number_of_chunks_witness :
  let start_date := mkdate 2024 1 1 in
  let end_date := mkdate 2024 3 31 in
  let n := toordinal end_date - toordinal start_date + 1 in
  exists fuel chunks chunks',
    run_gen (github_prs_to_csv.daterange_chunks start_date end_date 30)
      fuel github_prs_to_csv.ChunksStart
    = (chunks, Finished)
    /\ run_gen (github_weekly_trends.daterange_chunks start_date end_date 30)
         fuel github_weekly_trends.ChunksStart
       = (chunks', Finished)
    /\ Z.of_nat (length chunks) = (n + 30 - 1) / 30
    /\ Z.of_nat (length chunks') = (n + 30 - 1) / 30.
Proof.
  apply (X16_number_of_chunks (mkdate 2024 1 1) (mkdate 2024 3 31) 30);
    try reflexivity; vm_compute; discriminate.
Defined.

(** ** Slugs of labels *)

Section Slugs.

Import github_weekly_trends.

Lemma all_chars_map (p : ascii -> bool) (f : ascii -> ascii) s :
  (forall c, p (f c) = true) -> all_chars p (map_chars f s) = true.
Proof.
  intros H. induction s as [|c s IH]; [reflexivity|].
  cbn. rewrite H, IH. reflexivity.
Qed.

Lemma all_chars_lstrip (q p : ascii -> bool) s :
  all_chars q s = true -> all_chars q (lstrip p s) = true.
Proof.
  induction s as [|c s IH]; [auto|]. intros H. cbn [lstrip].
  destruct (p c); [|exact H].
  cbn in H. apply andb_true_iff in H as [_ H]. auto.
Qed.

Lemma all_chars_rstrip (q p : ascii -> bool) s :
  all_chars q s = true -> all_chars q (rstrip p s) = true.
Proof.
  induction s as [|c s IH]; [auto|]. intros H. cbn [rstrip].
  cbn in H. apply andb_true_iff in H as [Hc H]. specialize (IH H).
  destruct (rstrip p s) as [|a r].
  - destruct (p c); [reflexivity|]. cbn. rewrite Hc. reflexivity.
  - cbn [all_chars] in *. rewrite Hc. exact IH.
Qed.

Lemma first_char_lstrip (p : ascii -> bool) s c :
  first_char (lstrip p s) = Some c -> p c = false.
Proof.
  induction s as [|a s IH]; [discriminate|]. cbn [lstrip].
  destruct (p a) eqn:E; [exact IH|].
  cbn. intros H. injection H as <-. exact E.
Qed.

Lemma first_char_rstrip (p : ascii -> bool) s c :
  first_char (rstrip p s) = Some c -> first_char s = Some c.
Proof.
  destruct s as [|a s]; [discriminate|]. cbn [rstrip].
  destruct (rstrip p s) as [|b r]; [destruct (p a); [discriminate|]|];
    cbn; auto.
Qed.

Lemma last_char_rstrip (p : ascii -> bool) s c :
  last_char (rstrip p s) = Some c -> p c = false.
Proof.
  induction s as [|a s IH]; [discriminate|]. cbn [rstrip].
  destruct (rstrip p s) as [|b r].
  - destruct (p a) eqn:E; [discriminate|].
    cbn. intros H. injection H as <-. exact E.
  - cbn [last_char]. exact IH.
Qed.

Lemma lstrip_fixed (p : ascii -> bool) s :
  (forall c, first_char s = Some c -> p c = false) -> lstrip p s = s.
Proof.
  destruct s as [|a s]; [reflexivity|]. intros H. cbn [lstrip].
  rewrite (H a eq_refl). reflexivity.
Qed.

Lemma rstrip_fixed (p : ascii -> bool) s :
  (forall c, last_char s = Some c -> p c = false) -> rstrip p s = s.
Proof.
  induction s as [|a s IH]; [reflexivity|]. intros H. cbn [rstrip].
  destruct s as [|b s].
  - cbn. rewrite (H a eq_refl). reflexivity.
  - rewrite IH by (intros c Hc; apply H; exact Hc). reflexivity.
Qed.

Lemma length_lstrip (p : ascii -> bool) s :
  (String.length (lstrip p s) <= String.length s)%nat.
Proof.
  induction s as [|a s IH]; [reflexivity|]. cbn [lstrip].
  destruct (p a); cbn [String.length]; lia.
Qed.

Lemma length_rstrip (p : ascii -> bool) s :
  (String.length (rstrip p s) <= String.length s)%nat.
Proof.
  induction s as [|a s IH]; [reflexivity|]. cbn [rstrip].
  destruct (rstrip p s) as [|b r];
    [destruct (p a)|]; cbn [String.length] in *; lia.
Qed.

Lemma length_map_chars (f : ascii -> ascii) s :
  String.length (map_chars f s) = String.length s.
Proof. induction s as [|a s IH]; cbn; congruence. Qed.

Lemma map_chars_fixed (f : ascii -> ascii) (p : ascii -> bool) s :
  (forall c, p c = true -> f c = c) -> all_chars p s = true ->
  map_chars f s = s.
Proof.
  intros Hf. induction s as [|a s IH]; [reflexivity|]. cbn.
  intros H. apply andb_true_iff in H as [Ha H].
  rewrite (Hf a Ha), (IH H). reflexivity.
Qed.

Lemma map_chars_map_chars (f g : ascii -> ascii) s :
  map_chars f (map_chars g s) = map_chars (fun c => f (g c)) s.
Proof. induction s as [|a s IH]; cbn; congruence. Qed.

Lemma map_chars_ext (f g : ascii -> ascii) s :
  (forall c, f c = g c) -> map_chars f s = map_chars g s.
Proof. intros H. induction s as [|a s IH]; cbn; congruence. Qed.

Lemma slug_step_char c :
  slug_char (if isalnum c then lower c else "-"%char) = true.
Proof. destruct c as [[] [] [] [] [] [] [] []]; reflexivity. Qed.

Lemma slug_step_fixed c :
  slug_char c = true -> (if isalnum c then lower c else "-"%char) = c.
Proof.
  destruct c as [[] [] [] [] [] [] [] []]; (reflexivity || discriminate).
Qed.

Lemma slug_step_lower c :
  (if isalnum (lower c) then lower (lower c) else "-"%char)
  = (if isalnum c then lower c else "-"%char).
Proof. destruct c as [[] [] [] [] [] [] [] []]; reflexivity. Qed.

Lemma strip_no_keep (p : ascii -> bool) s :
  all_chars p s = true -> strip p s = EmptyString.
Proof.
  unfold strip. induction s as [|a s IH]; [reflexivity|]. cbn.
  intros H. apply andb_true_iff in H as [Ha H]. rewrite Ha. auto.
Qed.

End Slugs.

(** X17: the slug [slugify_label] of [github_weekly_trends] makes of an
    ASCII label for the name of a file.  It consists of lower-case
    letters, digits and hyphens only, neither begins nor ends with a
    hyphen, and is not longer than the label.  A slug is its own slug.
    The slug does not change when the label is put in lower case, so
    labels that differ in case only share their files; and a label
    without a letter or digit has the empty slug. *)
Theorem X17_slugify_label (label : string) :
  all_chars is_ascii label = true ->
  let slug := github_weekly_trends.slugify_label label in
  all_chars slug_char slug = true
  /\ first_char slug <> Some "-"%char
  /\ last_char slug <> Some "-"%char
  /\ (String.length slug <= String.length label)%nat
  /\ github_weekly_trends.slugify_label slug = slug
  /\ github_weekly_trends.slugify_label
       (github_weekly_trends.map_chars github_weekly_trends.lower label)
     = slug
  /\ (all_chars (fun c => negb (github_weekly_trends.isalnum c)) label = true
      -> slug = EmptyString).
Proof.
  intros _ slug. subst slug. unfold github_weekly_trends.slugify_label.
  set (f := fun ch => if github_weekly_trends.isalnum ch
                      then github_weekly_trends.lower ch else "-"%char).
  set (m := github_weekly_trends.map_chars f label).
  assert (Hm : all_chars slug_char m = true)
    by (apply all_chars_map; intros c; apply slug_step_char).
  assert (Hs : all_chars slug_char
                 (github_weekly_trends.strip (Ascii.eqb "-") m) = true)
    by (apply all_chars_rstrip, all_chars_lstrip; exact Hm).
  assert (Hfirst : forall c,
             first_char (github_weekly_trends.strip (Ascii.eqb "-") m)
             = Some c -> Ascii.eqb "-" c = false).
  { intros c H. apply first_char_rstrip in H.
    apply first_char_lstrip in H. exact H. }
  assert (Hlast : forall c,
             last_char (github_weekly_trends.strip (Ascii.eqb "-") m)
             = Some c -> Ascii.eqb "-" c = false)
    by (intros c H; apply last_char_rstrip in H; exact H).
  split; [exact Hs|]. split; [|split; [|split; [|split; [|split]]]].
  - intros H. apply Hfirst in H. discriminate.
  - intros H. apply Hlast in H. discriminate.
  - unfold github_weekly_trends.strip.
    pose proof (length_rstrip (Ascii.eqb "-")
                  (github_weekly_trends.lstrip (Ascii.eqb "-") m)).
    pose proof (length_lstrip (Ascii.eqb "-") m).
    subst m. rewrite length_map_chars in *. lia.
  - rewrite (map_chars_fixed f slug_char _ slug_step_fixed Hs).
    unfold github_weekly_trends.strip at 1.
    rewrite lstrip_fixed by exact Hfirst.
    apply rstrip_fixed. exact Hlast.
  - subst m. rewrite map_chars_map_chars.
    rewrite (map_chars_ext _ f); [reflexivity|].
    intros c. apply slug_step_lower.
  - intros H. apply strip_no_keep. subst m. clear -H.
    induction label as [|c s IH]; [reflexivity|].
    cbn in H |- *. apply andb_true_iff in H as [Hc H].
    subst f. cbn. apply negb_true_iff in Hc. rewrite Hc. cbn.
    apply IH. exact H.
Qed.

(** The label of the example in the source. *)
Lemma X17_slugify_label_witness :
  let slug := github_weekly_trends.slugify_label "Major decision pending" in
  all_chars slug_char slug = true
  /\ first_char slug <> Some "-"%char
  /\ last_char slug <> Some "-"%char
  /\ (String.length slug <= String.length "Major decision pending")%nat
  /\ github_weekly_trends.slugify_label slug = slug
  /\ github_weekly_trends.slugify_label
       (github_weekly_trends.map_chars github_weekly_trends.lower
          "Major decision pending")
     = slug
  /\ (all_chars (fun c => negb (github_weekly_trends.isalnum c))
        "Major decision pending" = true
      -> slug = EmptyString).
Proof.
  apply (X17_slugify_label "Major decision pending"). reflexivity.
Defined.

(** ** The file of [github_prs_to_csv] *)

Section PrsOutput.

(** Sorted rows whose keys are labels of dates. *)
Lemma sorted_label_rows (l : list (string * Z)) :
  NoDup l.*1 ->
  Forall (fun r => (exists d, valid_date d /\ r.1 = bucket_label d)
                   /\ 1 <= r.2) l ->
  exists dates,
    rows_by_text dates (merge_sort str_item_le l)
    /\ Forall (fun r => 1 <= r.2) (merge_sort str_item_le l).
Proof.
  intros Hnd0 Hall0.
  set (rows := merge_sort str_item_le l).
  assert (Hp : rows ≡ₚ l) by apply merge_sort_Permutation.
  set (P := fun r : string * Z =>
              (exists d, valid_date d /\ r.1 = bucket_label d) /\ 1 <= r.2).
  assert (Hall : Forall P rows) by (rewrite Hp; exact Hall0).
  assert (Hnd : NoDup rows.*1) by (rewrite Hp; exact Hnd0).
  assert (Hs : Sorted (fun a b => String.ltb a.1 b.1 = true) rows).
  { apply (Sorted_strict fst str_item_le).
    - intros a b [H|[H _]] Hne; [assumption|contradiction].
    - apply Sorted_merge_sort. apply _.
    - exact Hnd. }
  exists (map label_date rows.*1). split.
  - apply rows_by_text_of_rows; [|exact Hs|exact Hnd].
    eapply Forall_impl; [exact Hall|]. intros r [H Hv]. split; [exact H|lia].
  - eapply Forall_impl; [exact Hall|]. intros r [_ H]. exact H.
Qed.

(** The keys of the table of [github_prs_to_csv] are labels of dates. *)
Lemma triple_prs_count_item_labels a counts it :
  map_Forall (fun k v => (exists d, valid_date d /\ k = bucket_label d)
                         /\ 1 <= v) counts ->
  triple not_write (github_prs_to_csv.count_item a counts it)
    (map_Forall (fun k v => (exists d, valid_date d /\ k = bucket_label d)
                            /\ 1 <= v)).
Proof.
  intros Hinv. unfold github_prs_to_csv.count_item.
  eapply (triple_bind _ _ _ (fun _ => True)).
  - destruct (String.eqb _ "opened"); [triple_true|].
    destruct (String.eqb _ "closed"); [triple_true|].
    destruct (number it); [|triple_true].
    apply triple_fetch_pull_merged_at.
  - intros ts _. destruct (negb (truthy ts)); [apply triple_ret; exact Hinv|].
    eapply (triple_bind _ _ _ valid_datetime).
    { apply triple_lift. intros dt Hdt.
      destruct (strptime_cases (default EmptyString ts))
        as [(t & Ht & Hv)|Hr]; rewrite ?Ht, ?Hr in Hdt; [|discriminate].
      injection Hdt as <-. exact Hv. }
    intros dt Hv.
    eapply (triple_bind _ _ _
              (fun key => exists d, valid_date d /\ key = bucket_label d)).
    { apply triple_lift. intros key Hk.
      destruct (bucket_key_spec dt (github_prs_to_csv.bucket a) Hv)
        as (b & E & Hvb & _).
      rewrite E in Hk. injection Hk as <-. eauto. }
    intros key Hkey. apply triple_ret.
    apply (incr_Forall (fun k => exists d, valid_date d /\ k = bucket_label d));
      assumption.
Qed.

Lemma triple_prs_count_chunk_labels a counts chunk :
  map_Forall (fun k v => (exists d, valid_date d /\ k = bucket_label d)
                         /\ 1 <= v) counts ->
  triple not_write (github_prs_to_csv.count_chunk a counts chunk)
    (map_Forall (fun k v => (exists d, valid_date d /\ k = bucket_label d)
                            /\ 1 <= v)).
Proof.
  intros Hinv.
  unfold github_prs_to_csv.count_chunk, github_prs_to_csv.fetch_search.
  eapply (triple_bind _ _ _ (fun _ => True));
    [apply triple_fetch_search_pages|].
  intros items _. apply triple_for_list; [|exact Hinv].
  intros acc it Hacc. apply triple_prs_count_item_labels. exact Hacc.
Qed.

End PrsOutput.

(** X18: the file of a run of [github_prs_to_csv] that ends well.  The
    run writes one file, as the last thing it does, at the path given
    with [--out]: the header time,count, then rows whose times are the
    [strftime] renderings of the midnights of dates, strictly ascending
    as text, without duplicates, each with a count of at least 1.  When
    every one of these dates is in the year 1000 or later, the times are
    the texts YYYY-MM-DDT00:00:00Z of the dates and the rows are
    strictly ascending as dates too: sorting the keys as strings then
    puts the buckets in the order of time. *)
Theorem X18_prs_main_output (a : github_prs_to_csv.args) (fuel : nat)
    (w : world) (tr tr' : list event) :
  github_prs_to_csv.main a fuel w tr = (Ok tt, tr') ->
  exists evs rows dates,
    tr' = tr ++ evs
             ++ [EvWrite (github_prs_to_csv.out a)
                   (mkcsv ["time"; "count"] rows)]
    /\ Forall not_write evs
    /\ rows_by_text dates rows
    /\ Forall (fun r => 1 <= r.2) rows.
Proof.
  unfold github_prs_to_csv.main. intros E. unfold bind at 1 in E.
  destruct (github_prs_to_csv.calc_range a w tr) as [[range|e|] tr1] eqn:Er;
    try discriminate.
  destruct (triple_calc_range a w tr _ tr1 Er) as [(evs0 & -> & Hev0) _].
  unfold bind in E.
  match type of E with
  | context [for_gen ?n ?b ?f ?s ?acc w ?t] =>
      destruct (for_gen n b f s acc w t) as [[counts|e|] tr2] eqn:El;
      try discriminate;
      destruct (triple_for_gen not_write n b
                  (map_Forall (fun k v =>
                                 (exists d, valid_date d
                                            /\ k = bucket_label d)
                                 /\ 1 <= v)) f
                  (fun counts0 c H => triple_prs_count_chunk_labels a counts0
                                        c H)
                  s acc (map_Forall_empty _) w _ _ _ El)
        as [(evs1 & -> & Hev1) Hinv]
  end.
  specialize (Hinv counts eq_refl).
  unfold emit in E. injection E as <-.
  destruct (sorted_label_rows (map_to_list counts)) as (dates & Hrows & Hpos).
  { apply NoDup_fst_map_to_list. }
  { apply map_Forall_to_list in Hinv.
    eapply Forall_impl; [exact Hinv|]. intros [k v] H. exact H. }
  exists (evs0 ++ evs1), (sorted_str_items counts), dates.
  split; [rewrite <- !app_assoc; reflexivity|].
  split; [apply Forall_app; auto|]. auto.
Qed.

(** Three pull requests opened in two weeks. *)
Lemma X18_prs_main_output_witness :
  let a := github_prs_to_csv.mkargs "valkey-io" "valkey"
             (github_prs_to_csv.SinceDays 20) None "opened" "weekly"
             "prs_opened_weekly.csv" None 10 200 30 in
  let w := search_world [issue_at "2024-01-01T10:00:00Z";
                         issue_at "2024-01-02T09:00:00Z";
                         issue_at "2024-01-08T10:00:00Z"] in
  exists evs rows dates,
    (github_prs_to_csv.main a 5 w []).2
    = [] ++ evs
         ++ [EvWrite "prs_opened_weekly.csv" (mkcsv ["time"; "count"] rows)]
    /\ Forall not_write evs
    /\ rows_by_text dates rows
    /\ Forall (fun r => 1 <= r.2) rows.
Proof.
  cbv zeta.
  apply (X18_prs_main_output
           (github_prs_to_csv.mkargs "valkey-io" "valkey"
              (github_prs_to_csv.SinceDays 20) None "opened" "weekly"
              "prs_opened_weekly.csv" None 10 200 30) 5
           (search_world [issue_at "2024-01-01T10:00:00Z";
                          issue_at "2024-01-02T09:00:00Z";
                          issue_at "2024-01-08T10:00:00Z"]) []).
  vm_compute. reflexivity.
Defined.

(** ** The files of [github_weekly_trends] *)

Section Files.

Lemma writes_snoc tr p f : writes (tr ++ [EvWrite p f]) = writes tr ++ [(p, f)].
Proof. unfold writes. rewrite omap_app. reflexivity. Qed.

Lemma writes_files_quiet {A} (m : M A) (post : A -> Prop) :
  triple not_write m post -> writes_files m [].
Proof.
  intros H w tr r tr' E. destruct (H w tr r tr' E) as [(evs & -> & Hev) _].
  exists 0%nat. rewrite writes_app by exact Hev.
  rewrite app_nil_r. auto.
Qed.

Lemma writes_files_bind {A B} (m : M A) (k : A -> M B) names1 names2 :
  writes_files m names1 -> (forall a, writes_files (k a) names2) ->
  writes_files (bind m k) (names1 ++ names2).
Proof.
  intros Hm Hk w tr r tr' E. unfold bind in E.
  destruct (m w tr) as [[a|e|] tr1] eqn:Em;
    destruct (Hm w tr _ tr1 Em) as (n1 & Hn1 & Hw1 & Hok1).
  - destruct (Hk a w tr1 r tr' E) as (n2 & Hn2 & Hw2 & Hok2).
    pose proof (Hok1 a eq_refl) as ->.
    exists (length names1 + n2)%nat. rewrite length_app.
    split; [lia|]. split.
    + rewrite Hw2, Hw1, <- app_assoc. f_equal.
      rewrite take_app_add. rewrite firstn_all. reflexivity.
    + intros b Hb. rewrite (Hok2 b Hb). reflexivity.
  - injection E as <- <-. exists n1. rewrite length_app.
    split; [lia|]. split; [|discriminate].
    rewrite Hw1, take_app_le by exact Hn1. reflexivity.
  - injection E as <- <-. exists n1. rewrite length_app.
    split; [lia|]. split; [|discriminate].
    rewrite Hw1, take_app_le by exact Hn1. reflexivity.
Qed.

Lemma writes_files_for_each {A} (l : list A) (m : A -> M unit)
    (names : A -> list string) :
  (forall x, writes_files (m x) (names x)) ->
  writes_files (github_weekly_trends.for_each l m) (concat (map names l)).
Proof.
  intros Hm. induction l as [|x l IH].
  - apply (writes_files_quiet _ (fun _ => True)). apply triple_ret. exact I.
  - cbn [github_weekly_trends.for_each map concat].
    apply writes_files_bind; [apply Hm|]. intros _. exact IH.
Qed.

Lemma writes_files_write_csv path (counter : gmap date Z) :
  writes_files (github_weekly_trends.write_csv path counter) [path].
Proof.
  intros w tr r tr' E. unfold github_weekly_trends.write_csv in E.
  destruct (github_weekly_trends.render_rows (sorted_date_items counter))
    as [written res].
  unfold bind, emit, lift in E. injection E as <- <-.
  exists 1%nat. rewrite writes_snoc, fmap_app. auto.
Qed.

Lemma writes_files_weekly_series session token a start_d end_d build ts_of
    fname fuel :
  writes_files
    (github_weekly_trends.weekly_series session token a start_d end_d build
       ts_of fname fuel)
    [github_weekly_trends.path_join (github_weekly_trends.out_dir a) fname].
Proof.
  unfold github_weekly_trends.weekly_series.
  apply (writes_files_bind _ _ []).
  - apply (writes_files_quiet _ (fun _ => True)).
    apply triple_for_gen; [|exact I].
    intros acc se _.
    eapply (triple_bind _ _ _ (fun _ => True)); [triple_true|].
    intros q _.
    eapply (triple_bind _ _ _ (fun _ => True));
      [apply triple_search_items_pages|].
    intros items _. triple_true.
  - intros weekly. apply writes_files_write_csv.
Qed.

End Files.

(** X19: the files of a run of [github_weekly_trends].  However the run
    ends, the files it has written are the first files of this list, in
    this order and each once: the three files of the pull requests, the
    two of the issues, two for every label, commits_weekly.csv,
    contributors_weekly.csv, releases_monthly.csv, all in the output
    directory; a run that ends well has written them all.  So a run that
    fails leaves the files of the series before the failure behind and
    writes none after it. *)
Theorem X19_trends_files (a : github_weekly_trends.args)
    (token : option string) (fuel : nat) (w : world) (tr tr' : list event)
    (r : result unit) :
  github_weekly_trends.main a token fuel w tr = (r, tr') ->
  exists n,
    (n <= length (trends_files a))%nat
    /\ (writes tr').*1 = (writes tr).*1 ++ take n (trends_files a)
    /\ (r = Ok tt -> n = length (trends_files a)).
Proof.
  intros E.
  assert (H : writes_files (github_weekly_trends.main a token fuel)
                (trends_files a)).
  { unfold github_weekly_trends.main, trends_files.
    set (dir := github_weekly_trends.out_dir a).
    change (map (github_weekly_trends.path_join dir)
              (["prs_opened_weekly.csv"; "prs_closed_weekly.csv";
                "prs_merged_weekly.csv"; "issues_opened_weekly.csv";
                "issues_closed_weekly.csv"]
               ++ concat
                    (map (fun label =>
                            ["label-"
                             +:+ github_weekly_trends.slugify_label label
                             +:+ "_opened_weekly.csv";
                             "label-"
                             +:+ github_weekly_trends.slugify_label label
                             +:+ "_closed_weekly.csv"])
                         (trends_labels a))
               ++ ["commits_weekly.csv"; "contributors_weekly.csv";
                   "releases_monthly.csv"]))
      with ([] ++ concat (map (fun which =>
                                 [github_weekly_trends.path_join dir
                                    ("prs_" +:+ which +:+ "_weekly.csv")])
                              ["opened"; "closed"; "merged"])
               ++ concat (map (fun which =>
                                 [github_weekly_trends.path_join dir
                                    ("issues_" +:+ which +:+ "_weekly.csv")])
                              ["opened"; "closed"])
               ++ map (github_weekly_trends.path_join dir)
                    (concat
                       (map (fun label =>
                               ["label-"
                                +:+ github_weekly_trends.slugify_label label
                                +:+ "_opened_weekly.csv";
                                "label-"
                                +:+ github_weekly_trends.slugify_label label
                                +:+ "_closed_weekly.csv"])
                            (trends_labels a))
                     ++ ["commits_weekly.csv"; "contributors_weekly.csv";
                         "releases_monthly.csv"])).
    apply writes_files_bind.
    { apply (writes_files_quiet _ (fun _ => True)).
      unfold github_weekly_trends.compute_window.
      eapply (triple_bind _ _ _ (fun _ => True)); [apply triple_today|].
      intros end_ _. triple_true. }
    intros se. cbv zeta.
    apply writes_files_bind.
    { apply writes_files_for_each. intros which.
      apply writes_files_weekly_series. }
    intros _.
    apply writes_files_bind.
    { apply writes_files_for_each. intros which.
      apply writes_files_weekly_series. }
    intros _.
    rewrite map_app.
    apply writes_files_bind.
    { fold (trends_labels a).
      replace (map (github_weekly_trends.path_join dir)
                 (concat
                    (map (fun label =>
                            ["label-"
                             +:+ github_weekly_trends.slugify_label label
                             +:+ "_opened_weekly.csv";
                             "label-"
                             +:+ github_weekly_trends.slugify_label label
                             +:+ "_closed_weekly.csv"])
                         (trends_labels a))))
        with (concat
                (map (fun label =>
                        concat
                          (map (fun which =>
                                  [github_weekly_trends.path_join dir
                                     ("label-"
                                      +:+ github_weekly_trends.slugify_label
                                            label
                                      +:+ "_" +:+ which +:+ "_weekly.csv")])
                               ["opened"; "closed"]))
                     (trends_labels a))).
      - apply writes_files_for_each. intros label.
        apply writes_files_for_each. intros which.
        apply writes_files_weekly_series.
      - induction (trends_labels a) as [|label l IH]; [reflexivity|].
        rewrite !map_cons, !concat_cons, map_app, IH. reflexivity. }
    intros _.
    apply (writes_files_bind _ _ []).
    { apply (writes_files_quiet _ (fun _ => True)).
      apply triple_list_commits_loop. }
    intros commits.
    apply (writes_files_bind _ _ []).
    { apply (writes_files_quiet _ (fun _ => True)). triple_true. }
    intros cw.
    apply (writes_files_bind _ _ [_] [_; _]);
      [apply writes_files_write_csv|]. intros _.
    apply (writes_files_bind _ _ [_] [_]);
      [apply writes_files_write_csv|]. intros _.
    apply (writes_files_bind _ _ []).
    { apply (writes_files_quiet _ (fun _ => True)).
      apply triple_list_releases. }
    intros rels.
    apply (writes_files_bind _ _ []).
    { apply (writes_files_quiet _ (fun _ => True)). triple_true. }
    intros releases_monthly. apply writes_files_write_csv. }
  destruct (H w tr r tr' E) as (n & Hn & Hw & Hok).
  exists n. split; [exact Hn|]. split; [exact Hw|].
  intros ->. apply (Hok tt). reflexivity.
Qed.

(** The run whose search for closed pull requests fails. *)
Lemma X19_trends_files_witness :
  let run := github_weekly_trends.main trends_args None 5
               (closed_fails_world [issue_at "2024-01-02T09:00:00Z"]) [] in
  exists n,
    (n <= length (trends_files trends_args))%nat
    /\ (writes run.2).*1 = (writes []).*1 ++ take n (trends_files trends_args)
    /\ (run.1 = Ok tt -> n = length (trends_files trends_args)).
Proof.
  cbv zeta.
  apply (X19_trends_files trends_args None 5
           (closed_fails_world [issue_at "2024-01-02T09:00:00Z"]) []).
  apply surjective_pairing.
Defined.

(** ** The labels of [github_weekly_trends] *)

Section Labels2.

Import github_weekly_trends.

Lemma split_not_nil sep s : split sep s <> [].
Proof.
  destruct s as [|c s]; [discriminate|]. cbn [split].
  destruct (split sep s); [discriminate|].
  destruct (Ascii.eqb c sep); discriminate.
Qed.

Lemma split_no_sep sep s :
  Forall (fun x => all_chars (fun c => negb (Ascii.eqb c sep)) x = true)
         (split sep s).
Proof.
  induction s as [|c s IH]; [repeat constructor|]. cbn [split].
  destruct (split sep s) as [|x xs] eqn:E; [destruct (split_not_nil _ _ E)|].
  apply Forall_cons in IH as [Hx Hxs].
  destruct (Ascii.eqb c sep) eqn:Hc.
  - repeat constructor; assumption.
  - constructor; [|exact Hxs]. cbn. rewrite Hc, Hx. reflexivity.
Qed.

Lemma strip_strip (p : ascii -> bool) s : strip p (strip p s) = strip p s.
Proof.
  unfold strip at 1.
  rewrite lstrip_fixed.
  - apply rstrip_fixed. intros c H. unfold strip in H.
    apply last_char_rstrip in H. exact H.
  - intros c H. unfold strip in H. apply first_char_rstrip in H.
    apply first_char_lstrip in H. exact H.
Qed.

End Labels2.

(** X20: the labels a run of [github_weekly_trends] exports, for ASCII
    arguments.  When [--labels] is empty or blank, it is the one label
    of [--enhancement-label].  Otherwise it is the comma-separated
    parts of [--labels]: none of them is empty, contains a comma, or
    begins or ends with white space, and [--enhancement-label] is not
    used. *)
Theorem X20_labels (a : github_weekly_trends.args) :
  all_chars is_ascii (github_weekly_trends.labels a) = true ->
  let labels_arg :=
    github_weekly_trends.strip github_weekly_trends.isspace
      (github_weekly_trends.labels a) in
  (labels_arg = EmptyString ->
   trends_labels a = [github_weekly_trends.enhancement_label a])
  /\ (labels_arg <> EmptyString ->
      trends_labels a
      = filter (fun x => github_weekly_trends.nonempty x = true)
          (map (github_weekly_trends.strip github_weekly_trends.isspace)
               (github_weekly_trends.split "," labels_arg))
      /\ Forall (fun label =>
                   label <> EmptyString
                   /\ all_chars (fun c => negb (Ascii.eqb c ",")) label = true
                   /\ github_weekly_trends.strip github_weekly_trends.isspace
                        label = label)
                (trends_labels a)).
Proof.
  intros _ labels_arg. unfold trends_labels. fold labels_arg.
  split.
  - intros ->. reflexivity.
  - intros Hne.
    destruct labels_arg as [|c s] eqn:E; [contradiction|].
    cbn [github_weekly_trends.nonempty]. split; [reflexivity|].
    apply Forall_forall. intros label Hin.
    apply list_elem_of_filter in Hin as [Hn Hin].
    apply list_elem_of_fmap in Hin as (x & -> & Hx).
    split; [|split].
    + intros H. rewrite H in Hn. discriminate.
    + apply all_chars_rstrip, all_chars_lstrip.
      pose proof (split_no_sep "," (String c s)) as Hall.
      rewrite Forall_forall in Hall. apply Hall. exact Hx.
    + apply strip_strip.
Qed.

(** The labels of the example in the source, with blanks around the
    comma and a comma too many. *)
Lemma X20_labels_witness :
  trends_labels
    (github_weekly_trends.mkargs "valkey-io" "valkey" 90 "." 30 10 500
       "enhancement" " enhancement , Major decision pending,")
  = ["enhancement"; "Major decision pending"].
Proof.
  destruct (X20_labels
              (github_weekly_trends.mkargs "valkey-io" "valkey" 90 "." 30 10
                 500 "enhancement" " enhancement , Major decision pending,")
              eq_refl) as [_ H].
  destruct H as [H _]; [discriminate|]. rewrite H. reflexivity.
Defined.

(** ** The run of [contributors_weekly] *)

(** X21: the file of [contributors_weekly].  A run that does not end
    well writes no file.  A run that ends well writes one file, as the
    last thing it does, at the path given with [--out], with the header
    time,count and the rows of the commits it fetched. *)
Theorem X21_contributors_main (a : contributors_weekly.args) (w : world)
    (tr tr' : list event) (r : result unit) :
  contributors_weekly.main a w tr = (r, tr') ->
  (r <> Ok tt -> writes tr' = writes tr)
  /\ (r = Ok tt ->
      exists evs commits rows since_iso until_iso,
        tr' = tr ++ evs
                 ++ [EvWrite (contributors_weekly.out a)
                       (mkcsv ["time"; "count"] rows)]
        /\ Forall not_write evs
        /\ contributors_weekly.fetch_commits (contributors_weekly.owner a)
             (contributors_weekly.repo a) since_iso until_iso
             (contributors_weekly.token a) w tr
           = (Ok commits, tr ++ evs)
        /\ contributors_weekly.rows_of (contributors_weekly.exclude_bots a)
             commits = Ok rows).
Proof.
  intros E. unfold contributors_weekly.main in E.
  unfold bind at 1 in E. cbv beta iota in E.
  lift_step E; [|injection E as <- <-; split; [auto|discriminate]..].
  lift_step E; [|injection E as <- <-; split; [auto|discriminate]..].
  destruct (date_ltb _ _);
    [injection E as <- <-; split; [auto|discriminate]|].
  lift_step E; [|injection E as <- <-; split; [auto|discriminate]..].
  lift_step E; [|injection E as <- <-; split; [auto|discriminate]..].
  lift_step E; [|injection E as <- <-; split; [auto|discriminate]..].
  unfold bind at 1 in E.
  match type of E with
  | context [contributors_weekly.fetch_commits ?o ?rp ?s ?u ?t w tr] =>
      destruct (contributors_weekly.fetch_commits o rp s u t w tr)
        as [[commits|e|] tr1] eqn:Ef;
      destruct (triple_fetch_commits_pages _ _ _ _ _ _ _ _ w tr _ tr1 Ef)
        as [(evs & -> & Hev) _]
  end.
  2, 3: injection E as <- <-; split; [intros _; apply writes_app; exact Hev
                                     |discriminate].
  lift_step E.
  2, 3: injection E as <- <-; split; [intros _; apply writes_app; exact Hev
                                     |discriminate].
  unfold emit in E. injection E as <- <-.
  split; [intros H; contradiction|]. intros _.
  exists evs, commits. do 3 eexists. rewrite <- app_assoc.
  split; [reflexivity|]. split; [exact Hev|].
  split; [exact Ef|eassumption].
Qed.

(** A run with one commit of Alice. *)
Lemma X21_contributors_main_witness :
  let a := contributors_weekly.mkargs "valkey-io" "valkey"
             (contributors_weekly.SinceDays 20) None "contributors.csv" None
             false in
  let w := mkworld (mkdate 2024 1 21) (fun _ _ => page [])
             (fun _ _ => page None) (fun _ _ => page [alice_login])
             (fun _ _ => page (Some [])) in
  exists evs commits rows since_iso until_iso,
    (contributors_weekly.main a w []).2
    = [] ++ evs
         ++ [EvWrite "contributors.csv" (mkcsv ["time"; "count"] rows)]
    /\ Forall not_write evs
    /\ contributors_weekly.fetch_commits "valkey-io" "valkey" since_iso
         until_iso None w []
       = (Ok commits, [] ++ evs)
    /\ contributors_weekly.rows_of false commits = Ok rows.
Proof.
  cbv zeta.
  refine (proj2 (X21_contributors_main
                   (contributors_weekly.mkargs "valkey-io" "valkey"
                      (contributors_weekly.SinceDays 20) None
                      "contributors.csv" None false)
                   (mkworld (mkdate 2024 1 21) (fun _ _ => page [])
                      (fun _ _ => page None) (fun _ _ => page [alice_login])
                      (fun _ _ => page (Some [])))
                   [] _ (Ok tt) _) eq_refl).
  vm_compute. reflexivity.
Defined.

(** X22: the window [contributors_weekly] asks the server for.  With
    [--since s] and [--until e]: when [s] is after [e] the run ends with
    [SystemExit], which names both dates, before any request; otherwise
    the commits are fetched from the midnight that starts [s] to the
    midnight that ends [e], the start of the day after, both rendered by
    [strftime]; and when [e] is the last day of the calendar, which has
    no day after, the run ends with [OverflowError].  The rendering of
    the midnight of a date is the text YYYY-MM-DDT00:00:00Z when the
    year of the date has four digits; the year of an earlier date is
    written without leading zeros. *)
Theorem X22_contributors_window (a : contributors_weekly.args) (w : world)
    (tr : list event) (s e : date) :
  valid_date s -> valid_date e ->
  contributors_weekly.since a = contributors_weekly.Since (isoformat s) ->
  contributors_weekly.until_ a = Some (isoformat e) ->
  (date_ltb e s = true ->
   contributors_weekly.main a w tr
   = (Raise (SystemExit
               ("--since/--since-days must be <= --until. Got start="
                +:+ isoformat s +:+ " end=" +:+ isoformat e)),
      tr))
  /\ (date_ltb e s = false ->
      forall e1,
        date_add e (mktimedelta 1) = Ok e1 ->
        contributors_weekly.main a w tr
        = (commits <- contributors_weekly.fetch_commits
                        (contributors_weekly.owner a)
                        (contributors_weekly.repo a)
                        (strftime_iso_z (mkdatetime s 0 0 0))
                        (strftime_iso_z (mkdatetime e1 0 0 0))
                        (contributors_weekly.token a) ;;
           rows <- lift (contributors_weekly.rows_of
                           (contributors_weekly.exclude_bots a) commits) ;;
           emit (EvWrite (contributors_weekly.out a)
                   (mkcsv ["time"; "count"] rows))) w tr)
  /\ (date_ltb e s = false -> toordinal e = MAXORDINAL ->
      contributors_weekly.main a w tr = (Raise OverflowError, tr))
  /\ (forall d,
        (four_digits d -> strftime_iso_z (mkdatetime d 0 0 0) = iso_label d)
        /\ (year d < 1000 ->
            (String.length (strftime_iso_z (mkdatetime d 0 0 0)) < 20)%nat)).
Proof.
  intros Hs He Hsince Huntil.
  assert (Hmain : contributors_weekly.main a w tr
                  = (if date_ltb e s then
                       raise
                         (SystemExit
                            ("--since/--since-days must be <= --until. Got start="
                             +:+ isoformat s +:+ " end=" +:+ isoformat e))
                     else
                       until_d <- lift (date_add e (mktimedelta 1)) ;;
                       commits <- contributors_weekly.fetch_commits
                                    (contributors_weekly.owner a)
                                    (contributors_weekly.repo a)
                                    (bucket_label s) (bucket_label until_d)
                                    (contributors_weekly.token a) ;;
                       rows <- lift (contributors_weekly.rows_of
                                       (contributors_weekly.exclude_bots a)
                                       commits) ;;
                       emit (EvWrite (contributors_weekly.out a)
                               (mkcsv ["time"; "count"] rows))) w tr).
  { unfold contributors_weekly.main. rewrite Hsince, Huntil.
    rewrite isoformat_truthy. cbn [default from_option id].
    rewrite !strptime_ymd_isoformat by assumption.
    unfold bind at 1. cbv beta iota.
    unfold bind at 1, lift at 1. cbv beta iota.
    unfold bind at 1, lift at 1. cbv beta iota.
    destruct (date_ltb e s); [reflexivity|].
    rewrite !datetime_new_midnight by assumption.
    unfold bind at 1, lift at 1. cbv beta iota.
    unfold bind at 1, lift at 1. cbv beta iota.
    cbn [dt_date hour minute second].
    unfold bind at 1 3, lift at 1 3.
    destruct (date_add e (mktimedelta 1)) as [until_d| |]; reflexivity. }
  rewrite Hmain. split; [|split; [|split]].
  - intros ->. reflexivity.
  - intros -> e1 He1. unfold bind at 1, lift at 1. rewrite He1. reflexivity.
  - intros -> Hmax. unfold bind at 1, lift at 1.
    rewrite date_add_overflow by (unfold MAXORDINAL in *; lia). reflexivity.
  - intros d. rewrite strftime_midnight.
    split; [apply bucket_label_wide|apply bucket_label_short].
Qed.

(** The window 2024-01-01 .. 2024-01-21 is fetched up to the start of
    2024-01-22. *)
Lemma X22_contributors_window_witness :
  let a := contributors_weekly.mkargs "valkey-io" "valkey"
             (contributors_weekly.Since "2024-01-01") (Some "2024-01-21")
             "contributors.csv" None false in
  contributors_weekly.main a (search_world []) []
  = (commits <- contributors_weekly.fetch_commits "valkey-io" "valkey"
                  (strftime_iso_z (mkdatetime (mkdate 2024 1 1) 0 0 0))
                  (strftime_iso_z (mkdatetime (mkdate 2024 1 22) 0 0 0))
                  None ;;
     rows <- lift (contributors_weekly.rows_of false commits) ;;
     emit (EvWrite "contributors.csv" (mkcsv ["time"; "count"] rows)))
      (search_world []) [].
Proof.
  cbv zeta.
  destruct (X22_contributors_window
              (contributors_weekly.mkargs "valkey-io" "valkey"
                 (contributors_weekly.Since "2024-01-01") (Some "2024-01-21")
                 "contributors.csv" None false)
              (search_world []) [] (mkdate 2024 1 1) (mkdate 2024 1 21)
              eq_refl eq_refl eq_refl eq_refl) as (_ & H & _ & _).
  apply (H eq_refl (mkdate 2024 1 22)). reflexivity.
Defined.

(** ** The number of requests of a series *)

Section Budget.

Lemma for_gen_requests {S A B} (next : S -> gen_step S A)
    (body : B -> A -> M B) (bound : nat) :
  (forall acc a w tr r tr',
     body acc a w tr = (r, tr') ->
     exists evs, tr' = tr ++ evs /\ (length (requests evs) <= bound)%nat) ->
  forall n s l,
    run_gen next n s = (l, Finished) ->
    forall fuel acc w tr r tr',
      for_gen next body fuel s acc w tr = (r, tr') ->
      exists evs,
        tr' = tr ++ evs
        /\ (length (requests evs) <= length l * bound)%nat.
Proof.
  intros Hbody. induction n as [|n IH]; intros s l Hrun; [discriminate|].
  intros fuel acc w tr r tr' E.
  destruct fuel as [|fuel].
  { injection E as <- <-. exists []. rewrite app_nil_r. cbn.
    split; [auto|lia]. }
  rewrite run_gen_S in Hrun. cbn [for_gen] in E.
  destruct (next s) as [a s'| |e].
  - destruct (run_gen next n s') as [l' st] eqn:Hrun'.
    injection Hrun as <- ->.
    unfold bind in E.
    destruct (body acc a w tr) as [[acc'|e|] tr1] eqn:Eb;
      destruct (Hbody _ _ _ _ _ _ Eb) as (evs1 & -> & Hev1).
    + destruct (IH s' l' Hrun' fuel acc' w _ r tr' E) as (evs2 & -> & Hev2).
      exists (evs1 ++ evs2). rewrite app_assoc. split; [reflexivity|].
      rewrite requests_app, length_app. cbn [length]. lia.
    + injection E as <- <-. exists evs1. split; [reflexivity|].
      cbn [length]. lia.
    + injection E as <- <-. exists evs1. split; [reflexivity|].
      cbn [length]. lia.
  - injection E as <- <-. exists []. rewrite app_nil_r. cbn.
    split; [auto|lia].
  - discriminate.
Qed.

Lemma search_items_budget session q token max_pages pause w tr r tr' :
  github_weekly_trends.search_items session q token max_pages pause w tr
  = (r, tr') ->
  exists evs,
    tr' = tr ++ evs /\ (length (requests evs) <= Z.to_nat max_pages)%nat.
Proof.
  intros E. unfold github_weekly_trends.search_items in E.
  destruct (triple_search_items_pages _ _ _ _ _ _ _ _ _ E)
    as [(evs & -> & _) _].
  apply search_items_requests in E as (n & Hn & E).
  rewrite requests_app in E. apply app_inv_head in E.
  exists evs. split; [reflexivity|].
  rewrite E, length_map, length_take. rewrite length_seqZ in Hn. lia.
Qed.

End Budget.

(** X23: the search requests of a series.  For a window of [n] days
    ([start <= end]) and [chunk_days >= 1], with [end + chunk_days] days
    still a date, a series of [github_weekly_trends] (the searches of
    its chunks, then the file) makes at most [max_pages] search requests
    for each of its [n / chunk_days] (rounded up) chunks, however it
    ends. *)
Theorem X23_series_request_budget (session : list (string * string))
    (token : option string) (a : github_weekly_trends.args)
    (start_d end_d : date) (build : string -> string -> result string)
    (ts_of : issue -> option string) (fname : string) (fuel : nat)
    (w : world) (tr tr' : list event) (r : result unit) :
  valid_date start_d -> valid_date end_d ->
  date_leb start_d end_d = true ->
  1 <= github_weekly_trends.chunk_days a ->
  toordinal end_d + github_weekly_trends.chunk_days a <= MAXORDINAL ->
  github_weekly_trends.weekly_series session token a start_d end_d build
    ts_of fname fuel w tr = (r, tr') ->
  let n := toordinal end_d - toordinal start_d + 1 in
  let chunks := (n + github_weekly_trends.chunk_days a - 1)
                / github_weekly_trends.chunk_days a in
  Z.of_nat (length (requests tr'))
  <= Z.of_nat (length (requests tr))
     + chunks * Z.max 0 (github_weekly_trends.max_pages a).
Proof.
  intros Hs He Hle Hc Hmax E n chunks.
  destruct (number_of_chunks start_d end_d _ Hs He Hle Hc Hmax)
    as (k & _ & l & _ & Hrun & _ & Hlen).
  fold n in Hlen. fold chunks in Hlen.
  unfold github_weekly_trends.weekly_series in E. unfold bind at 1 in E.
  match type of E with
  | context [for_gen ?nx ?b ?f ?s0 ?acc0 w tr] =>
      pose proof (for_gen_requests nx b
                    (Z.to_nat (github_weekly_trends.max_pages a))) as HB;
      destruct (for_gen nx b f s0 acc0 w tr) as [res tr1] eqn:El
  end.
  match type of HB with
  | ?P -> _ => assert (Hb : P)
  end.
  { intros acc0 se w0 tr0 r0 tr0' Eb. unfold bind at 1, lift at 1 in Eb.
    destruct (build se.1 se.2) as [q| |].
    2, 3: injection Eb as <- <-; exists []; rewrite app_nil_r; cbn;
      split; [auto|lia].
    unfold bind at 1 in Eb.
    destruct (github_weekly_trends.search_items _ _ _ _ _ w0 tr0)
      as [[items|e0|] tr2] eqn:Es;
      destruct (search_items_budget _ _ _ _ _ _ _ _ _ Es)
        as (evs0 & -> & Hev0);
      [unfold lift in Eb|..]; injection Eb as <- <-; exists evs0; auto. }
  destruct (HB Hb k _ l Hrun _ _ _ _ _ _ El) as (evs & -> & Hev).
  assert (Hreq : Z.of_nat (length (requests (tr ++ evs)))
                 <= Z.of_nat (length (requests tr))
                    + chunks * Z.max 0 (github_weekly_trends.max_pages a)).
  { rewrite requests_app, length_app. nia. }
  destruct res as [weekly|e|].
  - unfold github_weekly_trends.write_csv in E.
    destruct (github_weekly_trends.render_rows _) as [written res].
    unfold bind, emit, lift in E. injection E as <- <-.
    rewrite requests_app. cbn [requests omap]. rewrite app_nil_r.
    exact Hreq.
  - injection E as <- <-. exact Hreq.
  - injection E as <- <-. exact Hreq.
Qed.

(** The series of the opened pull requests of the last 20 days. *)
Lemma X23_series_request_budget_witness :
  let run :=
    github_weekly_trends.weekly_series
      (github_weekly_trends.make_session None) None trends_args
      (mkdate 2024 1 1) (mkdate 2024 1 21)
      (github_weekly_trends.build_query_pr "valkey-io" "valkey" "opened")
      created_at "prs_opened_weekly.csv" 5
      (search_world [issue_at "2024-01-02T09:00:00Z"]) [] in
  Z.of_nat (length (requests run.2))
  <= Z.of_nat (length (requests []))
     + (toordinal (mkdate 2024 1 21) - toordinal (mkdate 2024 1 1) + 1
        + 30 - 1) / 30 * Z.max 0 10.
Proof.
  cbv zeta.
  apply (X23_series_request_budget
           (github_weekly_trends.make_session None) None trends_args
           (mkdate 2024 1 1) (mkdate 2024 1 21)
           (github_weekly_trends.build_query_pr "valkey-io" "valkey" "opened")
           created_at "prs_opened_weekly.csv" 5
           (search_world [issue_at "2024-01-02T09:00:00Z"]) [] _
           (github_weekly_trends.weekly_series
              (github_weekly_trends.make_session None) None trends_args
              (mkdate 2024 1 1) (mkdate 2024 1 21)
              (github_weekly_trends.build_query_pr "valkey-io" "valkey"
                 "opened")
              created_at "prs_opened_weekly.csv" 5
              (search_world [issue_at "2024-01-02T09:00:00Z"]) []).1);
    try reflexivity; vm_compute; discriminate.
Defined.

(** ** From the table to the file *)

Section TableToFile.

Lemma sum_items_perm (l l' : list (date * Z)) :
  l ≡ₚ l' ->
  foldr (fun kv acc => kv.2 + acc) 0 l = foldr (fun kv acc => kv.2 + acc) 0 l'.
Proof.
  induction 1 as [|x l l' _ IH|x y l|l1 l2 l3 _ IH1 _ IH2]; cbn; lia.
Qed.

Lemma sum_counts_rows (items : list (date * Z)) :
  sum_counts (map (fun kv => (bucket_label kv.1, kv.2)) items)
  = foldr (fun kv acc => kv.2 + acc) 0 items.
Proof.
  unfold sum_counts. induction items as [|[k v] items IH]; [reflexivity|].
  cbn in *. rewrite IH. reflexivity.
Qed.

Lemma total_items (counter : gmap date Z) :
  total counter = foldr (fun kv acc => kv.2 + acc) 0 (map_to_list counter).
Proof.
  unfold total. rewrite map_fold_foldr.
  induction (map_to_list counter) as [|[k v] l IH]; [reflexivity|].
  cbn in *. rewrite IH. reflexivity.
Qed.

End TableToFile.

(** X24: [write_csv] of [github_weekly_trends] writes the table as it
    is.  For a table whose keys are dates that exist, the file has one
    row for each bucket of the table, the counts of its rows add up to
    the counts of the table, and a bucket has a count in the table
    exactly when the file has the row with that count whose time is the
    [strftime] rendering of the midnight that starts the bucket. *)
Theorem X24_write_csv_keeps_counts (path : string) (counter : gmap date Z)
    (w : world) (tr : list event) :
  map_Forall (fun k _ => valid_date k) counter ->
  exists rows,
    github_weekly_trends.write_csv path counter w tr
    = (Ok tt, tr ++ [EvWrite path (mkcsv ["time"; "count"] rows)])
    /\ length rows = size counter
    /\ sum_counts rows = total counter
    /\ (forall d n,
          valid_date d ->
          counter !! d = Some n <-> (bucket_label d, n) ∈ rows).
Proof.
  intros Hinv.
  destruct (sorted_date_items_spec counter) as [Hp _].
  assert (Hall : Forall (fun kv : date * Z => valid_date kv.1)
                        (sorted_date_items counter)).
  { rewrite Hp. apply map_Forall_to_list in Hinv.
    eapply Forall_impl; [exact Hinv|]. intros [k v] H. exact H. }
  exists (map (fun kv => (bucket_label kv.1, kv.2))
              (sorted_date_items counter)).
  split; [|split; [|split]].
  - unfold github_weekly_trends.write_csv.
    rewrite render_rows_valid by exact Hall. reflexivity.
  - rewrite length_map, Hp, length_map_to_list. reflexivity.
  - rewrite sum_counts_rows, (sum_items_perm _ _ Hp), total_items.
    reflexivity.
  - intros d n Hd. rewrite <- (elem_of_map_to_list counter d n), <- Hp.
    split.
    + intros Hin.
      apply list_elem_of_fmap. exists (d, n). split; [reflexivity|exact Hin].
    + intros Hin. apply list_elem_of_fmap in Hin as ([k v] & E & Hin).
      pose proof (f_equal fst E) as E1. pose proof (f_equal snd E) as E2.
      cbn [fst snd] in E1, E2. subst v.
      rewrite Forall_forall in Hall. pose proof (Hall _ Hin) as Hk.
      cbn [fst] in Hk. apply bucket_label_inj in E1; try assumption.
      subst k. exact Hin.
Qed.

(** The table of two weeks. *)
Lemma X24_write_csv_keeps_counts_witness :
  let counter := incr (mkdate 2024 1 8)
                   (incr (mkdate 2024 1 1) (incr (mkdate 2024 1 1) ∅)) in
  exists rows,
    github_weekly_trends.write_csv "prs_opened_weekly.csv" counter
      (search_world []) []
    = (Ok tt,
       [] ++ [EvWrite "prs_opened_weekly.csv" (mkcsv ["time"; "count"] rows)])
    /\ length rows = size counter
    /\ sum_counts rows = total counter
    /\ (forall d n,
          valid_date d ->
          counter !! d = Some n <-> (bucket_label d, n) ∈ rows).
Proof.
  cbv zeta.
  apply (X24_write_csv_keeps_counts "prs_opened_weekly.csv"
           (incr (mkdate 2024 1 8)
              (incr (mkdate 2024 1 1) (incr (mkdate 2024 1 1) ∅)))
           (search_world []) []).
  apply map_Forall_insert_2; [reflexivity|].
  apply map_Forall_insert_2; [reflexivity|].
  apply map_Forall_insert_2; [reflexivity|]. apply map_Forall_empty.
Defined.

(** ** A window that ends before it starts *)

(** X25: a negative [--since-days] in [github_weekly_trends].
    [compute_window] then returns a window that starts after today and
    ends today, without an error; for such a window the chunk planner
    yields nothing, and a series makes no request and writes its file
    with the header and no rows. *)
Theorem X25_negative_since_days (since_days : Z) (w : world)
    (tr : list event) :
  valid_date (today w) ->
  since_days < 0 ->
  toordinal (today w) - since_days <= MAXORDINAL ->
  exists start_d,
    github_weekly_trends.compute_window since_days w tr
    = (Ok (start_d, today w), tr)
    /\ valid_date start_d
    /\ toordinal start_d = toordinal (today w) - since_days
    /\ (forall chunk_days fuel,
          run_gen (github_weekly_trends.daterange_chunks start_d (today w)
                     chunk_days) (S fuel) github_weekly_trends.ChunksStart
          = ([], Finished))
    /\ (forall session token a build ts_of fname fuel,
          github_weekly_trends.weekly_series session token a start_d
            (today w) build ts_of fname (S fuel) w tr
          = (Ok tt,
             tr ++ [EvWrite
                      (github_weekly_trends.path_join
                         (github_weekly_trends.out_dir a) fname)
                      (mkcsv ["time"; "count"] [])])).
Proof.
  intros Hw Hn Hmax. pose proof (toordinal_range _ Hw) as Hr.
  destruct (date_sub_cases (today w) since_days Hw)
    as [(s & E & Hv & Ho)|[_ Hbad]]; [|lia].
  exists s.
  assert (Hlt : date_leb s (today w) = false).
  { unfold date_leb. apply negb_false_iff.
    apply date_ltb_iff; try assumption. lia. }
  split; [|split; [exact Hv|split; [exact Ho|split]]].
  - unfold github_weekly_trends.compute_window,
      github_weekly_trends.today_utc_date, bind, lift, ret.
    rewrite timedelta_days_ok by (unfold MAXORDINAL in *; lia).
    rewrite E. reflexivity.
  - intros chunk_days fuel. rewrite run_gen_S.
    cbn [github_weekly_trends.daterange_chunks].
    unfold github_weekly_trends.chunks_loop. rewrite Hlt. reflexivity.
  - intros session token a build ts_of fname fuel.
    unfold github_weekly_trends.weekly_series. cbn [for_gen].
    cbn [github_weekly_trends.daterange_chunks].
    unfold github_weekly_trends.chunks_loop. rewrite Hlt.
    unfold bind at 1, ret at 1.
    unfold github_weekly_trends.write_csv, sorted_date_items.
    rewrite map_to_list_empty. reflexivity.
Qed.

(** Five days into the future. *)
Lemma X25_negative_since_days_witness :
  exists start_d,
    github_weekly_trends.compute_window (-5) (search_world []) []
    = (Ok (start_d, mkdate 2024 1 21), [])
    /\ valid_date start_d
    /\ toordinal start_d = toordinal (mkdate 2024 1 21) - -5.
Proof.
  destruct (X25_negative_since_days (-5) (search_world []) [])
    as (s & H1 & H2 & H3 & _).
  - reflexivity.
  - lia.
  - vm_compute. discriminate.
  - exists s. auto.
Defined.

(** ** The commits [contributors_weekly] fetches *)

Section CollectCommits.

Import contributors_weekly.

Variables (owner repo since_iso until_iso : string) (token : option string).
Variables (w : world) (resp : Z -> response (list commit)).

Hypothesis Hserver :
  forall tr p,
    commits_api w tr (commits_request owner repo since_iso until_iso token p)
    = resp p.

Lemma fetch_commits_step p pages all_commits tr :
  fetch_commits_pages (COMMITS_URL owner repo) (gh_headers token) since_iso
    until_iso 100 200 (p :: pages) all_commits w tr
  = let tr1 := tr ++ [EvGet (commits_request owner repo since_iso until_iso
                               token p)] in
    if negb (status_code (resp p) =? 200) then
      (Raise (SystemExit
                (commits_error (status_code (resp p)) p
                   (match json (resp p) with
                    | Some d => doc_str d
                    | None => text (resp p)
                    end))), tr1)
    else
      match json (resp p) with
      | None => (Raise JSONDecodeError, tr1)
      | Some d =>
          match doc_view d with
          | [] => (Ok all_commits, tr1)
          | items =>
              if Z.of_nat (length items) <? 100
              then (Ok (all_commits ++ items), tr1)
              else
                fetch_commits_pages (COMMITS_URL owner repo)
                  (gh_headers token) since_iso until_iso 100 200 pages
                  (all_commits ++ items) w (tr1 ++ [EvSleep 200])
          end
      end.
Proof.
  cbn [fetch_commits_pages]. unfold bind at 1, get.
  fold (commits_request owner repo since_iso until_iso token p).
  rewrite Hserver. cbv zeta.
  destruct (negb (status_code (resp p) =? 200)); [reflexivity|].
  unfold bind at 1, json_of.
  destruct (json (resp p)) as [d|]; [|reflexivity].
  unfold ret at 1. destruct (doc_view d) as [|c l]; [reflexivity|].
  destruct (_ <? 100); reflexivity.
Qed.

Lemma fetch_commits_collects (k : Z) (j : nat) :
  (forall p, 1 <= p < k ->
             status_code (resp p) = 200 /\ json (resp p) <> None
             /\ 100 <= Z.of_nat (length (records (resp p)))) ->
  k <= 100 ->
  (status_code (resp k) = 200 ->
   json (resp k) <> None
   /\ (k = 100 \/ Z.of_nat (length (records (resp k))) < 100)) ->
  forall p all_commits tr,
    1 <= p -> p + Z.of_nat j = k ->
    exists tr',
      fetch_commits_pages (COMMITS_URL owner repo) (gh_headers token)
        since_iso until_iso 100 200 (seqZ p (100 - p + 1)) all_commits w tr
      = (if status_code (resp k) =? 200 then
           Ok (all_commits
               ++ concat (map (fun p => records (resp p))
                              (seqZ p (Z.of_nat j + 1))))
         else
           Raise (SystemExit
                    (commits_error (status_code (resp k)) k
                       (match json (resp k) with
                        | Some d => doc_str d
                        | None => text (resp k)
                        end))),
         tr')
      /\ requests tr'
         = requests tr
           ++ map (commits_request owner repo since_iso until_iso token)
                  (seqZ p (Z.of_nat j + 1)).
Proof.
  intros Hfull Hk Hlast.
  induction j as [|j IH]; intros p all_commits tr Hp Hpk.
  - assert (p = k) by lia. subst p.
    rewrite (seqZ_cons k (100 - k + 1)) by lia.
    rewrite fetch_commits_step. cbv zeta.
    change (Z.of_nat 0 + 1) with 1. rewrite (seqZ_cons k 1) by lia.
    rewrite (seqZ_nil _ (Z.pred 1)) by lia. cbn [map concat].
    rewrite app_nil_r. unfold records in *.
    destruct (Z.eqb_spec (status_code (resp k)) 200) as [Hs|Hs];
      cbn [negb].
    + destruct (Hlast Hs) as [Hj Hl].
      destruct (json (resp k)) as [d|]; [|contradiction].
      destruct (doc_view d) as [|c l] eqn:Hd.
      { eexists. split; [rewrite app_nil_r; reflexivity|].
        rewrite requests_app. reflexivity. }
      destruct (Z.ltb_spec (Z.of_nat (length (c :: l))) 100) as [Hlt|Hge].
      { eexists. split; [reflexivity|]. rewrite requests_app. reflexivity. }
      destruct Hl as [->|Hl]; [|lia].
      rewrite seqZ_nil by lia. eexists. split; [reflexivity|].
      rewrite !requests_app. cbn [requests omap]. rewrite app_nil_r.
      reflexivity.
    + eexists. split; [reflexivity|]. rewrite requests_app. reflexivity.
  - rewrite (seqZ_cons p (100 - p + 1)) by lia.
    rewrite fetch_commits_step. cbv zeta.
    destruct (Hfull p) as (Hs & Hj & Hlen); [lia|].
    rewrite Hs. cbn [Z.eqb Pos.eqb negb]. unfold records in Hlen.
    destruct (json (resp p)) as [d|] eqn:Ej; [|contradiction].
    destruct (doc_view d) as [|c l] eqn:Hd; [cbn in Hlen; lia|].
    destruct (Z.ltb_spec (Z.of_nat (length (c :: l))) 100) as [Hlt|Hge];
      [lia|].
    destruct (IH (Z.succ p) (all_commits ++ c :: l)
                ((tr ++ [EvGet (commits_request owner repo since_iso
                                  until_iso token p)]) ++ [EvSleep 200]))
      as (tr' & E & Hreq); try lia.
    exists tr'.
    replace (Z.pred (100 - p + 1)) with (100 - Z.succ p + 1) by lia.
    rewrite (seqZ_cons p (Z.of_nat (S j) + 1)) by lia.
    replace (Z.pred (Z.of_nat (S j) + 1)) with (Z.of_nat j + 1) by lia.
    split.
    + rewrite E. destruct (status_code (resp k) =? 200); [|reflexivity].
      cbn [map concat]. unfold records at 2. rewrite Ej, Hd, <- app_assoc.
      reflexivity.
    + rewrite Hreq, !requests_app. cbn [map requests omap].
      rewrite app_nil_r, <- app_assoc. reflexivity.
Qed.

End CollectCommits.

(** X26: what [fetch_commits] of [contributors_weekly] returns, against
    a server that answers the request for page [p] with [resp p].  When
    the pages before page [k] are answered with status 200 and 100
    records or more: if page [k] is answered with status 200 and fewer
    than 100 records (none, too), or is page 100, the result is the
    records of the pages 1 .. [k] in this order; if page [k] is
    answered with another status, the run ends with [SystemExit], which
    has the status, the page and the payload, and the records of the
    pages before are not returned.  In both cases the pages 1 .. [k]
    have been requested, each once. *)
Theorem X26_fetch_commits_collects (owner repo since_iso until_iso : string)
    (token : option string) (w : world) (resp : Z -> response (list commit))
    (k : Z) (tr : list event) :
  (forall tr p,
     commits_api w tr (commits_request owner repo since_iso until_iso token p)
     = resp p) ->
  1 <= k <= 100 ->
  (forall p, 1 <= p < k ->
             status_code (resp p) = 200 /\ json (resp p) <> None
             /\ 100 <= Z.of_nat (length (records (resp p)))) ->
  (status_code (resp k) = 200 ->
   json (resp k) <> None
   /\ (k = 100 \/ Z.of_nat (length (records (resp k))) < 100)) ->
  exists tr',
    contributors_weekly.fetch_commits owner repo since_iso until_iso token
      w tr
    = (if status_code (resp k) =? 200 then
         Ok (concat (map (fun p => records (resp p)) (seqZ 1 k)))
       else
         Raise (SystemExit
                  ("GitHub commits error " +:+ str_int (status_code (resp k))
                   +:+ " page " +:+ str_int k +:+ ":"
                   +:+ String "010"
                         (match json (resp k) with
                          | Some d => doc_str d
                          | None => text (resp k)
                          end))),
       tr')
    /\ requests tr'
       = requests tr
         ++ map (commits_request owner repo since_iso until_iso token)
                (seqZ 1 k).
Proof.
  intros Hserver Hk Hfull Hlast.
  destruct (fetch_commits_collects owner repo since_iso until_iso token w
              resp Hserver k (Z.to_nat (k - 1)) Hfull ltac:(lia) Hlast 1 []
              tr) as (tr' & E & Hreq); try lia.
  replace (Z.of_nat (Z.to_nat (k - 1)) + 1) with k in E, Hreq by lia.
  exists tr'. split; [exact E|exact Hreq].
Qed.

(** A first page of one commit. *)
Lemma X26_fetch_commits_collects_witness :
  let w := mkworld (mkdate 2024 1 21) (fun _ _ => page [])
             (fun _ _ => page None) (fun _ _ => page [alice_login])
             (fun _ _ => page (Some [])) in
  exists tr',
    contributors_weekly.fetch_commits "valkey-io" "valkey"
      "2024-01-01T00:00:00Z" "2024-01-22T00:00:00Z" None w []
    = (Ok [alice_login], tr')
    /\ requests tr'
       = requests []
         ++ map (commits_request "valkey-io" "valkey" "2024-01-01T00:00:00Z"
                   "2024-01-22T00:00:00Z" None) (seqZ 1 1).
Proof.
  cbv zeta.
  apply (X26_fetch_commits_collects "valkey-io" "valkey"
           "2024-01-01T00:00:00Z" "2024-01-22T00:00:00Z" None _
           (fun _ => page [alice_login]) 1 []).
  - intros tr p. reflexivity.
  - lia.
  - intros p Hp. lia.
  - intros _. split; [discriminate|]. right. cbn. lia.
Defined.

(** ** The run of [major_decision_weekly] *)

Section MajorDecision.

Lemma md_render_rows items :
  major_decision_weekly.render_rows items
  = github_weekly_trends.render_rows items.
Proof.
  induction items as [|[k v] items IH]; [reflexivity|].
  cbn [major_decision_weekly.render_rows github_weekly_trends.render_rows].
  rewrite IH. reflexivity.
Qed.

(** The two scripts write a table in the same way. *)
Lemma md_write_csv path counter :
  major_decision_weekly.write_csv path counter
  = github_weekly_trends.write_csv path counter.
Proof.
  unfold major_decision_weekly.write_csv, github_weekly_trends.write_csv.
  rewrite md_render_rows. reflexivity.
Qed.

(** ... and count an item in the same way. *)
Lemma md_count_item field weekly it :
  major_decision_weekly.count_item field weekly it
  = github_weekly_trends.count_item (major_decision_weekly.issue_get field)
      weekly it.
Proof.
  unfold major_decision_weekly.count_item, github_weekly_trends.count_item.
  destruct (truthy (major_decision_weekly.issue_get field it)); reflexivity.
Qed.

Lemma md_count_items field items : forall weekly,
  for_list_r (major_decision_weekly.count_item field) items weekly
  = for_list_r (github_weekly_trends.count_item
                  (major_decision_weekly.issue_get field)) items weekly.
Proof.
  induction items as [|it items IH]; intros weekly; [reflexivity|].
  cbn [for_list_r]. rewrite md_count_item.
  destruct (github_weekly_trends.count_item _ weekly it); cbn [rbind]; auto.
Qed.

Lemma triple_search_label owner repo which start end_ token fuel :
  triple not_write
    (major_decision_weekly.search_label owner repo which start end_ token
       fuel) (fun _ => True).
Proof.
  unfold major_decision_weekly.search_label.
  destruct (String.eqb which "opened");
    (eapply (triple_bind _ _ _ (fun _ => True));
     [apply triple_search_label_loop|intros; triple_true]).
Qed.

(** One half of [main]: the search, the loop over its items, the
    file. *)
Lemma md_series_files a which start end_ token fuel fname :
  writes_files
    (found <- major_decision_weekly.search_label
                (major_decision_weekly.owner a)
                (major_decision_weekly.repo a) which start end_ token fuel ;;
     weekly <- lift (for_list_r (major_decision_weekly.count_item found.2)
                       found.1 ∅) ;;
     major_decision_weekly.write_csv fname weekly)
    [fname].
Proof.
  apply (writes_files_bind _ _ []).
  { apply (writes_files_quiet _ (fun _ => True)), triple_search_label. }
  intros found. apply (writes_files_bind _ _ []).
  { apply (writes_files_quiet _ (fun _ => True)). triple_true. }
  intros weekly. rewrite md_write_csv. apply writes_files_write_csv.
Qed.

Lemma md_series_rows a which start end_ token fuel fname :
  triple good_event
    (found <- major_decision_weekly.search_label
                (major_decision_weekly.owner a)
                (major_decision_weekly.repo a) which start end_ token fuel ;;
     weekly <- lift (for_list_r (major_decision_weekly.count_item found.2)
                       found.1 ∅) ;;
     major_decision_weekly.write_csv fname weekly)
    (fun _ => True).
Proof.
  eapply (triple_bind _ _ _ (fun _ => True)).
  { eapply triple_weaken; [apply not_write_good| |apply triple_search_label].
    auto. }
  intros found _.
  eapply (triple_bind _ _ _
            (map_Forall (fun k v => (valid_date k /\ weekday k = 0)
                                    /\ 1 <= v))).
  { apply triple_lift. intros weekly Hrun. rewrite md_count_items in Hrun.
    apply (count_items_Forall _ _ ∅ weekly Hrun). apply map_Forall_empty. }
  intros weekly Hinv. rewrite md_write_csv.
  apply triple_write_csv. eapply weekly_table_ok. exact Hinv.
Qed.

End MajorDecision.

(** X27: a run of [major_decision_weekly].  Without a token in
    GITHUB_TOKEN (missing or empty) it ends at once with [SystemExit],
    before any request.  However it ends, the files it has written are
    none, the file of the opened issues, or that file and then the file
    of the closed issues, both in the output directory, and both when it
    ends well.  Every file it writes has the header time,count and
    rows for strictly ascending dates, each time the [strftime]
    rendering of the midnight of its date, without duplicates and with
    counts that are not negative; when all the dates are in the year
    1000 or later, the times are the texts YYYY-MM-DDT00:00:00Z of the
    dates and strictly ascending as text too. *)
Theorem X27_major_decision_main (a : major_decision_weekly.args)
    (token : option string) (fuel : nat) (w : world) (tr tr' : list event)
    (r : result unit) :
  major_decision_weekly.main a token fuel w tr = (r, tr') ->
  let files :=
    [github_weekly_trends.path_join (major_decision_weekly.out_dir a)
       "label-major-decision-pending_opened_weekly.csv";
     github_weekly_trends.path_join (major_decision_weekly.out_dir a)
       "label-major-decision-pending_closed_weekly.csv"] in
  (truthy token = false ->
   r = Raise (SystemExit "GITHUB_TOKEN environment variable is required.")
   /\ tr' = tr)
  /\ (exists n,
        (n <= 2)%nat
        /\ (writes tr').*1 = (writes tr).*1 ++ take n files
        /\ (r = Ok tt -> n = 2%nat))
  /\ (exists evs, tr' = tr ++ evs /\ Forall good_event evs).
Proof.
  intros E files. unfold major_decision_weekly.main in E.
  destruct (truthy token) eqn:Ht; cbn [negb] in E.
  - split; [discriminate|].
    assert (H : writes_files (major_decision_weekly.main a token fuel) files
                /\ triple good_event
                     (major_decision_weekly.main a token fuel)
                     (fun _ => True)).
    { unfold major_decision_weekly.main. rewrite Ht. cbn [negb]. split.
      - apply (writes_files_bind _ _ []).
        { apply (writes_files_quiet _ (fun _ => True)).
          intros w0 tr0 r0 tr0' E0. injection E0 as <- <-.
          split; [|auto]. exists []. rewrite app_nil_r. auto. }
        intros end_. apply (writes_files_bind _ _ []).
        { apply (writes_files_quiet _ (fun _ => True)). triple_true. }
        intros td. apply (writes_files_bind _ _ []).
        { apply (writes_files_quiet _ (fun _ => True)). triple_true. }
        intros start.
        apply (writes_files_bind _ _ []).
        { apply (writes_files_quiet _ (fun _ => True)),
            triple_search_label. }
        intros opened. apply (writes_files_bind _ _ []).
        { apply (writes_files_quiet _ (fun _ => True)). triple_true. }
        intros opened_weekly.
        apply (writes_files_bind _ _ [_] [_]).
        { rewrite md_write_csv. apply writes_files_write_csv. }
        intros _. apply md_series_files.
      - eapply (triple_bind _ _ _ (fun _ => True)).
        { intros w0 tr0 r0 tr0' E0. injection E0 as <- <-.
          split; [|auto]. exists []. rewrite app_nil_r. auto. }
        intros end_ _.
        eapply (triple_bind _ _ _ (fun _ => True)); [triple_true|].
        intros td _.
        eapply (triple_bind _ _ _ (fun _ => True)); [triple_true|].
        intros start _.
        eapply (triple_bind _ _ _ (fun _ => True)).
        { eapply triple_weaken;
            [apply not_write_good| |apply triple_search_label]. auto. }
        intros opened _.
        eapply (triple_bind _ _ _
                  (map_Forall (fun k v => (valid_date k /\ weekday k = 0)
                                          /\ 1 <= v))).
        { apply triple_lift. intros weekly Hrun.
          rewrite md_count_items in Hrun.
          apply (count_items_Forall _ _ ∅ weekly Hrun).
          apply map_Forall_empty. }
        intros opened_weekly Hinv.
        eapply (triple_bind _ _ _ (fun _ => True)).
        { rewrite md_write_csv. apply triple_write_csv.
          eapply weekly_table_ok. exact Hinv. }
        intros _ _. apply md_series_rows. }
    destruct H as [Hfiles Hrows].
    assert (E' : major_decision_weekly.main a token fuel w tr = (r, tr'))
      by (unfold major_decision_weekly.main; rewrite Ht; exact E).
    split.
    + destruct (Hfiles w tr r tr' E') as (n & Hn & Hw & Hok).
      exists n. split; [exact Hn|]. split; [exact Hw|].
      intros ->. apply (Hok tt). reflexivity.
    + destruct (Hrows w tr r tr' E') as [H _]. exact H.
  - injection E as <- <-. split; [auto|]. split.
    + exists 0%nat. split; [lia|]. rewrite app_nil_r.
      split; [reflexivity|discriminate].
    + exists []. rewrite app_nil_r. auto.
Qed.

(** A run without a token. *)
Lemma X27_major_decision_main_witness :
  major_decision_weekly.main
    (major_decision_weekly.mkargs "valkey-io" "valkey" 180 "data") None 5
    (search_world []) []
  = (Raise (SystemExit "GITHUB_TOKEN environment variable is required."), []).
Proof.
  destruct (X27_major_decision_main
              (major_decision_weekly.mkargs "valkey-io" "valkey" 180 "data")
              None 5 (search_world []) [] _ _ (surjective_pairing _))
    as ([H1 H2] & _); [reflexivity|].
  rewrite (surjective_pairing (major_decision_weekly.main _ _ _ _ _)).
  rewrite H1, H2. reflexivity.
Defined.

(** X28: [major_decision_weekly] under a rate limit that does not end.
    With a token, a window that exists and a server that answers every
    search with status 403, the run never ends: after any number of
    turns of the loop of [search_label] it is still in the search for
    the opened issues, has made that many requests, each followed by a
    pause of 5 seconds, and has written no file. *)
Theorem X28_major_decision_rate_limited (a : major_decision_weekly.args)
    (token : string) (w : world) (tr : list event) :
  token <> EmptyString ->
  valid_date (today w) ->
  0 <= major_decision_weekly.since_days a < toordinal (today w) ->
  (forall tr r, status_code (search_api w tr r) = 403) ->
  forall fuel,
    exists q,
      major_decision_weekly.main a (Some token) fuel w tr
      = (OutOfFuel,
         tr ++ concat
                 (replicate fuel
                    [EvGet (major_decision_weekly.search_request q token 1);
                     EvSleep 5000])).
Proof.
  intros Ht Hw Hn Hs fuel. pose proof (toordinal_range _ Hw) as Hr.
  unfold major_decision_weekly.main.
  destruct token as [|c token]; [contradiction|].
  cbn [truthy negb default from_option id].
  unfold bind at 1. cbv beta iota.
  unfold bind at 1, lift at 1.
  rewrite timedelta_days_ok by (unfold MAXORDINAL in *; lia).
  unfold bind at 1, lift at 1.
  destruct (date_sub_cases (today w) (major_decision_weekly.since_days a) Hw)
    as [(s & E & Hv & Ho)|[_ Hbad]]; [|lia].
  rewrite E. unfold bind at 1.
  unfold major_decision_weekly.search_label.
  change (String.eqb "opened" "opened") with true. cbv iota beta.
  unfold bind at 1.
  eexists.
  rewrite (search_label_retries_forever _ _ w 1 [] Hs fuel tr).
  reflexivity.
Qed.

(** Three turns under the rate limit. *)
Lemma X28_major_decision_rate_limited_witness :
  exists q,
    major_decision_weekly.main
      (major_decision_weekly.mkargs "valkey-io" "valkey" 180 "data")
      (Some "t") 3 (failing_world 403 "API rate limit exceeded") []
    = (OutOfFuel,
       [] ++ concat
               (replicate 3
                  [EvGet (major_decision_weekly.search_request q "t" 1);
                   EvSleep 5000])).
Proof.
  apply (X28_major_decision_rate_limited
           (major_decision_weekly.mkargs "valkey-io" "valkey" 180 "data")
           "t" (failing_world 403 "API rate limit exceeded") []).
  - discriminate.
  - reflexivity.
  - vm_compute. split; [discriminate|reflexivity].
  - intros tr r. reflexivity.
Defined.

(** ** The commits [github_weekly_trends] lists *)

Section Links.

Import github_weekly_trends.

Variables (session : list (string * string)) (w : world).
Variable resp : string -> response (list commit).

Hypothesis Hserver :
  forall tr u params, commits_api w tr (mkrequest u session params) = resp u.

Lemma list_commits_step fuel u params commits tr :
  list_commits_loop session (S fuel) u params commits w tr
  = let tr1 := tr ++ [EvGet (mkrequest u session params)] in
    if (400 <=? status_code (resp u)) && (status_code (resp u) <? 600) then
      (Raise (HTTPError (status_code (resp u)) (mkrequest u session params)
                (text (resp u))), tr1)
    else
      match json (resp u) with
      | None => (Raise JSONDecodeError, tr1)
      | Some d =>
          match doc_view d with
          | [] => (Ok commits, tr1)
          | items =>
              match next_link (resp u) with
              | None => (Ok (commits ++ items), tr1)
              | Some next =>
                  list_commits_loop session fuel next [] (commits ++ items) w
                    (tr1 ++ [EvSleep 300])
              end
          end
      end.
Proof.
  cbn [list_commits_loop]. unfold bind at 1. unfold get_json.
  unfold bind at 1, get. rewrite Hserver. cbv zeta.
  unfold bind at 1, raise_for_status.
  destruct ((400 <=? status_code (resp u)) && (status_code (resp u) <? 600));
    [reflexivity|].
  unfold ret at 1. unfold bind at 1, json_of.
  destruct (json (resp u)) as [d|]; [|reflexivity].
  unfold ret at 1 2. cbn [fst snd].
  destruct (doc_view d) as [|c l]; [reflexivity|].
  destruct (next_link (resp u)); reflexivity.
Qed.

Lemma list_commits_follows rest : forall fuel u params commits tr,
  linked resp u rest -> (length rest < fuel)%nat ->
  list_commits_loop session fuel u params commits w tr
  = (Ok (commits ++ concat (map (fun v => records (resp v)) (u :: rest))),
     tr ++ EvGet (mkrequest u session params)
        :: concat (map (fun v => [EvSleep 300; EvGet (mkrequest v session [])])
                       rest)).
Proof.
  induction rest as [|u' rest IH]; intros fuel u params commits tr Hl Hfuel;
    (destruct fuel as [|fuel]; [cbn in Hfuel; lia|]);
    rewrite list_commits_step; cbv zeta;
    cbn [linked] in Hl; destruct Hl as (Hs & Hj & Hl).
  - assert (E : (400 <=? status_code (resp u)) && (status_code (resp u) <? 600)
                = false).
    { destruct (Z.leb_spec 400 (status_code (resp u))),
        (Z.ltb_spec (status_code (resp u)) 600); cbn; try reflexivity; lia. }
    rewrite E. cbn [map concat]. rewrite app_nil_r. unfold records in *.
    destruct (json (resp u)) as [d|]; [|contradiction].
    destruct (doc_view d) as [|c l]; [rewrite app_nil_r; reflexivity|].
    destruct Hl as [Hl|Hl]; [discriminate|]. rewrite Hl. reflexivity.
  - assert (E : (400 <=? status_code (resp u)) && (status_code (resp u) <? 600)
                = false).
    { destruct (Z.leb_spec 400 (status_code (resp u))),
        (Z.ltb_spec (status_code (resp u)) 600); cbn; try reflexivity; lia. }
    rewrite E. destruct Hl as (Hne & Hnext & Hl).
    cbn [map concat]. unfold records in Hne |- * at 1.
    destruct (json (resp u)) as [d|]; [|contradiction].
    destruct (doc_view d) as [|c l]; [contradiction|].
    rewrite Hnext. rewrite (IH fuel u' [] _ _ Hl) by (cbn in Hfuel; lia).
    cbn [map concat]. rewrite <- !app_assoc. reflexivity.
Qed.

End Links.

(** X29: what [list_commits] of [github_weekly_trends] returns, against
    a server whose answer depends on the URL only and that links the
    pages of the listing one to the next.  It returns the records of
    all the pages, in this order.  It asks for the first page with the
    parameters [per_page], [since] and [until], and for every later
    page, after a pause of 0.3 seconds, at the URL of the link and
    without parameters.  A page without records ends the listing as a
    page without a link does. *)
Theorem X29_list_commits_follows_links (session : list (string * string))
    (owner repo since_iso until_iso : string) (fuel : nat) (w : world)
    (resp : string -> response (list commit)) (rest : list string)
    (tr : list event) :
  let url := "https://api.github.com/repos/" +:+ owner +:+ "/" +:+ repo
             +:+ "/commits" in
  (forall tr u params,
     commits_api w tr (mkrequest u session params) = resp u) ->
  linked resp url rest ->
  (length rest < fuel)%nat ->
  github_weekly_trends.list_commits session owner repo since_iso until_iso
    fuel w tr
  = (Ok (concat (map (fun v => records (resp v)) (url :: rest))),
     tr ++ EvGet (mkrequest url session
                    [("per_page", PInt 100); ("since", PStr since_iso);
                     ("until", PStr until_iso)])
        :: concat (map (fun v => [EvSleep 300; EvGet (mkrequest v session [])])
                       rest)).
Proof.
  intros url Hserver Hl Hfuel. unfold github_weekly_trends.list_commits.
  fold url.
  rewrite (list_commits_follows session w resp Hserver rest fuel url _ [] tr
             Hl Hfuel).
  reflexivity.
Qed.

(** A listing of two pages. *)
Lemma X29_list_commits_follows_links_witness :
  let url := "https://api.github.com/repos/valkey-io/valkey/commits" in
  let resp := fun u : string =>
    if String.eqb u url
    then mkresponse 200 "[...]" (Some (mkdoc "[...]" [alice_login]))
           (Some "https://api.github.com/repositories/1/commits?page=2")
    else mkresponse 200 "[...]" (Some (mkdoc "[...]" [bob_login])) None in
  let w := mkworld (mkdate 2024 1 21) (fun _ _ => page [])
             (fun _ _ => page None) (fun _ rq => resp (Py.url rq))
             (fun _ _ => page (Some [])) in
  github_weekly_trends.list_commits [] "valkey-io" "valkey"
    "2024-01-01T00:00:00Z" "2024-01-21T23:59:59Z" 5 w []
  = (Ok (concat (map (fun v => records (resp v))
                     [url;
                      "https://api.github.com/repositories/1/commits?page=2"])),
     [] ++ EvGet (mkrequest url []
                    [("per_page", PInt 100);
                     ("since", PStr "2024-01-01T00:00:00Z");
                     ("until", PStr "2024-01-21T23:59:59Z")])
        :: concat (map (fun v => [EvSleep 300; EvGet (mkrequest v [] [])])
                       ["https://api.github.com/repositories/1/commits?page=2"])).
Proof.
  cbv zeta.
  apply (X29_list_commits_follows_links [] "valkey-io" "valkey"
           "2024-01-01T00:00:00Z" "2024-01-21T23:59:59Z" 5).
  - intros tr u params. reflexivity.
  - cbn [linked].
    split; [intros [H _]; vm_compute in H; apply H; reflexivity|].
    split; [cbn; discriminate|].
    split; [cbn; discriminate|]. split; [reflexivity|].
    split; [intros [H _]; vm_compute in H; apply H; reflexivity|].
    split; [cbn; discriminate|].
    right. reflexivity.
  - cbn. lia.
Defined.
